(** * es_loader / siem: the log reader [LogS3], the normaliser [LogParser]
    and the exclusion matcher, embedded from
    [source/lambda/es_loader/siem/__init__.py].

    Python values are modelled as follows.
    - [int] is [Z] (unbounded); [divmod] on a non-zero divisor is
      [Z.div]/[Z.modulo] (both floor).
    - [str] is a list of Unicode code points ([pystr]); [len] is [length].
    - [dict] is an association list in insertion order ([pydict]); the
      iteration order of a dict is its list order.
    - a generator is the list of what it yields, followed by the exception
      that ended it, if any ([gen]).
    - an exception is a constructor of [exn]; a call that may raise returns
      a [result]. *)

From Stdlib Require Import String Ascii ZArith List Bool Lia Finite DecimalString.
From Stdlib Require DecimalZ DecimalPos.
Import ListNotations.
Open Scope Z_scope.

(** ** Python data *)

Definition pystr := list Z.

(** A string literal of the source, as code points (ASCII literals only). *)
Definition py (s : string) : pystr :=
  map (fun a => Z.of_N (N_of_ascii a)) (list_ascii_of_string s).

Fixpoint pystr_eqb (a b : pystr) : bool :=
  match a, b with
  | [], [] => true
  | x :: a', y :: b' => (x =? y) && pystr_eqb a' b'
  | _, _ => false
  end.

Inductive exn :=
| ZeroDivisionError
| KeyError
| TypeError
| AttributeError
| JSONDecodeError
| UnicodeEncodeError
| ValueError
| IndexError
| Exception.

Inductive result (A : Type) :=
| Ok (a : A)
| Raise (e : exn).
Arguments Ok {A} a.
Arguments Raise {A} e.

Definition bind {A B} (r : result A) (k : A -> result B) : result B :=
  match r with
  | Ok a => k a
  | Raise e => Raise e
  end.

Notation "x <- r ;; k" := (bind r (fun x => k))
  (at level 61, r at next level, right associativity).

(** [range(n)] *)
Definition range (n : Z) : list Z := map Z.of_nat (seq 0 (Z.to_nat n)).

(** [str(n)] and [f'{n}'] for an int *)
Definition str_of_int (n : Z) : pystr := py (NilZero.string_of_int (Z.to_int n)).

(** [len(x)] as a Python int *)
Definition len {A} (l : list A) : Z := Z.of_nat (List.length l).

(** [l[start:end]] with Python's treatment of negative and out-of-range
    indices. *)
Definition slice_index {A} (l : list A) (i : Z) : Z :=
  if i <? 0 then Z.max (i + len l) 0 else Z.min i (len l).

Definition py_slice {A} (l : list A) (start end_ : Z) : list A :=
  let s := slice_index l start in
  let e := slice_index l end_ in
  firstn (Z.to_nat (e - s)) (skipn (Z.to_nat s) l).

(** The elements of [l] whose index, counted from [k], lies in the
    half-open range from [s] to [e]. *)
Fixpoint take_range {A} (s e k : Z) (l : list A) : list A :=
  match l with
  | [] => []
  | x :: l' =>
      if (s <=? k) && (k <? e)
      then x :: take_range s e (k + 1) l'
      else take_range s e (k + 1) l'
  end.

(** [str.isspace] for one character: the code points Python treats as
    whitespace. *)
Definition isspace (c : Z) : bool :=
  ((9 <=? c) && (c <=? 13)) || ((28 <=? c) && (c <=? 32))
  || (c =? 133) || (c =? 160) || (c =? 5760)
  || ((8192 <=? c) && (c <=? 8202))
  || (c =? 8232) || (c =? 8233) || (c =? 8239) || (c =? 8287) || (c =? 12288).

Fixpoint lstrip (s : pystr) : pystr :=
  match s with
  | c :: s' => if isspace c then lstrip s' else s
  | [] => []
  end.

Definition rstrip (s : pystr) : pystr := rev (lstrip (rev s)).

Definition strip (s : pystr) : pystr := rstrip (lstrip s).

(** [sub in s] for two strings *)
Fixpoint startswith (s sub : pystr) : bool :=
  match sub, s with
  | [], _ => true
  | c :: sub', d :: s' => (c =? d) && startswith s' sub'
  | _ :: _, [] => false
  end.

Fixpoint str_contains (sub s : pystr) : bool :=
  startswith s sub ||
  match s with
  | [] => false
  | _ :: s' => str_contains sub s'
  end.

(** ** Values: what [json.loads] produces (floats are left out) *)

#[local] Set Warnings "-register-all".


Inductive value :=
| VNone
| VBool (b : bool)
| VInt (z : Z)
| VStr (s : pystr)
| VList (l : list value)
| VDict (d : list (pystr * value)).

Definition pydict := list (pystr * value).

(** [d.get(k)] as an option; [k in d] *)
Fixpoint dict_get {V} (k : pystr) (d : list (pystr * V)) : option V :=
  match d with
  | [] => None
  | (k', v) :: d' => if pystr_eqb k k' then Some v else dict_get k d'
  end.

Definition dict_has {V} (k : pystr) (d : list (pystr * V)) : bool :=
  match dict_get k d with Some _ => true | None => false end.

(** [d[k] = v]: an existing key keeps its place, a new key goes last. *)
Fixpoint dict_set {V} (k : pystr) (v : V) (d : list (pystr * V))
  : list (pystr * V) :=
  match d with
  | [] => [(k, v)]
  | (k', v') :: d' =>
      if pystr_eqb k k' then (k', v) :: d' else (k', v') :: dict_set k v d'
  end.

(** [del d[k]] (for a key that is present) *)
Fixpoint dict_del {V} (k : pystr) (d : list (pystr * V)) : list (pystr * V) :=
  match d with
  | [] => []
  | (k', v') :: d' =>
      if pystr_eqb k k' then d' else (k', v') :: dict_del k d'
  end.

(** [d.get(k)], with [None] when the key is absent *)
Definition get_or_none (k : pystr) (d : pydict) : value :=
  match dict_get k d with Some v => v | None => VNone end.

(** [v[k]] for a string key *)
Definition getitem (v : value) (k : pystr) : result value :=
  match v with
  | VDict d => match dict_get k d with Some x => Ok x | None => Raise KeyError end
  | _ => Raise TypeError
  end.

(** [k in v] for a string [k] *)
Definition contains (k : pystr) (v : value) : result bool :=
  match v with
  | VDict d => Ok (dict_has k d)
  | VList l => Ok (existsb (fun x => match x with
                                     | VStr s => pystr_eqb k s
                                     | _ => false
                                     end) l)
  | VStr s => Ok (str_contains k s)
  | _ => Raise TypeError
  end.

(** What [for x in v] iterates over. *)
Definition iterate (v : value) : result (list value) :=
  match v with
  | VList l => Ok l
  | VDict d => Ok (map (fun kv => VStr (fst kv)) d)
  | VStr s => Ok (map (fun c => VStr [c]) s)
  | _ => Raise TypeError
  end.

(** Truth value of an object *)
Definition truthy (v : value) : bool :=
  match v with
  | VNone => false
  | VBool b => b
  | VInt z => negb (z =? 0)
  | VStr s => negb (len s =? 0)
  | VList l => negb (len l =? 0)
  | VDict d => negb (len d =? 0)
  end.

(** [v == s] for a string literal [s] *)
Definition eq_str (v : value) (s : pystr) : bool :=
  match v with
  | VStr t => pystr_eqb t s
  | _ => false
  end.

(** ** Generators *)

(** What a generator yields, and the exception that ended it (if any). *)
Definition gen (A : Type) : Type := list A * option exn.

Definition gen_done {A} : gen A := ([], None).
Definition gen_raise {A} (e : exn) : gen A := ([], Some e).
Definition gen_yield {A} (a : A) (g : gen A) : gen A := (a :: fst g, snd g).

(** [yield from g1] followed by the rest [g2] of the body *)
Definition gen_seq {A} (g1 g2 : gen A) : gen A :=
  match snd g1 with
  | Some e => g1
  | None => (fst g1 ++ fst g2, snd g2)
  end.

Definition gen_of_list {A} (l : list A) : gen A := (l, None).

(** [for x in l: yield f(x)], where [f] may raise *)
Fixpoint gen_for {A B} (f : A -> result B) (l : list A) : gen B :=
  match l with
  | [] => gen_done
  | a :: l' =>
      match f a with
      | Ok b => gen_yield b (gen_for f l')
      | Raise e => gen_raise e
      end
  end.

(** ** UTF-8 and MD5: [str.encode('utf-8')], [bytes.decode()],
    [hashlib.md5(...).hexdigest()] *)

Module Codec.

(** The UTF-8 bytes of one code point; surrogates (and numbers that are not
    code points) cannot be encoded. *)
Definition encode_char (c : Z) : option (list Z) :=
  if c <? 0 then None
  else if c <? 128 then Some [c]
  else if c <? 2048 then Some [192 + c / 64; 128 + c mod 64]
  else if c <? 65536 then
    if (55296 <=? c) && (c <? 57344) then None
    else Some [224 + c / 4096; 128 + (c / 64) mod 64; 128 + c mod 64]
  else if c <? 1114112 then
    Some [240 + c / 262144; 128 + (c / 4096) mod 64;
          128 + (c / 64) mod 64; 128 + c mod 64]
  else None.

(** [s.encode('utf-8')]; raises [UnicodeEncodeError] on a surrogate. *)
Fixpoint encode (s : pystr) : result (list Z) :=
  match s with
  | [] => Ok []
  | c :: s' =>
      match encode_char c with
      | None => Raise UnicodeEncodeError
      | Some bs => rest <- encode s' ;; Ok (bs ++ rest)
      end
  end.

Definition is_continuation (b : Z) : bool := (128 <=? b) && (b <=? 191).

(** [bs.decode()]: strict UTF-8; [None] stands for [UnicodeDecodeError]
    (a truncated or malformed sequence). *)
Fixpoint decode (bs : list Z) : option pystr :=
  match bs with
  | [] => Some []
  | b0 :: r0 =>
      if (0 <=? b0) && (b0 <? 128) then option_map (cons b0) (decode r0)
      else if (194 <=? b0) && (b0 <=? 223) then
        match r0 with
        | b1 :: r1 =>
            if is_continuation b1
            then option_map (cons ((b0 - 192) * 64 + (b1 - 128))) (decode r1)
            else None
        | _ => None
        end
      else if (224 <=? b0) && (b0 <=? 239) then
        match r0 with
        | b1 :: b2 :: r2 =>
            let c := (b0 - 224) * 4096 + (b1 - 128) * 64 + (b2 - 128) in
            if is_continuation b1 && is_continuation b2
               && (2048 <=? c) && negb ((55296 <=? c) && (c <? 57344))
            then option_map (cons c) (decode r2)
            else None
        | _ => None
        end
      else if (240 <=? b0) && (b0 <=? 244) then
        match r0 with
        | b1 :: b2 :: b3 :: r3 =>
            let c := (b0 - 240) * 262144 + (b1 - 128) * 4096
                     + (b2 - 128) * 64 + (b3 - 128) in
            if is_continuation b1 && is_continuation b2
               && is_continuation b3
               && (65536 <=? c) && (c <? 1114112)
            then option_map (cons c) (decode r3)
            else None
        | _ => None
        end
      else None
  end.

(** [bs.decode('utf8', errors='ignore')]: a byte that cannot start a
    character is skipped; so is the part of a sequence before a byte that
    cannot continue it, and a sequence that the end of the data cuts short.
    Bytes are numbers from 0 to 255. *)
Fixpoint decode_ignore (bs : list Z) : pystr :=
  match bs with
  | [] => []
  | b0 :: r0 =>
      if b0 <? 128 then b0 :: decode_ignore r0
      else if b0 <? 194 then decode_ignore r0
      else if b0 <? 224 then
        match r0 with
        | [] => []
        | b1 :: r1 =>
            if is_continuation b1
            then ((b0 - 192) * 64 + (b1 - 128)) :: decode_ignore r1
            else decode_ignore r0
        end
      else if b0 <? 240 then
        match r0 with
        | [] => []
        | b1 :: r1 =>
            if negb (is_continuation b1)
               || (if b1 <? 160 then b0 =? 224 else b0 =? 237)
            then decode_ignore r0
            else
              match r1 with
              | [] => []
              | b2 :: r2 =>
                  if is_continuation b2
                  then ((b0 - 224) * 4096 + (b1 - 128) * 64 + (b2 - 128))
                       :: decode_ignore r2
                  else decode_ignore r1
              end
        end
      else if b0 <? 245 then
        match r0 with
        | [] => []
        | b1 :: r1 =>
            if negb (is_continuation b1)
               || (if b1 <? 144 then b0 =? 240 else b0 =? 244)
            then decode_ignore r0
            else
              match r1 with
              | [] => []
              | b2 :: r2 =>
                  if negb (is_continuation b2) then decode_ignore r1
                  else
                    match r2 with
                    | [] => []
                    | b3 :: r3 =>
                        if is_continuation b3
                        then ((b0 - 240) * 262144 + (b1 - 128) * 4096
                              + (b2 - 128) * 64 + (b3 - 128))
                             :: decode_ignore r3
                        else decode_ignore r2
                    end
              end
        end
      else decode_ignore r0
  end.

(** *** MD5 (RFC 1321) on a list of bytes *)

Definition mask32 : Z := 4294967295.

Definition add32 (x y : Z) : Z := Z.land (x + y) mask32.

Definition not32 (x : Z) : Z := Z.lxor x mask32.

Definition rotl32 (x c : Z) : Z :=
  Z.land (Z.lor (Z.shiftl x c) (Z.shiftr x (32 - c))) mask32.

Definition md5_K : list Z :=
  [3614090360; 3905402710; 606105819; 3250441966;
   4118548399; 1200080426; 2821735955; 4249261313;
   1770035416; 2336552879; 4294925233; 2304563134;
   1804603682; 4254626195; 2792965006; 1236535329;
   4129170786; 3225465664; 643717713; 3921069994;
   3593408605; 38016083; 3634488961; 3889429448;
   568446438; 3275163606; 4107603335; 1163531501;
   2850285829; 4243563512; 1735328473; 2368359562;
   4294588738; 2272392833; 1839030562; 4259657740;
   2763975236; 1272893353; 4139469664; 3200236656;
   681279174; 3936430074; 3572445317; 76029189;
   3654602809; 3873151461; 530742520; 3299628645;
   4096336452; 1126891415; 2878612391; 4237533241;
   1700485571; 2399980690; 4293915773; 2240044497;
   1873313359; 4264355552; 2734768916; 1309151649;
   4149444226; 3174756917; 718787259; 3951481745].

Definition md5_S : list Z :=
  [7; 12; 17; 22; 7; 12; 17; 22; 7; 12; 17; 22; 7; 12; 17; 22;
   5; 9; 14; 20; 5; 9; 14; 20; 5; 9; 14; 20; 5; 9; 14; 20;
   4; 11; 16; 23; 4; 11; 16; 23; 4; 11; 16; 23; 4; 11; 16; 23;
   6; 10; 15; 21; 6; 10; 15; 21; 6; 10; 15; 21; 6; 10; 15; 21].

Definition nthZ (l : list Z) (i : Z) : Z := nth (Z.to_nat i) l 0.

(** Little-endian bytes of a word and back. *)
Definition le_bytes (n : nat) (x : Z) : list Z :=
  map (fun i => Z.land (Z.shiftr x (8 * Z.of_nat i)) 255) (seq 0 n).

Fixpoint le_word (bs : list Z) : Z :=
  match bs with
  | [] => 0
  | b :: bs' => b + 256 * le_word bs'
  end.

Fixpoint words (n : nat) (bs : list Z) : list Z :=
  match n with
  | O => []
  | S n' => le_word (firstn 4 bs) :: words n' (skipn 4 bs)
  end.

Definition md5_pad (msg : list Z) : list Z :=
  let l := Z.of_nat (List.length msg) in
  let zeros := (55 - l) mod 64 in
  msg ++ [128] ++ repeat 0 (Z.to_nat zeros) ++ le_bytes 8 (8 * l).

Definition md5_step (M : list Z) (st : Z * Z * Z * Z) (i : Z)
  : Z * Z * Z * Z :=
  let '(A, B, C, D) := st in
  let '(F, g) :=
    if i <? 16 then (Z.lor (Z.land B C) (Z.land (not32 B) D), i)
    else if i <? 32 then
      (Z.lor (Z.land D B) (Z.land (not32 D) C), (5 * i + 1) mod 16)
    else if i <? 48 then (Z.lxor B (Z.lxor C D), (3 * i + 5) mod 16)
    else (Z.lxor C (Z.lor B (not32 D)), (7 * i) mod 16) in
  let F := add32 (add32 (add32 F A) (nthZ md5_K i)) (nthZ M g) in
  (D, add32 B (rotl32 F (nthZ md5_S i)), B, C).

Definition md5_chunk (st : Z * Z * Z * Z) (chunk : list Z)
  : Z * Z * Z * Z :=
  let M := words 16 chunk in
  let '(A, B, C, D) := fold_left (md5_step M) (range 64) st in
  let '(a0, b0, c0, d0) := st in
  (add32 a0 A, add32 b0 B, add32 c0 C, add32 d0 D).

Fixpoint md5_chunks (n : nat) (st : Z * Z * Z * Z) (bs : list Z)
  : Z * Z * Z * Z :=
  match n with
  | O => st
  | S n' => md5_chunks n' (md5_chunk st (firstn 64 bs)) (skipn 64 bs)
  end.

Definition md5_digest (msg : list Z) : list Z :=
  let p := md5_pad msg in
  let '(a, b, c, d) :=
    md5_chunks (List.length p / 64)
      (1732584193, 4023233417, 2562383102, 271733878) p in
  le_bytes 4 a ++ le_bytes 4 b ++ le_bytes 4 c ++ le_bytes 4 d.

Definition hex_digit (n : Z) : Z := if n <? 10 then 48 + n else 87 + n.

Definition hex (bs : list Z) : pystr :=
  flat_map (fun b => [hex_digit (b / 16); hex_digit (b mod 16)]) bs.

(** [hashlib.md5(bs).hexdigest()] *)
Definition md5_hexdigest (bs : list Z) : pystr := hex (md5_digest bs).

(** [hashlib.md5(s.encode('utf-8')).hexdigest()] *)
Definition md5_of_str (s : pystr) : result pystr :=
  bs <- encode s ;; Ok (md5_hexdigest bs).

End Codec.

(** ** Text streams: [io.TextIOWrapper(..., encoding='utf8',
    errors='ignore')] over the bytes of the object

    [gzip.open] and [bz2.open] in mode 'rt' give the same wrapper over the
    decompressed bytes. *)

Module TextIO.

(** Universal newlines, the default of a text stream: a carriage return,
    with the line feed that follows it if there is one, is read as one
    line feed. *)
Fixpoint universal_newlines (s : pystr) : pystr :=
  match s with
  | [] => []
  | c :: s' =>
      if c =? 13 then
        match s' with
        | d :: s'' =>
            if d =? 10 then 10 :: universal_newlines s''
            else 10 :: universal_newlines s'
        | [] => [10]
        end
      else c :: universal_newlines s'
  end.

(** [body.seek(n); body.read()]: the stream is positioned by bytes, and
    what follows the position is decoded. *)
Definition read_from (body : list Z) (n : Z) : pystr :=
  universal_newlines (Codec.decode_ignore (skipn (Z.to_nat n) body)).

(** The lines of a text, each with its line feed (the last line may have
    none). *)
Fixpoint lines_loop (s : pystr) (cur : pystr) : list pystr :=
  match s with
  | [] => match cur with [] => [] | _ :: _ => [cur] end
  | c :: s' =>
      if c =? 10 then (cur ++ [c]) :: lines_loop s' []
      else lines_loop s' (cur ++ [c])
  end.

(** [body.seek(0); body.readlines()], and what iterating the stream from
    its start goes through. *)
Definition readlines (body : list Z) : list pystr :=
  lines_loop (read_from body 0) [].

End TextIO.
(** ** [json.dumps] with its default options, on values without floats *)

Module PyJson.

Definition hex4 (n : Z) : pystr :=
  [Codec.hex_digit (n / 4096); Codec.hex_digit ((n / 256) mod 16);
   Codec.hex_digit ((n / 16) mod 16); Codec.hex_digit (n mod 16)].

(** One character of a string, escaped as [ensure_ascii=True] does. *)
Definition escape_char (c : Z) : pystr :=
  if c =? 34 then [92; 34]
  else if c =? 92 then [92; 92]
  else if c =? 10 then [92; 110]
  else if c =? 13 then [92; 114]
  else if c =? 9 then [92; 116]
  else if c =? 8 then [92; 98]
  else if c =? 12 then [92; 102]
  else if (32 <=? c) && (c <? 127) then [c]
  else if c <? 65536 then [92; 117] ++ hex4 c
  else [92; 117] ++ hex4 (55296 + (c - 65536) / 1024)
       ++ [92; 117] ++ hex4 (56320 + (c - 65536) mod 1024).

Definition dumps_str (s : pystr) : pystr :=
  [34] ++ flat_map escape_char s ++ [34].

Fixpoint dumps (v : value) : pystr :=
  match v with
  | VNone => py "null"
  | VBool true => py "true"
  | VBool false => py "false"
  | VInt n => str_of_int n
  | VStr s => dumps_str s
  | VList l =>
      [91]
      ++ (fix items (l : list value) : pystr :=
            match l with
            | [] => []
            | [x] => dumps x
            | x :: l' => dumps x ++ py ", " ++ items l'
            end) l
      ++ [93]
  | VDict d =>
      [123]
      ++ (fix items (d : list (pystr * value)) : pystr :=
            match d with
            | [] => []
            | [(k, x)] => dumps_str k ++ py ": " ++ dumps x
            | (k, x) :: d' =>
                dumps_str k ++ py ": " ++ dumps x ++ py ", " ++ items d'
            end) d
      ++ [125]
  end.

End PyJson.
(** ** Helpers kept in this file: [merge] and [get_value_from_dict]

    The file keeps copies of three helpers that it says have moved to
    [siem.utils]; the class [LogParser] calls the moved versions
    ([utils.merge_dicts], [utils.value_from_nesteddict_by_dottedkeylist]). *)

Module Utils.

(** [a == b] *)
Fixpoint py_eq (a b : value) {struct a} : bool :=
  match a, b with
  | VNone, VNone => true
  | VBool x, VBool y => Bool.eqb x y
  | VBool x, VInt y => (if x then 1 else 0) =? y
  | VInt x, VBool y => x =? (if y then 1 else 0)
  | VInt x, VInt y => x =? y
  | VStr x, VStr y => pystr_eqb x y
  | VList x, VList y =>
      (fix all2 (x : list value) (y : list value) : bool :=
         match x, y with
         | [], [] => true
         | u :: x', v :: y' => py_eq u v && all2 x' y'
         | _, _ => false
         end) x y
  | VDict x, VDict y =>
      (len x =? len y)
      && (fix all (x : list (pystr * value)) : bool :=
            match x with
            | [] => true
            | (k, u) :: x' =>
                match dict_get k y with
                | Some v => py_eq u v
                | None => false
                end && all x'
            end) x
  | _, _ => false
  end.

(** [merge(a, b)]: merges [b] into [a].  Where both sides hold a dict the
    merge recurses; where the two values are equal [a] keeps its own;
    otherwise the value of [b] is stored (the branch on
    [str(a[key]) in str(b[key])] stores the same value as the last one). *)
Fixpoint merge (a : pydict) (b : value) {struct b} : pydict :=
  match b with
  | VDict items =>
      (fix loop (a : pydict) (items : list (pystr * value)) : pydict :=
         match items with
         | [] => a
         | (key, bv) :: items' =>
             loop
               match dict_get key a with
               | Some av =>
                   match av, bv with
                   | VDict ad, VDict _ => dict_set key (VDict (merge ad bv)) a
                   | _, _ => if py_eq av bv then a else dict_set key bv a
                   end
               | None => dict_set key bv a
               end
               items'
         end) a items
  | _ => a
  end.

Definition merge_dicts (a b : pydict) : pydict := merge a (VDict b).

(** [s.split()]: the maximal runs of characters that are not whitespace. *)
Fixpoint split_ws_loop (s : pystr) (cur : pystr) : list pystr :=
  match s with
  | [] => if len cur =? 0 then [] else [cur]
  | c :: s' =>
      if isspace c
      then (if len cur =? 0 then [] else [cur]) ++ split_ws_loop s' []
      else split_ws_loop s' (cur ++ [c])
  end.

Definition split_ws (s : pystr) : list pystr := split_ws_loop s [].

(** [s.split(sep)] for a one-character separator *)
Fixpoint split_on_loop (sep : Z) (s : pystr) (cur : pystr) : list pystr :=
  match s with
  | [] => [cur]
  | c :: s' =>
      if c =? sep then cur :: split_on_loop sep s' []
      else split_on_loop sep s' (cur ++ [c])
  end.

Definition split_on (sep : Z) (s : pystr) : list pystr :=
  split_on_loop sep s [].

(** *** [int(k)] on a string

    The zero digits of the decimal digits of Unicode (14.0); each is
    followed by its digits 1 to 9. *)
Definition decimal_zeros : list Z :=
  [48; 1632; 1776; 1984; 2406; 2534; 2662; 2790; 2918; 3046; 3174; 3302;
   3430; 3558; 3664; 3792; 3872; 4160; 4240; 6112; 6160; 6470; 6608; 6784;
   6800; 6992; 7088; 7232; 7248; 42528; 43216; 43264; 43472; 43504; 43600;
   44016; 65296; 66720; 68912; 69734; 69872; 69942; 70096; 70384; 70736;
   70864; 71248; 71360; 71472; 71904; 72016; 72784; 73040; 73120; 92768;
   92864; 93008; 120782; 120792; 120802; 120812; 120822; 123200; 123632;
   125264; 130032].

(** The value of a decimal digit. *)
Definition decimal_digit (c : Z) : option Z :=
  match find (fun z => (z <=? c) && (c <? z + 10)) decimal_zeros with
  | Some z => Some (c - z)
  | None => None
  end.

(** The whitespace [int] skips at both ends: below 127 the six characters
    of C, from 127 on the whitespace of Unicode. *)
Definition int_space (c : Z) : bool :=
  if c <? 127 then ((9 <=? c) && (c <=? 13)) || (c =? 32) else isspace c.

Fixpoint lstrip_int (s : pystr) : pystr :=
  match s with
  | c :: s' => if int_space c then lstrip_int s' else s
  | [] => []
  end.

(** Digits, with single underscores between them: the value and the
    number of digits.  The caller has seen that the text starts with a
    digit. *)
Fixpoint digits_value (s : pystr) (acc count : Z) : option (Z * Z) :=
  match s with
  | [] => Some (acc, count)
  | c :: s' =>
      if c =? 95 then
        match s' with
        | d :: _ =>
            match decimal_digit d with
            | Some _ => digits_value s' acc count
            | None => None
            end
        | [] => None
        end
      else
        match decimal_digit c with
        | Some v => digits_value s' (10 * acc + v) (count + 1)
        | None => None
        end
  end.

(** The longest text of digits [int] converts (CPython 3.11). *)
Definition max_str_digits : Z := 4300.

Definition unsigned_value (s : pystr) : option Z :=
  match s with
  | c :: _ =>
      match decimal_digit c with
      | Some _ =>
          match digits_value s 0 0 with
          | Some (v, n) => if max_str_digits <? n then None else Some v
          | None => None
          end
      | None => None
      end
  | [] => None
  end.

(** [int(k)]; [None] stands for [ValueError]. *)
Definition parse_int (k : pystr) : option Z :=
  match rev (lstrip_int (rev (lstrip_int k))) with
  | [] => None
  | c :: r =>
      if c =? 45 then option_map Z.opp (unsigned_value r)
      else if c =? 43 then unsigned_value r
      else unsigned_value (c :: r)
  end.

(** [v[k]] where [k] went through [try: k = int(k)]; [None] stands for
    [TypeError], [KeyError] or [IndexError]. *)
Definition index_value (v : value) (k : pystr) : option value :=
  match parse_int k with
  | Some i =>
      match v with
      | VList l =>
          let i := if i <? 0 then i + len l else i in
          if (0 <=? i) && (i <? len l) then nth_error l (Z.to_nat i)
          else None
      | VStr s =>
          let i := if i <? 0 then i + len s else i in
          if (0 <=? i) && (i <? len s)
          then option_map (fun c => VStr [c]) (nth_error s (Z.to_nat i))
          else None
      | _ => None
      end
  | None =>
      match v with
      | VDict d => dict_get k d
      | _ => None
      end
  end.

(** The inner loop of [get_value_from_dict] for one dotted key. *)
Fixpoint follow (v : value) (ks : list pystr) : value :=
  match ks with
  | [] => v
  | k :: ks' =>
      match index_value v k with
      | Some v' => follow v' ks'
      | None => VStr []
      end
  end.

Definition value_by_dottedkey (dct : pydict) (xkeys : pystr) : value :=
  follow (VDict dct) (split_on 46 xkeys).

(** [get_value_from_dict(dct, xkeys_list)]: the first truthy value among
    the dotted keys of the list, or [None]. *)
Fixpoint first_truthy (dct : pydict) (keys : list pystr) : value :=
  match keys with
  | [] => VNone
  | xkeys :: keys' =>
      let v := value_by_dottedkey dct xkeys in
      if truthy v then v else first_truthy dct keys'
  end.

Definition get_value_from_dict (dct : pydict) (xkeys_list : pystr) : value :=
  first_truthy dct (split_ws xkeys_list).

End Utils.
(** ** LogS3: the format-aware reader *)

Module LogS3.

(** *** [split_logs] *)

Definition split_logs (log_count max_log_count : Z) : result (list (Z * Z)) :=
  if max_log_count =? 0 then Raise ZeroDivisionError else
  let q := log_count / max_log_count in
  let md := log_count mod max_log_count in
  let q := if negb (md =? 0) then q + 1 else q in
  Ok (map (fun x =>
             let start := if x =? 0 then 1 else x * max_log_count + 1 in
             let end_ := (x + 1) * max_log_count in
             let end_ := if (x =? q - 1) && negb (md =? 0)
                         then x * max_log_count + md else end_ in
             (start, end_))
          (range q)).

(** The record numbers an inclusive 1-based range [(s, e)] covers. *)
Definition shard_numbers (r : Z * Z) : list Z :=
  map (fun i => fst r + i) (range (snd r - fst r + 1)).

(** Consecutive ranges: each starts one past the end of the one before. *)
Fixpoint contiguous (l : list (Z * Z)) : Prop :=
  match l with
  | r1 :: ((r2 :: _) as tl) => fst r2 = snd r1 + 1 /\ contiguous tl
  | _ => True
  end.

(** ceil(a / b) for b > 0 *)
Definition ceil_div (a b : Z) : Z := (a + b - 1) / b.

(** The shard with index [x], in closed form. *)
Definition shard (n m x : Z) : Z * Z := (x * m + 1, Z.min ((x + 1) * m) n).

Inductive file_format :=
| text | csv | json | multiline | xml | winevtxml
| other_format.

Definition is_text_or_csv (f : file_format) : bool :=
  match f with text | csv => true | _ => false end.

Definition is_multiline_or_xml (f : file_format) : bool :=
  match f with multiline | xml => true | _ => false end.

Definition is_json (f : file_format) : bool :=
  match f with json => true | _ => false end.

(** The body of a work-queue message: the job envelope of a shard. *)
Record queue_body := {
  siem_start_number : Z;
  siem_end_number : Z;
  s3_bucket_name : pystr;
  s3_object_key : pystr
}.

(** One entry of [send_messages]; [json.dumps] of the body is not applied. *)
Record sqs_entry := {
  Id : pystr;
  MessageBody : queue_body
}.

(** A compiled regular expression that is searched for and printed: what
    [str] gives for it, and whether [search] finds it in a text. *)
Record regex := {
  printed : pystr;
  search : pystr -> bool
}.

(** What a LogS3 instance is made from: the job, the options read from
    [logconfig], the injected work queue, and the object as the store
    serves it.  A compiled regular expression that is only matched is
    represented by its match predicate; the work queue by the HTTP status
    code it answers to a batch.  [content_length] is the header of that
    name read as an int, absent when the header is missing or is not an
    int.  [rawbody] holds the bytes of the object, decompressed; the
    download is taken to succeed and the object to be gzip, bzip2, zip or
    text. *)
Record t := {
  s3bucket : pystr;
  s3key : pystr;
  logtype : pystr;
  (** [record['siem']]: absent, or its two entries, each absent or an int *)
  siem : option (option Z * option Z);
  via_cwl : bool;
  via_firelens : bool;
  fmt : file_format;
  max_log_count : Z;
  text_header_line_number : Z;
  json_delimiter : pystr;
  ignore_container_stderr : bool;
  s3_key_ignored : option regex;
  re_multiline_firstline : pystr -> bool;
  sqs_queue : option (list sqs_entry -> Z);
  content_length : option Z;
  rawbody : list Z
}.

(** The property [rawdata], as far as it is read line by line: the lines
    of the text stream, read from its start. *)
Definition rawdata (self : t) : list pystr := TextIO.readlines (rawbody self).

(** The attributes that change while the instance is used. *)
Record state := {
  is_ignored : bool;
  ignored_reason : option pystr;
  total_log_count : option Z;
  (** the cached value of the property [log_count], once computed *)
  log_count_cache : option Z;
  (** read position of the text stream, in bytes *)
  pos : Z;
  (** the batches handed to [send_messages], oldest first *)
  sent : list (list sqs_entry)
}.

Definition set_ignored (st : state) (reason : pystr) : state :=
  {| is_ignored := true; ignored_reason := Some reason;
     total_log_count := total_log_count st;
     log_count_cache := log_count_cache st;
     pos := pos st; sent := sent st |}.

Definition set_total_log_count (st : state) (n : Z) : state :=
  {| is_ignored := is_ignored st; ignored_reason := ignored_reason st;
     total_log_count := Some n;
     log_count_cache := log_count_cache st;
     pos := pos st; sent := sent st |}.

Definition set_log_count_cache (st : state) (n : Z) : state :=
  {| is_ignored := is_ignored st; ignored_reason := ignored_reason st;
     total_log_count := total_log_count st;
     log_count_cache := Some n;
     pos := pos st; sent := sent st |}.

Definition set_pos (st : state) (p : Z) : state :=
  {| is_ignored := is_ignored st; ignored_reason := ignored_reason st;
     total_log_count := total_log_count st;
     log_count_cache := log_count_cache st;
     pos := p; sent := sent st |}.

Definition add_sent (st : state) (batch : list sqs_entry) : state :=
  {| is_ignored := is_ignored st; ignored_reason := ignored_reason st;
     total_log_count := total_log_count st;
     log_count_cache := log_count_cache st;
     pos := pos st; sent := sent st ++ [batch] |}.

(** The same instance on another object body. *)
Definition with_rawbody (self : t) (body : list Z) : t :=
  {| s3bucket := s3bucket self; s3key := s3key self;
     logtype := logtype self; siem := siem self;
     via_cwl := via_cwl self; via_firelens := via_firelens self;
     fmt := fmt self; max_log_count := max_log_count self;
     text_header_line_number := text_header_line_number self;
     json_delimiter := json_delimiter self;
     ignore_container_stderr := ignore_container_stderr self;
     s3_key_ignored := s3_key_ignored self;
     re_multiline_firstline := re_multiline_firstline self;
     sqs_queue := sqs_queue self;
     content_length := content_length self;
     rawbody := body |}.

(** [start_number], [end_number]: [KeyError] gives 0. *)
Definition start_number (self : t) : Z :=
  match siem self with
  | Some (Some n, _) => n
  | _ => 0
  end.

Definition end_number (self : t) : Z :=
  match siem self with
  | Some (_, Some n) => n
  | _ => 0
  end.

(** The cached property [is_ignored], as [__init__] first computes it;
    [self.s3key[-1]] raises [IndexError] on an empty key. *)
Definition is_ignored_init (self : t) : result (bool * option pystr) :=
  match rev (s3key self) with
  | [] => Raise IndexError
  | c :: _ =>
      if c =? 47 then
        Ok (true, Some (py "this s3 key is just path, " ++ s3key self))
      else if str_contains (py "unknown") (logtype self) then
        Ok (true, Some (py "unknown log type in S3 key, " ++ s3key self))
      else
        match s3_key_ignored self with
        | Some re =>
            if search re (s3key self)
            then Ok (true,
                     Some ([34] ++ py "s3_key_ignored" ++ [34] ++ [32]
                           ++ printed re ++ py " matched with "
                           ++ s3key self))
            else Ok (false, None)
        | None => Ok (false, None)
        end
  end.

(** [s3size] of [extract_rawdata_from_s3obj]: 20 when the header cannot be
    read. *)
Definition s3size (self : t) : Z :=
  match content_length self with
  | Some n => n
  | None => 20
  end.

Definition no_contents_reason (self : t) : pystr :=
  py "no valid contents in s3 object, size of " ++ s3key self
  ++ py " is only " ++ str_of_int (s3size self) ++ py " byte".

Definition fresh_state (ignored : bool) (reason : option pystr) : state :=
  {| is_ignored := ignored;
     ignored_reason := reason;
     total_log_count := None;
     log_count_cache := None;
     pos := 0;
     sent := [] |}.

(** The state in which [__init__] leaves the instance: ignored for its
    key or its log type, in which case the object is not fetched; ignored
    because the object has fewer than 20 bytes, in which case its body is
    not read; or not ignored, with the text stream at its start.  The
    methods below read [rawdata] and the options of the configuration,
    which only an instance that is not ignored has. *)
Definition init_state (self : t) : result state :=
  r <- is_ignored_init self ;;
  if fst r then Ok (fresh_state true (snd r))
  else if s3size self <? 20
  then Ok (fresh_state true (Some (no_contents_reason self)))
  else Ok (fresh_state false None).

Section Readers.

(** The JSON library: [json.loads] and [JSONDecoder.raw_decode(s, idx)].
    Both raise [JSONDecodeError] on malformed input. *)
Variable json_loads : pystr -> result value.
Variable raw_decode : pystr -> Z -> result (value * Z).

(** [siem.winevtxml], a module of the repository outside this file. *)
Variable winevtxml_count_event : list pystr -> Z.
Variable winevtxml_extract_event :
  list pystr -> Z -> Z -> gen (value * pydict).

(** [json.loads(x)] for an object [x] *)
Definition loads_value (x : value) : result value :=
  match x with
  | VStr s => json_loads s
  | _ => Raise TypeError
  end.

(** *** CloudWatch Logs envelopes *)

(** The objects the loop [while True: raw_decode(body.read()) ...
    index = offset + index; body.seek(index)] decodes up to the first
    [JSONDecodeError].  [read_pos] is where the stream stands for the next
    [read], in bytes; [index] is the running sum of the offsets, which
    count characters, and it is the position the stream is moved to. *)
Fixpoint cwl_objects (fuel : nat) (body : list Z) (read_pos index : Z)
  : list value :=
  match fuel with
  | O => []
  | S fuel' =>
      match raw_decode (TextIO.read_from body read_pos) 0 with
      | Raise _ => []
      | Ok (obj, offset) =>
          let index := offset + index in
          obj :: cwl_objects fuel' body index index
      end
  end.

(** [isinstance(obj, dict) and 'logEvents' in obj and
    obj['messageType'] == 'DATA_MESSAGE'] *)
Definition is_data_message (obj : value) : result bool :=
  match obj with
  | VDict d =>
      if dict_has (py "logEvents") d then
        m <- getitem obj (py "messageType") ;;
        Ok (eq_str m (py "DATA_MESSAGE"))
      else Ok false
  | _ => Ok false
  end.

(** [deco_cwl_logcount]: the count that replaces [log_count] for
    [via_cwl]. *)
Fixpoint cwl_count_events (objs : list value) (line_num : Z) : result Z :=
  match objs with
  | [] => Ok line_num
  | obj :: objs' =>
      b <- is_data_message obj ;;
      if b then
        evs <- getitem obj (py "logEvents") ;;
        l <- iterate evs ;;
        cwl_count_events objs' (line_num + len l)
      else cwl_count_events objs' line_num
  end.

(** What [extract_cwl_log] yields for one log event inside the window:
    the event's id and timestamp are stored in [logmeta], and the message
    is the payload (parsed when [file_format] is json). *)
Definition cwl_emit (self : t) (logmeta : pydict) (logevent : value)
  : result (value * pydict) :=
  id_ <- getitem logevent (py "id") ;;
  ts <- getitem logevent (py "timestamp") ;;
  msg <- getitem logevent (py "message") ;;
  let logmeta := dict_set (py "cwl_timestamp") ts
                   (dict_set (py "cwl_id") id_ logmeta) in
  if is_json (fmt self)
  then (v <- loads_value msg ;; Ok (v, logmeta))
  else Ok (msg, logmeta).

(** The inner [for logevent in obj['logEvents']] of [extract_cwl_log];
    [k] is the rest of the outer loop.  [logmeta] is one dict per envelope,
    updated in place for each event that is yielded. *)
Fixpoint cwl_events (self : t) (start end_ : Z) (logmeta : pydict)
    (evs : list value) (line_num : Z) (k : Z -> gen (value * pydict))
  : gen (value * pydict) :=
  match evs with
  | [] => k line_num
  | logevent :: evs' =>
      if (start <=? line_num) && (line_num <? end_) then
        match cwl_emit self logmeta logevent with
        | Raise e => gen_raise e
        | Ok (payload, logmeta') =>
            gen_yield (payload, logmeta')
              (cwl_events self start end_ logmeta' evs' (line_num + 1) k)
        end
      else cwl_events self start end_ logmeta evs' (line_num + 1) k
  end.

(** The meta of an envelope before any event is yielded. *)
Definition cwl_envelope_meta (obj : value) : result pydict :=
  owner <- getitem obj (py "owner") ;;
  lg <- getitem obj (py "logGroup") ;;
  ls <- getitem obj (py "logStream") ;;
  Ok [(py "cwl_accountid", owner); (py "loggroup", lg);
      (py "logstream", ls)].

Fixpoint cwl_walk (self : t) (start end_ : Z) (objs : list value)
    (line_num : Z) : gen (value * pydict) :=
  match objs with
  | [] => gen_done
  | obj :: objs' =>
      match is_data_message obj with
      | Raise e => gen_raise e
      | Ok false => cwl_walk self start end_ objs' line_num
      | Ok true =>
          match
            (logmeta <- cwl_envelope_meta obj ;;
             evs <- getitem obj (py "logEvents") ;;
             l <- iterate evs ;;
             Ok (logmeta, l))
          with
          | Raise e => gen_raise e
          | Ok (logmeta, l) =>
              cwl_events self start end_ logmeta l line_num
                (fun line_num' => cwl_walk self start end_ objs' line_num')
          end
      end
  end.

(** The decoded envelopes of the object, read from its start. *)
Definition cwl_envelopes (self : t) : list value :=
  let body := rawbody self in
  cwl_objects (S (List.length body)) body 0 0.

Definition extract_cwl_log (self : t) (start end_ : Z)
  : gen (value * pydict) :=
  cwl_walk self start end_ (cwl_envelopes self) 0.

(** The log events of a list of envelopes in order, each with the meta of
    its envelope: the record at position [i] of a [via_cwl] object is the
    [i]-th entry. *)
Fixpoint cwl_flat (objs : list value) : result (list (pydict * value)) :=
  match objs with
  | [] => Ok []
  | obj :: objs' =>
      b <- is_data_message obj ;;
      if b then
        logmeta <- cwl_envelope_meta obj ;;
        evs <- getitem obj (py "logEvents") ;;
        l <- iterate evs ;;
        rest <- cwl_flat objs' ;;
        Ok (map (fun ev => (logmeta, ev)) l ++ rest)
      else cwl_flat objs'
  end.

Definition cwl_emit_entry (self : t) (entry : pydict * value)
  : result (value * pydict) :=
  cwl_emit self (fst entry) (snd entry).

(** *** FireLens *)

(** The body of the loop of [extract_firelens_log] for one line. *)
Definition firelens_record (self : t) (logdata : pystr)
  : result (value * pydict) :=
  obj <- json_loads (strip logdata) ;;
  match obj with
  | VDict o =>
      let m := [(py "container_id", get_or_none (py "container_id") o);
                (py "container_name", get_or_none (py "container_name") o);
                (py "container_source", get_or_none (py "source") o);
                (py "ecs_cluster", get_or_none (py "ecs_cluster") o);
                (py "ecs_task_arn", get_or_none (py "ecs_task_arn") o);
                (py "ecs_task_definition",
                 get_or_none (py "ecs_task_definition") o)] in
      let ec2_instance_id :=
        match dict_get (py "ec2_instance_id") o with
        | Some v => v
        | None => VBool false
        end in
      let m := if truthy ec2_instance_id
               then dict_set (py "ec2_instance_id") ec2_instance_id m
               else m in
      logdata <- getitem obj (py "log") ;;
      let m :=
        if eq_str (get_or_none (py "container_source") m) (py "stderr") then
          if ignore_container_stderr self then
            dict_set (py "ignored_reason")
              (VStr (py "log is container's stderr"))
              (dict_set (py "is_ignored") (VBool true) m)
          else
            dict_set (py "__error_message") logdata
              (dict_set (py "__skip_normalization") (VBool true) m)
        else m in
      if is_json (fmt self) then
        match loads_value logdata with
        | Ok v => Ok (v, m)
        | Raise JSONDecodeError =>
            let error_message :=
              py "Invalid file format found during parsing" in
            let m := dict_set (py "__skip_normalization") (VBool true) m in
            let m := if dict_has (py "__error_message") m
                     then dict_set (py "__error_message")
                            (VStr error_message) m
                     else m in
            Ok (logdata, m)
        | Raise e => Raise e
        end
      else Ok (logdata, m)
  | _ => Raise AttributeError
  end.

Definition extract_firelens_log (self : t) (start end_ : Z)
  : gen (value * pydict) :=
  gen_for (firelens_record self) (py_slice (rawdata self) start end_).

(** *** JSON: NDJSON, concatenated JSON, envelope arrays *)

Definition is_json_whitespace (c : Z) : bool :=
  (c =? 32) || (c =? 9) || (c =? 10) || (c =? 13).

Fixpoint count_while {A} (p : A -> bool) (l : list A) : Z :=
  match l with
  | [] => 0
  | a :: l' => if p a then 1 + count_while p l' else 0
  end.

(** [json.decoder.WHITESPACE.search(line, offset).end()] *)
Definition whitespace_end (line : pystr) (offset : Z) : Z :=
  offset + count_while is_json_whitespace (skipn (Z.to_nat offset) line).

Definition check_cwe_and_strip_header (dict_obj : value) (need_meta : bool)
  : result (value * pydict) :=
  b1 <- contains (py "detail-type") dict_obj ;;
  b2 <- (if b1 then contains (py "resources") dict_obj else Ok false) ;;
  if b2 then
    logmeta <- (if need_meta then
                  i <- getitem dict_obj (py "id") ;;
                  s <- getitem dict_obj (py "source") ;;
                  a <- getitem dict_obj (py "account") ;;
                  r <- getitem dict_obj (py "region") ;;
                  tm <- getitem dict_obj (py "time") ;;
                  Ok [(py "cwe_id", i); (py "cwe_source", s);
                      (py "cwe_accountid", a); (py "cwe_region", r);
                      (py "cwe_timestamp", tm)]
                else Ok []) ;;
    detail <- getitem dict_obj (py "detail") ;;
    Ok (detail, logmeta)
  else Ok (dict_obj, []).

(** The records one decoded value stands for: the places where the loop
    body of [count_logobj_in_json] / [extract_logobj_from_json] executes
    [count += 1]. *)
Definition event_records (self : t) (need_meta : bool) (raw_event : value)
  : gen (value * pydict) :=
  match check_cwe_and_strip_header raw_event need_meta with
  | Raise e => gen_raise e
  | Ok (raw_event, logmeta) =>
      let delimiter := json_delimiter self in
      if negb (len delimiter =? 0) then
        match contains delimiter raw_event with
        | Raise e => gen_raise e
        | Ok true =>
            match (x <- getitem raw_event delimiter ;; iterate x) with
            | Raise e => gen_raise e
            | Ok l => gen_of_list (map (fun r => (r, logmeta)) l)
            end
        | Ok false => gen_done
        end
      else gen_of_list [(raw_event, logmeta)]
  end.

(** The [while index < size] loop over one line. *)
Fixpoint json_line (self : t) (need_meta : bool) (fuel : nat)
    (line : pystr) (index : Z) : gen (value * pydict) :=
  match fuel with
  | O => gen_done
  | S fuel' =>
      if index <? len line then
        match raw_decode line index with
        | Raise e => gen_raise e
        | Ok (raw_event, offset) =>
            gen_seq (event_records self need_meta raw_event)
              (if len line <? offset then gen_done
               else json_line self need_meta fuel' line
                      (whitespace_end line offset))
        end
      else gen_done
  end.

Fixpoint json_lines (self : t) (need_meta : bool) (lines : list pystr)
  : gen (value * pydict) :=
  match lines with
  | [] => gen_done
  | line :: lines' =>
      gen_seq (json_line self need_meta (S (List.length line)) line 0)
              (json_lines self need_meta lines')
  end.

Definition count_logobj_in_json (self : t) : result Z :=
  match json_lines self false (rawdata self) with
  | (recs, None) => Ok (len recs)
  | (_, Some e) => Raise e
  end.

(** [count += 1; if start <= count <= end: yield] over the records in
    order. *)
Fixpoint json_select {A} (start end_ : Z) (count : Z) (recs : list A)
  : list A :=
  match recs with
  | [] => []
  | r :: recs' =>
      let count := count + 1 in
      if (start <=? count) && (count <=? end_)
      then r :: json_select start end_ count recs'
      else json_select start end_ count recs'
  end.

Definition extract_logobj_from_json (self : t) (start end_ : Z)
  : gen (value * pydict) :=
  let g := json_lines self true (rawdata self) in
  (json_select start end_ 0 (fst g), snd g).

(** *** Multiline text and XML *)

Definition match_multiline_firstline (self : t) (line : pystr) : bool :=
  re_multiline_firstline self line.

Fixpoint count_multiline_loop (self : t) (lines : list pystr) (count : Z)
  : Z :=
  match lines with
  | [] => count
  | line :: lines' =>
      if match_multiline_firstline self line
      then count_multiline_loop self lines' (count + 1)
      else count_multiline_loop self lines' count
  end.

Definition count_multiline_log (self : t) : Z :=
  count_multiline_loop self (rawdata self) 0.

(** The loop of [extract_multiline_log] with its four local variables;
    the result is the list of payloads yielded. *)
Fixpoint multiline_loop (self : t) (start end_ : Z) (lines : list pystr)
    (count : Z) (multilog : list pystr) (is_in_scope : bool)
  : list pystr :=
  match lines with
  | [] =>
      if is_in_scope then [rstrip (concat multilog)] else []
  | line :: lines' =>
      if match_multiline_firstline self line then
        let count := count + 1 in
        if (start <? count) && (count <=? end_) then
          (if 0 <? len multilog then [rstrip (concat multilog)] else [])
          ++ multiline_loop self start end_ lines' count [line] true
        else
          multiline_loop self start end_ lines' count multilog is_in_scope
      else if is_in_scope then
        multiline_loop self start end_ lines' count (multilog ++ [line]) true
      else
        multiline_loop self start end_ lines' count multilog is_in_scope
  end.

Definition extract_multiline_log (self : t) (start end_ : Z)
  : gen (value * pydict) :=
  gen_of_list
    (map (fun s => (VStr s, []))
         (multiline_loop self start end_ (rawdata self) 0 [] false)).

(** *** The property [log_count] *)

(** The decorated function body: [deco_cwl_logcount] first, then the
    body of [log_count]. *)
Definition log_count_body (self : t) (st : state) : result (Z * state) :=
  if via_cwl self then
    (* deco_cwl_logcount: the stream is read from where it stands *)
    let body := rawbody self in
    n <- cwl_count_events
           (cwl_objects (S (List.length body)) body (pos st) 0) 0 ;;
    Ok (n, set_pos st (len body))
  else if end_number self =? 0 then
    c <- (if is_text_or_csv (fmt self) || via_firelens self
          then Ok (len (rawdata self))
          else match fmt self with
               | json => count_logobj_in_json self
               | winevtxml => Ok (winevtxml_count_event (rawdata self))
               | multiline | xml => Ok (count_multiline_log self)
               | _ => Ok 0
               end) ;;
    (* every branch but the last has read the stream to its end *)
    let st := if is_text_or_csv (fmt self) || via_firelens self
                 || negb (match fmt self with
                          | other_format => true
                          | _ => false
                          end)
              then set_pos st (len (rawbody self)) else st in
    let st := if c =? 0
              then set_ignored st
                     (py "there are not any valid logs in S3 object")
              else st in
    Ok (c, st)
  else Ok (end_number self - start_number self, st).

(** [cached_property]: computed at the first access, then remembered. *)
Definition log_count (self : t) (st : state) : result (Z * state) :=
  match log_count_cache st with
  | Some n => Ok (n, st)
  | None =>
      r <- log_count_body self st ;;
      Ok (fst r, set_log_count_cache (snd r) (fst r))
  end.

(** *** The window *)

Definition ignore_header_line_number (self : t) : Z :=
  if via_cwl self then 0
  else match fmt self with
       | text => text_header_line_number self
       | csv => 1
       | _ => 0
       end.

Definition set_start_end_position (self : t) (st : state)
  : result ((Z * Z) * state) :=
  if start_number self <=? ignore_header_line_number self then
    r <- log_count self st ;;
    let start := ignore_header_line_number self in
    let end_ := if fst r <=? max_log_count self
                then fst r else max_log_count self in
    Ok ((start, end_), snd r)
  else
    Ok ((start_number self - 1, end_number self), st).

(** The dispatch of [logdata_generator] on the window it was given. *)
Definition read_window (self : t) (start end_ : Z) : gen (value * pydict) :=
  if via_cwl self then extract_cwl_log self start end_
  else if via_firelens self then extract_firelens_log self start end_
  else match fmt self with
       | text | csv =>
           gen_of_list
             (map (fun logdata => (VStr (strip logdata), []))
                  (py_slice (rawdata self) start end_))
       | json => extract_logobj_from_json self start end_
       | winevtxml => winevtxml_extract_event (rawdata self) start end_
       | multiline | xml => extract_multiline_log self start end_
       | other_format => gen_raise Exception
       end.

Definition logdata_generator (self : t) (st : state)
  : gen (value * pydict) * state :=
  match set_start_end_position self st with
  | Raise e => (gen_raise e, st)
  | Ok ((start, end_), st) =>
      let st := set_total_log_count st (end_ - start) in
      (read_window self start end_, st)
  end.

(** *** Sharding *)

Definition queue_entry (self : t) (r : Z * Z) : sqs_entry :=
  {| Id := py "num_" ++ str_of_int (fst r);
     MessageBody := {| siem_start_number := fst r;
                       siem_end_number := snd r;
                       s3_bucket_name := s3bucket self;
                       s3_object_key := s3key self |} |}.

(** The loop of [send_meta_to_sqs]: the exception that ended it, if any,
    and the state it leaves, which records every batch handed to the
    queue, the refused one included. *)
Fixpoint send_loop (self : t) (queue : list sqs_entry -> Z) (last_num : Z)
    (i : Z) (entries : list sqs_entry) (metadata : list (Z * Z))
    (st : state) : option exn * state :=
  match metadata with
  | [] => (None, st)
  | r :: metadata' =>
      let entries := entries ++ [queue_entry self r] in
      if (len entries =? 10) || (i =? last_num - 1) then
        let st := add_sent st entries in
        if negb (queue entries =? 200) then (Some Exception, st)
        else send_loop self queue last_num (i + 1) [] metadata' st
      else send_loop self queue last_num (i + 1) entries metadata' st
  end.

Definition send_meta_to_sqs (self : t) (queue : list sqs_entry -> Z)
    (metadata : list (Z * Z)) (st : state) : result Z * state :=
  let last_num := len metadata in
  match send_loop self queue last_num 0 [] metadata st with
  | (None, st) => (Ok last_num, st)
  | (Some e, st) => (Raise e, st)
  end.

(** *** [__iter__] *)

Definition split_reason (sent_count : Z) : pystr :=
  py "Log file was split into " ++ str_of_int sent_count
  ++ py " pieces and sent to SQS.".

Definition iter (self : t) (st : state) : gen (value * pydict) * state :=
  if is_ignored st then (gen_done, st)
  else
    match log_count self st with
    | Raise e => (gen_raise e, st)
    | Ok (n, st) =>
        if max_log_count self <=? n then
          match sqs_queue self with
          | Some queue =>
              match split_logs n (max_log_count self) with
              | Raise e => (gen_raise e, st)
              | Ok metadata =>
                  match send_meta_to_sqs self queue metadata st with
                  | (Raise e, st) => (gen_raise e, st)
                  | (Ok sent_count, st) =>
                      (gen_done,
                       set_ignored (set_total_log_count st 0)
                         (split_reason sent_count))
                  end
              end
          | None => logdata_generator self st
          end
        else logdata_generator self st
    end.

End Readers.

End LogS3.
(** ** Multiline records as the specification words them

    A record begins when a line matches [multiline_firstline] and ends
    immediately before the next match or at EOF; trailing whitespace is
    stripped on emit.  Lines before the first match belong to no record. *)

Module MultilineSpec.

Section Records.

Variable firstline : pystr -> bool.

(** The records of [lines], the first of which has the lines [cur] so
    far. *)
Fixpoint records_from (cur : list pystr) (lines : list pystr)
  : list pystr :=
  match lines with
  | [] => [rstrip (concat cur)]
  | line :: lines' =>
      if firstline line
      then rstrip (concat cur) :: records_from [line] lines'
      else records_from (cur ++ [line]) lines'
  end.

Fixpoint records (lines : list pystr) : list pystr :=
  match lines with
  | [] => []
  | line :: lines' =>
      if firstline line then records_from [line] lines' else records lines'
  end.

End Records.

End MultilineSpec.
(** ** The exclusion matcher *)

Module Exclude.

(** A nested map of compiled patterns.  A compiled pattern is represented
    by what [pattern.match] answers on a string; [POther] is any value that
    is neither a dict nor a compiled pattern. *)
Inductive pattern :=
| PRegex (re : pystr -> bool)
| PDict (d : list (pystr * pattern))
| POther.

Section Matcher.

(** [str(x)] *)
Variable py_str : value -> pystr.

(** [match_log_with_exclude_patterns(log_dict, log_patterns)], with the
    dict of patterns given as the pattern [PDict log_patterns].  The result
    is [Some true] for [True] and [None] for [None]. *)
Fixpoint match_patterns (log_dict : pydict) (log_patterns : pattern)
    {struct log_patterns} : option bool :=
  match log_patterns with
  | PDict items =>
      (fix loop (items : list (pystr * pattern)) : option bool :=
         match items with
         | [] => None
         | (key, pattern) :: items' =>
             match dict_get key log_dict with
             | Some v =>
                 match pattern, v with
                 | PDict _, VDict sub =>
                     (* res = match_log_with_exclude_patterns(...);
                        return res *)
                     match_patterns sub pattern
                 | PRegex re, VList _ => loop items'
                 | PRegex re, _ =>
                     if re (py_str v) then Some true else loop items'
                 | _, _ => loop items'
                 end
             | None => loop items'
             end
         end) items
  | _ => None
  end.

Definition match_log_with_exclude_patterns (log_dict : pydict)
    (log_patterns : list (pystr * pattern)) : option bool :=
  match_patterns log_dict (PDict log_patterns).

(** The matcher as the specification words it: true exactly when some leaf
    pattern, reached by descending through keys also present in the record,
    matches the string form of the corresponding value; nested maps on both
    sides recurse; a list on the record side is ignored. *)
Fixpoint spec_match (log_dict : pydict) (log_patterns : pattern)
    {struct log_patterns} : bool :=
  match log_patterns with
  | PDict items =>
      (fix any (items : list (pystr * pattern)) : bool :=
         match items with
         | [] => false
         | (key, pattern) :: items' =>
             match dict_get key log_dict with
             | Some v =>
                 match pattern, v with
                 | PDict _, VDict sub => spec_match sub pattern
                 | PRegex re, VList _ => false
                 | PRegex re, _ => re (py_str v)
                 | _, _ => false
                 end
             | None => false
             end
             || any items'
         end) items
  | _ => false
  end.

End Matcher.

End Exclude.
(** ** LogParser: the per-record normaliser *)

Module LogParser.

(** A point in time, written as [isoformat()] prints it. *)
Definition datetime := pystr.

(** How [logconfig] names the source of an ECS field: one string of dotted
    keys, or a list of such strings. *)
Inductive ecs_source :=
| SourceStr (keys : pystr)
| SourceList (keys : list pystr)
| SourceOther.

(** The options of [logconfig] the normaliser reads.  A compiled
    [log_pattern] is represented by the [groupdict()] of its match. *)
Record logconfig := {
  timestamp_key : pystr;
  doc_id : pystr;
  doc_id_suffix : pystr;
  json_to_text : pystr;
  ecs : pystr;
  ecs_source_of : pystr -> option ecs_source;
  static_ecs : pystr;
  static_value_of : pystr -> option value;
  cloud_provider : pystr;
  ecs_version : value;
  geoip : pystr;
  script_ecs : bool;
  log_pattern : option (pystr -> option pydict)
}.

(** Library functions and the collaborators of the class whose code is not
    in this file. *)
Record env := {
  (** [json.dumps], [str], [repr] *)
  json_dumps : value -> pystr;
  py_str : value -> pystr;
  py_repr : value -> pystr;
  (** [dict(l, **kw)] for a list [l], which is read as a sequence of
      pairs (their keys need not be strings) *)
  dict_of_pairs : list value -> pydict -> result pydict;
  (** [sorted(list(set(l)))] *)
  sorted_set : list value -> result (list value);
  (** [siem.utils] *)
  convert_keyname_to_safe_field : pydict -> pydict;
  value_from_nesteddict_by_dottedkey : pydict -> pystr -> value;
  value_from_nesteddict_by_dottedkeylist : pydict -> pystr -> value;
  put_value_into_nesteddict : pystr -> value -> pydict;
  validate_ip : pystr -> pystr -> value;
  (** [utils.get_timestr_from_logdata_dict] followed by
      [utils.convert_timestr_to_datetime]; [None] when no format fits *)
  timestamp_of : logconfig -> pydict -> result (option datetime);
  (** [utils.match_log_with_exclude_patterns] on the patterns of the
      log type; [false] when the log type has no patterns *)
  excluded : pydict -> bool;
  (** [winevtxml.to_dict], [xmltodict.parse] *)
  winevtxml_to_dict : value -> result pydict;
  xmltodict_parse : value -> result pydict;
  (** [sf_module.transform], [geodb_instance.check_ipaddress] *)
  sf_transform : pydict -> result pydict;
  check_ipaddress : value -> value * value
}.

(** What [__init__] takes from the log file and the configuration. *)
Record t := {
  config : logconfig;
  logtype : pystr;
  s3key : pystr;
  s3bucket : pystr;
  logformat : pystr;
  header : option pystr
}.

(** The attributes that [__call__] overwrites only when the record has a
    meta, and that otherwise keep the value of the record before. *)
Record attrs := {
  loggroup : value;
  logstream : value;
  accountid : value;
  region : value;
  cwl_id : value;
  cwl_timestamp : value;
  cwe_id : value;
  cwe_timestamp : value
}.

(** The two readings of the clock [__call__] may take for a record:
    [event_ingested], and the timestamp of a record without a timestamp of
    its own. *)
Record clock := {
  now_ingested : datetime;
  now_timestamp : datetime
}.

(** The state of the instance for the record at hand.  [aliased] tells
    that [logdata] and [logdata_dict] are one and the same object (as they
    are for JSON records), in which case the payload is read through
    [logdata_dict]. *)
Record doc := {
  logdata : value;
  logmeta : pydict;
  logdata_dict : pydict;
  aliased : bool;
  at_ : attrs;
  event_ingested : datetime;
  skip_normalization : bool;
  timestamp : datetime
}.

Definition current_logdata (d : doc) : value :=
  if aliased d then VDict (logdata_dict d) else logdata d.

Definition with_dict (d : doc) (x : pydict) : doc :=
  {| logdata := logdata d; logmeta := logmeta d; logdata_dict := x;
     aliased := aliased d; at_ := at_ d;
     event_ingested := event_ingested d;
     skip_normalization := skip_normalization d;
     timestamp := timestamp d |}.

(** [d[k]] and [d[k] = v] on a nested value *)
Definition setitem (v : value) (k : pystr) (x : value) : result value :=
  match v with
  | VDict d => Ok (VDict (dict_set k x d))
  | _ => Raise TypeError
  end.

Definition dict_getitem (d : pydict) (k : pystr) : result value :=
  match dict_get k d with
  | Some v => Ok v
  | None => Raise KeyError
  end.

Section Normaliser.

Variable E : env.
Variable self : t.

(** *** From the raw record to a map *)

Definition as_str (v : value) : result pystr :=
  match v with
  | VStr s => Ok s
  | _ => Raise AttributeError
  end.

Definition text_logdata_to_dict (logdata : value) : result pydict :=
  match log_pattern (config self) with
  | None => Raise AttributeError
  | Some re =>
      s <- match logdata with
           | VStr s => Ok s
           | _ => Raise TypeError
           end ;;
      match re s with
      | Some groups => Ok groups
      | None => Raise Exception
      end
  end.

(** [dict(zip(keys, values))] *)
Definition dict_of_zip (keys values : list pystr) : pydict :=
  fold_left (fun d kv => dict_set (fst kv) (VStr (snd kv)) d)
            (combine keys values) [].

(** The result and whether it is the object [logdata] itself.  For the
    json format the record is returned as it is, dict or not. *)
Definition logdata_to_dict (logdata : value) (logmeta : pydict)
  : result (value * bool) :=
  if dict_has (py "is_ignored") logmeta
     || dict_has (py "__skip_normalization") logmeta
  then Ok (VDict [], false)
  else if str_contains (logformat self) (py "csv") then
    h <- match header self with
         | Some h => Ok h
         | None => Raise AttributeError
         end ;;
    s <- as_str logdata ;;
    Ok (VDict (convert_keyname_to_safe_field E
                 (dict_of_zip (Utils.split_ws h) (Utils.split_ws s))),
        false)
  else if str_contains (logformat self) (py "json") then
    Ok (logdata, true)
  else if pystr_eqb (logformat self) (py "winevtxml") then
    d <- winevtxml_to_dict E logdata ;; Ok (VDict d, false)
  else if pystr_eqb (logformat self) (py "xml") then
    d <- xmltodict_parse E logdata ;; Ok (VDict d, false)
  else if pystr_eqb (logformat self) (py "text")
          || pystr_eqb (logformat self) (py "multiline") then
    d <- text_logdata_to_dict logdata ;; Ok (VDict d, false)
  else Ok (VDict [], false).

(** *** The steps of [__call__] before the basic fields *)

(** [if logmeta: ...]: the attributes taken from the meta of the record. *)
Definition read_meta (a : attrs) (logmeta : pydict) : attrs :=
  if len logmeta =? 0 then a
  else
    let accountid1 := match dict_get (py "cwl_accountid") logmeta with
                      | Some v => v
                      | None => accountid a
                      end in
    {| logstream := get_or_none (py "logstream") logmeta;
       loggroup := get_or_none (py "loggroup") logmeta;
       accountid := match dict_get (py "cwe_accountid") logmeta with
                    | Some v => v
                    | None => accountid1
                    end;
       region := match dict_get (py "cwe_region") logmeta with
                 | Some v => v
                 | None => region a
                 end;
       cwl_id := get_or_none (py "cwl_id") logmeta;
       cwl_timestamp := get_or_none (py "cwl_timestamp") logmeta;
       cwe_id := get_or_none (py "cwe_id") logmeta;
       cwe_timestamp := get_or_none (py "cwe_timestamp") logmeta |}.

(** [dict(a, **b)] for a dict [a]: a new dict, [a] updated with the entries
    of [b] *)
Definition dict_update (a b : pydict) : pydict :=
  fold_left (fun d kv => dict_set (fst kv) (snd kv) d) b a.

(** [dict(x, **kw)] for any [x]: a dict is copied; [None], a bool or an
    int cannot be iterated; the characters of a string are not pairs; a
    list is read as a sequence of pairs. *)
Definition dict_with (x : value) (kw : pydict) : result pydict :=
  match x with
  | VDict d => Ok (dict_update d kw)
  | VNone | VBool _ | VInt _ => Raise TypeError
  | VStr [] => Ok (dict_update [] kw)
  | VStr (_ :: _) => Raise ValueError
  | VList l => dict_of_pairs E l kw
  end.

(** The property [is_ignored] of the parser. *)
Definition is_ignored (logdata_dict : pydict) : bool :=
  truthy (get_or_none (py "is_ignored") logdata_dict)
  || excluded E logdata_dict.

Definition set_skip_normalization (logdata_dict : pydict) : pydict * bool :=
  if truthy (get_or_none (py "__skip_normalization") logdata_dict)
  then (dict_del (py "__skip_normalization") logdata_dict, true)
  else (logdata_dict, false).

(** [get_timestamp]: the dict it leaves and the timestamp. *)
Definition get_timestamp (a : attrs) (c : clock) (logdata_dict : pydict)
    (skip : bool) : result (pydict * datetime) :=
  if negb (len (timestamp_key (config self)) =? 0) && negb skip then
    let logdata_dict :=
      if pystr_eqb (timestamp_key (config self)) (py "cwe_timestamp")
      then dict_set (py "cwe_timestamp") (cwe_timestamp a) logdata_dict
      else if pystr_eqb (timestamp_key (config self)) (py "cwl_timestamp")
      then dict_set (py "cwl_timestamp") (cwl_timestamp a) logdata_dict
      else logdata_dict in
    r <- timestamp_of E (config self) logdata_dict ;;
    match r with
    | Some dt => Ok (logdata_dict, dt)
    | None => Raise ValueError
    end
  else Ok (logdata_dict, now_timestamp c).

(** *** [add_basic_field] *)

(** The text that becomes [@message]. *)
Definition message_of (d : doc) : pystr :=
  if str_contains (logformat self) (py "json")
  then json_dumps E (current_logdata d)
  else py_str E (current_logdata d).

(** The value stored under [@id] in [basic_dict]. *)
Definition basic_id (d : doc) : result value :=
  if skip_normalization d then
    h <- Codec.md5_of_str (message_of d ++ s3key self) ;; Ok (VStr h)
  else if negb (len (doc_id (config self)) =? 0) then
    dict_getitem (logdata_dict d) (doc_id (config self))
  else
    h <- Codec.md5_of_str (message_of d) ;; Ok (VStr h).

Definition basic_dict (d : doc) : result pydict :=
  id_ <- basic_id d ;;
  Ok ([(py "@message", VStr (message_of d));
       (py "event", VDict [(py "module", VStr (logtype self));
                           (py "ingested", VStr (event_ingested d))]);
       (py "@timestamp", VStr (timestamp d));
       (py "@log_type", VStr (logtype self));
       (py "@id", id_)]
      ++ (if truthy (loggroup (at_ d))
          then [(py "@log_group", loggroup (at_ d));
                (py "@log_stream", logstream (at_ d))]
          else [])
      ++ [(py "@log_s3bucket", VStr (s3bucket self));
          (py "@log_s3key", VStr (s3key self))]).

Definition add_basic_field (d : doc) : result doc :=
  b <- basic_dict d ;;
  Ok (with_dict d (Utils.merge_dicts (logdata_dict d) b)).

(** *** [clean_multi_type_field] *)

Fixpoint clean_loop (logdata_dict : pydict) (keys : list pystr)
    (clean : pydict) : result pydict :=
  match keys with
  | [] => Ok clean
  | key :: keys' =>
      let v := value_from_nesteddict_by_dottedkey E logdata_dict key in
      if truthy v then
        new_dict <-
          match v with
          | VInt _ | VBool _ => Ok (put_value_into_nesteddict E key v)
          | _ =>
              b <- contains [123] v ;;
              if b
              then Ok (put_value_into_nesteddict E key (VStr (py_repr E v)))
              else Ok (put_value_into_nesteddict E key (VStr (py_str E v)))
          end ;;
        clean_loop logdata_dict keys' (Utils.merge_dicts clean new_dict)
      else clean_loop logdata_dict keys' clean
  end.

Definition clean_multi_type_field (d : doc) : result doc :=
  clean <- clean_loop (logdata_dict d)
             (Utils.split_ws (json_to_text (config self))) [] ;;
  Ok (with_dict d (Utils.merge_dicts (logdata_dict d) clean)).

(** *** [transform_to_ecs] *)

(** A value found for an ECS key, after [validate_ip] when it is a
    string. *)
Definition mapped_value (logdata_dict : pydict) (ecs_key keys : pystr)
  : value :=
  let v := value_from_nesteddict_by_dottedkeylist E logdata_dict keys in
  match v with
  | VStr s => validate_ip E s ecs_key
  | _ => v
  end.

(** The local [new_ecs_dict] of [get_value_and_input_into_ecs_dict]: a dict
    of its own, or (after the first merge, which returns its first argument)
    the very object [ecs_dict].  The variable is not reset between two
    keys: for a key without a value the merge is called on what the turn
    before left, which is then [ecs_dict] merged into itself. *)
Inductive new_ecs :=
| Fresh (x : pydict)
| SameAsEcsDict.

Fixpoint ecs_loop (logdata_dict : pydict) (ecs_keys : list pystr)
    (ecs_dict : pydict) (new_ecs_dict : new_ecs) : result pydict :=
  match ecs_keys with
  | [] => Ok ecs_dict
  | ecs_key :: ecs_keys' =>
      src <- match ecs_source_of (config self) ecs_key with
             | Some s => Ok s
             | None => Raise KeyError
             end ;;
      new_ecs_dict <-
        match src with
        | SourceStr original_keys =>
            let v := mapped_value logdata_dict ecs_key original_keys in
            if truthy v
            then Ok (Fresh (put_value_into_nesteddict E ecs_key v))
            else Ok new_ecs_dict
        | SourceList original_keys =>
            let temp_list :=
              filter truthy
                (map (mapped_value logdata_dict ecs_key) original_keys) in
            if negb (len temp_list =? 0) then
              l <- sorted_set E temp_list ;;
              Ok (Fresh (put_value_into_nesteddict E ecs_key (VList l)))
            else Ok new_ecs_dict
        | SourceOther => Ok new_ecs_dict
        end ;;
      match new_ecs_dict with
      | Fresh x =>
          if negb (len x =? 0)
          then ecs_loop logdata_dict ecs_keys'
                 (Utils.merge_dicts ecs_dict x) SameAsEcsDict
          else ecs_loop logdata_dict ecs_keys' ecs_dict new_ecs_dict
      | SameAsEcsDict =>
          if negb (len ecs_dict =? 0)
          then ecs_loop logdata_dict ecs_keys'
                 (Utils.merge_dicts ecs_dict ecs_dict) SameAsEcsDict
          else ecs_loop logdata_dict ecs_keys' ecs_dict SameAsEcsDict
      end
  end.

Definition get_value_and_input_into_ecs_dict (logdata_dict ecs_dict : pydict)
  : result pydict :=
  ecs_loop logdata_dict (Utils.split_ws (ecs (config self))) ecs_dict
    (Fresh []).

(** [d[k1][k2] = x] *)
Definition setitem2 (d : pydict) (k1 k2 : pystr) (x : value)
  : result pydict :=
  v1 <- dict_getitem d k1 ;;
  v1' <- setitem v1 k2 x ;;
  Ok (dict_set k1 v1' d).

(** The defaults for [cloud.account.id] and [cloud.region]. *)
Definition cloud_defaults (a : attrs) (ecs_dict : pydict) : result pydict :=
  match dict_get (py "cloud") ecs_dict with
  | None => Ok ecs_dict
  | Some cloud =>
      has_account <- contains (py "account") cloud ;;
      has_id <- (if has_account
                 then acc <- getitem cloud (py "account") ;;
                      contains (py "id") acc
                 else Ok false) ;;
      ecs_dict <-
        (if has_id then
           acc <- getitem cloud (py "account") ;;
           i <- getitem acc (py "id") ;;
           if eq_str i (py "unknown")
           then setitem2 ecs_dict (py "cloud") (py "account")
                  (VDict [(py "id", accountid a)])
           else Ok ecs_dict
         else if truthy (accountid a)
         then setitem2 ecs_dict (py "cloud") (py "account")
                (VDict [(py "id", accountid a)])
         else setitem2 ecs_dict (py "cloud") (py "account")
                (VDict [(py "id", VStr (py "unknown"))])) ;;
      cloud <- dict_getitem ecs_dict (py "cloud") ;;
      has_region <- contains (py "region") cloud ;;
      if has_region then Ok ecs_dict
      else if truthy (region a)
      then setitem2 ecs_dict (py "cloud") (py "region") (region a)
      else setitem2 ecs_dict (py "cloud") (py "region")
             (VStr (py "unknown"))
  end.

(** The FireLens part: the ARN of the task gives account and region. *)
Definition firelens_cloud (logmeta ecs_dict : pydict) : result pydict :=
  match dict_get (py "ecs_task_arn") logmeta with
  | None => Ok ecs_dict
  | Some arn =>
      s <- as_str arn ;;
      let parts := Utils.split_on 58 s in
      p4 <- match nth_error parts 4 with
            | Some p => Ok p
            | None => Raise IndexError
            end ;;
      cloud <- dict_getitem ecs_dict (py "cloud") ;;
      acc <- getitem cloud (py "account") ;;
      acc' <- setitem acc (py "id") (VStr p4) ;;
      ecs_dict <- setitem2 ecs_dict (py "cloud") (py "account") acc' ;;
      p3 <- match nth_error parts 3 with
            | Some p => Ok p
            | None => Raise IndexError
            end ;;
      ecs_dict <- setitem2 ecs_dict (py "cloud") (py "region") (VStr p3) ;;
      ecs_dict <-
        match dict_get (py "ec2_instance_id") logmeta with
        | Some i => setitem2 ecs_dict (py "cloud") (py "instance")
                      (VDict [(py "id", i)])
        | None => Ok ecs_dict
        end ;;
      cid <- dict_getitem logmeta (py "container_id") ;;
      cname <- dict_getitem logmeta (py "container_name") ;;
      Ok (dict_set (py "container")
            (VDict [(py "id", cid); (py "name", cname)]) ecs_dict)
  end.

Fixpoint static_loop (keys : list pystr) (ecs_dict : pydict)
  : result pydict :=
  match keys with
  | [] => Ok ecs_dict
  | k :: keys' =>
      v <- match static_value_of (config self) k with
           | Some v => Ok v
           | None => Raise KeyError
           end ;;
      static_loop keys'
        (Utils.merge_dicts ecs_dict (put_value_into_nesteddict E k v))
  end.

Definition transform_to_ecs (d : doc) : result doc :=
  let ecs_dict := [(py "ecs", VDict [(py "version",
                                      ecs_version (config self))])] in
  let ecs_dict :=
    if negb (len (cloud_provider (config self)) =? 0)
    then dict_set (py "cloud")
           (VDict [(py "provider", VStr (cloud_provider (config self)))])
           ecs_dict
    else ecs_dict in
  ecs_dict <- get_value_and_input_into_ecs_dict (logdata_dict d) ecs_dict ;;
  ecs_dict <- cloud_defaults (at_ d) ecs_dict ;;
  ecs_dict <- firelens_cloud (logmeta d) ecs_dict ;;
  logdata_dict' <-
    match dict_get (py "__error_message") (logmeta d) with
    | Some msg =>
        let x := dict_set (py "error") (VDict [(py "message", msg)])
                   (logdata_dict d) in
        if dict_has (py "__error_message") x
        then Ok (dict_del (py "__error_message") x)
        else Raise KeyError
    | None => Ok (logdata_dict d)
    end ;;
  ecs_dict <- static_loop (Utils.split_ws (static_ecs (config self)))
                ecs_dict ;;
  Ok (with_dict d (Utils.merge_dicts logdata_dict' ecs_dict)).

(** *** [transform_by_script] and [enrich] *)

Definition transform_by_script (d : doc) : result doc :=
  if script_ecs (config self)
  then x <- sf_transform E (logdata_dict d) ;; Ok (with_dict d x)
  else Ok d.

Fixpoint enrich_loop (logdata_dict : pydict) (keys : list pystr)
    (enrich_dict : pydict) : result pydict :=
  match keys with
  | [] => Ok enrich_dict
  | geoip_ecs :: keys' =>
      match dict_get geoip_ecs logdata_dict with
      | None => enrich_loop logdata_dict keys' enrich_dict
      | Some (VDict sub) =>
          match dict_get (py "ip") sub with
          | None => enrich_loop logdata_dict keys' enrich_dict
          | Some ipaddr =>
              let '(geo, asn) := check_ipaddress E ipaddr in
              let enrich_dict :=
                if truthy geo
                then dict_set geoip_ecs (VDict [(py "geo", geo)]) enrich_dict
                else enrich_dict in
              let enrich_dict :=
                if truthy geo && truthy asn
                then dict_set geoip_ecs
                       (VDict [(py "geo", geo); (py "as", asn)]) enrich_dict
                else if truthy asn
                then dict_set geoip_ecs (VDict [(py "as", asn)]) enrich_dict
                else enrich_dict in
              enrich_loop logdata_dict keys' enrich_dict
          end
      | Some _ => Raise TypeError
      end
  end.

Definition enrich (d : doc) : result doc :=
  x <- enrich_loop (logdata_dict d) (Utils.split_ws (geoip (config self)))
         [] ;;
  Ok (with_dict d (Utils.merge_dicts (logdata_dict d) x)).

(** What [__call__] leaves: the record is ignored, or normalised. *)
Inductive outcome :=
| Ignored (a : attrs)
| Normalised (d : doc).

(** *** The property [doc_id] *)

(** ['{0}_{1}'.format(a, b)] *)
Definition format_id (a b : value) : value :=
  VStr (py_str E a ++ [95] ++ py_str E b).

(** The id, and the dict the access leaves ([__doc_id_suffix] is removed
    by the access). *)
Definition get_doc_id (logdata_dict : pydict) : result (value * pydict) :=
  match dict_get (py "__doc_id_suffix") logdata_dict with
  | Some temp =>
      let logdata_dict := dict_del (py "__doc_id_suffix") logdata_dict in
      i <- dict_getitem logdata_dict (py "@id") ;;
      Ok (format_id i temp, logdata_dict)
  | None =>
      let suffix :=
        if negb (len (doc_id_suffix (config self)) =? 0)
        then value_from_nesteddict_by_dottedkey E logdata_dict
               (doc_id_suffix (config self))
        else VNone in
      i <- dict_getitem logdata_dict (py "@id") ;;
      if truthy suffix
      then Ok (format_id i suffix, logdata_dict)
      else Ok (i, logdata_dict)
  end.

(** *** [__call__] *)

(** The part of [__call__] before [add_basic_field]. *)
Definition prepare (a : attrs) (c : clock) (logdata : value)
    (logmeta : pydict) : result outcome :=
  let a := read_meta a logmeta in
  r <- logdata_to_dict logdata logmeta ;;
  r <- (if truthy (get_or_none (py "container_name") logmeta)
        then x <- dict_with (fst r) logmeta ;; Ok (VDict x, false)
        else Ok r) ;;
  match fst r with
  | VDict logdata_dict =>
      if is_ignored logdata_dict then Ok (Ignored a)
      else
        let '(logdata_dict, skip) := set_skip_normalization logdata_dict in
        r' <- get_timestamp a c logdata_dict skip ;;
        let '(logdata_dict, ts) := r' in
        Ok (Normalised
              {| logdata := logdata; logmeta := logmeta;
                 logdata_dict := logdata_dict; aliased := snd r; at_ := a;
                 event_ingested := now_ingested c;
                 skip_normalization := skip; timestamp := ts |})
  | _ => Raise AttributeError (* [self.__logdata_dict.get] in [is_ignored] *)
  end.

Definition call (a : attrs) (c : clock) (logdata : value) (logmeta : pydict)
  : result outcome :=
  o <- prepare a c logdata logmeta ;;
  match o with
  | Ignored a => Ok (Ignored a)
  | Normalised d =>
      d <- add_basic_field d ;;
      d <- clean_multi_type_field d ;;
      d <- transform_to_ecs d ;;
      d <- transform_by_script d ;;
      d <- enrich d ;;
      Ok (Normalised d)
  end.

(** The property [doc_id] read after a call. *)
Definition doc_id_of (o : outcome) : result value :=
  match o with
  | Ignored _ => Raise AttributeError
  | Normalised d => r <- get_doc_id (logdata_dict d) ;; Ok (fst r)
  end.

(** *** The property [json]: clean-up, serialisation, truncation *)

Definition is_empty_text (s : pystr) : bool :=
  pystr_eqb s [] || pystr_eqb s (py "-") || pystr_eqb s (py "null")
  || pystr_eqb s (py "[]").

(** The values [del_none] removes. *)
Definition removable (v : value) : bool :=
  match v with
  | VDict [] => true
  | VList [] => true
  | VStr s => is_empty_text s
  | VNone => true
  | _ => false
  end.

(** [del_none] on a value: a dict is cleaned in place, entry by entry,
    nested dicts first; any other value is left as it is. *)
Fixpoint del_none_value (v : value) : value :=
  match v with
  | VDict items =>
      VDict
        ((fix loop (items : list (pystr * value)) : list (pystr * value) :=
            match items with
            | [] => []
            | (key, x) :: items' =>
                let x' := del_none_value x in
                if removable x' then loop items'
                else (key, x') :: loop items'
            end) items)
  | _ => v
  end.

Definition del_none (d : pydict) : pydict :=
  match del_none_value (VDict d) with
  | VDict d' => d'
  | _ => d
  end.

(** [truncate_txt(txt, num)]: the longest prefix of the UTF-8 bytes, of at
    most [num] bytes, that decodes. *)
Fixpoint truncate_txt (txt : pystr) (num : nat) : result pystr :=
  bs <- Codec.encode txt ;;
  match Codec.decode (firstn num bs) with
  | Some s => Ok s
  | None =>
      match num with
      | O => Ok []
      | S num' => truncate_txt txt num'
      end
  end.

Definition TRUNCATED : pystr := py "<<TRUNCATED>>".

(** The test of [truncate_big_field] on a string value. *)
Definition is_big (s : pystr) : result bool :=
  if 16383 <=? len s then
    bs <- Codec.encode s ;; Ok (32766 <=? len bs)
  else Ok false.

(** [truncate_big_field] on a value.  The warning it logs for each field
    it truncates reads the property [doc_id], which needs [@id] in the
    top-level dict ([has_id]) and removes [__doc_id_suffix] from it
    ([has_suffix] tells whether the key was there at the start; the flag
    that is threaded through tells whether it has been removed).  At the
    top level ([is_top]), the entry [__doc_id_suffix] of the snapshot of
    items may thus be gone when its turn comes. *)
Fixpoint truncate_walk (has_id has_suffix is_top : bool) (v : value)
    (removed : bool) {struct v} : result (value * bool) :=
  match v with
  | VDict items =>
      r <- (fix loop (items : list (pystr * value)) (removed : bool)
              : result (list (pystr * value) * bool) :=
              match items with
              | [] => Ok ([], removed)
              | (key, x) :: items' =>
                  match x with
                  | VDict _ =>
                      r <- truncate_walk has_id has_suffix false x removed ;;
                      r' <- loop items' (snd r) ;;
                      Ok ((key, fst r) :: fst r', snd r')
                  | VStr s =>
                      big <- is_big s ;;
                      if big && negb (pystr_eqb key (py "@message")) then
                        if is_top && removed
                           && pystr_eqb key (py "__doc_id_suffix")
                        then Raise KeyError
                        else
                          t <- truncate_txt s (Z.to_nat 32753) ;;
                          if has_id then
                            r' <- loop items' (removed || has_suffix) ;;
                            Ok ((key, VStr (t ++ TRUNCATED)) :: fst r',
                                snd r')
                          else Raise KeyError
                      else
                        r' <- loop items' removed ;;
                        Ok ((key, x) :: fst r', snd r')
                  | _ =>
                      r' <- loop items' removed ;;
                      Ok ((key, x) :: fst r', snd r')
                  end
              end) items removed ;;
      Ok (VDict (fst r), snd r)
  | _ => Ok (v, removed)
  end.

Definition truncate_big_field (d : pydict) : result pydict :=
  r <- truncate_walk (dict_has (py "@id") d)
         (dict_has (py "__doc_id_suffix") d) true (VDict d) false ;;
  match fst r with
  | VDict d' =>
      Ok (if snd r then dict_del (py "__doc_id_suffix") d' else d')
  | _ => Ok d
  end.

(** The property [json]: the serialised document and the dict it leaves. *)
Definition json (logdata_dict : pydict) : result (pystr * pydict) :=
  let logdata_dict := del_none logdata_dict in
  let loaded_data := json_dumps E (VDict logdata_dict) in
  if 65536 <=? len loaded_data then
    logdata_dict <- truncate_big_field logdata_dict ;;
    Ok (json_dumps E (VDict logdata_dict), logdata_dict)
  else Ok (loaded_data, logdata_dict).

End Normaliser.

End LogParser.
(** ** [conv_key]: the copy of the key sanitiser kept in this file *)

Module ConvKey.

Section ConvKey.

(** [utils.conv_key], the moved version, to which the copy hands every
    nested value.  It works in place and returns nothing: it is represented
    by the value it leaves. *)
Variable utils_conv_key : value -> value.

(** [org_key.translate({ord('-'): ord('_')})] *)
Definition translate (org_key : pystr) : pystr :=
  map (fun c => if c =? 45 then 95 else c) org_key.

(** ['-' in org_key] *)
Definition has_hyphen (org_key : pystr) : bool := str_contains [45] org_key.

(** The loop over [list(obj.keys())]: a key with a hyphen is popped and
    its value stored under the translated key (which goes last, or replaces
    the value of a key that is already there); then the moved version is
    called on [obj[new_key]]. *)
Fixpoint conv_key_loop (keys : list pystr) (obj : pydict) : result pydict :=
  match keys with
  | [] => Ok obj
  | org_key :: keys' =>
      r <- (if has_hyphen org_key then
              match dict_get org_key obj with
              | Some v =>
                  Ok (translate org_key,
                      dict_set (translate org_key) v (dict_del org_key obj))
              | None => Raise KeyError
              end
            else Ok (org_key, obj)) ;;
      match dict_get (fst r) (snd r) with
      | Some v =>
          conv_key_loop keys' (dict_set (fst r) (utils_conv_key v) (snd r))
      | None => Raise KeyError
      end
  end.

(** What one turn of the loop leaves of [obj], for a key that holds the
    value [v]. *)
Definition turn (org_key : pystr) (obj : pydict) (v : value) : pydict :=
  if has_hyphen org_key
  then dict_set (translate org_key) (utils_conv_key v)
         (dict_set (translate org_key) v (dict_del org_key obj))
  else dict_set org_key (utils_conv_key v) obj.

(** [conv_key(obj)]: the object it leaves. *)
Definition conv_key (obj : value) : result value :=
  match obj with
  | VDict d => d' <- conv_key_loop (map fst d) d ;; Ok (VDict d')
  | VList l => Ok (VList (map utils_conv_key l))
  | _ => Ok obj
  end.

End ConvKey.

End ConvKey.
(** ** Notions used to state the properties *)

Module Notions.

(** What one step of [merge] stores under its key. *)
Definition merged (old : option value) (bv : value) : value :=
  match old with
  | Some av =>
      match av, bv with
      | VDict ad, VDict _ => VDict (Utils.merge ad bv)
      | _, _ => if Utils.py_eq av bv then av else bv
      end
  | None => bv
  end.

Definition merge_step (a : pydict) (key : pystr) (bv : value) : pydict :=
  match dict_get key a with
  | Some av =>
      match av, bv with
      | VDict ad, VDict _ => dict_set key (VDict (Utils.merge ad bv)) a
      | _, _ => if Utils.py_eq av bv then a else dict_set key bv a
      end
  | None => dict_set key bv a
  end.

(** The meta of an envelope, as it is or with the id and timestamp of an
    event that was yielded before. *)
Definition meta_of (o g s : value) (m : pydict) : Prop :=
  m = [(py "cwl_accountid", o); (py "loggroup", g); (py "logstream", s)]
  \/ exists i t,
      m = [(py "cwl_accountid", o); (py "loggroup", g); (py "logstream", s);
           (py "cwl_id", i); (py "cwl_timestamp", t)].





End Notions.
(** ** Truncation as the specification words it *)

Module TruncateSpec.

(** The number of UTF-8 bytes of one code point (0 for what cannot be
    encoded). *)
Definition char_bytes (c : Z) : Z :=
  match Codec.encode_char c with
  | Some e => len e
  | None => 0
  end.

Fixpoint utf8_len (s : pystr) : Z :=
  match s with
  | [] => 0
  | c :: s' => char_bytes c + utf8_len s'
  end.

(** The longest prefix of [txt] whose UTF-8 encoding has at most [n]
    bytes: the text cut at [n] bytes, moved back to a character
    boundary. *)
Fixpoint take_chars (txt : pystr) (n : Z) : pystr :=
  match txt with
  | [] => []
  | c :: txt' =>
      if (1 <=? char_bytes c) && (char_bytes c <=? n)
      then c :: take_chars txt' (n - char_bytes c)
      else []
  end.

(** A string field is oversized when it has at least 16,383 characters and
    at least 32,766 UTF-8 bytes. *)
Definition oversized (s : pystr) : bool :=
  (16383 <=? len s) && (32766 <=? utf8_len s).

(** Every oversized string field other than [@message] is cut at 32,753
    bytes and marked; maps are walked, lists are not. *)
Fixpoint truncate (v : value) : value :=
  match v with
  | VDict items =>
      VDict
        ((fix walk (items : list (pystr * value)) : list (pystr * value) :=
            match items with
            | [] => []
            | (key, x) :: items' =>
                (key,
                 match x with
                 | VDict _ => truncate x
                 | VStr s =>
                     if oversized s && negb (pystr_eqb key (py "@message"))
                     then VStr (take_chars s 32753
                                ++ py "<<TRUNCATED>>")
                     else x
                 | _ => x
                 end) :: walk items'
            end) items)
  | _ => v
  end.

(** The bound a string field meets after truncation: it is [@message], or
    it has fewer than 16,383 characters, or at most 32,766 UTF-8 bytes. *)
Definition bounded (key s : pystr) : Prop :=
  key = py "@message" \/ len s < 16383 \/ utf8_len s <= 32766.

(** [P] holds of every string field of the document, at any depth of
    nested maps. *)
Fixpoint all_fields (P : pystr -> pystr -> Prop) (v : value) : Prop :=
  match v with
  | VDict items =>
      (fix all (items : list (pystr * value)) : Prop :=
         match items with
         | [] => True
         | (key, x) :: items' =>
             match x with
             | VStr s => P key s
             | VDict _ => all_fields P x
             | _ => True
             end /\ all items'
         end) items
  | _ => True
  end.

(** Every character of the string can be encoded. *)
Definition encodable (s : pystr) : Prop :=
  Forall (fun c => Codec.encode_char c <> None) s.

End TruncateSpec.
(** ** Shapes of values and of keys *)

Module Shape.

(** Every dict of the value holds each of its keys once, as a Python dict
    does, at any depth. *)
Fixpoint unique_keys (v : value) : bool :=
  match v with
  | VList l =>
      (fix all (l : list value) : bool :=
         match l with
         | [] => true
         | x :: l' => unique_keys x && all l'
         end) l
  | VDict d =>
      (fix all (d : list (pystr * value)) : bool :=
         match d with
         | [] => true
         | (k, x) :: d' => negb (dict_has k d') && unique_keys x && all d'
         end) d
  | _ => true
  end.

(** The keys of a dict, in its order. *)
Definition keys {V} (d : list (pystr * V)) : list pystr := map fst d.

(** No string occurs twice in the list. *)
Fixpoint distinct (l : list pystr) : bool :=
  match l with
  | [] => true
  | k :: l' => negb (existsb (pystr_eqb k) l') && distinct l'
  end.

(** The value reached from [v] by descending through dicts along the keys
    [ks]. *)
Fixpoint at_path (v : value) (ks : list pystr) : option value :=
  match ks with
  | [] => Some v
  | k :: ks' =>
      match v with
      | VDict d =>
          match dict_get k d with
          | Some x => at_path x ks'
          | None => None
          end
      | _ => None
      end
  end.

(** The dotted key of a path: ['a.b.c'] for the keys a, b, c. *)
Fixpoint dotted (ks : list pystr) : pystr :=
  match ks with
  | [] => []
  | [k] => k
  | k :: ks' => k ++ [46] ++ dotted ks'
  end.

Definition is_letter (c : Z) : bool :=
  ((65 <=? c) && (c <=? 90)) || ((97 <=? c) && (c <=? 122)).

Definition name_start (k : pystr) : bool :=
  match k with
  | c :: _ => is_letter c || (c =? 95) || (c =? 64)
  | [] => false
  end.

(** A key that is the name of a field: it starts with an ASCII letter, an
    underscore or an at sign (so that [int(k)] fails), and holds neither a
    dot nor whitespace. *)
Definition field_name (k : pystr) : bool :=
  name_start k
  && forallb (fun c => negb (c =? 46) && negb (isspace c)) k.

(** A component of a dotted key: it is not empty and holds neither a dot
    nor whitespace. *)
Definition plain_word (k : pystr) : bool :=
  negb (len k =? 0)
  && forallb (fun c => negb (c =? 46) && negb (isspace c)) k.

(** A step of a path into a value: into a dict by the name of a field, or
    into a list or a string by an index. *)
Inductive step :=
| Field (k : pystr)
| Item (i : Z).

(** The component of the dotted key that takes the step. *)
Definition step_text (s : step) : pystr :=
  match s with
  | Field k => k
  | Item i => str_of_int i
  end.

(** A field has the name of a field; the text of an index is one that
    [int] converts. *)
Definition step_ok (s : step) : bool :=
  match s with
  | Field k => field_name k
  | Item i => len (str_of_int i) <=? Utils.max_str_digits
  end.

(** [l[i]] of Python: a negative index counts from the end. *)
Definition item {A} (l : list A) (i : Z) : option A :=
  let j := if i <? 0 then i + len l else i in
  if (0 <=? j) && (j <? len l) then nth_error l (Z.to_nat j) else None.

(** The value reached from [v] along the steps. *)
Fixpoint walk (v : value) (steps : list step) : option value :=
  match steps with
  | [] => Some v
  | Field k :: steps' =>
      match v with
      | VDict d =>
          match dict_get k d with
          | Some x => walk x steps'
          | None => None
          end
      | _ => None
      end
  | Item i :: steps' =>
      match v with
      | VList l =>
          match item l i with
          | Some x => walk x steps'
          | None => None
          end
      | VStr s =>
          match item s i with
          | Some c => walk (VStr [c]) steps'
          | None => None
          end
      | _ => None
      end
  end.

(** A map of patterns without nested maps. *)
Definition flat_patterns (items : list (pystr * Exclude.pattern)) : bool :=
  forallb (fun kp => match snd kp with
                     | Exclude.PDict _ => false
                     | _ => true
                     end) items.

(** A leaf pattern of the map that matches the record: the record has the
    key, with a value that is not a list, and the pattern matches the
    string form of the value. *)
Definition leaf_hit (py_str : value -> pystr) (log_dict : pydict)
    (items : list (pystr * Exclude.pattern)) : Prop :=
  exists key re v,
    In (key, Exclude.PRegex re) items
    /\ dict_get key log_dict = Some v
    /\ (forall l, v <> VList l)
    /\ re (py_str v) = true.

(** No dict of the value, at any depth of nested dicts, holds a value that
    [del_none] removes: [None], an empty dict or list, or one of the texts
    [''], ['-'], ['null'], ['[]']. *)
Fixpoint no_empty (v : value) : bool :=
  match v with
  | VDict d =>
      (fix all (d : list (pystr * value)) : bool :=
         match d with
         | [] => true
         | (_, x) :: d' =>
             negb (LogParser.removable x) && no_empty x && all d'
         end) d
  | _ => true
  end.

(** A record without its meta. *)
Definition bare (r : value * pydict) : value * pydict := (fst r, []).

(** A value that a merge of [bv] into it leaves as it is. *)
Definition absorbs (x bv : value) : Prop :=
  match x, bv with
  | VDict xd, VDict _ => Utils.merge xd bv = xd
  | _, _ => Utils.py_eq x bv = true
  end.

Section EcsFold.

Variable E : LogParser.env.
Variable self : LogParser.t.

(** The dict that holds the value found for one ECS key, if the record has
    a true value for it. *)
Definition ecs_entry (logdata_dict : pydict) (ecs_key : pystr)
  : result (option pydict) :=
  src <- match LogParser.ecs_source_of (LogParser.config self) ecs_key with
         | Some s => Ok s
         | None => Raise KeyError
         end ;;
  match src with
  | LogParser.SourceStr original_keys =>
      let v := LogParser.mapped_value E logdata_dict ecs_key original_keys in
      if truthy v
      then Ok (Some (LogParser.put_value_into_nesteddict E ecs_key v))
      else Ok None
  | LogParser.SourceList original_keys =>
      let temp_list :=
        filter truthy
          (map (LogParser.mapped_value E logdata_dict ecs_key)
               original_keys) in
      if negb (len temp_list =? 0) then
        l <- LogParser.sorted_set E temp_list ;;
        Ok (Some (LogParser.put_value_into_nesteddict E ecs_key (VList l)))
      else Ok None
  | LogParser.SourceOther => Ok None
  end.

(** The dict found for the ECS key, if any, holds each key once, as a
    Python dict does. *)
Definition entry_unique (logdata_dict : pydict) (ecs_key : pystr) : bool :=
  match ecs_entry logdata_dict ecs_key with
  | Ok (Some x) => unique_keys (VDict x)
  | _ => true
  end.

(** Every ECS key that has a value is merged into the dict, in the order
    of the keys; a key without a value changes nothing. *)
Fixpoint ecs_fold (logdata_dict : pydict) (ecs_keys : list pystr)
    (ecs_dict : pydict) : result pydict :=
  match ecs_keys with
  | [] => Ok ecs_dict
  | ecs_key :: ecs_keys' =>
      r <- ecs_entry logdata_dict ecs_key ;;
      match r with
      | Some x => ecs_fold logdata_dict ecs_keys' (Utils.merge_dicts ecs_dict x)
      | None => ecs_fold logdata_dict ecs_keys' ecs_dict
      end
  end.

End EcsFold.

End Shape.
(** ** Batches and shard jobs *)

Module Batches.
Import LogS3.

(** The list cut into pieces of [n] elements; the last piece may be
    shorter. *)
Fixpoint chunks_upto {A} (fuel : nat) (n : nat) (l : list A)
  : list (list A) :=
  match fuel with
  | O => []
  | S fuel' =>
      match l with
      | [] => []
      | _ :: _ => firstn n l :: chunks_upto fuel' n (skipn n l)
      end
  end.

Definition chunks {A} (n : nat) (l : list A) : list (list A) :=
  chunks_upto (List.length l) n l.

(** The batches up to the first one that the queue does not answer with
    status 200, that one included. *)
Fixpoint upto_refused (queue : list sqs_entry -> Z)
    (batches : list (list sqs_entry)) : list (list sqs_entry) :=
  match batches with
  | [] => []
  | b :: batches' =>
      if queue b =? 200 then b :: upto_refused queue batches' else [b]
  end.

(** Every batch is answered with status 200. *)
Definition all_accepted (queue : list sqs_entry -> Z)
    (batches : list (list sqs_entry)) : bool :=
  forallb (fun b => queue b =? 200) batches.

(** The instance that the invocation for a work-queue message builds: the
    same object and configuration, with the range of the message as
    [record['siem']]. *)
Definition shard_job (self : t) (m : queue_body) : t :=
  {| s3bucket := s3_bucket_name m;
     s3key := s3_object_key m;
     logtype := logtype self;
     siem := Some (Some (siem_start_number m), Some (siem_end_number m));
     via_cwl := via_cwl self;
     via_firelens := via_firelens self;
     fmt := fmt self;
     max_log_count := max_log_count self;
     text_header_line_number := text_header_line_number self;
     json_delimiter := json_delimiter self;
     ignore_container_stderr := ignore_container_stderr self;
     s3_key_ignored := s3_key_ignored self;
     re_multiline_firstline := re_multiline_firstline self;
     sqs_queue := sqs_queue self;
     content_length := content_length self;
     rawbody := rawbody self |}.

End Batches.
(** ** Concrete objects and jobs used in the examples *)

Module Demo.
Import LogS3.

(** A line feed. *)
Definition LF : pystr := [10].

(** JSON text, written with an apostrophe where the text has a double
    quote. *)
Definition pyj (s : string) : pystr :=
  map (fun c => if c =? 39 then 34 else c) (py s).

(** A JSON library restricted to the inputs of the examples: a finite table
    from input text to the value [json.loads] returns on it; any other
    input counts as malformed. *)
Definition loads_from (table : list (pystr * value)) (s : pystr)
  : result value :=
  match dict_get s table with
  | Some v => Ok v
  | None => Raise JSONDecodeError
  end.

(** [raw_decode(s, idx)] restricted in the same way: a table from
    [(s, idx)] to the decoded value and the end offset. *)
Fixpoint raw_decode_from (table : list (pystr * Z * (value * Z)))
    (s : pystr) (idx : Z) : result (value * Z) :=
  match table with
  | [] => Raise JSONDecodeError
  | (s', idx', r) :: table' =>
      if pystr_eqb s s' && (idx =? idx') then Ok r
      else raw_decode_from table' s idx
  end.

(** An object whose [winevtxml] events are not looked at. *)
Definition no_events_count (_ : list pystr) : Z := 0.
Definition no_events (_ : list pystr) (_ _ : Z) : gen (value * pydict) :=
  gen_done.

(** A work queue that accepts every batch. *)
Definition accepting_queue (_ : list sqs_entry) : Z := 200.

(** The objects of the examples are ASCII text, stored compressed: the
    bytes of the text are its code points, and the store reports the size
    of the compressed object. *)
Definition bytes_of (lines : list pystr) : list Z := concat lines.

Definition stored_size : option Z := Some 64.

(** The state of an instance that [__init__] does not ignore. *)
Definition loaded : state := fresh_state false None.

(** A plain-text object of [n] lines [line 0], [line 1], ... *)
Definition text_lines (n : Z) : list pystr :=
  map (fun i => py "line " ++ str_of_int i ++ LF) (range n).

Definition text_job (n max : Z) (shard : option (option Z * option Z))
    (queue : option (list sqs_entry -> Z)) : t :=
  {| s3bucket := py "bucket";
     s3key := py "logs/app.log";
     logtype := py "applog";
     siem := shard;
     via_cwl := false;
     via_firelens := false;
     fmt := text;
     max_log_count := max;
     text_header_line_number := 0;
     json_delimiter := [];
     ignore_container_stderr := false;
     s3_key_ignored := None;
     re_multiline_firstline := fun _ => false;
     sqs_queue := queue;
     content_length := stored_size;
     rawbody := bytes_of (text_lines n) |}.

(** An object of no bytes, as the store reports it, and an object that
    holds no line (a compressed object of some bytes that expands to
    nothing). *)
Definition empty_object : t :=
  {| s3bucket := py "bucket";
     s3key := py "logs/app.log";
     logtype := py "applog";
     siem := None;
     via_cwl := false;
     via_firelens := false;
     fmt := text;
     max_log_count := 10;
     text_header_line_number := 0;
     json_delimiter := [];
     ignore_container_stderr := false;
     s3_key_ignored := None;
     re_multiline_firstline := fun _ => false;
     sqs_queue := None;
     content_length := Some 0;
     rawbody := [] |}.

Definition blank_object : t := text_job 0 10 None None.

(** Two lines, a cap of two, and a work queue. *)
Definition two_lines : t := text_job 2 2 None (Some accepting_queue).

(** A CloudWatch Logs subscription object with one envelope of two events,
    and what the JSON decoder returns on it. *)
Definition cwl_body : pystr :=
  pyj "{'messageType':'DATA_MESSAGE','owner':'123','logGroup':'g','logStream':'s','logEvents':[{'id':'a','timestamp':1700000000000,'message':'x'},{'id':'b','timestamp':1700000000001,'message':'y'}]}".

Definition cwl_envelope : value :=
  VDict [(py "messageType", VStr (py "DATA_MESSAGE"));
         (py "owner", VStr (py "123"));
         (py "logGroup", VStr (py "g"));
         (py "logStream", VStr (py "s"));
         (py "logEvents",
          VList [VDict [(py "id", VStr (py "a"));
                        (py "timestamp", VInt 1700000000000);
                        (py "message", VStr (py "x"))];
                 VDict [(py "id", VStr (py "b"));
                        (py "timestamp", VInt 1700000000001);
                        (py "message", VStr (py "y"))]])].

Definition cwl_decoder : pystr -> Z -> result (value * Z) :=
  raw_decode_from [(cwl_body, 0, (cwl_envelope, len cwl_body))].

(** The envelope object under a cap of two records, with a work queue that
    accepts every batch. *)
Definition cwl_job (shard : option (option Z * option Z)) : t :=
  {| s3bucket := py "bucket";
     s3key := py "cwl/object.gz";
     logtype := py "applog";
     siem := shard;
     via_cwl := true;
     via_firelens := false;
     fmt := text;
     max_log_count := 2;
     text_header_line_number := 0;
     json_delimiter := [];
     ignore_container_stderr := false;
     s3_key_ignored := None;
     re_multiline_firstline := fun _ => false;
     sqs_queue := Some accepting_queue;
     content_length := stored_size;
     rawbody := bytes_of [cwl_body] |}.

(** A subscription object of two envelopes with one event each.  The
    message of the first envelope ends with a character of two bytes (an
    e with an acute accent), so the text of the first envelope is one
    character shorter than its bytes.  The decoder knows both envelopes:
    the first at the start of the whole text, the second at the start of
    its own text. *)
Definition accent_envelope (id_ : pystr) (ts : Z) (msg : pystr) : value :=
  VDict [(py "messageType", VStr (py "DATA_MESSAGE"));
         (py "owner", VStr (py "123"));
         (py "logGroup", VStr (py "g"));
         (py "logStream", VStr (py "s"));
         (py "logEvents",
          VList [VDict [(py "id", VStr id_);
                        (py "timestamp", VInt ts);
                        (py "message", VStr msg)]])].

Definition accent_first : list Z :=
  pyj "{'messageType':'DATA_MESSAGE','owner':'123','logGroup':'g','logStream':'s','logEvents':[{'id':'a','timestamp':1,'message':'caf"
  ++ [195; 169] ++ pyj "'}]}".

Definition accent_second : list Z :=
  pyj "{'messageType':'DATA_MESSAGE','owner':'123','logGroup':'g','logStream':'s','logEvents':[{'id':'b','timestamp':2,'message':'tea'}]}".

Definition accent_body : list Z := accent_first ++ accent_second.

Definition accent_decoder : pystr -> Z -> result (value * Z) :=
  raw_decode_from
    [(TextIO.read_from accent_body 0, 0,
      (accent_envelope (py "a") 1 (py "caf" ++ [233]),
       len (Codec.decode_ignore accent_first)));
     (Codec.decode_ignore accent_second, 0,
      (accent_envelope (py "b") 2 (py "tea"),
       len (Codec.decode_ignore accent_second)))].

Definition accent_job : t :=
  {| s3bucket := py "bucket";
     s3key := py "cwl/accent.gz";
     logtype := py "applog";
     siem := None;
     via_cwl := true;
     via_firelens := false;
     fmt := text;
     max_log_count := 10;
     text_header_line_number := 0;
     json_delimiter := [];
     ignore_container_stderr := false;
     s3_key_ignored := None;
     re_multiline_firstline := fun _ => false;
     sqs_queue := None;
     content_length := stored_size;
     rawbody := accent_body |}.

(** The message that stands for the records 1 to 2 of that object. *)
Definition cwl_message : queue_body :=
  {| siem_start_number := 1;
     siem_end_number := 2;
     s3_bucket_name := py "bucket";
     s3_object_key := py "cwl/object.gz" |}.

(** The pattern [^\d{4}-] on ASCII text. *)
Definition isdigit (c : Z) : bool := (48 <=? c) && (c <=? 57).

Definition starts_with_year (line : pystr) : bool :=
  match line with
  | a :: b :: c :: d :: e :: _ =>
      isdigit a && isdigit b && isdigit c && isdigit d && (e =? 45)
  | _ => false
  end.

(** Two multiline records of two lines each. *)
Definition multiline_lines : list pystr :=
  [py "2024-01-01 A" ++ LF; py "cont" ++ LF;
   py "2024-01-02 B" ++ LF; py "more" ++ LF].

Definition multiline_job (shard : option (option Z * option Z)) : t :=
  {| s3bucket := py "bucket";
     s3key := py "logs/multi.log";
     logtype := py "applog";
     siem := shard;
     via_cwl := false;
     via_firelens := false;
     fmt := multiline;
     max_log_count := 1;
     text_header_line_number := 0;
     json_delimiter := [];
     ignore_container_stderr := false;
     s3_key_ignored := None;
     re_multiline_firstline := starts_with_year;
     sqs_queue := None;
     content_length := stored_size;
     rawbody := bytes_of multiline_lines |}.

(** FireLens lines.  The first carries a log text that is not JSON, the
    second a log text that is the JSON object with a = 1, the third comes
    from the container's stderr. *)
Definition firelens_bad : pystr :=
  pyj "{'container_id':'c1','container_name':'n','source':'stdout','log':'not json'}"
  ++ LF.

Definition firelens_good : pystr :=
  pyj "{'container_id':'c1','container_name':'n','source':'stdout','log':'{\'a\':1}'}"
  ++ LF.

Definition firelens_stderr : pystr :=
  pyj "{'container_id':'c1','container_name':'n','source':'stderr','log':'boom'}"
  ++ LF.

Definition firelens_envelope (source log : pystr) : value :=
  VDict [(py "container_id", VStr (py "c1"));
         (py "container_name", VStr (py "n"));
         (py "source", VStr source);
         (py "log", VStr log)].

(** What [json.loads] returns on the texts of the example; the texts
    'not json' and 'boom' are malformed. *)
Definition firelens_loads : pystr -> result value :=
  loads_from
    [(strip firelens_bad, firelens_envelope (py "stdout") (py "not json"));
     (strip firelens_good, firelens_envelope (py "stdout") (pyj "{'a':1}"));
     (strip firelens_stderr, firelens_envelope (py "stderr") (py "boom"));
     (pyj "{'a':1}", VDict [(py "a", VInt 1)])].

Definition firelens_job (lines : list pystr) : t :=
  {| s3bucket := py "bucket";
     s3key := py "firelens/app.log";
     logtype := py "applog";
     siem := None;
     via_cwl := false;
     via_firelens := true;
     fmt := json;
     max_log_count := 100;
     text_header_line_number := 0;
     json_delimiter := [];
     ignore_container_stderr := false;
     s3_key_ignored := None;
     re_multiline_firstline := fun _ => false;
     sqs_queue := None;
     content_length := stored_size;
     rawbody := bytes_of lines |}.

(** The meta of a stdout record of container c1. *)
Definition firelens_stdout_meta : pydict :=
  [(py "container_id", VStr (py "c1"));
   (py "container_name", VStr (py "n"));
   (py "container_source", VStr (py "stdout"));
   (py "ecs_cluster", VNone);
   (py "ecs_task_arn", VNone);
   (py "ecs_task_definition", VNone)].

(** A CSV object: a header line and three rows, read under a cap of two
    records with a work queue that accepts every batch. *)
Definition csv_lines : list pystr :=
  [py "time host msg" ++ LF; py "t1 h1 m1" ++ LF; py "t2 h2 m2" ++ LF;
   py "t3 h3 m3" ++ LF].

Definition csv_job (shard : option (option Z * option Z)) : t :=
  {| s3bucket := py "bucket";
     s3key := py "logs/table.csv";
     logtype := py "applog";
     siem := shard;
     via_cwl := false;
     via_firelens := false;
     fmt := csv;
     max_log_count := 2;
     text_header_line_number := 0;
     json_delimiter := [];
     ignore_container_stderr := false;
     s3_key_ignored := None;
     re_multiline_firstline := fun _ => false;
     sqs_queue := Some accepting_queue;
     content_length := stored_size;
     rawbody := bytes_of csv_lines |}.

(** An NDJSON object of three records, and what the JSON decoder returns
    on each line. *)
Definition ndjson_line (n : Z) : pystr :=
  pyj "{'n':" ++ str_of_int n ++ py "}" ++ LF.

Definition ndjson_record (n : Z) : value := VDict [(py "n", VInt n)].

Definition ndjson_decoder : pystr -> Z -> result (value * Z) :=
  raw_decode_from
    [(ndjson_line 1, 0, (ndjson_record 1, 7));
     (ndjson_line 2, 0, (ndjson_record 2, 7));
     (ndjson_line 3, 0, (ndjson_record 3, 7))].

Definition ndjson_job (shard : option (option Z * option Z)) : t :=
  {| s3bucket := py "bucket";
     s3key := py "logs/events.json";
     logtype := py "applog";
     siem := shard;
     via_cwl := false;
     via_firelens := false;
     fmt := json;
     max_log_count := 100;
     text_header_line_number := 0;
     json_delimiter := [];
     ignore_container_stderr := false;
     s3_key_ignored := None;
     re_multiline_firstline := fun _ => false;
     sqs_queue := None;
     content_length := stored_size;
     rawbody := bytes_of [ndjson_line 1; ndjson_line 2; ndjson_line 3] |}.

(** [str(x)] for the scalars of the examples. *)
Definition str_of_scalar (v : value) : pystr :=
  match v with
  | VNone => py "None"
  | VBool true => py "True"
  | VBool false => py "False"
  | VInt n => str_of_int n
  | VStr s => s
  | VList _ | VDict _ => py "(a container)"
  end.

(** [re.compile('^' + str(n) + '$').match]: the text is [n], possibly
    followed by one line feed. *)
Definition re_exactly (n : Z) (s : pystr) : bool :=
  pystr_eqb s (str_of_int n) || pystr_eqb s (str_of_int n ++ LF).

Definition RE_BINGO : Exclude.pattern := Exclude.PRegex (re_exactly 111).
Definition RE_MISS : Exclude.pattern := Exclude.PRegex (re_exactly 222).

(** The patterns of the doctest of [match_log_with_exclude_patterns]. *)
Definition doctest_patterns : list (pystr * Exclude.pattern) :=
  [(py "a", RE_BINGO); (py "b", RE_MISS);
   (py "x", Exclude.PDict [(py "y", Exclude.PDict [(py "z", RE_BINGO)])])].

(** The same leaf patterns with the nested branch first. *)
Definition nested_first_patterns : list (pystr * Exclude.pattern) :=
  [(py "x", Exclude.PDict [(py "y", Exclude.PDict [(py "z", RE_BINGO)])]);
   (py "a", RE_BINGO)].

(** *** A normaliser for plain-text records *)

(** Modelled from the spec: [utils.put_value_into_nesteddict], which is not
    in this file: the value is placed at the dotted key path, dotted
    components creating nested maps. *)
Fixpoint nest (ks : list pystr) (v : value) : value :=
  match ks with
  | [] => v
  | k :: ks' => VDict [(k, nest ks' v)]
  end.

Definition put_value_into_nesteddict (key : pystr) (v : value) : pydict :=
  match nest (Utils.split_on 46 key) v with
  | VDict d => d
  | _ => []
  end.

(** The library and the collaborators for the examples: [json.dumps],
    [str] on scalars and the two look-ups are the functions of this
    development; the others are not exercised by the examples (no csv, no
    xml, no record that is a list, no timestamp key, no field mappings, no exclusion patterns, no
    script, no geo database). *)
Definition plain_env : LogParser.env :=
  {| LogParser.json_dumps := PyJson.dumps;
     LogParser.py_str := str_of_scalar;
     LogParser.py_repr := str_of_scalar;
     LogParser.dict_of_pairs := fun _ _ => Raise TypeError;
     LogParser.sorted_set := fun l => Ok l;
     LogParser.convert_keyname_to_safe_field := fun d => d;
     LogParser.value_from_nesteddict_by_dottedkey := Utils.value_by_dottedkey;
     LogParser.value_from_nesteddict_by_dottedkeylist :=
       Utils.get_value_from_dict;
     LogParser.put_value_into_nesteddict := put_value_into_nesteddict;
     LogParser.validate_ip := fun s _ => VStr s;
     LogParser.timestamp_of := fun _ _ => Ok None;
     LogParser.excluded := fun _ => false;
     LogParser.winevtxml_to_dict := fun _ => Raise Exception;
     LogParser.xmltodict_parse := fun _ => Raise Exception;
     LogParser.sf_transform := fun d => Ok d;
     LogParser.check_ipaddress := fun _ => (VNone, VNone) |}.

(** A pattern with the two named groups request_id (the characters before
    the first space, none of them whitespace) and msg (the rest of the
    line). *)
Fixpoint until_space (s : pystr) (cur : pystr) : option (pystr * pystr) :=
  match s with
  | [] => None
  | c :: s' =>
      if c =? 32 then (if len cur =? 0 then None else Some (cur, s'))
      else if isspace c then None
      else until_space s' (cur ++ [c])
  end.

Definition request_pattern (s : pystr) : option pydict :=
  match until_space s [] with
  | Some (a, b) => Some [(py "request_id", VStr a); (py "msg", VStr b)]
  | None => None
  end.

(** A configuration without field mappings; [doc_id] and [doc_id_suffix]
    as given. *)
Definition plain_config (doc_id doc_id_suffix : pystr)
  : LogParser.logconfig :=
  {| LogParser.timestamp_key := [];
     LogParser.doc_id := doc_id;
     LogParser.doc_id_suffix := doc_id_suffix;
     LogParser.json_to_text := [];
     LogParser.ecs := [];
     LogParser.ecs_source_of := fun _ => None;
     LogParser.static_ecs := [];
     LogParser.static_value_of := fun _ => None;
     LogParser.cloud_provider := [];
     LogParser.ecs_version := VStr (py "1.10.0");
     LogParser.geoip := [];
     LogParser.script_ecs := false;
     LogParser.log_pattern := Some request_pattern |}.

Definition plain_parser (doc_id doc_id_suffix : pystr) : LogParser.t :=
  {| LogParser.config := plain_config doc_id doc_id_suffix;
     LogParser.logtype := py "applog";
     LogParser.s3key := py "logs/app.log";
     LogParser.s3bucket := py "bucket";
     LogParser.logformat := py "text";
     LogParser.header := None |}.

(** A configuration that maps two ECS fields, [event.kind] from the
    field [kind] of the record and [host.name] from its field [host]. *)
Definition mapped_config : LogParser.logconfig :=
  {| LogParser.timestamp_key := [];
     LogParser.doc_id := [];
     LogParser.doc_id_suffix := [];
     LogParser.json_to_text := [];
     LogParser.ecs := py "event.kind host.name";
     LogParser.ecs_source_of :=
       fun k =>
         if pystr_eqb k (py "event.kind")
         then Some (LogParser.SourceStr (py "kind"))
         else if pystr_eqb k (py "host.name")
         then Some (LogParser.SourceStr (py "host"))
         else None;
     LogParser.static_ecs := [];
     LogParser.static_value_of := fun _ => None;
     LogParser.cloud_provider := [];
     LogParser.ecs_version := VStr (py "1.10.0");
     LogParser.geoip := [];
     LogParser.script_ecs := false;
     LogParser.log_pattern := Some request_pattern |}.

Definition mapped_parser : LogParser.t :=
  {| LogParser.config := mapped_config;
     LogParser.logtype := py "applog";
     LogParser.s3key := py "logs/app.log";
     LogParser.s3bucket := py "bucket";
     LogParser.logformat := py "json";
     LogParser.header := None |}.

Definition no_attrs : LogParser.attrs :=
  {| LogParser.loggroup := VNone; LogParser.logstream := VNone;
     LogParser.accountid := VNone; LogParser.region := VNone;
     LogParser.cwl_id := VNone; LogParser.cwl_timestamp := VNone;
     LogParser.cwe_id := VNone; LogParser.cwe_timestamp := VNone |}.

(** Two runs that differ only in what the clock shows. *)
Definition clock_1 : LogParser.clock :=
  {| LogParser.now_ingested := py "2024-03-04T10:00:00.000001+00:00";
     LogParser.now_timestamp := py "2024-03-04T10:00:00.000002+00:00" |}.


(** The record 'abc hello' once parsed, before the basic fields. *)
Definition parsed_record (c : LogParser.clock) : LogParser.doc :=
  {| LogParser.logdata := VStr (py "abc hello");
     LogParser.logmeta := [];
     LogParser.logdata_dict := [(py "request_id", VStr (py "abc"));
                                (py "msg", VStr (py "hello"))];
     LogParser.aliased := false;
     LogParser.at_ := no_attrs;
     LogParser.event_ingested := LogParser.now_ingested c;
     LogParser.skip_normalization := false;
     LogParser.timestamp := LogParser.now_timestamp c |}.

(** A small document, and a document with a raw record of 70,000
    characters and a field of 40,000 characters (all ASCII). *)
Definition small_document : pydict :=
  [(py "@id", VStr (py "abc")); (py "msg", VStr (py "hello"));
   (py "user", VDict [(py "name", VStr (py "-"))])].

Definition big_document : pydict :=
  [(py "@id", VStr (py "abc"));
   (py "@message", VStr (repeat 109 (Z.to_nat 70000)));
   (py "a", VStr (repeat 120 (Z.to_nat 40000)))].

(** A document with a field of 12,000 times the character U+3042
    (hiragana a), which takes three bytes in UTF-8 and six characters in
    the output of [json.dumps]. *)
Definition heavy_text : pystr := repeat 12354 (Z.to_nat 12000).

Definition heavy_document : pydict :=
  [(py "@id", VStr (py "abc")); (py "msg", VStr heavy_text)].

End Demo.
(* ================================================================== *)
(** * Properties *)
(* ================================================================== *)

(** ** Arithmetic and list helpers *)

Lemma range_length (n : Z) : 0 <= n -> Z.of_nat (length (range n)) = n.
Proof.
  intros H. unfold range. rewrite length_map, length_seq. lia.
Qed.

Lemma range_In (n x : Z) : In x (range n) <-> 0 <= x < n.
Proof.
  unfold range. rewrite in_map_iff. split.
  - intros [k [<- Hk]]. apply in_seq in Hk. lia.
  - intros H. exists (Z.to_nat x). split; [lia|]. apply in_seq. lia.
Qed.

Lemma range_succ (n : Z) : 0 <= n -> range (n + 1) = range n ++ [n].
Proof.
  intros H. unfold range.
  replace (Z.to_nat (n + 1)) with (Z.to_nat n + 1)%nat by lia.
  rewrite seq_app, map_app. simpl. f_equal. f_equal. lia.
Qed.

Lemma seq_shift_Z (s n : nat) :
  map Z.of_nat (seq s n) = map (fun i => Z.of_nat s + i) (map Z.of_nat (seq 0 n)).
Proof.
  revert s. induction n as [|n IH]; intros s; simpl; [reflexivity|].
  f_equal; [lia|].
  rewrite (IH (S s)), (IH 1%nat), !map_map.
  apply map_ext. intros; lia.
Qed.

Lemma range_app (a b : Z) :
  0 <= a -> 0 <= b -> range (a + b) = range a ++ map (fun i => a + i) (range b).
Proof.
  intros Ha Hb. unfold range.
  replace (Z.to_nat (a + b)) with (Z.to_nat a + Z.to_nat b)%nat by lia.
  rewrite seq_app, map_app. f_equal.
  simpl. rewrite seq_shift_Z.
  apply map_ext. intros; lia.
Qed.

Module SplitFacts.
Import LogS3.

Lemma ceil_div_spec (n m : Z) :
  1 <= m -> (ceil_div n m - 1) * m < n <= ceil_div n m * m.
Proof.
  intros Hm. unfold ceil_div.
  pose proof (Z.div_mod (n + m - 1) m ltac:(lia)) as E.
  pose proof (Z.mod_pos_bound (n + m - 1) m ltac:(lia)) as B.
  nia.
Qed.

Lemma ceil_div_cases (n m : Z) :
  1 <= m ->
  (if negb (n mod m =? 0) then n / m + 1 else n / m) = ceil_div n m.
Proof.
  intros Hm. unfold ceil_div.
  pose proof (Z.div_mod n m ltac:(lia)) as E.
  pose proof (Z.mod_pos_bound n m ltac:(lia)) as B.
  destruct (n mod m =? 0) eqn:Hz; simpl.
  - apply Z.eqb_eq in Hz. rewrite Hz in E.
    apply (Z.div_unique_pos _ _ _ (m - 1)); lia.
  - apply Z.eqb_neq in Hz.
    apply (Z.div_unique_pos _ _ _ (n mod m - 1)); lia.
Qed.

Lemma split_logs_closed (n m : Z) :
  1 <= n -> 1 <= m ->
  split_logs n m = Ok (map (shard n m) (range (ceil_div n m))).
Proof.
  intros Hn Hm. unfold split_logs.
  destruct (m =? 0) eqn:Hz; [apply Z.eqb_eq in Hz; lia|].
  rewrite (ceil_div_cases n m Hm). f_equal.
  apply map_ext_in. intros x Hx. apply range_In in Hx.
  pose proof (ceil_div_spec n m Hm) as C.
  pose proof (ceil_div_cases n m Hm) as D.
  pose proof (Z.div_mod n m ltac:(lia)) as E.
  pose proof (Z.mod_pos_bound n m ltac:(lia)) as B.
  unfold shard. f_equal.
  - destruct (x =? 0) eqn:Hx0; [apply Z.eqb_eq in Hx0; subst; lia | reflexivity].
  - destruct (x =? ceil_div n m - 1) eqn:Hl; simpl.
    + apply Z.eqb_eq in Hl.
      destruct (n mod m =? 0) eqn:Hmd; simpl in *.
      * apply Z.eqb_eq in Hmd.
        assert ((x + 1) * m = n) by (replace (x + 1) with (n / m) by lia; lia).
        lia.
      * assert (x * m + n mod m = n) by (replace x with (n / m) by lia; lia).
        assert (n <= (x + 1) * m) by (replace (x + 1) with (ceil_div n m) by lia; lia).
        lia.
    + apply Z.eqb_neq in Hl.
      assert ((x + 1) * m <= (ceil_div n m - 1) * m)
        by (apply Z.mul_le_mono_nonneg_r; lia).
      lia.
Qed.

Lemma shard_numbers_shard (n m x : Z) :
  1 <= m -> 0 <= x -> x * m < n ->
  shard_numbers (shard n m x)
  = map (fun i => 1 + i) (map (fun i => x * m + i) (range (Z.min ((x + 1) * m) n - x * m))).
Proof.
  intros Hm Hx Hlt. unfold shard_numbers, shard. cbn [fst snd].
  rewrite map_map.
  replace (Z.min ((x + 1) * m) n - (x * m + 1) + 1)
    with (Z.min ((x + 1) * m) n - x * m) by lia.
  apply map_ext. intros; lia.
Qed.

Lemma shards_cover (n m : Z) (k : nat) :
  1 <= n -> 1 <= m -> Z.of_nat k <= ceil_div n m ->
  flat_map shard_numbers (map (shard n m) (range (Z.of_nat k)))
  = map (fun i => 1 + i) (range (Z.min (Z.of_nat k * m) n)).
Proof.
  intros Hn Hm. induction k as [|k IH]; intros Hk.
  - simpl. replace (Z.min 0 n) with 0 by lia. reflexivity.
  - replace (Z.of_nat (S k)) with (Z.of_nat k + 1) in * by lia.
    rewrite range_succ by lia.
    rewrite map_app, flat_map_app, IH by lia. simpl. rewrite app_nil_r.
    pose proof (ceil_div_spec n m Hm) as C.
    assert (Hlt : Z.of_nat k * m < n) by nia.
    rewrite shard_numbers_shard by lia.
    rewrite <- map_app. f_equal.
    replace (Z.min (Z.of_nat k * m) n) with (Z.of_nat k * m) by lia.
    rewrite <- range_app by nia.
    f_equal. lia.
Qed.

Lemma contiguous_map_seq (f : Z -> Z * Z) (k s : nat) :
  (forall i, (s <= i)%nat -> (S i < s + k)%nat ->
     fst (f (Z.of_nat (S i))) = snd (f (Z.of_nat i)) + 1) ->
  contiguous (map f (map Z.of_nat (seq s k))).
Proof.
  revert s. induction k as [|k IH]; intros s H; simpl; [exact I|].
  destruct k as [|k]; simpl; [exact I|].
  split.
  - apply H; lia.
  - apply (IH (S s)). intros i H1 H2. apply H; lia.
Qed.

Lemma shards_contiguous (n m : Z) :
  1 <= n -> 1 <= m -> contiguous (map (shard n m) (range (ceil_div n m))).
Proof.
  intros Hn Hm. unfold range. apply contiguous_map_seq.
  intros i _ Hi. unfold shard. cbn [fst snd].
  pose proof (ceil_div_spec n m Hm) as C.
  assert ((Z.of_nat i + 1) * m <= (ceil_div n m - 1) * m)
    by (apply Z.mul_le_mono_nonneg_r; lia).
  replace (Z.of_nat (S i)) with (Z.of_nat i + 1) by lia. lia.
Qed.

Lemma shard_size (n m x : Z) :
  1 <= n -> 1 <= m -> 0 <= x < ceil_div n m ->
  1 <= snd (shard n m x) - fst (shard n m x) + 1 <= m
  /\ (x < ceil_div n m - 1 -> snd (shard n m x) - fst (shard n m x) + 1 = m).
Proof.
  intros Hn Hm Hx. unfold shard. cbn [fst snd].
  pose proof (ceil_div_spec n m Hm) as C.
  assert (x * m <= (ceil_div n m - 1) * m)
    by (apply Z.mul_le_mono_nonneg_r; lia).
  split; [lia|]. intros Hlt.
  assert ((x + 1) * m <= (ceil_div n m - 1) * m)
    by (apply Z.mul_le_mono_nonneg_r; lia).
  lia.
Qed.

Lemma NoDup_numbers (n : Z) : NoDup (map (fun i => 1 + i) (range n)).
Proof.
  unfold range. rewrite map_map.
  apply Finite.Injective_map_NoDup; [|apply seq_NoDup].
  intros a b H. lia.
Qed.

End SplitFacts.

(** ** C2: split_logs partitions [1..log_count] *)

Import LogS3.

(** C2. For [log_count >= 1] and [max_log_count >= 1], [split_logs] returns
    (without raising) exactly ceil(log_count / max_log_count) inclusive
    1-based ranges; each range starts one past the end of the previous one;
    the record numbers of the ranges, in order, are exactly 1, 2, ...,
    log_count with no number repeated; every range is non-empty and has at
    most [max_log_count] numbers, and every range but the last has exactly
    [max_log_count]. *)
Theorem C2_split_logs_partition (log_count max_log_count : Z) :
  1 <= log_count -> 1 <= max_log_count ->
  exists shards,
    split_logs log_count max_log_count = Ok shards
    /\ Z.of_nat (List.length shards) = ceil_div log_count max_log_count
    /\ (Z.of_nat (List.length shards) - 1) * max_log_count < log_count
        <= Z.of_nat (List.length shards) * max_log_count
    /\ contiguous shards
    /\ flat_map shard_numbers shards = map (fun i => 1 + i) (range log_count)
    /\ NoDup (flat_map shard_numbers shards)
    /\ Forall (fun r => 1 <= snd r - fst r + 1 <= max_log_count) shards
    /\ Forall (fun r => snd r - fst r + 1 = max_log_count) (removelast shards).
Proof.
  intros Hn Hm.
  pose proof (SplitFacts.ceil_div_spec log_count max_log_count Hm) as C.
  assert (Hc : 1 <= ceil_div log_count max_log_count) by nia.
  exists (map (shard log_count max_log_count)
              (range (ceil_div log_count max_log_count))).
  assert (Hlen : Z.of_nat (List.length
            (map (shard log_count max_log_count)
                 (range (ceil_div log_count max_log_count))))
          = ceil_div log_count max_log_count)
    by (rewrite length_map; apply range_length; lia).
  assert (Hcover : flat_map shard_numbers
            (map (shard log_count max_log_count)
                 (range (ceil_div log_count max_log_count)))
          = map (fun i => 1 + i) (range log_count)).
  { pose proof (SplitFacts.shards_cover log_count max_log_count
                  (Z.to_nat (ceil_div log_count max_log_count)) Hn Hm) as S.
    rewrite Z2Nat.id in S by lia. rewrite S by lia.
    f_equal. f_equal. lia. }
  split; [apply SplitFacts.split_logs_closed; assumption|].
  split; [exact Hlen|].
  split; [rewrite Hlen; exact C|].
  split; [apply SplitFacts.shards_contiguous; assumption|].
  split; [exact Hcover|].
  split; [rewrite Hcover; apply SplitFacts.NoDup_numbers|].
  split.
  - apply Forall_forall. intros r Hr. apply in_map_iff in Hr.
    destruct Hr as [x [<- Hx]]. apply range_In in Hx.
    apply SplitFacts.shard_size; assumption.
  - replace (ceil_div log_count max_log_count)
      with ((ceil_div log_count max_log_count - 1) + 1) by lia.
    rewrite range_succ, map_app by lia. cbn [map].
    rewrite removelast_last.
    apply Forall_forall. intros r Hr. apply in_map_iff in Hr.
    destruct Hr as [x [<- Hx]]. apply range_In in Hx.
    apply SplitFacts.shard_size; try assumption; lia.
Qed.

Lemma split_logs_returns (log_count max_log_count : Z) :
  1 <= log_count -> 1 <= max_log_count ->
  exists shards, split_logs log_count max_log_count = Ok shards.
Proof.
  intros Hn Hm. eexists. apply SplitFacts.split_logs_closed; assumption.
Qed.

Lemma C2_split_logs_partition_witness :
  exists shards,
    split_logs 25 10 = Ok shards
    /\ Z.of_nat (List.length shards) = ceil_div 25 10
    /\ (Z.of_nat (List.length shards) - 1) * 10 < 25
        <= Z.of_nat (List.length shards) * 10
    /\ contiguous shards
    /\ flat_map shard_numbers shards = map (fun i => 1 + i) (range 25)
    /\ NoDup (flat_map shard_numbers shards)
    /\ Forall (fun r => 1 <= snd r - fst r + 1 <= 10) shards
    /\ Forall (fun r => snd r - fst r + 1 = 10) (removelast shards).
Proof.
  apply (C2_split_logs_partition 25 10); lia.
Defined.

(** Scenario S5 of the specification. *)
Example split_logs_25_10 :
  split_logs 25 10 = Ok [(1, 10); (11, 20); (21, 25)].
Proof. reflexivity. Qed.

Example split_logs_zero_max : split_logs 25 0 = Raise ZeroDivisionError.
Proof. reflexivity. Qed.

(** ** The doctest of [get_value_from_dict] *)

Example get_value_doctest_1 :
  Utils.get_value_from_dict
    [(py "a", VDict [(py "b", VDict [(py "c", VInt 123)])])] (py "a.b.c")
  = VInt 123.
Proof. reflexivity. Qed.

Example get_value_doctest_2 :
  Utils.get_value_from_dict
    [(py "a", VDict [(py "b", VDict [(py "c", VInt 123)])])] (py "x.y.z")
  = VNone.
Proof. reflexivity. Qed.

Example get_value_doctest_3 :
  Utils.get_value_from_dict
    [(py "a", VDict [(py "b", VDict [(py "c", VInt 123)])])]
    (py "a.b.c x.y.z")
  = VInt 123.
Proof. reflexivity. Qed.

Example get_value_doctest_4 :
  Utils.get_value_from_dict
    [(py "a", VDict [(py "b", VList [VDict [(py "c", VInt 123)];
                                     VDict [(py "c", VInt 456)]])])]
    (py "a.b.0.c")
  = VInt 123.
Proof. reflexivity. Qed.

(** ** [json.dumps] on small values *)

Example dumps_nested :
  PyJson.dumps
    (VDict [(py "a", VList [VInt 1; VNone; VBool true]);
            (py "b", VStr (py "x" ++ [34; 10; 233; 128512]))])
  = Demo.pyj "{'a': [1, null, true], 'b': 'x\'\n\u00e9\ud83d\ude00'}".
Proof. vm_compute. reflexivity. Qed.

(** ** Dicts and [merge] *)

Module DictFacts.

Lemma pystr_eqb_refl (a : pystr) : pystr_eqb a a = true.
Proof.
  induction a as [|x a IH]; cbn; [reflexivity|].
  rewrite Z.eqb_refl. exact IH.
Qed.

Lemma pystr_eqb_eq (a b : pystr) : pystr_eqb a b = true <-> a = b.
Proof.
  split; [|intros ->; apply pystr_eqb_refl].
  revert b. induction a as [|x a IH]; intros [|y b]; cbn;
    try discriminate; [reflexivity|].
  intros H. apply andb_true_iff in H. destruct H as [H1 H2].
  apply Z.eqb_eq in H1. apply IH in H2. subst. reflexivity.
Qed.

Lemma dict_get_set {V} (k k' : pystr) (v : V) (d : list (pystr * V)) :
  dict_get k (dict_set k' v d)
  = if pystr_eqb k k' then Some v else dict_get k d.
Proof.
  induction d as [|[k0 v0] d IH]; cbn.
  - destruct (pystr_eqb k k'); reflexivity.
  - destruct (pystr_eqb k' k0) eqn:E0; cbn.
    + apply pystr_eqb_eq in E0. subst k0.
      destruct (pystr_eqb k k'); reflexivity.
    + rewrite IH.
      destruct (pystr_eqb k k0) eqn:E1; [|reflexivity].
      apply pystr_eqb_eq in E1. subst k0.
      destruct (pystr_eqb k k') eqn:E2; [|reflexivity].
      apply pystr_eqb_eq in E2. subst k'.
      rewrite pystr_eqb_refl in E0. discriminate.
Qed.

(** Only a string equals a string. *)
Lemma py_eq_str (av : value) (s : pystr) :
  Utils.py_eq av (VStr s) = true -> av = VStr s.
Proof.
  destruct av; cbn; try discriminate.
  intros H. apply pystr_eqb_eq in H. subst. reflexivity.
Qed.

Import Notions.

Lemma merge_dicts_cons (a : pydict) (key : pystr) (bv : value)
    (items : pydict) :
  Utils.merge_dicts a ((key, bv) :: items)
  = Utils.merge_dicts (merge_step a key bv) items.
Proof. reflexivity. Qed.

Lemma merge_dicts_nil (a : pydict) : Utils.merge_dicts a [] = a.
Proof. reflexivity. Qed.

Lemma merge_step_get (a : pydict) (key k : pystr) (bv : value) :
  dict_get k (merge_step a key bv)
  = if pystr_eqb k key then Some (merged (dict_get key a) bv)
    else dict_get k a.
Proof.
  unfold merge_step, merged.
  destruct (pystr_eqb k key) eqn:Ek.
  - apply pystr_eqb_eq in Ek. subst k.
    destruct (dict_get key a) as [av|] eqn:Ea.
    + destruct av, bv; try (rewrite dict_get_set, pystr_eqb_refl; reflexivity);
        match goal with
        | |- context [if ?c then _ else _] =>
            destruct c;
            [exact Ea | rewrite dict_get_set, pystr_eqb_refl; reflexivity]
        end.
    + rewrite dict_get_set, pystr_eqb_refl. reflexivity.
  - destruct (dict_get key a) as [av|] eqn:Ea.
    + destruct av, bv; try (rewrite dict_get_set, Ek; reflexivity);
        match goal with
        | |- context [if ?c then _ else _] =>
            destruct c; [reflexivity | rewrite dict_get_set, Ek; reflexivity]
        end.
    + rewrite dict_get_set, Ek. reflexivity.
Qed.

(** A key that [b] does not have keeps its value. *)
Lemma merge_dicts_get_other (k : pystr) (b a : pydict) :
  dict_get k b = None ->
  dict_get k (Utils.merge_dicts a b) = dict_get k a.
Proof.
  revert a. induction b as [|[key bv] b IH]; intros a H.
  - reflexivity.
  - cbn in H. destruct (pystr_eqb k key) eqn:Ek; [discriminate|].
    rewrite merge_dicts_cons, IH by exact H.
    rewrite merge_step_get, Ek. reflexivity.
Qed.

(** A key that [b] has once gets the merged value. *)
Lemma merge_dicts_get_here (k : pystr) (bv : value) (pre post a : pydict) :
  dict_get k pre = None ->
  dict_get k post = None ->
  dict_get k (Utils.merge_dicts a (pre ++ (k, bv) :: post))
  = Some (merged (dict_get k a) bv).
Proof.
  revert a. induction pre as [|[key v] pre IH]; intros a Hpre Hpost.
  - cbn [app]. rewrite merge_dicts_cons, merge_dicts_get_other by exact Hpost.
    rewrite merge_step_get, pystr_eqb_refl. reflexivity.
  - cbn in Hpre. destruct (pystr_eqb k key) eqn:Ek; [discriminate|].
    cbn [app]. rewrite merge_dicts_cons, IH by assumption.
    rewrite merge_step_get, Ek. reflexivity.
Qed.

Lemma merged_str (old : option value) (s : pystr) :
  merged old (VStr s) = VStr s.
Proof.
  destruct old as [av|]; [|reflexivity]. cbn.
  destruct av; cbn; try reflexivity.
  destruct (pystr_eqb s0 s) eqn:Eq; [|reflexivity].
  apply pystr_eqb_eq in Eq. subst. reflexivity.
Qed.

End DictFacts.

(** ** Slices and index windows *)

Module WindowFacts.

Lemma len_nonneg {A} (l : list A) : 0 <= len l.
Proof. unfold len. lia. Qed.

Lemma len_app {A} (l1 l2 : list A) : len (l1 ++ l2) = len l1 + len l2.
Proof. unfold len. rewrite length_app. lia. Qed.

Lemma len_map {A B} (f : A -> B) (l : list A) : len (map f l) = len l.
Proof. unfold len. rewrite length_map. reflexivity. Qed.

Lemma len_cons {A} (x : A) (l : list A) : len (x :: l) = 1 + len l.
Proof. unfold len. cbn [List.length]. lia. Qed.

(** A slice with non-negative bounds, in terms of [firstn] and [skipn]. *)
Lemma py_slice_nonneg {A} (l : list A) (s e : Z) :
  0 <= s -> 0 <= e ->
  py_slice l s e = firstn (Z.to_nat (e - s)) (skipn (Z.to_nat s) l).
Proof.
  intros Hs He. unfold py_slice, slice_index.
  destruct (s <? 0) eqn:E1; [apply Z.ltb_lt in E1; lia|].
  destruct (e <? 0) eqn:E2; [apply Z.ltb_lt in E2; lia|].
  pose proof (len_nonneg l) as Hl.
  destruct (Z.le_gt_cases (len l) s) as [Hge | Hlt].
  - rewrite !skipn_all2 by (unfold len in *; lia).
    rewrite !firstn_nil. reflexivity.
  - replace (Z.min s (len l)) with s by lia.
    destruct (Z.le_gt_cases e (len l)) as [Hle | Hgt].
    + replace (Z.min e (len l)) with e by lia. reflexivity.
    + replace (Z.min e (len l)) with (len l) by lia.
      rewrite !firstn_all2; [reflexivity | |];
        rewrite length_skipn; unfold len in *; lia.
Qed.

(** The slice from [s] to [e] holds the elements at positions [s], [s+1],
    ..., up to [e-1] or the end of the list. *)
Lemma py_slice_nth_error {A} (l : list A) (s e : Z) (i : nat) :
  0 <= s -> 0 <= e ->
  nth_error (py_slice l s e) i
  = if Z.of_nat i <? e - s then nth_error l (Z.to_nat s + i) else None.
Proof.
  intros Hs He. rewrite py_slice_nonneg by assumption.
  rewrite nth_error_firstn.
  destruct (Z.of_nat i <? e - s) eqn:E.
  - apply Z.ltb_lt in E.
    replace (i <? Z.to_nat (e - s))%nat with true
      by (symmetry; apply Nat.ltb_lt; lia).
    apply nth_error_skipn.
  - apply Z.ltb_ge in E.
    replace (i <? Z.to_nat (e - s))%nat with false
      by (symmetry; apply Nat.ltb_ge; lia).
    reflexivity.
Qed.

Lemma py_slice_length {A} (l : list A) (s e : Z) :
  0 <= s <= e ->
  len (py_slice l s e) = Z.max 0 (Z.min e (len l) - s).
Proof.
  intros H. rewrite py_slice_nonneg by lia. unfold len.
  rewrite length_firstn, length_skipn. lia.
Qed.

Lemma py_slice_map {A B} (f : A -> B) (l : list A) (s e : Z) :
  py_slice (map f l) s e = map f (py_slice l s e).
Proof.
  unfold py_slice, slice_index. rewrite len_map.
  rewrite skipn_map, firstn_map. reflexivity.
Qed.

Lemma take_range_app {A} (s e : Z) (l1 l2 : list A) (k : Z) :
  take_range s e k (l1 ++ l2)
  = take_range s e k l1 ++ take_range s e (k + len l1) l2.
Proof.
  revert k. induction l1 as [|x l1 IH]; intros k; cbn [take_range app].
  - unfold len. cbn. f_equal. lia.
  - rewrite IH, len_cons.
    replace (k + 1 + len l1) with (k + (1 + len l1)) by lia.
    destruct ((s <=? k) && (k <? e)); reflexivity.
Qed.

Lemma take_range_map {A B} (f : A -> B) (s e : Z) (l : list A) (k : Z) :
  take_range s e k (map f l) = map f (take_range s e k l).
Proof.
  revert k. induction l as [|x l IH]; intros k; cbn; [reflexivity|].
  rewrite IH. destruct ((s <=? k) && (k <? e)); reflexivity.
Qed.

Lemma take_range_shift {A} (s e d : Z) (l : list A) (k : Z) :
  take_range (s + d) (e + d) (k + d) l = take_range s e k l.
Proof.
  revert k. induction l as [|x l IH]; intros k; cbn; [reflexivity|].
  replace (k + d + 1) with (k + 1 + d) by lia. rewrite IH.
  replace ((s + d <=? k + d) && (k + d <? e + d))
    with ((s <=? k) && (k <? e)); [reflexivity|].
  f_equal; [destruct (s <=? k) eqn:E1, (s + d <=? k + d) eqn:E2
           | destruct (k <? e) eqn:E1, (k + d <? e + d) eqn:E2];
    try reflexivity;
    rewrite ?Z.leb_le, ?Z.leb_gt, ?Z.ltb_lt, ?Z.ltb_ge in *; lia.
Qed.

Lemma take_range_firstn_skipn {A} (s e : Z) (l : list A) (k : Z) :
  take_range s e k l
  = firstn (Z.to_nat (e - Z.max s k)) (skipn (Z.to_nat (s - k)) l).
Proof.
  revert k. induction l as [|x l IH]; intros k; cbn [take_range].
  - rewrite skipn_nil, firstn_nil. reflexivity.
  - rewrite IH.
    destruct (s <=? k) eqn:E1; cbn [andb].
    + apply Z.leb_le in E1.
      replace (Z.to_nat (s - k)) with 0%nat by lia.
      replace (Z.to_nat (s - (k + 1))) with 0%nat by lia.
      cbn [skipn].
      destruct (k <? e) eqn:E2.
      * apply Z.ltb_lt in E2.
        replace (Z.to_nat (e - Z.max s k))
          with (S (Z.to_nat (e - Z.max s (k + 1)))) by lia.
        reflexivity.
      * apply Z.ltb_ge in E2.
        replace (Z.to_nat (e - Z.max s k)) with 0%nat by lia.
        replace (Z.to_nat (e - Z.max s (k + 1))) with 0%nat by lia.
        reflexivity.
    + apply Z.leb_gt in E1.
      replace (Z.to_nat (s - k)) with (S (Z.to_nat (s - (k + 1)))) by lia.
      cbn [skipn].
      replace (Z.max s (k + 1)) with (Z.max s k) by lia.
      reflexivity.
Qed.

(** Selecting by index from 0 is slicing. *)
Lemma take_range_slice {A} (s e : Z) (l : list A) :
  0 <= s -> 0 <= e -> take_range s e 0 l = py_slice l s e.
Proof.
  intros Hs He. rewrite take_range_firstn_skipn, py_slice_nonneg by lia.
  replace (Z.max s 0) with s by lia. replace (s - 0) with s by lia.
  reflexivity.
Qed.

(** *** Generators *)

Lemma gen_for_app {A B} (f : A -> result B) (l1 l2 : list A) :
  gen_for f (l1 ++ l2) = gen_seq (gen_for f l1) (gen_for f l2).
Proof.
  induction l1 as [|a l1 IH]; cbn.
  - destruct (gen_for f l2). reflexivity.
  - destruct (f a) as [b|e]; [|reflexivity].
    rewrite IH. unfold gen_seq, gen_yield. cbn.
    destruct (gen_for f l1) as [ys [e|]]; reflexivity.
Qed.

End WindowFacts.

(** ** State bookkeeping of LogS3 *)

Module IterFacts.
Import LogS3.

Section WithLibrary.

Variable json_loads : pystr -> result value.
Variable raw_decode : pystr -> Z -> result (value * Z).
Variable winevtxml_count_event : list pystr -> Z.
Variable winevtxml_extract_event :
  list pystr -> Z -> Z -> gen (value * pydict).

Abbreviation log_count := (log_count raw_decode winevtxml_count_event).
Abbreviation logdata_generator :=
  (logdata_generator json_loads raw_decode winevtxml_count_event
     winevtxml_extract_event).
Abbreviation iter :=
  (iter json_loads raw_decode winevtxml_count_event winevtxml_extract_event).
Abbreviation set_start_end_position :=
  (set_start_end_position raw_decode winevtxml_count_event).

Abbreviation log_count_body := (log_count_body raw_decode winevtxml_count_event).

(** An instance that [__init__] leaves not ignored starts with nothing
    counted, the stream at its start and nothing sent. *)
Lemma init_not_ignored (self : t) (st : state) :
  init_state self = Ok st -> is_ignored st = false ->
  st = fresh_state false None.
Proof.
  unfold init_state.
  destruct (is_ignored_init self) as [[b r]|e]; cbn [bind fst snd];
    [|discriminate].
  destruct b.
  - intros H. inversion H; subst. discriminate.
  - destruct (s3size self <? 20); intros H; inversion H; subst;
      [discriminate | reflexivity].
Qed.

(** Computing [log_count] never touches the work queue. *)
Lemma log_count_body_sent (self : t) (st st' : state) (n : Z) :
  log_count_body self st = Ok (n, st') -> sent st' = sent st.
Proof.
  unfold LogS3.log_count_body.
  destruct (via_cwl self).
  - destruct (cwl_count_events _ _) as [k|e]; cbn; intros H; inversion H.
    reflexivity.
  - destruct (end_number self =? 0).
    + match goal with
      | |- context [bind ?c _] => destruct c as [k|e]
      end; cbn; intros H; inversion H; subst.
      repeat match goal with
             | |- context [if ?x then _ else _] => destruct x
             end; reflexivity.
    + intros H; inversion H. reflexivity.
Qed.

Lemma log_count_sent (self : t) (st st' : state) (n : Z) :
  log_count self st = Ok (n, st') -> sent st' = sent st.
Proof.
  unfold LogS3.log_count. destruct (log_count_cache st) as [c|].
  - intros H. inversion H. reflexivity.
  - destruct (log_count_body self st) as [[k s]|e] eqn:Hb; cbn;
      intros H; inversion H; subst.
    apply log_count_body_sent in Hb. exact Hb.
Qed.

(** Once computed, [log_count] is served from the cache. *)
Lemma log_count_cached (self : t) (st st' : state) (n : Z) :
  log_count self st = Ok (n, st') -> log_count self st' = Ok (n, st').
Proof.
  unfold LogS3.log_count. destruct (log_count_cache st) as [c|] eqn:Hc.
  - intros H. inversion H; subst. rewrite Hc. reflexivity.
  - destruct (log_count_body self st) as [[k s]|e]; cbn;
      intros H; inversion H; subst. reflexivity.
Qed.

Lemma logdata_generator_sent (self : t) (st : state) :
  sent (snd (logdata_generator self st)) = sent st.
Proof.
  unfold LogS3.logdata_generator, LogS3.set_start_end_position.
  destruct (start_number self <=? ignore_header_line_number self).
  - destruct (log_count self st) as [[n st']|e] eqn:H; cbn; [|reflexivity].
    apply log_count_sent in H. exact H.
  - cbn. reflexivity.
Qed.

(** *** The batches [send_meta_to_sqs] submits *)

Lemma fold_add_sent (bs : list (list sqs_entry)) (st : state) :
  sent (fold_left add_sent bs st) = sent st ++ bs.
Proof.
  revert st. induction bs as [|b bs IH]; intros st; cbn.
  - rewrite app_nil_r. reflexivity.
  - rewrite IH. cbn. rewrite <- app_assoc. reflexivity.
Qed.

Lemma send_loop_ok (self : t) (queue : list sqs_entry -> Z) (last_num : Z)
    (metadata : list (Z * Z)) :
  (forall b, queue b = 200) ->
  forall (i : Z) (entries : list sqs_entry) (st : state),
    i + len metadata = last_num ->
    len entries < 10 ->
    (metadata = [] -> entries = []) ->
    exists batches,
      send_loop self queue last_num i entries metadata st
      = (None, fold_left add_sent batches st)
      /\ concat batches = entries ++ map (queue_entry self) metadata
      /\ Forall (fun b => 1 <= len b <= 10) batches.
Proof.
  intros Hq. induction metadata as [|r metadata IH];
    intros i entries st Hi Hlen Hnil.
  - exists []. rewrite (Hnil eq_refl). cbn. auto.
  - cbn [send_loop].
    assert (Hl : len (entries ++ [queue_entry self r]) = len entries + 1).
    { unfold len. rewrite length_app. cbn. lia. }
    assert (Hpos : 0 <= len entries) by (unfold len; lia).
    destruct ((len (entries ++ [queue_entry self r]) =? 10)
              || (i =? last_num - 1)) eqn:Hflush.
    + rewrite Hq. cbn [Z.eqb negb].
      replace (negb (200 =? 200)) with false by reflexivity.
      destruct (IH (i + 1) [] (add_sent st (entries ++ [queue_entry self r])))
        as [bs [E [C F]]].
      * unfold len in *. cbn [List.length] in Hi. lia.
      * unfold len. cbn. lia.
      * reflexivity.
      * exists ((entries ++ [queue_entry self r]) :: bs).
        split; [exact E|]. split.
        -- cbn [concat]. rewrite C. cbn. rewrite <- app_assoc. reflexivity.
        -- constructor; [lia | exact F].
    + apply orb_false_iff in Hflush. destruct Hflush as [H10 Hlast].
      apply Z.eqb_neq in H10. apply Z.eqb_neq in Hlast.
      destruct (IH (i + 1) (entries ++ [queue_entry self r]) st)
        as [bs [E [C F]]].
      * unfold len in *. cbn [List.length] in Hi. lia.
      * lia.
      * intros ->. unfold len in *. cbn [List.length] in Hi. lia.
      * exists bs. split; [exact E|]. split; [|exact F].
        rewrite C. cbn. rewrite <- app_assoc. reflexivity.
Qed.

End WithLibrary.

End IterFacts.

(** ** C3: when iterating shards the object *)

Section C3.
Import LogS3.

Variable json_loads : pystr -> result value.
Variable raw_decode : pystr -> Z -> result (value * Z).
Variable winevtxml_count_event : list pystr -> Z.
Variable winevtxml_extract_event :
  list pystr -> Z -> Z -> gen (value * pydict).

(** C3 (amended). Iterating a LogSource that is not ignored and whose
    [log_count] is [n], with [max_log_count >= 1] and a work queue that
    answers 200 to every batch:
    - when [n >= max_log_count] and a work queue was supplied, the shard
      descriptors of [split_logs n max_log_count] are submitted in order,
      in batches of 1 to 10 entries; no record is yielded; the instance
      becomes ignored with reason 'Log file was split into N pieces and sent
      to SQS.' where N is the number of shards, and [total_log_count] is 0;
    - when [n < max_log_count], or no work queue was supplied, the
      invocation yields what [logdata_generator] yields for its window and
      submits nothing. *)
Theorem C3_sharding_trigger (self : t) (st st1 : state) (n : Z) :
  is_ignored st = false ->
  log_count raw_decode winevtxml_count_event self st = Ok (n, st1) ->
  1 <= max_log_count self ->
  (forall queue b, sqs_queue self = Some queue -> queue b = 200) ->
  (max_log_count self <= n -> sqs_queue self <> None ->
   exists shards batches,
     split_logs n (max_log_count self) = Ok shards
     /\ concat batches = map (queue_entry self) shards
     /\ Forall (fun b => 1 <= len b <= 10) batches
     /\ iter json_loads raw_decode winevtxml_count_event
          winevtxml_extract_event self st
        = (gen_done,
           set_ignored (set_total_log_count (fold_left add_sent batches st1) 0)
             (split_reason (len shards))))
  /\ (n < max_log_count self \/ sqs_queue self = None ->
      iter json_loads raw_decode winevtxml_count_event
        winevtxml_extract_event self st
      = logdata_generator json_loads raw_decode winevtxml_count_event
          winevtxml_extract_event self st1
      /\ sent (snd (iter json_loads raw_decode winevtxml_count_event
                      winevtxml_extract_event self st)) = sent st1).
Proof.
  intros Hign Hcount Hmax Hq. split.
  - intros Hge Hsqs.
    destruct (sqs_queue self) as [queue|] eqn:Eq; [|congruence].
    assert (Hn : 1 <= n) by lia.
    destruct (split_logs_returns n (max_log_count self) Hn Hmax)
      as [shards Hsplit].
    destruct (IterFacts.send_loop_ok self queue (len shards) shards
                (fun b => Hq queue b eq_refl) 0 [] st1)
      as [batches [E [C F]]]; [lia | unfold len; cbn; lia | reflexivity |].
    exists shards, batches.
    split; [exact Hsplit|]. split; [exact C|]. split; [exact F|].
    unfold LogS3.iter. rewrite Hign, Hcount.
    destruct (max_log_count self <=? n) eqn:Hle;
      [|apply Z.leb_gt in Hle; lia].
    rewrite Eq, Hsplit. unfold send_meta_to_sqs.
    rewrite E. reflexivity.
  - intros Hno.
    assert (E : iter json_loads raw_decode winevtxml_count_event
                  winevtxml_extract_event self st
                = logdata_generator json_loads raw_decode
                    winevtxml_count_event winevtxml_extract_event self st1).
    { unfold LogS3.iter. rewrite Hign, Hcount.
      destruct (max_log_count self <=? n) eqn:Hle; [|reflexivity].
      apply Z.leb_le in Hle.
      destruct Hno as [Hlt | Hnone]; [lia|].
      rewrite Hnone. reflexivity. }
    split; [exact E|]. rewrite E. apply IterFacts.logdata_generator_sent.
Qed.

End C3.

Lemma C3_sharding_trigger_witness :
  (max_log_count Demo.two_lines <= 2 -> sqs_queue Demo.two_lines <> None ->
   exists shards batches,
     LogS3.split_logs 2 (max_log_count Demo.two_lines) = Ok shards
     /\ concat batches = map (queue_entry Demo.two_lines) shards
     /\ Forall (fun b => 1 <= len b <= 10) batches
     /\ LogS3.iter (Demo.loads_from []) (Demo.raw_decode_from [])
          Demo.no_events_count Demo.no_events Demo.two_lines
          Demo.loaded
        = (gen_done,
           set_ignored
             (set_total_log_count
                (fold_left add_sent batches
                   (set_log_count_cache
                      (set_pos Demo.loaded 14) 2)) 0)
             (split_reason (len shards))))
  /\ (2 < max_log_count Demo.two_lines \/ sqs_queue Demo.two_lines = None ->
      LogS3.iter (Demo.loads_from []) (Demo.raw_decode_from [])
        Demo.no_events_count Demo.no_events Demo.two_lines
        Demo.loaded
      = logdata_generator (Demo.loads_from []) (Demo.raw_decode_from [])
          Demo.no_events_count Demo.no_events Demo.two_lines
          (set_log_count_cache
             (set_pos Demo.loaded 14) 2)
      /\ sent (snd (LogS3.iter (Demo.loads_from []) (Demo.raw_decode_from [])
                      Demo.no_events_count Demo.no_events Demo.two_lines
                      Demo.loaded))
         = sent (set_log_count_cache
                   (set_pos Demo.loaded 14) 2)).
Proof.
  apply (C3_sharding_trigger (Demo.loads_from []) (Demo.raw_decode_from [])
           Demo.no_events_count Demo.no_events Demo.two_lines
           Demo.loaded).
  - reflexivity.
  - reflexivity.
  - cbn. lia.
  - intros queue b H. inversion H. reflexivity.
Defined.

(** C3, as the specification states it, fails when [log_count] equals
    [max_log_count]: two lines with a cap of two are not more than the cap,
    yet the object is split: one descriptor is submitted, nothing is yielded
    and the instance is ignored. *)
Lemma C3_counterexample :
  let self := Demo.two_lines in
  let run := LogS3.iter (Demo.loads_from []) (Demo.raw_decode_from [])
               Demo.no_events_count Demo.no_events self Demo.loaded in
  init_state self = Ok Demo.loaded
  /\ (exists st1,
        LogS3.log_count (Demo.raw_decode_from []) Demo.no_events_count self
          Demo.loaded = Ok (2, st1))
  /\ ~ (2 > max_log_count self)
  /\ fst run = gen_done
  /\ sent (snd run)
     = [[ {| Id := py "num_1";
             MessageBody := {| siem_start_number := 1;
                               siem_end_number := 2;
                               s3_bucket_name := py "bucket";
                               s3_object_key := py "logs/app.log" |} |} ]]
  /\ is_ignored (snd run) = true
  /\ ignored_reason (snd run)
     = Some (py "Log file was split into 1 pieces and sent to SQS.").
Proof.
  cbv zeta. split; [reflexivity|]. split; [eexists; reflexivity|].
  split; [cbn; lia|].
  repeat split.
Qed.
(** ** C10: [log_count] of a shard invocation *)

Module ShardCount.
Import LogS3.

Section WithLibrary.

Variable raw_decode : pystr -> Z -> result (value * Z).
Variable winevtxml_count_event : list pystr -> Z.

(** An invocation that is not [via_cwl] and carries a shard range
    ([end_number <> 0]) takes [log_count] from the range: the result is
    [end_number - start_number] on every object body, the stream is not
    read, and the instance is not marked ignored. *)
Lemma shard_log_count (self : t) (st : state) :
  via_cwl self = false ->
  end_number self <> 0 ->
  log_count_cache st = None ->
  forall body,
    log_count raw_decode winevtxml_count_event (with_rawbody self body) st
    = Ok (end_number self - start_number self,
          set_log_count_cache st (end_number self - start_number self)).
Proof.
  intros Hcwl Hend Hcache body. unfold log_count, log_count_body.
  rewrite Hcache.
  change (via_cwl (with_rawbody self body)) with (via_cwl self).
  change (end_number (with_rawbody self body)) with (end_number self).
  change (start_number (with_rawbody self body)) with (start_number self).
  rewrite Hcwl.
  destruct (end_number self =? 0) eqn:Hz;
    [apply Z.eqb_eq in Hz; contradiction|].
  reflexivity.
Qed.

End WithLibrary.

End ShardCount.

(** C10. A CloudWatch Logs object of two log events, read under a cap of
    two records with a work queue.  The invocation without a range counts
    two events and splits the object: one message, for the records 1 to 2.
    The invocation for that message carries the range 1..2, so its
    [log_count] should be 2 - 1 = 1, taken from the range without reading
    the object, as it is for every input that is not [via_cwl]
    ([ShardCount.shard_log_count]).  Instead the decorator
    [deco_cwl_logcount] reads the object to its end and counts its two
    events; the count reaches the cap, so the shard is split again: the
    same message is sent, the instance is ignored, and no record of the
    object is ever yielded. *)
Theorem C10_cwl_shard_counts_whole_object :
  let first := Demo.cwl_job None in
  let job := Batches.shard_job first Demo.cwl_message in
  let iter := LogS3.iter (Demo.loads_from []) Demo.cwl_decoder
                Demo.no_events_count Demo.no_events in
  init_state first = Ok Demo.loaded
  /\ fst (iter first Demo.loaded) = gen_done
  /\ map (map MessageBody) (sent (snd (iter first Demo.loaded)))
     = [[Demo.cwl_message]]
  /\ init_state job = Ok Demo.loaded
  /\ (start_number job, end_number job) = (1, 2)
  /\ log_count Demo.cwl_decoder Demo.no_events_count job Demo.loaded
     = Ok (2, set_log_count_cache (set_pos Demo.loaded (len (rawbody job)))
                2)
  /\ fst (iter job Demo.loaded) = gen_done
  /\ map (map MessageBody) (sent (snd (iter job Demo.loaded)))
     = [[Demo.cwl_message]]
  /\ is_ignored (snd (iter job Demo.loaded)) = true.
Proof.
  cbv zeta. repeat split; vm_compute; reflexivity.
Qed.

(** A shard whose range is empty: [log_count] is 0 and the instance is not
    marked ignored. *)
Example shard_with_empty_range :
  let self := Demo.text_job 25 10 (Some (Some 11, Some 11)) None in
  exists st,
    log_count (Demo.raw_decode_from []) Demo.no_events_count self
      Demo.loaded = Ok (0, st)
    /\ is_ignored st = false.
Proof. cbv zeta. eexists. split; reflexivity. Qed.

(** ** C4: record boundaries of the multiline reader *)

Module MultilineFacts.
Import LogS3 MultilineSpec.

Lemma count_multiline_loop_add (self : t) (lines : list pystr) (c : Z) :
  count_multiline_loop self lines c = c + count_multiline_loop self lines 0.
Proof.
  revert c. induction lines as [|line lines IH]; intros c; cbn; [lia|].
  destruct (match_multiline_firstline self line).
  - rewrite (IH (c + 1)), (IH 1). lia.
  - apply IH.
Qed.

Lemma count_multiline_loop_nonneg (self : t) (lines : list pystr) :
  0 <= count_multiline_loop self lines 0.
Proof.
  induction lines as [|line lines IH]; cbn; [lia|].
  destruct (match_multiline_firstline self line); [|exact IH].
  rewrite count_multiline_loop_add. lia.
Qed.

Lemma records_from_tail (re : pystr -> bool) (lines cur : list pystr) :
  tl (records_from re cur lines) = records re lines.
Proof.
  revert cur. induction lines as [|line lines IH]; intros cur; cbn.
  - reflexivity.
  - destruct (re line); [reflexivity | apply IH].
Qed.

(** Inside the window, with no first line beyond it, the loop is the
    grouping of the specification. *)
Lemma loop_in_scope (self : t) (start end_ : Z) (lines : list pystr) :
  forall (count : Z) (multilog : list pystr),
    multilog <> [] ->
    start <= count ->
    count + count_multiline_loop self lines 0 <= end_ ->
    multiline_loop self start end_ lines count multilog true
    = records_from (re_multiline_firstline self) multilog lines.
Proof.
  induction lines as [|line lines IH]; intros count multilog Hne Hs He; cbn.
  - reflexivity.
  - unfold match_multiline_firstline in *. cbn in He.
    unfold match_multiline_firstline in He.
    destruct (re_multiline_firstline self line).
    + rewrite count_multiline_loop_add in He.
      pose proof (count_multiline_loop_nonneg self lines) as Hp.
      replace ((start <? count + 1) && (count + 1 <=? end_)) with true
        by (symmetry; apply andb_true_iff; split;
            [apply Z.ltb_lt | apply Z.leb_le]; lia).
      replace (0 <? len multilog) with true
        by (symmetry; apply Z.ltb_lt; destruct multilog;
            [contradiction | unfold len; cbn; lia]).
      cbn. f_equal. apply IH; [discriminate | lia | lia].
    + apply IH; [destruct multilog; discriminate | lia | lia].
Qed.

(** Before the window the loop skips whole records. *)
Lemma loop_before (self : t) (start end_ : Z) (lines : list pystr) :
  forall count : Z,
    count <= start ->
    count + count_multiline_loop self lines 0 <= end_ ->
    multiline_loop self start end_ lines count [] false
    = skipn (Z.to_nat (start - count))
        (records (re_multiline_firstline self) lines).
Proof.
  induction lines as [|line lines IH]; intros count Hs He; cbn.
  - rewrite skipn_nil. reflexivity.
  - unfold match_multiline_firstline in *. cbn in He.
    unfold match_multiline_firstline in He.
    destruct (re_multiline_firstline self line) eqn:Hre.
    + rewrite count_multiline_loop_add in He.
      pose proof (count_multiline_loop_nonneg self lines) as Hp.
      destruct (start <? count + 1) eqn:Hlt.
      * apply Z.ltb_lt in Hlt.
        replace (count + 1 <=? end_) with true
          by (symmetry; apply Z.leb_le; lia).
        cbn. replace (start - count) with 0 by lia. cbn.
        apply loop_in_scope; [discriminate | lia | lia].
      * apply Z.ltb_ge in Hlt. cbn.
        rewrite IH by lia.
        replace (Z.to_nat (start - count))
          with (S (Z.to_nat (start - (count + 1)))) by lia.
        rewrite <- (records_from_tail (re_multiline_firstline self)
                      lines [line]).
        destruct (records_from (re_multiline_firstline self) [line] lines);
          cbn; [rewrite skipn_nil|]; reflexivity.
    + apply IH; lia.
Qed.

(** When no record follows the window, the multiline reader emits exactly
    the records of the specification from position [start] on. *)
Lemma multiline_window_to_end (self : t) (start end_ : Z) :
  0 <= start ->
  count_multiline_log self <= end_ ->
  multiline_loop self start end_ (rawdata self) 0 [] false
  = skipn (Z.to_nat start)
      (records (re_multiline_firstline self) (rawdata self)).
Proof.
  intros Hs He. rewrite loop_before by (unfold count_multiline_log in He; lia).
  f_equal. lia.
Qed.

End MultilineFacts.

(** C4 (the code departs from the specification). The object has the two records
    '2024-01-01 A / cont' and '2024-01-02 B / more'.  The shard job with
    range 1..1 reads the window (0, 1) and emits one record, which is the
    first record followed by the line 'more' of the second record: a line
    of a record outside the window appears inside an emitted record, and
    the emitted record is none of the records of the object. *)
Theorem C4_multiline_record_mixes_lines :
  let self := Demo.multiline_job (Some (Some 1, Some 1)) in
  let run := LogS3.iter (Demo.loads_from []) (Demo.raw_decode_from [])
               Demo.no_events_count Demo.no_events self Demo.loaded in
  LogS3.init_state self = Ok Demo.loaded
  /\ LogS3.set_start_end_position (Demo.raw_decode_from [])
       Demo.no_events_count self Demo.loaded
     = Ok ((0, 1), Demo.loaded)
  /\ MultilineSpec.records Demo.starts_with_year Demo.multiline_lines
     = [py "2024-01-01 A" ++ Demo.LF ++ py "cont";
        py "2024-01-02 B" ++ Demo.LF ++ py "more"]
  /\ fst run
     = ([(VStr (py "2024-01-01 A" ++ Demo.LF ++ py "cont" ++ Demo.LF
                ++ py "more"), [])], None)
  /\ ~ In (py "2024-01-01 A" ++ Demo.LF ++ py "cont" ++ Demo.LF ++ py "more")
         (MultilineSpec.records Demo.starts_with_year Demo.multiline_lines).
Proof.
  cbv zeta. split; [reflexivity|]. split; [reflexivity|].
  split; [reflexivity|]. split; [reflexivity|].
  intros [H | [H | []]]; discriminate H.
Qed.

(** The second shard of the same object emits the line 'more' again, this
    time in its own record. *)
Example multiline_second_shard :
  let self := Demo.multiline_job (Some (Some 2, Some 2)) in
  fst (LogS3.iter (Demo.loads_from []) (Demo.raw_decode_from [])
         Demo.no_events_count Demo.no_events self Demo.loaded)
  = ([(VStr (py "2024-01-02 B" ++ Demo.LF ++ py "more"), [])], None).
Proof. reflexivity. Qed.

(** ** C7: FireLens records whose inner log is not JSON *)

(** C7 (the code departs from the specification). A FireLens object with
    [file_format = json] whose first line comes from stdout and carries the
    log text 'not json': the record is yielded with the raw text as payload
    and [__skip_normalization] set, and the next record is processed; but
    no [__error_message] is attached to it. *)
Theorem C7_firelens_parse_failure_has_no_error_message :
  let self := Demo.firelens_job [Demo.firelens_bad; Demo.firelens_good] in
  let run := LogS3.iter Demo.firelens_loads (Demo.raw_decode_from [])
               Demo.no_events_count Demo.no_events self Demo.loaded in
  LogS3.init_state self = Ok Demo.loaded
  /\ Demo.firelens_loads (py "not json") = Raise JSONDecodeError
  /\ fst run
     = ([(VStr (py "not json"),
          Demo.firelens_stdout_meta
            ++ [(py "__skip_normalization", VBool true)]);
         (VDict [(py "a", VInt 1)], Demo.firelens_stdout_meta)],
        None)
  /\ dict_get (py "__error_message")
       (Demo.firelens_stdout_meta ++ [(py "__skip_normalization", VBool true)])
     = None.
Proof.
  cbv zeta. split; [reflexivity|]. split; [reflexivity|].
  split; vm_compute; reflexivity.
Qed.

(** On a stderr record that is kept, the raw log text attached as
    [__error_message] is replaced by the parse-failure text. *)
Example firelens_stderr_parse_failure :
  let self := Demo.firelens_job [Demo.firelens_stderr] in
  exists meta,
    fst (LogS3.iter Demo.firelens_loads (Demo.raw_decode_from [])
           Demo.no_events_count Demo.no_events self Demo.loaded)
    = ([(VStr (py "boom"), meta)], None)
    /\ dict_get (py "__skip_normalization") meta = Some (VBool true)
    /\ dict_get (py "__error_message") meta
       = Some (VStr (py "Invalid file format found during parsing")).
Proof.
  cbv zeta. eexists. split; [vm_compute; reflexivity|].
  split; vm_compute; reflexivity.
Qed.

Module FirelensFacts.
Import LogS3.

Section WithLibrary.

Variable json_loads : pystr -> result value.

(** What the extractor does with any line whose envelope decodes to a map
    and whose log text fails to parse: the record is yielded with the raw
    text and [__skip_normalization]; [__error_message] is the parse-failure
    text exactly when the record is a kept stderr record, and absent
    otherwise. *)
Lemma firelens_record_parse_failure (self : t) (line log : pystr)
    (o : pydict) :
  fmt self = json ->
  json_loads (strip line) = Ok (VDict o) ->
  dict_get (py "log") o = Some (VStr log) ->
  json_loads log = Raise JSONDecodeError ->
  exists meta,
    firelens_record json_loads self line = Ok (VStr log, meta)
    /\ dict_get (py "__skip_normalization") meta = Some (VBool true)
    /\ dict_get (py "__error_message") meta
       = if eq_str (get_or_none (py "source") o) (py "stderr")
            && negb (ignore_container_stderr self)
         then Some (VStr (py "Invalid file format found during parsing"))
         else None.
Proof.
  intros Hfmt Houter Hlog Hinner.
  unfold firelens_record. rewrite Houter. cbn [bind].
  unfold getitem. rewrite Hlog. cbn [bind]. rewrite Hfmt. cbn [is_json].
  unfold loads_value. rewrite Hinner.
  eexists. split; [reflexivity|].
  destruct (truthy _); destruct (eq_str (get_or_none (py "source") o) _) eqn:E;
    destruct (ignore_container_stderr self);
    cbn in E |- *; rewrite ?E; cbn; split; reflexivity.
Qed.

(** A parse failure does not end the generator: the records of the lines
    after it follow. *)
Lemma firelens_continues (self : t) (line : pystr) (lines : list pystr)
    (r : value * pydict) :
  firelens_record json_loads self line = Ok r ->
  gen_for (firelens_record json_loads self) (line :: lines)
  = gen_yield r (gen_for (firelens_record json_loads self) lines).
Proof.
  intros H. cbn. rewrite H. reflexivity.
Qed.

End WithLibrary.

End FirelensFacts.

(** ** C1: the window of a shard job *)

Module CwlFacts.
Import LogS3 WindowFacts Notions.

Lemma gen_seq_yield {A} (a : A) (g1 g2 : gen A) :
  gen_seq (gen_yield a g1) g2 = gen_yield a (gen_seq g1 g2).
Proof.
  unfold gen_seq, gen_yield. cbn. destruct g1 as [ys [e|]]; reflexivity.
Qed.

Lemma gen_seq_done {A} (g : gen A) : gen_seq gen_done g = g.
Proof. destruct g. reflexivity. Qed.

Section WithLibrary.

Variable json_loads : pystr -> result value.
Variable raw_decode : pystr -> Z -> result (value * Z).

Abbreviation cwl_emit := (cwl_emit json_loads).
Abbreviation cwl_emit_entry := (cwl_emit_entry json_loads).
Abbreviation cwl_events := (cwl_events json_loads).
Abbreviation cwl_walk := (cwl_walk json_loads).

Lemma cwl_emit_meta (self : t) (o g s : value) (m : pydict) (ev : value) :
  meta_of o g s m ->
  cwl_emit self m ev
  = cwl_emit self
      [(py "cwl_accountid", o); (py "loggroup", g); (py "logstream", s)] ev
  /\ forall p m', cwl_emit self m ev = Ok (p, m') -> meta_of o g s m'.
Proof.
  intros Hm. unfold LogS3.cwl_emit.
  destruct (getitem ev (py "id")) as [i|e]; cbn [bind];
    [|split; [reflexivity | discriminate]].
  destruct (getitem ev (py "timestamp")) as [ts|e]; cbn [bind];
    [|split; [reflexivity | discriminate]].
  destruct (getitem ev (py "message")) as [msg|e]; cbn [bind];
    [|split; [reflexivity | discriminate]].
  assert (E : dict_set (py "cwl_timestamp") ts (dict_set (py "cwl_id") i m)
              = [(py "cwl_accountid", o); (py "loggroup", g);
                 (py "logstream", s); (py "cwl_id", i);
                 (py "cwl_timestamp", ts)]).
  { destruct Hm as [-> | [i' [t' ->]]]; reflexivity. }
  rewrite E.
  replace (dict_set (py "cwl_timestamp") ts
             (dict_set (py "cwl_id") i
                [(py "cwl_accountid", o); (py "loggroup", g);
                 (py "logstream", s)]))
    with [(py "cwl_accountid", o); (py "loggroup", g);
          (py "logstream", s); (py "cwl_id", i);
          (py "cwl_timestamp", ts)] by reflexivity.
  split; [reflexivity|].
  intros p m' H.
  destruct (is_json (fmt self)).
  - destruct (loads_value json_loads msg); cbn in H; inversion H; subst.
    right. eauto.
  - inversion H; subst. right. eauto.
Qed.

Lemma cwl_events_window (self : t) (start end_ : Z) (o g s : value)
    (evs : list value) :
  forall (m : pydict) (k : Z) (cont : Z -> gen (value * pydict)),
    meta_of o g s m ->
    cwl_events self start end_ m evs k cont
    = gen_seq
        (gen_for (cwl_emit_entry self)
           (take_range start end_ k
              (map (fun ev =>
                      ([(py "cwl_accountid", o); (py "loggroup", g);
                        (py "logstream", s)], ev)) evs)))
        (cont (k + len evs)).
Proof.
  induction evs as [|ev evs IH]; intros m k cont Hm.
  - cbn [LogS3.cwl_events map take_range gen_for]. rewrite gen_seq_done.
    f_equal. unfold len. cbn. lia.
  - cbn [LogS3.cwl_events map take_range]. rewrite len_cons.
    replace (k + (1 + len evs)) with (k + 1 + len evs) by lia.
    destruct ((start <=? k) && (k <? end_)).
    + cbn [gen_for]. unfold LogS3.cwl_emit_entry at 1. cbn [fst snd].
      destruct (cwl_emit_meta self o g s m ev Hm) as [E Hnext].
      rewrite <- E.
      destruct (cwl_emit self m ev) as [[p m']|e] eqn:Eemit;
        [|reflexivity].
      rewrite gen_seq_yield. f_equal.
      apply IH. apply (Hnext p m'). reflexivity.
    + apply IH. exact Hm.
Qed.

(** The [via_cwl] reader yields the log events whose position, counted from
    [k], lies in the window. *)
Lemma cwl_walk_window (self : t) (start end_ : Z) (objs : list value) :
  forall (flat : list (pydict * value)) (k : Z),
    cwl_flat objs = Ok flat ->
    cwl_walk self start end_ objs k
    = gen_for (cwl_emit_entry self) (take_range start end_ k flat).
Proof.
  induction objs as [|obj objs IH]; intros flat k Hflat.
  - cbn in Hflat. inversion Hflat. reflexivity.
  - cbn [cwl_flat LogS3.cwl_walk] in *.
    destruct (is_data_message obj) as [[|]|e]; cbn [bind] in *;
      [| apply IH; exact Hflat | discriminate].
    unfold cwl_envelope_meta in *.
    destruct (getitem obj (py "owner")) as [o|e]; cbn [bind] in *;
      [|discriminate].
    destruct (getitem obj (py "logGroup")) as [g|e]; cbn [bind] in *;
      [|discriminate].
    destruct (getitem obj (py "logStream")) as [s|e]; cbn [bind] in *;
      [|discriminate].
    destruct (getitem obj (py "logEvents")) as [evs|e]; cbn [bind] in *;
      [|discriminate].
    destruct (iterate evs) as [l|e]; cbn [bind] in *; [|discriminate].
    destruct (cwl_flat objs) as [rest|e]; cbn [bind] in *; [|discriminate].
    inversion Hflat; subst flat.
    rewrite (cwl_events_window self start end_ o g s l) by (left; reflexivity).
    rewrite (IH rest (k + len l) eq_refl).
    rewrite take_range_app, gen_for_app, len_map. reflexivity.
Qed.

End WithLibrary.

End CwlFacts.

Module JsonFacts.
Import LogS3 WindowFacts.

(** The JSON reader counts from 1 and keeps both ends of its range. *)
Lemma json_select_take_range {A} (start end_ : Z) (recs : list A) (count : Z) :
  json_select start end_ count recs
  = take_range start (end_ + 1) (count + 1) recs.
Proof.
  revert count. induction recs as [|r recs IH]; intros count; cbn;
    [reflexivity|].
  rewrite IH.
  replace (count + 1 <? end_ + 1) with (count + 1 <=? end_); [reflexivity|].
  destruct (count + 1 <=? end_) eqn:E1, (count + 1 <? end_ + 1) eqn:E2;
    try reflexivity;
    rewrite ?Z.leb_le, ?Z.leb_gt, ?Z.ltb_lt, ?Z.ltb_ge in *; lia.
Qed.

(** Called with the window [(start, end_)], [start >= 1], the JSON reader
    yields the records at the 0-based positions from [start - 1] to
    [end_ - 1]: one record before position [start]. *)
Lemma json_select_slice {A} (start end_ : Z) (recs : list A) :
  1 <= start -> 0 <= end_ ->
  json_select start end_ 0 recs = py_slice recs (start - 1) end_.
Proof.
  intros Hs He. rewrite json_select_take_range.
  rewrite <- (take_range_slice (start - 1) end_) by lia.
  rewrite <- (take_range_shift (start - 1) end_ 1 recs 0).
  f_equal; lia.
Qed.

(** The JSON reader on a window that starts at 1 or later yields the
    records of the object from one position before the window. *)
Lemma extract_logobj_window (raw_decode : pystr -> Z -> result (value * Z))
    (self : t) (start end_ : Z) :
  1 <= start -> 0 <= end_ ->
  fst (extract_logobj_from_json raw_decode self start end_)
  = py_slice (fst (json_lines raw_decode self true (rawdata self)))
      (start - 1) end_.
Proof.
  intros Hs He. unfold extract_logobj_from_json. cbn [fst].
  apply json_select_slice; assumption.
Qed.

End JsonFacts.

Module MultilineCount.
Import LogS3 MultilineSpec.

Lemma records_from_len (self : t) (lines cur : list pystr) :
  len (records_from (re_multiline_firstline self) cur lines)
  = 1 + count_multiline_loop self lines 0.
Proof.
  revert cur. induction lines as [|line lines IH]; intros cur;
    cbn [records_from count_multiline_loop].
  - reflexivity.
  - unfold match_multiline_firstline.
    destruct (re_multiline_firstline self line).
    + rewrite WindowFacts.len_cons, IH.
      rewrite (MultilineFacts.count_multiline_loop_add self lines (0 + 1)).
      lia.
    + apply IH.
Qed.

(** [count_multiline_log] is the number of records of the object. *)
Lemma records_len (self : t) (lines : list pystr) :
  len (records (re_multiline_firstline self) lines)
  = count_multiline_loop self lines 0.
Proof.
  induction lines as [|line lines IH];
    cbn [records count_multiline_loop].
  - reflexivity.
  - unfold match_multiline_firstline.
    destruct (re_multiline_firstline self line).
    + rewrite records_from_len.
      rewrite (MultilineFacts.count_multiline_loop_add self lines (0 + 1)).
      lia.
    + exact IH.
Qed.

End MultilineCount.

Section ShardWindow.
Import LogS3.

Variable json_loads : pystr -> result value.
Variable raw_decode : pystr -> Z -> result (value * Z).
Variable winevtxml_count_event : list pystr -> Z.
Variable winevtxml_extract_event :
  list pystr -> Z -> Z -> gen (value * pydict).

Abbreviation read_window :=
  (read_window json_loads raw_decode winevtxml_extract_event).
Abbreviation iter :=
  (iter json_loads raw_decode winevtxml_count_event winevtxml_extract_event).

(** What the readers yield for a window [(s, e)] with [0 <= s] and
    [0 <= e]. *)
Lemma read_window_slices (self : t) (s e : Z) :
  0 <= s -> 0 <= e ->
  via_cwl self = false ->
  (via_firelens self = false -> is_text_or_csv (fmt self) = true ->
   read_window self s e
   = gen_of_list
       (py_slice (map (fun line => (VStr (strip line), [])) (rawdata self))
          s e))
  /\ (via_firelens self = true ->
      read_window self s e
      = gen_for (firelens_record json_loads self) (py_slice (rawdata self) s e))
  /\ (via_firelens self = false -> is_multiline_or_xml (fmt self) = true ->
      count_multiline_log self <= e ->
      read_window self s e
      = gen_of_list
          (map (fun r => (VStr r, []))
             (py_slice
                (MultilineSpec.records (re_multiline_firstline self)
                   (rawdata self)) s e))).
Proof.
  intros Hs He Hc. split; [|split].
  - intros Hf Hfmt. unfold LogS3.read_window. rewrite Hc, Hf.
    rewrite WindowFacts.py_slice_map.
    destruct (fmt self); try discriminate; reflexivity.
  - intros Hf. unfold LogS3.read_window. rewrite Hc, Hf. reflexivity.
  - intros Hf Hfmt Hcount. unfold LogS3.read_window. rewrite Hc, Hf.
    assert (E : extract_multiline_log self s e
                = gen_of_list
                    (map (fun r => (VStr r, []))
                       (py_slice
                          (MultilineSpec.records (re_multiline_firstline self)
                             (rawdata self)) s e))).
    { unfold extract_multiline_log.
      rewrite MultilineFacts.multiline_window_to_end by lia.
      rewrite WindowFacts.py_slice_nonneg by lia.
      rewrite firstn_all2; [reflexivity|].
      rewrite length_skipn.
      pose proof (MultilineCount.records_len self (rawdata self)) as L.
      unfold count_multiline_log, len in *. lia. }
    destruct (fmt self); try discriminate; exact E.
Qed.

(** X29. A shard job that is not [via_cwl], whose range starts after the
    header lines (H of them: [text_header_line_number] for text, 1 for
    csv, 0 otherwise) and is not split again, yields exactly the records at
    the 0-based positions from [start_number - 1] to [end_number - 1] (or
    to the last record of the object), in order, reports
    [end_number - start_number + 1] as [total_log_count] and sends nothing:
    for text and csv the stripped lines at these positions; for FireLens
    the records made from the lines at these positions; for multiline and
    xml the records of the object at these positions, when no record
    follows the range. *)
Theorem X29_shard_window (self : t) (st : state) :
  init_state self = Ok st -> is_ignored st = false ->
  via_cwl self = false ->
  0 <= ignore_header_line_number self < start_number self ->
  1 <= end_number self ->
  end_number self - start_number self < max_log_count self
  \/ sqs_queue self = None ->
  let s := start_number self - 1 in
  let e := end_number self in
  let run := iter self st in
  total_log_count (snd run) = Some (e - s)
  /\ sent (snd run) = []
  /\ (via_firelens self = false -> is_text_or_csv (fmt self) = true ->
      fst run
      = gen_of_list
          (py_slice (map (fun line => (VStr (strip line), []))
                       (rawdata self)) s e))
  /\ (via_firelens self = true ->
      fst run
      = gen_for (firelens_record json_loads self)
          (py_slice (rawdata self) s e))
  /\ (via_firelens self = false -> is_multiline_or_xml (fmt self) = true ->
      count_multiline_log self <= e ->
      fst run
      = gen_of_list
          (map (fun r => (VStr r, []))
             (py_slice
                (MultilineSpec.records (re_multiline_firstline self)
                   (rawdata self)) s e))).
Proof.
  intros Hinit Hign Hc Hstart Hend Hno. cbv zeta.
  rewrite (IterFacts.init_not_ignored self st Hinit Hign).
  set (n := end_number self - start_number self).
  assert (Hcount : log_count raw_decode winevtxml_count_event self
                     (fresh_state false None)
                   = Ok (n, set_log_count_cache (fresh_state false None) n)).
  { unfold log_count, log_count_body. cbn [log_count_cache fresh_state].
    rewrite Hc.
    destruct (end_number self =? 0) eqn:Hz;
      [apply Z.eqb_eq in Hz; lia | reflexivity]. }
  assert (E : iter self (fresh_state false None)
              = (read_window self (start_number self - 1) (end_number self),
                 set_total_log_count
                   (set_log_count_cache (fresh_state false None) n)
                   (end_number self - (start_number self - 1)))).
  { unfold LogS3.iter. cbn [is_ignored fresh_state]. rewrite Hcount.
    assert (G : logdata_generator json_loads raw_decode
                  winevtxml_count_event winevtxml_extract_event self
                  (set_log_count_cache (fresh_state false None) n)
                = (read_window self (start_number self - 1) (end_number self),
                   set_total_log_count
                     (set_log_count_cache (fresh_state false None) n)
                     (end_number self - (start_number self - 1)))).
    { unfold logdata_generator, set_start_end_position.
      destruct (start_number self <=? ignore_header_line_number self) eqn:E;
        [apply Z.leb_le in E; lia | reflexivity]. }
    destruct (max_log_count self <=? n) eqn:Hle; [|exact G].
    apply Z.leb_le in Hle. destruct Hno as [Hlt | Hnone]; [lia|].
    rewrite Hnone. exact G. }
  rewrite E. cbn [fst snd].
  destruct (read_window_slices self (start_number self - 1) (end_number self)
              ltac:(lia) ltac:(lia) Hc) as [R1 [R2 R3]].
  split; [reflexivity|]. split; [reflexivity|].
  split; [exact R1|]. split; [exact R2 | exact R3].
Qed.

End ShardWindow.

Lemma X29_shard_window_witness :
  let self := Demo.text_job 25 10 (Some (Some 11, Some 20)) None in
  let run := LogS3.iter (Demo.loads_from []) (Demo.raw_decode_from [])
               Demo.no_events_count Demo.no_events self Demo.loaded in
  total_log_count (snd run) = Some 10
  /\ fst run
     = gen_of_list
         (map (fun i => (VStr (py "line " ++ str_of_int i), []))
            [10; 11; 12; 13; 14; 15; 16; 17; 18; 19]).
Proof.
  cbv zeta.
  pose proof (X29_shard_window (Demo.loads_from []) (Demo.raw_decode_from [])
                Demo.no_events_count Demo.no_events
                (Demo.text_job 25 10 (Some (Some 11, Some 20)) None)
                Demo.loaded eq_refl eq_refl eq_refl
                ltac:(cbn; lia) ltac:(cbn; lia) ltac:(left; cbn; lia))
    as [H1 [_ [H3 _]]].
  split; [exact H1|].
  rewrite (H3 eq_refl eq_refl). vm_compute. reflexivity.
Defined.

(** C1. A CSV object with a header line and three rows, read under a cap
    of two records with a work queue.  The invocation without a range
    counts four lines and splits the object into the ranges 1..2 and 3..4.
    The job for the range 1..2 has the window [s = start_number - 1 = 0],
    [e = end_number = 2], which holds the header line and the row
    't1 h1 m1'.  Since its [start_number] does not exceed the one header
    line, the window is taken from [log_count] instead, which for a shard
    job is 2 - 1 = 1: the window is (1, 1) and the job yields nothing.  The
    job for the range 3..4 yields the rows 't2 h2 m2' and 't3 h3 m3'.  The
    row 't1 h1 m1' is yielded by no invocation. *)
Theorem C1_csv_first_shard_loses_row :
  let first := Demo.csv_job None in
  let job := fun r =>
    Batches.shard_job first (MessageBody (queue_entry first r)) in
  let iter := LogS3.iter (Demo.loads_from []) (Demo.raw_decode_from [])
                Demo.no_events_count Demo.no_events in
  let row := fun s : pystr => (VStr s, @nil (pystr * value)) in
  init_state first = Ok Demo.loaded
  /\ fst (iter first Demo.loaded) = gen_done
  /\ sent (snd (iter first Demo.loaded))
     = [[queue_entry first (1, 2); queue_entry first (3, 4)]]
  /\ init_state (job (1, 2)) = Ok Demo.loaded
  /\ (start_number (job (1, 2)) - 1, end_number (job (1, 2))) = (0, 2)
  /\ py_slice (map (fun line => (VStr (strip line), @nil (pystr * value)))
                 (rawdata first)) 0 2
     = [row (py "time host msg"); row (py "t1 h1 m1")]
  /\ (exists st,
        set_start_end_position (Demo.raw_decode_from []) Demo.no_events_count
          (job (1, 2)) Demo.loaded = Ok ((1, 1), st))
  /\ fst (iter (job (1, 2)) Demo.loaded) = gen_done
  /\ fst (iter (job (3, 4)) Demo.loaded)
     = gen_of_list [row (py "t2 h2 m2"); row (py "t3 h3 m3")]
  /\ ~ In (row (py "t1 h1 m1"))
         (fst (fst (iter (job (1, 2)) Demo.loaded))
          ++ fst (fst (iter (job (3, 4)) Demo.loaded))).
Proof.
  cbv zeta.
  do 6 (split; [vm_compute; reflexivity|]).
  split; [eexists; vm_compute; reflexivity|].
  do 2 (split; [vm_compute; reflexivity|]).
  vm_compute. intros [H | [H | []]]; discriminate H.
Qed.

(** The JSON reader is one record off: the shard job with range 2..3 of an
    object of three records is given the window (1, 3) and yields all three
    records, where the positions 1 and 2 hold the second and the third. *)
Example json_shard_window_off_by_one :
  let self := Demo.ndjson_job (Some (Some 2, Some 3)) in
  let run := LogS3.iter (Demo.loads_from []) Demo.ndjson_decoder
               Demo.no_events_count Demo.no_events self Demo.loaded in
  init_state self = Ok Demo.loaded
  /\ set_start_end_position Demo.ndjson_decoder Demo.no_events_count self
       Demo.loaded = Ok ((1, 3), Demo.loaded)
  /\ fst run
     = ([(Demo.ndjson_record 1, []); (Demo.ndjson_record 2, []);
         (Demo.ndjson_record 3, [])], None)
  /\ py_slice [Demo.ndjson_record 1; Demo.ndjson_record 2;
               Demo.ndjson_record 3] 1 3
     = [Demo.ndjson_record 2; Demo.ndjson_record 3].
Proof.
  cbv zeta. split; [reflexivity|]. split; [reflexivity|].
  split; vm_compute; reflexivity.
Qed.

(** ** MD5 test vectors (RFC 1321, appendix A.5) *)

Example md5_empty :
  Codec.md5_of_str [] = Ok (py "d41d8cd98f00b204e9800998ecf8427e").
Proof. vm_compute. reflexivity. Qed.

Example md5_abc :
  Codec.md5_of_str (py "abc") = Ok (py "900150983cd24fb0d6963f7d28e17f72").
Proof. vm_compute. reflexivity. Qed.

Example md5_message_digest :
  Codec.md5_of_str (py "message digest")
  = Ok (py "f96b697d7cb7938d525a2f31aaf161d0").
Proof. vm_compute. reflexivity. Qed.

Example md5_two_blocks :
  Codec.md5_of_str
    (py "12345678901234567890123456789012345678901234567890123456789012345678901234567890")
  = Ok (py "57edf4a22be3c955ac49da2e2107b67a").
Proof. vm_compute. reflexivity. Qed.

(** ** UTF-8: encoding, decoding, cutting *)

Module CodecFacts.
Import Codec TruncateSpec WindowFacts.

(** The shape of an encoded character. *)
Lemma encode_char_cases (c : Z) (e : list Z) :
  encode_char c = Some e ->
  (0 <= c < 128 /\ e = [c])
  \/ (128 <= c < 2048 /\ e = [192 + c / 64; 128 + c mod 64])
  \/ (2048 <= c < 65536 /\ (c < 55296 \/ 57344 <= c)
      /\ e = [224 + c / 4096; 128 + (c / 64) mod 64; 128 + c mod 64])
  \/ (65536 <= c < 1114112
      /\ e = [240 + c / 262144; 128 + (c / 4096) mod 64;
              128 + (c / 64) mod 64; 128 + c mod 64]).
Proof.
  unfold encode_char.
  destruct (Z.ltb_spec c 0); [discriminate|].
  destruct (Z.ltb_spec c 128);
    [intros H'; inversion H'; left; split; [lia | reflexivity]|].
  destruct (Z.ltb_spec c 2048);
    [intros H'; inversion H'; right; left; split; [lia | reflexivity]|].
  destruct (Z.ltb_spec c 65536).
  - destruct (Z.leb_spec 55296 c); destruct (Z.ltb_spec c 57344);
      cbn [andb]; try discriminate;
      intros H'; inversion H'; right; right; left;
      (split; [lia | split; [lia | reflexivity]]).
  - destruct (Z.ltb_spec c 1114112); [|discriminate].
    intros H'; inversion H'; right; right; right. split; [lia | reflexivity].
Qed.

Lemma char_bytes_range (c : Z) (e : list Z) :
  encode_char c = Some e -> char_bytes c = len e /\ 1 <= len e <= 4.
Proof.
  intros H. unfold char_bytes. rewrite H. split; [reflexivity|].
  apply encode_char_cases in H.
  destruct H as [[_ ->] | [[_ ->] | [[_ [_ ->]] | [_ ->]]]];
    unfold len; cbn; lia.
Qed.

#[local] Ltac cmp :=
  repeat match goal with
    | |- context [?a <=? ?b] =>
        first [ replace (a <=? b) with true by (symmetry; apply Z.leb_le; lia)
              | replace (a <=? b) with false
                  by (symmetry; apply Z.leb_gt; lia) ]
    | |- context [?a <? ?b] =>
        first [ replace (a <? b) with true by (symmetry; apply Z.ltb_lt; lia)
              | replace (a <? b) with false
                  by (symmetry; apply Z.ltb_ge; lia) ]
    end.

(** Decoding a well-formed sequence of two, three or four bytes. *)
Lemma decode_2 (b0 b1 : Z) (x : list Z) :
  194 <= b0 <= 223 -> 128 <= b1 <= 191 ->
  decode (b0 :: b1 :: x)
  = option_map (cons ((b0 - 192) * 64 + (b1 - 128))) (decode x).
Proof.
  intros H0 H1. cbn [decode]. unfold is_continuation. cmp. reflexivity.
Qed.

Lemma decode_3 (b0 b1 b2 : Z) (x : list Z) :
  224 <= b0 <= 239 -> 128 <= b1 <= 191 -> 128 <= b2 <= 191 ->
  2048 <= (b0 - 224) * 4096 + (b1 - 128) * 64 + (b2 - 128) ->
  (b0 - 224) * 4096 + (b1 - 128) * 64 + (b2 - 128) < 55296
  \/ 57344 <= (b0 - 224) * 4096 + (b1 - 128) * 64 + (b2 - 128) ->
  decode (b0 :: b1 :: b2 :: x)
  = option_map (cons ((b0 - 224) * 4096 + (b1 - 128) * 64 + (b2 - 128)))
      (decode x).
Proof.
  intros H0 H1 H2 Hc Hs. cbn [decode]. unfold is_continuation.
  set (c := (b0 - 224) * 4096 + (b1 - 128) * 64 + (b2 - 128)) in *.
  replace (0 <=? b0) with true by (symmetry; apply Z.leb_le; lia).
  replace (b0 <? 128) with false by (symmetry; apply Z.ltb_ge; lia).
  replace (194 <=? b0) with true by (symmetry; apply Z.leb_le; lia).
  replace (b0 <=? 223) with false by (symmetry; apply Z.leb_gt; lia).
  replace (224 <=? b0) with true by (symmetry; apply Z.leb_le; lia).
  replace (b0 <=? 239) with true by (symmetry; apply Z.leb_le; lia).
  replace (128 <=? b1) with true by (symmetry; apply Z.leb_le; lia).
  replace (b1 <=? 191) with true by (symmetry; apply Z.leb_le; lia).
  replace (128 <=? b2) with true by (symmetry; apply Z.leb_le; lia).
  replace (b2 <=? 191) with true by (symmetry; apply Z.leb_le; lia).
  replace (2048 <=? c) with true by (symmetry; apply Z.leb_le; lia).
  cbn [andb].
  destruct Hs as [Hs | Hs].
  - replace (55296 <=? c) with false by (symmetry; apply Z.leb_gt; lia).
    reflexivity.
  - replace (c <? 57344) with false by (symmetry; apply Z.ltb_ge; lia).
    rewrite andb_false_r. reflexivity.
Qed.

Lemma decode_4 (b0 b1 b2 b3 : Z) (x : list Z) :
  240 <= b0 <= 244 -> 128 <= b1 <= 191 -> 128 <= b2 <= 191 ->
  128 <= b3 <= 191 ->
  65536 <= (b0 - 240) * 262144 + (b1 - 128) * 4096 + (b2 - 128) * 64
           + (b3 - 128) < 1114112 ->
  decode (b0 :: b1 :: b2 :: b3 :: x)
  = option_map
      (cons ((b0 - 240) * 262144 + (b1 - 128) * 4096 + (b2 - 128) * 64
             + (b3 - 128)))
      (decode x).
Proof.
  intros H0 H1 H2 H3 Hc. cbn [decode]. unfold is_continuation.
  set (c := (b0 - 240) * 262144 + (b1 - 128) * 4096 + (b2 - 128) * 64
            + (b3 - 128)) in *.
  replace (0 <=? b0) with true by (symmetry; apply Z.leb_le; lia).
  replace (b0 <? 128) with false by (symmetry; apply Z.ltb_ge; lia).
  replace (194 <=? b0) with true by (symmetry; apply Z.leb_le; lia).
  replace (b0 <=? 223) with false by (symmetry; apply Z.leb_gt; lia).
  replace (224 <=? b0) with true by (symmetry; apply Z.leb_le; lia).
  replace (b0 <=? 239) with false by (symmetry; apply Z.leb_gt; lia).
  replace (240 <=? b0) with true by (symmetry; apply Z.leb_le; lia).
  replace (b0 <=? 244) with true by (symmetry; apply Z.leb_le; lia).
  replace (128 <=? b1) with true by (symmetry; apply Z.leb_le; lia).
  replace (b1 <=? 191) with true by (symmetry; apply Z.leb_le; lia).
  replace (128 <=? b2) with true by (symmetry; apply Z.leb_le; lia).
  replace (b2 <=? 191) with true by (symmetry; apply Z.leb_le; lia).
  replace (128 <=? b3) with true by (symmetry; apply Z.leb_le; lia).
  replace (b3 <=? 191) with true by (symmetry; apply Z.leb_le; lia).
  replace (65536 <=? c) with true by (symmetry; apply Z.leb_le; lia).
  replace (c <? 1114112) with true by (symmetry; apply Z.ltb_lt; lia).
  reflexivity.
Qed.

(** A leading byte without all of its continuation bytes does not
    decode. *)
Lemma decode_lead_alone (b0 : Z) : 194 <= b0 <= 244 -> decode [b0] = None.
Proof.
  intros H. cbn [decode].
  destruct (Z.le_gt_cases b0 223); [cmp; reflexivity|].
  destruct (Z.le_gt_cases b0 239); cmp; reflexivity.
Qed.

Lemma decode_lead_one (b0 b1 : Z) :
  224 <= b0 <= 244 -> decode [b0; b1] = None.
Proof.
  intros H. cbn [decode].
  destruct (Z.le_gt_cases b0 239); cmp; reflexivity.
Qed.

Lemma decode_lead_two (b0 b1 b2 : Z) :
  240 <= b0 <= 244 -> decode [b0; b1; b2] = None.
Proof.
  intros H. cbn [decode]. cmp. reflexivity.
Qed.

(** The bytes of an encoded character, with their ranges. *)
Lemma encode_char_bytes (c : Z) (e : list Z) :
  encode_char c = Some e ->
  (0 <= c < 128 /\ e = [c])
  \/ (exists b0 b1,
        e = [b0; b1] /\ 194 <= b0 <= 223 /\ 128 <= b1 <= 191
        /\ c = (b0 - 192) * 64 + (b1 - 128))
  \/ (exists b0 b1 b2,
        e = [b0; b1; b2] /\ 224 <= b0 <= 239 /\ 128 <= b1 <= 191
        /\ 128 <= b2 <= 191
        /\ c = (b0 - 224) * 4096 + (b1 - 128) * 64 + (b2 - 128)
        /\ 2048 <= c /\ (c < 55296 \/ 57344 <= c))
  \/ (exists b0 b1 b2 b3,
        e = [b0; b1; b2; b3] /\ 240 <= b0 <= 244 /\ 128 <= b1 <= 191
        /\ 128 <= b2 <= 191 /\ 128 <= b3 <= 191
        /\ c = (b0 - 240) * 262144 + (b1 - 128) * 4096 + (b2 - 128) * 64
               + (b3 - 128)
        /\ 65536 <= c < 1114112).
Proof.
  intros H. apply encode_char_cases in H.
  destruct H as [[R ->] | [[R ->] | [[R [S ->]] | [R ->]]]].
  - left. split; [exact R | reflexivity].
  - right. left. eexists. eexists. split; [reflexivity|].
    assert (B : 0 <= c mod 64 < 64) by (apply Z.mod_pos_bound; lia).
    assert (E1 : c = 64 * (c / 64) + c mod 64) by (apply Z.div_mod; lia).
    generalize dependent (c mod 64). generalize dependent (c / 64).
    intros q r0 Hr0 E1. subst c.
    repeat split; lia.
  - right. right. left. eexists. eexists. eexists. split; [reflexivity|].
    assert (B2 : 0 <= c mod 64 < 64) by (apply Z.mod_pos_bound; lia).
    assert (B1 : 0 <= (c / 64) mod 64 < 64) by (apply Z.mod_pos_bound; lia).
    assert (E1 : c = 64 * (c / 64) + c mod 64) by (apply Z.div_mod; lia).
    assert (E2 : c / 64 = 64 * (c / 64 / 64) + (c / 64) mod 64)
      by (apply Z.div_mod; lia).
    assert (E3 : c / 4096 = c / 64 / 64)
      by (rewrite Z.div_div by lia; reflexivity).
    rewrite E3. clear E3. generalize dependent (c / 64 / 64).
    generalize dependent ((c / 64) mod 64). generalize dependent (c mod 64).
    generalize dependent (c / 64).
    intros q r0 Hr0 r1 Hr1 E1 q2 E2. subst q. subst c.
    repeat split; try lia.
  - right. right. right. eexists. eexists. eexists. eexists.
    split; [reflexivity|].
    assert (B3 : 0 <= c mod 64 < 64) by (apply Z.mod_pos_bound; lia).
    assert (B2 : 0 <= (c / 64) mod 64 < 64) by (apply Z.mod_pos_bound; lia).
    assert (B1 : 0 <= (c / 4096) mod 64 < 64)
      by (apply Z.mod_pos_bound; lia).
    assert (E1 : c = 64 * (c / 64) + c mod 64) by (apply Z.div_mod; lia).
    assert (E2 : c / 64 = 64 * (c / 64 / 64) + (c / 64) mod 64)
      by (apply Z.div_mod; lia).
    assert (E3 : c / 64 / 64 = 64 * (c / 64 / 64 / 64) + (c / 64 / 64) mod 64)
      by (apply Z.div_mod; lia).
    assert (D1 : c / 4096 = c / 64 / 64)
      by (rewrite Z.div_div by lia; reflexivity).
    assert (D2 : c / 262144 = c / 64 / 64 / 64)
      by (rewrite !Z.div_div by lia; reflexivity).
    rewrite D2, D1 in *. clear D1 D2.
    generalize dependent (c / 64 / 64 / 64).
    generalize dependent ((c / 64 / 64) mod 64).
    generalize dependent (c / 64 / 64).
    generalize dependent ((c / 64) mod 64). generalize dependent (c mod 64).
    generalize dependent (c / 64).
    intros q r0 Hr0 r1 Hr1 E1 q2 E2 r2 Hr2 q3 E3. subst q2. subst q. subst c.
    repeat split; try lia.
Qed.

(** Decoding reads an encoded character back. *)
Lemma decode_char_app (c : Z) (e x : list Z) :
  encode_char c = Some e ->
  decode (e ++ x) = option_map (cons c) (decode x).
Proof.
  intros H. apply encode_char_bytes in H.
  destruct H as [[R ->]
                | [[b0 [b1 [-> [H0 [H1 ->]]]]]
                  | [[b0 [b1 [b2 [-> [H0 [H1 [H2 [-> [Hc Hs]]]]]]]]]
                    | [b0 [b1 [b2 [b3 [-> [H0 [H1 [H2 [H3 [-> Hc]]]]]]]]]]]]];
    cbn [app].
  - cbn [decode].
    replace (0 <=? c) with true by (symmetry; apply Z.leb_le; lia).
    replace (c <? 128) with true by (symmetry; apply Z.ltb_lt; lia).
    reflexivity.
  - apply decode_2; assumption.
  - apply decode_3; assumption.
  - apply decode_4; assumption.
Qed.

(** An encoded character cut short does not decode. *)
Lemma decode_char_cut (c : Z) (e : list Z) (k : nat) :
  encode_char c = Some e ->
  (0 < k < List.length e)%nat ->
  decode (firstn k e) = None.
Proof.
  intros H Hk. apply encode_char_bytes in H.
  destruct H as [[R ->]
                | [[b0 [b1 [-> [H0 _]]]]
                  | [[b0 [b1 [b2 [-> [H0 _]]]]]
                    | [b0 [b1 [b2 [b3 [-> [H0 _]]]]]]]]];
    cbn [List.length] in Hk.
  - lia.
  - destruct k as [|[|k]]; try lia. cbn [firstn].
    apply decode_lead_alone. lia.
  - destruct k as [|[|[|k]]]; try lia; cbn [firstn].
    + apply decode_lead_alone. lia.
    + apply decode_lead_one. lia.
  - destruct k as [|[|[|[|k]]]]; try lia; cbn [firstn].
    + apply decode_lead_alone. lia.
    + apply decode_lead_one. lia.
    + apply decode_lead_two. lia.
Qed.

Lemma utf8_len_nonneg (s : pystr) : 0 <= utf8_len s.
Proof.
  induction s as [|c s IH]; cbn [utf8_len]; [lia|].
  unfold char_bytes. destruct (encode_char c) as [e|];
    [pose proof (len_nonneg e)|]; lia.
Qed.

Lemma utf8_len_app (s1 s2 : pystr) :
  utf8_len (s1 ++ s2) = utf8_len s1 + utf8_len s2.
Proof.
  induction s1 as [|c s1 IH]; cbn [utf8_len app]; [lia|]. rewrite IH. lia.
Qed.

(** The number of bytes of an encoded string. *)
Lemma encode_len (s : pystr) (bs : list Z) :
  encode s = Ok bs -> len bs = utf8_len s.
Proof.
  revert bs. induction s as [|c s IH]; intros bs H; cbn in H.
  - inversion H. reflexivity.
  - destruct (encode_char c) as [e|] eqn:He; [|discriminate].
    destruct (encode s) as [rest|]; cbn [bind] in H; [|discriminate].
    inversion H; subst bs. rewrite len_app, (IH rest eq_refl).
    cbn [utf8_len]. unfold char_bytes. rewrite He. reflexivity.
Qed.

Lemma take_chars_zero (txt : pystr) : take_chars txt 0 = [].
Proof.
  destruct txt as [|c txt]; cbn [take_chars]; [reflexivity|].
  destruct (Z.leb_spec 1 (char_bytes c)); destruct (Z.leb_spec (char_bytes c) 0);
    cbn [andb]; try reflexivity; lia.
Qed.

Lemma take_chars_len (txt : pystr) (n : Z) :
  0 <= n -> utf8_len (take_chars txt n) <= n.
Proof.
  revert n. induction txt as [|c txt IH]; intros n Hn; cbn [take_chars].
  - cbn. lia.
  - destruct (Z.leb_spec 1 (char_bytes c));
      destruct (Z.leb_spec (char_bytes c) n); cbn [andb utf8_len]; try lia.
    specialize (IH (n - char_bytes c)). lia.
Qed.

(** The text that is kept is a prefix of the text. *)
Lemma take_chars_prefix (txt : pystr) (n : Z) :
  exists rest, txt = take_chars txt n ++ rest.
Proof.
  revert n. induction txt as [|c txt IH]; intros n; cbn [take_chars].
  - exists []. reflexivity.
  - destruct ((1 <=? char_bytes c) && (char_bytes c <=? n)).
    + destruct (IH (n - char_bytes c)) as [rest Hr].
      exists rest. cbn [app]. rewrite <- Hr. reflexivity.
    + exists (c :: txt). reflexivity.
Qed.

(** The cut is the last possible one: the next character does not fit. *)
Lemma take_chars_maximal (txt : pystr) (n : Z) (c : Z) (rest : pystr) :
  txt = take_chars txt n ++ c :: rest ->
  encode_char c <> None ->
  n < utf8_len (take_chars txt n) + char_bytes c.
Proof.
  revert n. induction txt as [|x txt IH]; intros n H Hc.
  - destruct (take_chars [] n); discriminate.
  - cbn [take_chars] in *.
    destruct (Z.leb_spec 1 (char_bytes x));
      destruct (Z.leb_spec (char_bytes x) n); cbn [andb] in *.
    + cbn [app] in H. pose proof (f_equal (@tl Z) H) as H'. cbn [tl] in H'.
      cbn [utf8_len]. specialize (IH (n - char_bytes x) H' Hc). lia.
    + cbn [app utf8_len] in *. inversion H; subst. lia.
    + cbn [app utf8_len] in *. inversion H; subst.
      unfold char_bytes in *. destruct (encode_char c) as [e|] eqn:He;
        [|contradiction].
      pose proof (char_bytes_range c e He). lia.
    + cbn [app utf8_len] in *. inversion H; subst.
      unfold char_bytes in *. destruct (encode_char c) as [e|] eqn:He;
        [|contradiction].
      pose proof (char_bytes_range c e He). lia.
Qed.

Lemma take_chars_encodable (txt : pystr) (n : Z) :
  exists bs, encode (take_chars txt n) = Ok bs.
Proof.
  revert n. induction txt as [|c txt IH]; intros n; cbn [take_chars].
  - exists []. reflexivity.
  - destruct (Z.leb_spec 1 (char_bytes c));
      destruct (Z.leb_spec (char_bytes c) n); cbn [andb];
      try (exists []; reflexivity).
    destruct (IH (n - char_bytes c)) as [bs Hbs].
    unfold char_bytes in *. destruct (encode_char c) as [e|] eqn:He; [|lia].
    exists (e ++ bs). cbn [encode]. rewrite He, Hbs. reflexivity.
Qed.

(** Where the bytes of a text can be cut and still decode: at the end of a
    character. *)
Lemma decode_firstn (txt : pystr) :
  forall (bs : list Z) (k : nat),
    encode txt = Ok bs ->
    decode (firstn k bs)
    = if utf8_len (take_chars txt (Z.of_nat k)) =? Z.min (Z.of_nat k) (len bs)
      then Some (take_chars txt (Z.of_nat k))
      else None.
Proof.
  induction txt as [|c txt IH]; intros bs k H; cbn in H.
  - inversion H; subst bs. rewrite firstn_nil.
    cbn [decode take_chars utf8_len].
    replace (Z.min (Z.of_nat k) (len (@nil Z))) with 0
      by (unfold len; cbn [List.length]; lia).
    reflexivity.
  - destruct (encode_char c) as [e|] eqn:He; [|discriminate].
    destruct (encode txt) as [rest|] eqn:Hrest; cbn [bind] in H;
      [|discriminate].
    inversion H; subst bs; clear H.
    destruct (char_bytes_range c e He) as [Hcb Hrange].
    pose proof (len_nonneg rest) as Hrest0.
    rewrite firstn_app, len_app. cbn [take_chars]. rewrite Hcb.
    destruct (Z.leb_spec (len e) (Z.of_nat k)) as [Hge | Hlt].
    + replace (1 <=? len e) with true by (symmetry; apply Z.leb_le; lia).
      cbn [andb utf8_len]. rewrite Hcb.
      rewrite firstn_all2 by (unfold len in *; lia).
      rewrite (decode_char_app c e _ He).
      replace (Z.of_nat k - len e)
        with (Z.of_nat (k - List.length e)) by (unfold len in *; lia).
      rewrite (IH rest (k - List.length e)%nat eq_refl).
      replace (len e + utf8_len (take_chars txt (Z.of_nat (k - List.length e)))
               =? Z.min (Z.of_nat k) (len e + len rest))
        with (utf8_len (take_chars txt (Z.of_nat (k - List.length e)))
              =? Z.min (Z.of_nat (k - List.length e)) (len rest)).
      * destruct (_ =? _); reflexivity.
      * unfold len in *.
        destruct (Z.eqb_spec
                    (utf8_len (take_chars txt (Z.of_nat (k - List.length e))))
                    (Z.min (Z.of_nat (k - List.length e))
                       (Z.of_nat (List.length rest))));
          symmetry; [apply Z.eqb_eq | apply Z.eqb_neq]; lia.
    + rewrite andb_false_r. cbn [utf8_len].
      replace (k - List.length e)%nat with 0%nat by (unfold len in *; lia).
      cbn [firstn]. rewrite app_nil_r.
      destruct k as [|k].
      * change (Z.of_nat 0) with 0.
        replace (Z.min 0 (len e + len rest)) with 0 by lia.
        reflexivity.
      * rewrite (decode_char_cut c e (S k) He) by (unfold len in *; lia).
        replace (0 =? Z.min (Z.of_nat (S k)) (len e + len rest)) with false
          by (symmetry; apply Z.eqb_neq; lia).
        reflexivity.
Qed.

(** One byte less changes nothing when the cut is not at the end of a
    character. *)
Lemma take_chars_step (txt : pystr) :
  forall n : Z,
    1 <= n ->
    utf8_len (take_chars txt n) <> Z.min n (utf8_len txt) ->
    take_chars txt (n - 1) = take_chars txt n.
Proof.
  induction txt as [|c txt IH]; intros n Hn Hne; [reflexivity|].
  cbn [take_chars utf8_len] in *.
  pose proof (utf8_len_nonneg txt) as Hpos.
  destruct (Z.leb_spec 1 (char_bytes c)) as [H1 | H1];
    destruct (Z.leb_spec (char_bytes c) n) as [H2 | H2];
    cbn [andb] in *.
  - destruct (Z.leb_spec (char_bytes c) (n - 1)) as [H3 | H3].
    + f_equal. cbn [utf8_len] in Hne.
      replace (n - 1 - char_bytes c) with (n - char_bytes c - 1) by lia.
      apply IH; lia.
    + assert (char_bytes c = n) by lia.
      exfalso. apply Hne. cbn [utf8_len].
      replace (n - char_bytes c) with 0 by lia.
      rewrite take_chars_zero. cbn [utf8_len]. lia.
  - destruct (Z.leb_spec (char_bytes c) (n - 1)); [lia | reflexivity].
  - reflexivity.
  - reflexivity.
Qed.

End CodecFacts.

(** ** C8: the exclusion matcher *)

Module ExcludeFacts.
Import Exclude.

(** The doctest of the source. *)
Example doctest_1 :
  match_log_with_exclude_patterns Demo.str_of_scalar
    [(py "a", VInt 111)] Demo.doctest_patterns = Some true.
Proof. reflexivity. Qed.

Example doctest_2 :
  match_log_with_exclude_patterns Demo.str_of_scalar
    [(py "a", VInt 21112)] Demo.doctest_patterns = None.
Proof. reflexivity. Qed.

Example doctest_3 :
  match_log_with_exclude_patterns Demo.str_of_scalar
    [(py "a", VStr (py "111"))] Demo.doctest_patterns = Some true.
Proof. reflexivity. Qed.

Example doctest_4 :
  match_log_with_exclude_patterns Demo.str_of_scalar
    [(py "aa", VInt 222); (py "a", VInt 111)] Demo.doctest_patterns
  = Some true.
Proof. reflexivity. Qed.

Example doctest_5 :
  match_log_with_exclude_patterns Demo.str_of_scalar
    [(py "x", VDict [(py "y", VDict [(py "z", VInt 111)])])]
    Demo.doctest_patterns = Some true.
Proof. reflexivity. Qed.

Example doctest_6 :
  match_log_with_exclude_patterns Demo.str_of_scalar
    [(py "x", VDict [(py "y", VDict [(py "z", VInt 222)])])]
    Demo.doctest_patterns = None.
Proof. reflexivity. Qed.

Example doctest_7 :
  match_log_with_exclude_patterns Demo.str_of_scalar
    [(py "x", VDict [(py "hoge", VInt 222);
                     (py "y", VDict [(py "z", VInt 111)])])]
    Demo.doctest_patterns = Some true.
Proof. reflexivity. Qed.

Example doctest_8 :
  match_log_with_exclude_patterns Demo.str_of_scalar
    [(py "a", VInt 222)] Demo.doctest_patterns = None.
Proof. reflexivity. Qed.

Section Soundness.

Variable py_str : value -> pystr.

(** Whenever the matcher answers [True], some leaf pattern does match: the
    matcher never excludes a record the specification would keep. *)
Lemma match_patterns_sound (p : pattern) :
  forall log_dict,
    match_patterns py_str log_dict p = Some true ->
    spec_match py_str log_dict p = true.
Proof.
  revert p. fix IH 1. intros [re | items | ] log_dict; try discriminate.
  cbn [match_patterns spec_match].
  induction items as [|[key pat] items IHitems]; [discriminate|].
  pose proof (IH pat) as IHpat.
  destruct (dict_get key log_dict) as [v|]; [|exact IHitems].
  destruct pat as [re | sub | ].
  - destruct v;
      try (destruct (re (py_str _)); [reflexivity | exact IHitems]).
    exact IHitems.
  - destruct v; try exact IHitems.
    intros H. apply IHpat in H. rewrite H. reflexivity.
  - destruct v; exact IHitems.
Qed.

End Soundness.

End ExcludeFacts.

(** C8 (the code departs from the specification). The record has a = 111 and the
    pattern map holds the leaf [^111$] under the key a, so a leaf pattern
    matches and the answer should be true.  The pattern map also holds, in
    front of it, a nested branch x.y.z that the record enters without a
    match; the matcher returns the result of that branch and never looks at
    the sibling a: the answer is [None]. *)
Theorem C8_nested_miss_hides_sibling_match :
  let log_dict :=
    [(py "x", VDict [(py "y", VDict [(py "z", VInt 222)])]);
     (py "a", VInt 111)] in
  Exclude.match_log_with_exclude_patterns Demo.str_of_scalar log_dict
    Demo.nested_first_patterns = None
  /\ Exclude.spec_match Demo.str_of_scalar log_dict
       (Exclude.PDict Demo.nested_first_patterns) = true
  /\ Exclude.match_log_with_exclude_patterns Demo.str_of_scalar
       [(py "a", VInt 111)] Demo.nested_first_patterns = Some true.
Proof.
  cbv zeta. repeat split.
Qed.

(** ** C5: the form of [@id] *)

Section C5.
Import LogParser.

Variable E : env.
Variable self : t.



End C5.


(** ** C9: the document id and the clock *)

Module IdFacts.
Import LogParser Notions.

Lemma dict_get_del_other {V} (k k' : pystr) (d : list (pystr * V)) :
  pystr_eqb k k' = false ->
  dict_get k (dict_del k' d) = dict_get k d.
Proof.
  intros Hk. induction d as [|[k0 v0] d IH]; cbn; [reflexivity|].
  destruct (pystr_eqb k' k0) eqn:E0.
  - apply DictFacts.pystr_eqb_eq in E0. subst k0. rewrite Hk. reflexivity.
  - cbn. rewrite IH. reflexivity.
Qed.




Section WithEnv.

Variable E : env.
Variable self : t.





(** *** The steps of [__call__], key by key *)






End WithEnv.

End IdFacts.




(** Without a suffix, and without field mappings, the document id of every
    line is the same whatever the clock shows. *)
Example plain_records_have_one_id (line : pystr) (c1 c2 : LogParser.clock) :
  let self := Demo.plain_parser [] [] in
  bind (LogParser.call Demo.plain_env self Demo.no_attrs c1 (VStr line) [])
       (LogParser.doc_id_of Demo.plain_env self)
  = bind (LogParser.call Demo.plain_env self Demo.no_attrs c2 (VStr line) [])
         (LogParser.doc_id_of Demo.plain_env self).
Proof.
  cbv zeta. unfold LogParser.call, LogParser.prepare.
  unfold LogParser.logdata_to_dict, LogParser.text_logdata_to_dict.
  cbn [dict_has dict_get orb].
  change (LogParser.logformat (Demo.plain_parser [] [])) with (py "text").
  replace (str_contains (py "text") (py "csv")) with false by reflexivity.
  replace (str_contains (py "text") (py "json")) with false by reflexivity.
  replace (pystr_eqb (py "text") (py "winevtxml")) with false by reflexivity.
  replace (pystr_eqb (py "text") (py "xml")) with false by reflexivity.
  replace (pystr_eqb (py "text") (py "text")) with true by reflexivity.
  cbn [orb].
  change (LogParser.log_pattern (LogParser.config (Demo.plain_parser [] [])))
    with (Some Demo.request_pattern).
  cbn [bind]. unfold Demo.request_pattern.
  destruct (Demo.until_space line []) as [[a b]|]; [|reflexivity].
  cbn [bind].
  unfold LogParser.add_basic_field, LogParser.basic_dict, LogParser.basic_id.
  cbn [LogParser.skip_normalization LogParser.set_skip_normalization
       LogParser.get_timestamp].
  cbn -[Codec.md5_of_str].
  destruct (Codec.md5_of_str line) as [h|e]; [|reflexivity].
  vm_compute. reflexivity.
Qed.

(** ** C6: truncation of oversized fields *)

Module TruncateFacts.
Import LogParser TruncateSpec CodecFacts.

(** [truncate_txt] cuts at the last character boundary within [num]
    bytes. *)
Lemma truncate_txt_take (txt : pystr) (bs : list Z) (n : nat) :
  Codec.encode txt = Ok bs ->
  truncate_txt txt n = Ok (take_chars txt (Z.of_nat n)).
Proof.
  intros H. induction n as [|n IH]; cbn [truncate_txt]; rewrite H;
    cbn [bind]; rewrite (decode_firstn txt bs _ H).
  - rewrite take_chars_zero. cbn [utf8_len].
    replace (Z.min (Z.of_nat 0) (len bs)) with 0
      by (pose proof (WindowFacts.len_nonneg bs); lia).
    reflexivity.
  - destruct (Z.eqb_spec (utf8_len (take_chars txt (Z.of_nat (S n))))
                (Z.min (Z.of_nat (S n)) (len bs))) as [Heq | Hne];
      [reflexivity|].
    rewrite IH. f_equal.
    replace (Z.of_nat n) with (Z.of_nat (S n) - 1) by lia.
    apply take_chars_step; [lia|].
    rewrite <- (encode_len txt bs H). exact Hne.
Qed.

Lemma truncate_txt_32753 (txt : pystr) (bs : list Z) :
  Codec.encode txt = Ok bs ->
  truncate_txt txt (Z.to_nat 32753) = Ok (take_chars txt 32753).
Proof.
  intros H. rewrite (truncate_txt_take txt bs _ H).
  rewrite Z2Nat.id by lia. reflexivity.
Qed.

Lemma is_big_oversized (s : pystr) (b : bool) :
  is_big s = Ok b ->
  b = oversized s /\ (b = true -> exists bs, Codec.encode s = Ok bs).
Proof.
  unfold is_big, oversized.
  destruct (16383 <=? len s).
  - destruct (Codec.encode s) as [bs|e] eqn:He; cbn [bind]; [|discriminate].
    intros H. inversion H. rewrite (encode_len s bs He).
    split; [reflexivity | intros _; exists bs; reflexivity].
  - intros H. inversion H. split; [reflexivity | discriminate].
Qed.

(** Whenever [truncate_big_field] walks a value to its end, the value it
    leaves is the one the specification describes. *)
Lemma truncate_walk_refines (v : value) :
  forall has_id has_suffix is_top removed v' r,
    truncate_walk has_id has_suffix is_top v removed = Ok (v', r) ->
    v' = truncate v.
Proof.
  revert v. fix IH 1. intros v has_id has_suffix is_top removed v' r.
  destruct v as [ | b | z | s | l | items].
  1-5: (cbn [truncate_walk truncate]; intros H; inversion H; reflexivity).
  cbn [truncate_walk truncate].
  match goal with
  | |- bind (?loop items removed) _ = _ -> _ =>
      assert (L : forall items removed l r,
                 loop items removed = Ok (l, r) ->
                 l = (fix walk (items : list (pystr * value))
                        : list (pystr * value) :=
                        match items with
                        | [] => []
                        | (key, x) :: items' =>
                            (key,
                             match x with
                             | VDict _ => truncate x
                             | VStr s =>
                                 if oversized s
                                    && negb (pystr_eqb key (py "@message"))
                                 then VStr (take_chars s 32753
                                            ++ py "<<TRUNCATED>>")
                                 else x
                             | _ => x
                             end) :: walk items'
                        end) items)
  end.
  { clear items removed v' r.
    induction items as [|[key x] items IHitems]; intros removed l r H.
    - inversion H. reflexivity.
    - pose proof (IH x) as IHx.
      destruct x as [ | b | z | s | l0 | sub].
      + destruct (_ items removed) as [[l' r']|e] eqn:Hl in H;
          cbn [bind] in H; [|discriminate].
        inversion H; subst. f_equal. eapply IHitems. exact Hl.
      + destruct (_ items removed) as [[l' r']|e] eqn:Hl in H;
          cbn [bind] in H; [|discriminate].
        inversion H; subst. f_equal. eapply IHitems. exact Hl.
      + destruct (_ items removed) as [[l' r']|e] eqn:Hl in H;
          cbn [bind] in H; [|discriminate].
        inversion H; subst. f_equal. eapply IHitems. exact Hl.
      + destruct (is_big s) as [big|e] eqn:Hbig; cbn [bind] in H;
          [|discriminate].
        destruct (is_big_oversized s big Hbig) as [-> Henc].
        destruct (oversized s && negb (pystr_eqb key (py "@message")))
          eqn:Hcut.
        * apply andb_true_iff in Hcut. destruct Hcut as [Hov _].
          destruct (Henc Hov) as [bs Hbs].
          destruct (is_top && removed
                    && pystr_eqb key (py "__doc_id_suffix"));
            [discriminate|].
          rewrite (truncate_txt_32753 s bs Hbs) in H. cbn [bind] in H.
          destruct has_id; [|discriminate].
          destruct (_ items (removed || has_suffix)) as [[l' r']|e] eqn:Hl in H;
            cbn [bind] in H; [|discriminate].
          inversion H; subst. f_equal. eapply IHitems. exact Hl.
        * destruct (_ items removed) as [[l' r']|e] eqn:Hl in H;
            cbn [bind] in H; [|discriminate].
          inversion H; subst. f_equal. eapply IHitems. exact Hl.
      + destruct (_ items removed) as [[l' r']|e] eqn:Hl in H;
          cbn [bind] in H; [|discriminate].
        inversion H; subst. f_equal. eapply IHitems. exact Hl.
      + destruct (truncate_walk has_id has_suffix false (VDict sub) removed)
          as [[x' r0]|e] eqn:Hx in H; cbn [bind] in H; [|discriminate].
        destruct (_ items r0) as [[l' r']|e] eqn:Hl in H;
          cbn [bind] in H; [|discriminate].
        inversion H; subst. f_equal.
        * f_equal. eapply IHx. exact Hx.
        * eapply IHitems. exact Hl. }
  match goal with
  | |- bind ?c _ = _ -> _ => destruct c as [[l0 r0]|e] eqn:Hc
  end; cbn [bind]; [|discriminate].
  intros H. inversion H; subst. f_equal. eapply L. exact Hc.
Qed.

(** After truncation every string field meets the bound. *)
Lemma truncate_bounded (v : value) : all_fields bounded (truncate v).
Proof.
  revert v. fix IH 1. intros v.
  destruct v as [ | b | z | s | l | items]; try exact I.
  cbn [truncate all_fields].
  induction items as [|[key x] items IHitems]; [exact I|].
  pose proof (IH x) as IHx.
  split; [|exact IHitems].
  destruct x as [ | b | z | s | l0 | sub]; try exact I.
  - destruct (oversized s && negb (pystr_eqb key (py "@message"))) eqn:Hcut.
    + right. right. rewrite utf8_len_app.
      pose proof (take_chars_len s 32753 ltac:(lia)).
      replace (utf8_len (py "<<TRUNCATED>>")) with 13 by reflexivity. lia.
    + apply andb_false_iff in Hcut. destruct Hcut as [Hov | Hkey].
      * unfold oversized in Hov. apply andb_false_iff in Hov.
        destruct Hov as [Hlen | Hbytes].
        -- right. left. apply Z.leb_gt in Hlen. exact Hlen.
        -- right. right. apply Z.leb_gt in Hbytes. lia.
      * left. apply negb_false_iff in Hkey.
        apply DictFacts.pystr_eqb_eq in Hkey. exact Hkey.
  - exact IHx.
Qed.

Lemma all_fields_del (P : pystr -> pystr -> Prop) (k : pystr) (d : pydict) :
  all_fields P (VDict d) -> all_fields P (VDict (dict_del k d)).
Proof.
  cbn [all_fields].
  induction d as [|[key x] d IH]; [intros; exact I|].
  intros [Hx Hd]. cbn [dict_del].
  destruct (pystr_eqb k key); [exact Hd|].
  split; [exact Hx | apply IH; exact Hd].
Qed.

(** [truncate_big_field] returns when [@id] is in the document,
    [__doc_id_suffix] is not, and every string field can be encoded. *)
Lemma truncate_walk_total (v : value) :
  forall is_top,
    all_fields (fun _ s => exists bs, Codec.encode s = Ok bs) v ->
    truncate_walk true false is_top v false = Ok (truncate v, false).
Proof.
  revert v. fix IH 1. intros v is_top.
  destruct v as [ | b | z | s | l | items].
  1-5: (intros _; reflexivity).
  cbn [truncate_walk truncate all_fields].
  intros Hall.
  match goal with
  | |- bind (?loop items false) _ = Ok (VDict (?walk items), false) =>
      assert (L : loop items false = Ok (walk items, false))
  end.
  { induction items as [|[key x] items IHitems]; [reflexivity|].
    pose proof (IH x false) as IHx.
    destruct Hall as [Hx Hitems]. specialize (IHitems Hitems).
    destruct x as [ | b | z | s | l0 | sub].
    1-3, 5: (rewrite IHitems; reflexivity).
    - destruct Hx as [bs Hbs].
      assert (Hbig : is_big s = Ok (oversized s)).
      { unfold is_big, oversized. rewrite Hbs. cbn [bind].
        rewrite (encode_len s bs Hbs).
        destruct (16383 <=? len s); reflexivity. }
      rewrite Hbig. cbn [bind].
      destruct (oversized s && negb (pystr_eqb key (py "@message"))).
      + rewrite andb_false_r. cbn [andb].
        rewrite (truncate_txt_32753 s bs Hbs). cbn [bind orb].
        rewrite IHitems. reflexivity.
      + rewrite IHitems. reflexivity.
    - rewrite (IHx Hx). cbn [bind fst snd]. rewrite IHitems. reflexivity. }
  rewrite L. reflexivity.
Qed.

End TruncateFacts.

Section Truncation.
Import LogParser TruncateSpec.

Variable E : env.

(** X30. For every document [json] serialises, the emitted text is the
    serialisation of the document that is left, and
    - either the serialisation of the cleaned document has fewer than
      65,536 characters, and the document is left as cleaned;
    - or it has at least 65,536, and the document left is the cleaned one
      in which every string that is the value of a key, at any depth of
      nested maps, with at least 16,383 characters and at least 32,766
      UTF-8 bytes, and whose key is not [@message], is cut at the last
      character boundary within 32,753 bytes and followed by
      '<<TRUNCATED>>' (less the entry [__doc_id_suffix], when the warning
      of a truncation removed it); every such string of it is then
      [@message], or has fewer than 16,383 characters, or has at most
      32,766 UTF-8 bytes.  A string of fewer than 16,383 characters is
      never cut, however many bytes it has, and neither is a string inside
      a list. *)
Theorem X30_truncation_bound (d d' : pydict) (out : pystr) :
  json E d = Ok (out, d') ->
  out = json_dumps E (VDict d')
  /\ ((len (json_dumps E (VDict (del_none d))) < 65536
       /\ d' = del_none d)
      \/ (65536 <= len (json_dumps E (VDict (del_none d)))
          /\ all_fields bounded (VDict d')
          /\ exists x,
               truncate (VDict (del_none d)) = VDict x
               /\ (d' = x \/ d' = dict_del (py "__doc_id_suffix") x))).
Proof.
  unfold json.
  destruct (Z.leb_spec 65536 (len (json_dumps E (VDict (del_none d)))))
    as [Hbig | Hsmall].
  - unfold truncate_big_field.
    destruct (truncate_walk _ _ true (VDict (del_none d)) false)
      as [[v r]|e] eqn:Hw; cbn [bind]; [|discriminate].
    pose proof (TruncateFacts.truncate_walk_refines _ _ _ _ _ _ _ Hw) as Hv.
    subst v.
    pose proof (TruncateFacts.truncate_bounded (VDict (del_none d))) as Hb.
    destruct (truncate (VDict (del_none d))) as [ | | | | | x] eqn:Ht;
      try (cbn in Ht; discriminate).
    cbn [fst snd bind]. intros H. inversion H; subst. clear H.
    split; [reflexivity|]. right. split; [exact Hbig|].
    destruct r.
    + split; [apply TruncateFacts.all_fields_del; exact Hb|].
      exists x. split; [reflexivity | right; reflexivity].
    + split; [exact Hb|]. exists x. split; [reflexivity | left; reflexivity].
  - intros H. inversion H; subst. split; [reflexivity|].
    left. split; [lia | reflexivity].
Qed.

(** [json] returns on every document whose cleaned form has [@id], has no
    [__doc_id_suffix], and holds only strings that can be encoded. *)
Lemma json_returns (d : pydict) :
  dict_has (py "@id") (del_none d) = true ->
  dict_has (py "__doc_id_suffix") (del_none d) = false ->
  all_fields (fun _ s => exists bs, Codec.encode s = Ok bs)
    (VDict (del_none d)) ->
  exists out d', json E d = Ok (out, d').
Proof.
  intros Hid Hsuf Henc. unfold json.
  destruct (65536 <=? len (json_dumps E (VDict (del_none d))));
    [|eexists; eexists; reflexivity].
  unfold truncate_big_field. rewrite Hid, Hsuf.
  rewrite (TruncateFacts.truncate_walk_total _ true Henc). cbn [bind fst snd].
  destruct (truncate (VDict (del_none d))); eexists; eexists; reflexivity.
Qed.

End Truncation.
(** A call that returns, written with what it returns. *)
Lemma returned_pair {A B} (r : result (A * B)) (a0 : A) (b0 : B) :
  match r with Ok _ => true | Raise _ => false end = true ->
  r = Ok (fst (match r with Ok x => x | Raise _ => (a0, b0) end),
          snd (match r with Ok x => x | Raise _ => (a0, b0) end)).
Proof. destruct r as [[a b]|e]; [reflexivity | discriminate]. Qed.

Lemma X30_truncation_bound_witness :
  exists out d',
    LogParser.json Demo.plain_env Demo.big_document = Ok (out, d')
    /\ 65536 <= len (PyJson.dumps (VDict (LogParser.del_none
                                             Demo.big_document)))
    /\ TruncateSpec.all_fields TruncateSpec.bounded (VDict d')
    /\ match dict_get (py "a") d' with
       | Some (VStr s) =>
           pystr_eqb s (repeat 120 (Z.to_nat 32753) ++ py "<<TRUNCATED>>")
       | _ => false
       end = true.
Proof.
  pose proof (returned_pair
                (LogParser.json Demo.plain_env Demo.big_document) [] []
                ltac:(vm_compute; reflexivity)) as H.
  eexists. eexists. split; [exact H|].
  destruct (X30_truncation_bound Demo.plain_env Demo.big_document _ _ H)
    as [_ [[Hsmall _] | [Hbig [Hb _]]]].
  - exfalso. vm_compute in Hsmall. discriminate Hsmall.
  - split; [exact Hbig|]. split; [exact Hb|]. vm_compute. reflexivity.
Defined.

(** A field that is cut has up to 32,753 + 13 = 32,766 bytes: on a
    document whose raw record has 70,000 characters and whose field a has
    40,000, the emitted document serialises to more than 65,536 characters
    and its field a has exactly 32,766 UTF-8 bytes. *)
Example truncated_field_has_32766_bytes :
  match LogParser.json Demo.plain_env Demo.big_document with
  | Ok (out, d') =>
      (65536 <=? len out)
      && match dict_get (py "a") d' with
         | Some (VStr s) =>
             pystr_eqb s (repeat 120 (Z.to_nat 32753) ++ py "<<TRUNCATED>>")
             && match Codec.encode s with
                | Ok bs => (len bs =? 32766) && negb (len bs <? 32766)
                | Raise _ => false
                end
         | _ => false
         end
  | Raise _ => false
  end = true.
Proof. vm_compute. reflexivity. Qed.

(** C6. A document whose field msg holds 12,000 characters of three bytes
    each.  Its serialisation has more than 65,536 characters, so [json]
    calls [truncate_big_field]; the field has 36,000 UTF-8 bytes, more
    than the 32,766 bytes that the docstring of [truncate_big_field] and
    the comment in [json] give as the limit; yet the document is emitted
    as it is, the field uncut: the test [len(value) >= 16383] counts
    characters, and the field has fewer than 16,383 of them. *)
Theorem C6_heavy_field_is_not_truncated :
  match LogParser.json Demo.plain_env Demo.heavy_document with
  | Ok (out, d') =>
      (65536 <=? len out)
      && match dict_get (py "msg") d' with
         | Some (VStr s) =>
             pystr_eqb s Demo.heavy_text
             && (len s =? 12000) && (len s <? 16383)
             && match Codec.encode s with
                | Ok bs => (len bs =? 36000) && (32766 <? len bs)
                | Raise _ => false
                end
         | _ => false
         end
  | Raise _ => false
  end = true.
Proof. vm_compute. reflexivity. Qed.

(* ================================================================== *)
(** * Further properties of the code *)
(* ================================================================== *)

(** ** Induction on values, and dicts with unique keys *)

Module ValueFacts.
Import Shape DictFacts.

Lemma value_induction (P : value -> Prop) :
  P VNone ->
  (forall b, P (VBool b)) ->
  (forall z, P (VInt z)) ->
  (forall s, P (VStr s)) ->
  (forall l, Forall P l -> P (VList l)) ->
  (forall d, Forall (fun kv => P (snd kv)) d -> P (VDict d)) ->
  forall v, P v.
Proof.
  intros HN HB HI HS HL HD. fix IH 1. intros [ | b | z | s | l | d].
  - exact HN.
  - apply HB.
  - apply HI.
  - apply HS.
  - apply HL. induction l as [|x l IHl]; constructor; [apply IH | exact IHl].
  - apply HD. induction d as [|[k x] d IHd]; constructor;
      [apply IH | exact IHd].
Qed.

Lemma unique_keys_cons (k : pystr) (x : value) (d : pydict) :
  unique_keys (VDict ((k, x) :: d))
  = negb (dict_has k d) && unique_keys x && unique_keys (VDict d).
Proof. reflexivity. Qed.

Lemma unique_keys_list_cons (x : value) (l : list value) :
  unique_keys (VList (x :: l)) = unique_keys x && unique_keys (VList l).
Proof. reflexivity. Qed.

Lemma dict_get_In {V} (k : pystr) (v : V) (d : list (pystr * V)) :
  dict_get k d = Some v -> In (k, v) d.
Proof.
  induction d as [|[k0 v0] d IH]; cbn; [discriminate|].
  destruct (pystr_eqb k k0) eqn:E.
  - apply pystr_eqb_eq in E. subst k0. intros H. inversion H. left. reflexivity.
  - intros H. right. apply IH. exact H.
Qed.

Lemma In_dict_has {V} (k : pystr) (v : V) (d : list (pystr * V)) :
  In (k, v) d -> dict_has k d = true.
Proof.
  unfold dict_has. induction d as [|[k0 v0] d IH]; cbn; [contradiction|].
  intros [H | H].
  - inversion H; subst. rewrite pystr_eqb_refl. reflexivity.
  - destruct (pystr_eqb k k0); [reflexivity | apply IH; exact H].
Qed.

(** In a dict with unique keys, every entry is the one its key finds. *)
Lemma unique_keys_In (d : pydict) (k : pystr) (u : value) :
  unique_keys (VDict d) = true ->
  In (k, u) d ->
  dict_get k d = Some u /\ unique_keys u = true.
Proof.
  induction d as [|[k0 x0] d IH]; [contradiction|].
  rewrite unique_keys_cons. intros H Hin.
  apply andb_true_iff in H. destruct H as [H Hd].
  apply andb_true_iff in H. destruct H as [Hk Hx].
  apply negb_true_iff in Hk.
  destruct Hin as [Hin | Hin].
  - inversion Hin; subst. cbn. rewrite pystr_eqb_refl. split; [reflexivity | exact Hx].
  - cbn. destruct (pystr_eqb k k0) eqn:E.
    + apply pystr_eqb_eq in E. subst k0.
      rewrite (In_dict_has _ _ _ Hin) in Hk. discriminate.
    + apply IH; assumption.
Qed.

(** The entry a key finds splits the dict in two parts without the key. *)
Lemma unique_keys_split (d : pydict) (k : pystr) (u : value) :
  unique_keys (VDict d) = true ->
  dict_get k d = Some u ->
  exists pre post,
    d = pre ++ (k, u) :: post
    /\ dict_get k pre = None /\ dict_get k post = None.
Proof.
  induction d as [|[k0 x0] d IH]; [discriminate|].
  rewrite unique_keys_cons. intros H Hget.
  apply andb_true_iff in H. destruct H as [H Hd].
  apply andb_true_iff in H. destruct H as [Hk Hx].
  apply negb_true_iff in Hk. cbn in Hget.
  destruct (pystr_eqb k k0) eqn:E.
  - apply pystr_eqb_eq in E. subst k0. inversion Hget; subst.
    exists [], d. split; [reflexivity|]. split; [reflexivity|].
    unfold dict_has in Hk. destruct (dict_get k d); [discriminate | reflexivity].
  - destruct (IH Hd Hget) as [pre [post [E1 [E2 E3]]]].
    exists ((k0, x0) :: pre), post. subst d. split; [reflexivity|].
    split; [cbn; rewrite E; exact E2 | exact E3].
Qed.

Lemma dict_set_same {V} (k : pystr) (v : V) (d : list (pystr * V)) :
  dict_get k d = Some v -> dict_set k v d = d.
Proof.
  induction d as [|[k0 v0] d IH]; cbn; [discriminate|].
  destruct (pystr_eqb k k0) eqn:E.
  - intros H. inversion H. reflexivity.
  - intros H. rewrite IH by exact H. reflexivity.
Qed.

Lemma dict_has_set {V} (k k' : pystr) (v : V) (d : list (pystr * V)) :
  dict_has k (dict_set k' v d) = pystr_eqb k k' || dict_has k d.
Proof.
  unfold dict_has. rewrite dict_get_set.
  destruct (pystr_eqb k k'); reflexivity.
Qed.

Lemma keys_set {V} (k : pystr) (v : V) (d : list (pystr * V)) :
  keys (dict_set k v d) = if dict_has k d then keys d else keys d ++ [k].
Proof.
  unfold keys, dict_has. induction d as [|[k0 v0] d IH]; cbn; [reflexivity|].
  destruct (pystr_eqb k k0) eqn:E; cbn; [reflexivity|].
  rewrite IH. destruct (dict_get k d); reflexivity.
Qed.

(** [v == v] holds for every value (there are no floats). *)
Lemma py_eq_refl (v : value) : unique_keys v = true -> Utils.py_eq v v = true.
Proof.
  induction v as [ | b | z | s | l IHl | d IHd] using value_induction;
    intros H; cbn [Utils.py_eq].
  - reflexivity.
  - destruct b; reflexivity.
  - apply Z.eqb_refl.
  - apply pystr_eqb_refl.
  - induction l as [|x l IH]; [reflexivity|].
    rewrite unique_keys_list_cons in H.
    apply andb_true_iff in H. destruct H as [Hx Hl].
    inversion IHl; subst.
    apply andb_true_iff. split; [auto | apply IH; assumption].
  - rewrite Z.eqb_refl. cbn [andb].
    match goal with
    | |- ?f d = true =>
        assert (G : forall items,
                   (forall k u, In (k, u) items ->
                                dict_get k d = Some u
                                /\ Utils.py_eq u u = true) ->
                   f items = true)
    end.
    { induction items as [|[k u] items IH]; intros Hi; [reflexivity|].
      destruct (Hi k u (or_introl eq_refl)) as [Hg He].
      rewrite Hg, He. cbn [andb].
      apply IH. intros k' u' Hin. apply Hi. right. exact Hin. }
    apply G. intros k u Hin.
    destruct (unique_keys_In d k u H Hin) as [Hg Hu].
    split; [exact Hg|].
    rewrite Forall_forall in IHd. apply (IHd (k, u) Hin). exact Hu.
Qed.

End ValueFacts.

(** ** [merge] *)

Module MergeFacts.
Import Notions Shape DictFacts ValueFacts.

Lemma dict_has_merge_step (a : pydict) (key k : pystr) (bv : value) :
  dict_has k (merge_step a key bv) = dict_has k a || pystr_eqb k key.
Proof.
  unfold dict_has. rewrite merge_step_get.
  destruct (pystr_eqb k key); [|destruct (dict_get k a); reflexivity].
  destruct (dict_get k a); reflexivity.
Qed.

Lemma keys_merge_step (a : pydict) (key : pystr) (bv : value) :
  keys (merge_step a key bv)
  = if dict_has key a then keys a else keys a ++ [key].
Proof.
  unfold merge_step, dict_has.
  destruct (dict_get key a) as [av|] eqn:E.
  - destruct av, bv;
      try (rewrite keys_set; unfold dict_has; rewrite E; reflexivity);
      match goal with
      | |- context [if ?c then _ else _] => destruct c
      end;
      try reflexivity;
      rewrite keys_set; unfold dict_has; rewrite E; reflexivity.
  - rewrite keys_set. unfold dict_has. rewrite E. reflexivity.
Qed.

Lemma dict_has_cons {V} (k k0 : pystr) (v0 : V) (d : list (pystr * V)) :
  dict_has k ((k0, v0) :: d) = pystr_eqb k k0 || dict_has k d.
Proof. unfold dict_has. cbn. destruct (pystr_eqb k k0); reflexivity. Qed.

Lemma merge_dicts_has (k : pystr) (b a : pydict) :
  dict_has k (Utils.merge_dicts a b) = dict_has k a || dict_has k b.
Proof.
  revert a. induction b as [|[key bv] b IH]; intros a.
  - rewrite merge_dicts_nil. unfold dict_has at 3. cbn.
    rewrite orb_false_r. reflexivity.
  - rewrite merge_dicts_cons, IH, dict_has_merge_step, dict_has_cons.
    rewrite orb_assoc. reflexivity.
Qed.

Lemma merge_dicts_keys (b a : pydict) :
  exists added,
    keys (Utils.merge_dicts a b) = keys a ++ added
    /\ forall k, In k added -> dict_has k a = false /\ dict_has k b = true.
Proof.
  revert a. induction b as [|[key bv] b IH]; intros a.
  - exists []. rewrite merge_dicts_nil, app_nil_r.
    split; [reflexivity | contradiction].
  - rewrite merge_dicts_cons.
    destruct (IH (merge_step a key bv)) as [added [E H]].
    rewrite keys_merge_step in E.
    destruct (dict_has key a) eqn:Ha.
    + exists added. split; [exact E|].
      intros k Hk. destruct (H k Hk) as [H1 H2].
      rewrite dict_has_merge_step in H1. apply orb_false_iff in H1.
      destruct H1 as [H1 H3]. split; [exact H1|].
      rewrite dict_has_cons, H2. apply orb_true_r.
    + exists (key :: added). split; [rewrite E, <- app_assoc; reflexivity|].
      intros k [<- | Hk].
      * split; [exact Ha|]. rewrite dict_has_cons, pystr_eqb_refl. reflexivity.
      * destruct (H k Hk) as [H1 H2].
        rewrite dict_has_merge_step in H1. apply orb_false_iff in H1.
        destruct H1 as [H1 H3]. split; [exact H1|].
        rewrite dict_has_cons, H2. apply orb_true_r.
Qed.

Lemma merge_step_absorbs (r : pydict) (k : pystr) (x bv : value) :
  dict_get k r = Some x -> absorbs x bv -> merge_step r k bv = r.
Proof.
  intros Hg Ha. unfold merge_step. rewrite Hg.
  destruct x, bv; cbv beta iota delta [absorbs] in Ha; rewrite ?Ha;
    try reflexivity.
  apply dict_set_same. exact Hg.
Qed.

Lemma merge_dicts_fixed (a items : pydict) :
  (forall k v, In (k, v) items -> merge_step a k v = a) ->
  Utils.merge_dicts a items = a.
Proof.
  induction items as [|[k v] items IH]; intros H; [reflexivity|].
  rewrite merge_dicts_cons, (H k v (or_introl eq_refl)).
  apply IH. intros k' v' Hin. apply H. right. exact Hin.
Qed.

(** Merging a dict into itself leaves it as it is. *)
Lemma merge_self (v : value) :
  unique_keys v = true ->
  match v with
  | VDict d => Utils.merge d v = d
  | _ => True
  end.
Proof.
  induction v as [ | b | z | s | l IHl | d IHd] using value_induction;
    intros H; try exact I.
  apply (merge_dicts_fixed d d). intros k v Hin.
  destruct (unique_keys_In d k v H Hin) as [Hg Hu].
  apply (merge_step_absorbs d k v v Hg).
  rewrite Forall_forall in IHd. specialize (IHd (k, v) Hin Hu). cbn in IHd.
  unfold absorbs. destruct v; try (apply py_eq_refl; exact Hu). exact IHd.
Qed.

Lemma absorbs_self (v : value) : unique_keys v = true -> absorbs v v.
Proof.
  intros H. pose proof (merge_self v H) as M. unfold absorbs.
  destruct v; try (apply py_eq_refl; exact H). exact M.
Qed.

(** Merging the same dict a second time changes nothing. *)
Lemma merge_twice (v : value) :
  unique_keys v = true ->
  forall a, Utils.merge (Utils.merge a v) v = Utils.merge a v.
Proof.
  induction v as [ | b | z | s | l IHl | d IHd] using value_induction;
    intros H a; try reflexivity.
  apply (merge_dicts_fixed (Utils.merge a (VDict d)) d). intros k bv Hin.
  destruct (unique_keys_In d k bv H Hin) as [Hg Hu].
  destruct (unique_keys_split d k bv H Hg) as [pre [post [E [Hpre Hpost]]]].
  rewrite Forall_forall in IHd. specialize (IHd (k, bv) Hin Hu). cbn in IHd.
  apply (merge_step_absorbs _ k (merged (dict_get k a) bv) bv).
  - change (Utils.merge a (VDict d)) with (Utils.merge_dicts a d).
    rewrite E. apply merge_dicts_get_here; assumption.
  - pose proof (absorbs_self bv Hu) as Hself.
    unfold merged. destruct (dict_get k a) as [av|]; [|exact Hself].
    destruct av, bv;
      try (destruct (Utils.py_eq _ _) eqn:Heq; [exact Heq | exact Hself]).
    cbn. apply IHd.
Qed.

End MergeFacts.

(** X1. [merge(a, b)] never drops or reorders a key: the keys of the result
    are the keys of [a], in their order, followed by keys that [a] does not
    have and [b] has; a key is in the result exactly when it is in [a] or
    in [b]. *)
Theorem X1_merge_keeps_keys (a b : pydict) :
  (exists added,
     Shape.keys (Utils.merge_dicts a b) = Shape.keys a ++ added
     /\ forall k, In k added -> dict_has k a = false /\ dict_has k b = true)
  /\ forall k,
       dict_has k (Utils.merge_dicts a b) = dict_has k a || dict_has k b.
Proof.
  split.
  - apply MergeFacts.merge_dicts_keys.
  - intros k. apply MergeFacts.merge_dicts_has.
Qed.

(** X2. What [merge(a, b)] leaves under a key [k]: the value of [a] when [b]
    does not have the key; the value of [b] when [a] does not have it; the
    recursive merge when both hold a dict; and otherwise a value that
    equals ([==]) the value of [b], namely the value of [a] when the two are
    equal and the value of [b] when they differ. *)
Theorem X2_merge_values (a b : pydict) (k : pystr) :
  Shape.unique_keys (VDict b) = true ->
  match dict_get k b with
  | None => dict_get k (Utils.merge_dicts a b) = dict_get k a
  | Some bv =>
      exists r,
        dict_get k (Utils.merge_dicts a b) = Some r
        /\ match dict_get k a, bv with
           | Some (VDict ad), VDict bd => r = VDict (Utils.merge_dicts ad bd)
           | Some av, _ =>
               Utils.py_eq r bv = true
               /\ (if Utils.py_eq av bv then r = av else r = bv)
           | None, _ => r = bv
           end
  end.
Proof.
  intros H. destruct (dict_get k b) as [bv|] eqn:Hb.
  - destruct (ValueFacts.unique_keys_split b k bv H Hb)
      as [pre [post [E [Hpre Hpost]]]].
    pose proof (ValueFacts.dict_get_In _ _ _ Hb) as Hin.
    destruct (ValueFacts.unique_keys_In b k bv H Hin) as [_ Hu].
    exists (Notions.merged (dict_get k a) bv). split.
    + rewrite E. apply DictFacts.merge_dicts_get_here; assumption.
    + unfold Notions.merged. destruct (dict_get k a) as [av|]; [|reflexivity].
      destruct av, bv; cbv beta iota; try reflexivity;
        match goal with
        | |- context [if ?c then _ else _] => destruct c eqn:Heq
        end;
        (split; [first [exact Heq | apply ValueFacts.py_eq_refl; exact Hu]
                | reflexivity]).
  - apply DictFacts.merge_dicts_get_other. exact Hb.
Qed.

Lemma X2_merge_values_witness :
  let a := [(py "a", VInt 1); (py "e", VDict [(py "kind", VStr (py "x"))])] in
  let b := [(py "e", VDict [(py "module", VStr (py "m"))]);
            (py "a", VBool true)] in
  exists r,
    dict_get (py "a") (Utils.merge_dicts a b) = Some r
    /\ Utils.py_eq r (VBool true) = true
    /\ r = VInt 1.
Proof.
  cbv zeta.
  pose proof (X2_merge_values
                [(py "a", VInt 1);
                 (py "e", VDict [(py "kind", VStr (py "x"))])]
                [(py "e", VDict [(py "module", VStr (py "m"))]);
                 (py "a", VBool true)]
                (py "a") eq_refl) as H.
  cbn in H. destruct H as [r [H1 [H2 H3]]].
  exists r. split; [exact H1|]. split; [exact H2 | exact H3].
Defined.

(** X3. Merging is idempotent: merging [b] a second time into the result
    of [merge(a, b)] changes nothing, and merging a dict into itself leaves
    it as it is. *)
Theorem X3_merge_idempotent (a b : pydict) :
  Shape.unique_keys (VDict b) = true ->
  Utils.merge_dicts (Utils.merge_dicts a b) b = Utils.merge_dicts a b
  /\ Utils.merge_dicts b b = b.
Proof.
  intros H. split.
  - apply (MergeFacts.merge_twice (VDict b) H a).
  - apply (MergeFacts.merge_self (VDict b) H).
Qed.

Lemma X3_merge_idempotent_witness :
  let a := [(py "a", VInt 1); (py "e", VDict [(py "kind", VStr (py "x"))])] in
  let b := [(py "e", VDict [(py "module", VStr (py "m"))]);
            (py "a", VInt 2)] in
  Utils.merge_dicts (Utils.merge_dicts a b) b = Utils.merge_dicts a b
  /\ Utils.merge_dicts b b = b.
Proof.
  cbv zeta. apply X3_merge_idempotent. reflexivity.
Defined.

(** ** [get_value_from_dict] *)

Module LookupFacts.
Import Shape Utils.

Lemma int_space_isspace (c : Z) : int_space c = true -> isspace c = true.
Proof.
  unfold int_space. destruct (c <? 127); [|exact (fun H => H)].
  unfold isspace. intros H.
  apply orb_true_iff in H. destruct H as [H | H].
  - rewrite H. reflexivity.
  - apply Z.eqb_eq in H. subst c. reflexivity.
Qed.

Lemma lstrip_int_clean (s : pystr) :
  forallb (fun c => negb (int_space c)) s = true -> lstrip_int s = s.
Proof.
  destruct s as [|c s]; [reflexivity|]. cbn [forallb lstrip_int].
  intros H. apply andb_true_iff in H. destruct H as [H _].
  apply negb_true_iff in H. rewrite H. reflexivity.
Qed.

(** A text without whitespace is what [int] looks at. *)
Lemma strip_int_clean (s : pystr) :
  forallb (fun c => negb (int_space c)) s = true ->
  rev (lstrip_int (rev (lstrip_int s))) = s.
Proof.
  intros H. rewrite (lstrip_int_clean s H), lstrip_int_clean.
  - apply rev_involutive.
  - apply forallb_forall. intros c Hc. apply in_rev in Hc.
    rewrite forallb_forall in H. exact (H c Hc).
Qed.

Lemma no_space_int (s : pystr) :
  forallb (fun c => negb (isspace c)) s = true ->
  forallb (fun c => negb (int_space c)) s = true.
Proof.
  rewrite !forallb_forall. intros H c Hc. specialize (H c Hc).
  destruct (int_space c) eqn:E; [|reflexivity].
  rewrite (int_space_isspace c E) in H. discriminate.
Qed.

Lemma find_none_all {A} (f : A -> bool) (l : list A) :
  (forall x, In x l -> f x = false) -> find f l = None.
Proof.
  induction l as [|x l IH]; intros H; [reflexivity|].
  cbn [find]. rewrite (H x (or_introl eq_refl)).
  apply IH. intros y Hy. apply H. right. exact Hy.
Qed.

(** Between the digits of ASCII and the next digits of Unicode no
    character is a digit. *)
Lemma decimal_digit_none (c : Z) : 58 <= c < 1632 -> decimal_digit c = None.
Proof.
  intros Hc. unfold decimal_digit. rewrite find_none_all; [reflexivity|].
  intros z Hz. apply andb_false_iff.
  destruct (Z.leb_spec z c) as [Hle|]; [right | left; reflexivity].
  apply Z.ltb_ge. unfold decimal_zeros in Hz. cbn [In] in Hz.
  repeat (destruct Hz as [<- | Hz]; [lia|]). contradiction.
Qed.

(** A key that starts as a field name does and holds no whitespace is not
    the text of an integer. *)
Lemma parse_int_name (k : pystr) :
  name_start k = true ->
  forallb (fun c => negb (isspace c)) k = true ->
  parse_int k = None.
Proof.
  intros H Hws. unfold parse_int.
  rewrite (strip_int_clean k (no_space_int k Hws)).
  destruct k as [|c r]; [reflexivity|]. cbn [name_start] in H.
  assert (Hc : (65 <= c <= 90) \/ (97 <= c <= 122) \/ c = 95 \/ c = 64).
  { unfold is_letter in H.
    repeat (apply orb_true_iff in H; destruct H as [H | H]);
      try (apply andb_true_iff in H; destruct H as [H1 H2];
           apply Z.leb_le in H1; apply Z.leb_le in H2);
      try apply Z.eqb_eq in H; lia. }
  replace (c =? 45) with false by (symmetry; apply Z.eqb_neq; lia).
  replace (c =? 43) with false by (symmetry; apply Z.eqb_neq; lia).
  unfold unsigned_value. rewrite decimal_digit_none by lia. reflexivity.
Qed.

(** *** [int(str(i))] *)

Lemma py_cons (a : ascii) (s : string) :
  py (String a s) = Z.of_N (N_of_ascii a) :: py s.
Proof. reflexivity. Qed.

Lemma len_succ {A} (x : A) (l : list A) : len (x :: l) = len l + 1.
Proof. unfold len. cbn [List.length]. lia. Qed.

(** Reads the first character of the text and its value as a digit. *)
Ltac read_digit :=
  rewrite py_cons, ?len_succ;
  match goal with
  | |- context [Z.of_N (N_of_ascii ?a)] =>
      let v := eval vm_compute in (Z.of_N (N_of_ascii a)) in
      change (Z.of_N (N_of_ascii a)) with v
  end;
  cbn [digits_value];
  match goal with
  | |- context [decimal_digit ?c] =>
      let v := eval vm_compute in (decimal_digit c) in
      change (decimal_digit c) with v
  end;
  cbn [Z.eqb Pos.eqb].

Lemma digits_value_acc (d : Decimal.uint) :
  forall (acc : positive) (count : Z),
    digits_value (py (NilEmpty.string_of_uint d))
      (Z.pos acc) count
    = Some (Z.pos (Pos.of_uint_acc d acc),
            count + len (py (NilEmpty.string_of_uint d))).
Proof.
  induction d as [|d IH|d IH|d IH|d IH|d IH|d IH|d IH|d IH|d IH|d IH];
    intros acc count;
    [cbn; do 2 f_equal; unfold len; cbn; lia | ..];
    cbn [NilEmpty.string_of_uint Pos.of_uint_acc];
    read_digit;
    match goal with
    | |- digits_value ?s ?a ?n = Some (Z.pos (Pos.of_uint_acc d ?p), _) =>
        replace a with (Z.pos p) by lia; rewrite (IH p n);
        do 2 f_equal; lia
    end.
Qed.

Lemma digits_value_zero (d : Decimal.uint) :
  forall count : Z,
    digits_value (py (NilEmpty.string_of_uint d)) 0 count
    = Some (Z.of_N (Pos.of_uint d),
            count + len (py (NilEmpty.string_of_uint d))).
Proof.
  induction d as [|d IH|d IH|d IH|d IH|d IH|d IH|d IH|d IH|d IH|d IH];
    intros count;
    [cbn; do 2 f_equal; unfold len; cbn; lia | ..];
    cbn [NilEmpty.string_of_uint Pos.of_uint];
    read_digit; cbn [Z.mul Z.add];
    first [ rewrite IH; do 2 f_equal; lia
          | rewrite digits_value_acc; cbn [Z.of_N]; do 2 f_equal; lia ].
Qed.

(** The text of a number without sign holds digits of ASCII only. *)
Lemma uint_chars (d : Decimal.uint) :
  forallb (fun c => (48 <=? c) && (c <=? 57))
          (py (NilEmpty.string_of_uint d)) = true.
Proof.
  induction d as [|d IH|d IH|d IH|d IH|d IH|d IH|d IH|d IH|d IH|d IH];
    [reflexivity | ..];
    cbn [NilEmpty.string_of_uint]; rewrite py_cons;
    cbn [forallb]; rewrite IH; reflexivity.
Qed.

Lemma uint_no_int_space (d : Decimal.uint) :
  forallb (fun c => negb (int_space c))
          (py (NilEmpty.string_of_uint d)) = true.
Proof.
  apply forallb_forall. intros c Hc.
  pose proof (uint_chars d) as U. rewrite forallb_forall in U.
  specialize (U c Hc). apply andb_true_iff in U. destruct U as [U1 U2].
  apply Z.leb_le in U1. apply Z.leb_le in U2.
  unfold int_space.
  replace (c <? 127) with true by (symmetry; apply Z.ltb_lt; lia).
  apply negb_true_iff. apply orb_false_iff. split;
    [apply andb_false_iff; right; apply Z.leb_gt; lia
    | apply Z.eqb_neq; lia].
Qed.

Lemma unsigned_value_uint (d : Decimal.uint) :
  d <> Decimal.Nil ->
  len (py (NilEmpty.string_of_uint d)) <= max_str_digits ->
  unsigned_value (py (NilEmpty.string_of_uint d))
  = Some (Z.of_N (Pos.of_uint d)).
Proof.
  intros Hd Hlen. unfold unsigned_value.
  rewrite digits_value_zero.
  replace (max_str_digits
           <? 0 + len (py (NilEmpty.string_of_uint d)))
    with false by (symmetry; apply Z.ltb_ge; lia).
  destruct d; [contradiction | ..]; reflexivity.
Qed.

(** The text [str] writes for a number that is not zero. *)
Lemma str_of_int_pos (p : positive) :
  str_of_int (Z.pos p)
  = py (NilEmpty.string_of_uint (Pos.to_uint p)).
Proof.
  unfold str_of_int. cbn [Z.to_int NilZero.string_of_int].
  unfold NilZero.string_of_uint.
  pose proof (DecimalPos.Unsigned.to_uint_nonnil p) as Hn.
  destruct (Pos.to_uint p); [contradiction | ..]; reflexivity.
Qed.

Lemma str_of_int_neg (p : positive) :
  str_of_int (Z.neg p)
  = 45 :: py (NilEmpty.string_of_uint (Pos.to_uint p)).
Proof.
  unfold str_of_int. cbn [Z.to_int NilZero.string_of_int].
  unfold NilZero.string_of_uint.
  pose proof (DecimalPos.Unsigned.to_uint_nonnil p) as Hn.
  destruct (Pos.to_uint p); [contradiction | ..]; reflexivity.
Qed.

(** [int] reads the text [str] writes for an integer. *)
Lemma parse_int_str (i : Z) :
  len (str_of_int i) <= max_str_digits -> parse_int (str_of_int i) = Some i.
Proof.
  destruct i as [|p|p]; [reflexivity | |].
  - rewrite str_of_int_pos. intros Hlen. unfold parse_int.
    rewrite (strip_int_clean _ (uint_no_int_space (Pos.to_uint p))).
    pose proof (DecimalPos.Unsigned.to_uint_nonnil p) as Hn.
    pose proof (unsigned_value_uint (Pos.to_uint p) Hn Hlen) as V.
    rewrite DecimalPos.Unsigned.of_to in V. cbn [Z.of_N] in V.
    pose proof (uint_chars (Pos.to_uint p)) as U.
    destruct (py (NilEmpty.string_of_uint (Pos.to_uint p)))
      as [|c r]; [discriminate V|].
    cbn [forallb] in U. apply andb_true_iff in U. destruct U as [U _].
    apply andb_true_iff in U. destruct U as [U1 U2].
    apply Z.leb_le in U1. apply Z.leb_le in U2.
    replace (c =? 45) with false by (symmetry; apply Z.eqb_neq; lia).
    replace (c =? 43) with false by (symmetry; apply Z.eqb_neq; lia).
    exact V.
  - rewrite str_of_int_neg, len_succ. intros Hlen. unfold parse_int.
    rewrite strip_int_clean
      by (cbn [forallb]; rewrite uint_no_int_space; reflexivity).
    cbn [Z.eqb Pos.eqb].
    pose proof (DecimalPos.Unsigned.to_uint_nonnil p) as Hn.
    rewrite (unsigned_value_uint (Pos.to_uint p) Hn) by lia.
    rewrite DecimalPos.Unsigned.of_to. reflexivity.
Qed.

(** The text of an integer is a component of a dotted key. *)
Lemma str_of_int_word (i : Z) : plain_word (str_of_int i) = true.
Proof.
  assert (U : forall d,
             forallb (fun c => negb (c =? 46) && negb (isspace c))
                     (py (NilEmpty.string_of_uint d)) = true).
  { intros d. apply forallb_forall. intros c Hc.
    pose proof (uint_chars d) as U. rewrite forallb_forall in U.
    specialize (U c Hc). apply andb_true_iff in U. destruct U as [U1 U2].
    apply Z.leb_le in U1. apply Z.leb_le in U2.
    apply andb_true_iff. split; apply negb_true_iff.
    - apply Z.eqb_neq. lia.
    - unfold isspace.
      repeat (apply orb_false_iff; split);
        first [ apply Z.eqb_neq; lia
              | apply andb_false_iff;
                first [ left; apply Z.leb_gt; lia
                      | right; apply Z.leb_gt; lia ] ]. }
  unfold plain_word. destruct i as [|p|p]; [reflexivity | |].
  - rewrite str_of_int_pos.
    pose proof (DecimalPos.Unsigned.to_uint_nonnil p) as Hn.
    rewrite U, andb_true_r.
    destruct (Pos.to_uint p); [contradiction | ..]; reflexivity.
  - rewrite str_of_int_neg. cbn [forallb]. rewrite U.
    rewrite len_succ.
    replace (len (py (NilEmpty.string_of_uint (Pos.to_uint p)))
             + 1 =? 0) with false; [reflexivity|].
    symmetry. apply Z.eqb_neq. unfold len. lia.
Qed.

(** *** Dotted keys *)

Lemma split_ws_loop_word (s cur : pystr) :
  forallb (fun c => negb (isspace c)) s = true ->
  split_ws_loop s cur = if len (cur ++ s) =? 0 then [] else [cur ++ s].
Proof.
  revert cur. induction s as [|c s IH]; intros cur H.
  - cbn [split_ws_loop]. rewrite app_nil_r. reflexivity.
  - cbn [forallb] in H. apply andb_true_iff in H. destruct H as [Hc Hs].
    apply negb_true_iff in Hc. cbn [split_ws_loop]. rewrite Hc.
    rewrite (IH (cur ++ [c]) Hs), <- app_assoc. reflexivity.
Qed.

Lemma split_on_loop_word (sep : Z) (k rest cur : pystr) :
  forallb (fun c => negb (c =? sep)) k = true ->
  split_on_loop sep (k ++ rest) cur = split_on_loop sep rest (cur ++ k).
Proof.
  revert cur. induction k as [|c k IH]; intros cur H.
  - rewrite app_nil_r. reflexivity.
  - cbn [forallb] in H. apply andb_true_iff in H. destruct H as [Hc Hk].
    apply negb_true_iff in Hc. cbn [app split_on_loop]. rewrite Hc.
    rewrite (IH (cur ++ [c]) Hk), <- app_assoc. reflexivity.
Qed.

Lemma plain_word_parts (k : pystr) :
  plain_word k = true ->
  k <> []
  /\ forallb (fun c => negb (c =? 46)) k = true
  /\ forallb (fun c => negb (isspace c)) k = true.
Proof.
  unfold plain_word. intros H. apply andb_true_iff in H.
  destruct H as [H1 H2]. split.
  - intros ->. discriminate.
  - rewrite forallb_forall in H2.
    split; apply forallb_forall; intros c Hc; specialize (H2 c Hc);
      apply andb_true_iff in H2; tauto.
Qed.

Lemma field_name_parts (k : pystr) :
  field_name k = true ->
  name_start k = true
  /\ forallb (fun c => negb (isspace c)) k = true
  /\ plain_word k = true.
Proof.
  unfold field_name, plain_word. intros H. apply andb_true_iff in H.
  destruct H as [H1 H2]. split; [exact H1|]. split.
  - rewrite forallb_forall in H2. apply forallb_forall. intros c Hc.
    specialize (H2 c Hc). apply andb_true_iff in H2. tauto.
  - rewrite H2. destruct k; [discriminate | reflexivity].
Qed.

Lemma field_names_words (ks : list pystr) :
  forallb field_name ks = true -> forallb plain_word ks = true.
Proof.
  rewrite !forallb_forall. intros H k Hk.
  apply (field_name_parts k (H k Hk)).
Qed.

Lemma step_ok_word (s : step) :
  step_ok s = true -> plain_word (step_text s) = true.
Proof.
  destruct s as [k|i]; cbn [step_ok step_text]; intros H.
  - apply (field_name_parts k H).
  - apply str_of_int_word.
Qed.

(** Splitting the dotted key of a path gives the path. *)
Lemma split_on_dotted (ks : list pystr) :
  ks <> [] -> forallb plain_word ks = true ->
  split_on 46 (dotted ks) = ks.
Proof.
  unfold split_on. induction ks as [|k ks IH]; intros Hne H; [contradiction|].
  cbn [forallb] in H. apply andb_true_iff in H. destruct H as [Hk Hks].
  destruct (plain_word_parts k Hk) as [_ [Hdot _]].
  destruct ks as [|k' ks'].
  - cbn [dotted]. rewrite <- (app_nil_r k) at 1.
    rewrite split_on_loop_word by exact Hdot. reflexivity.
  - change (dotted (k :: k' :: ks')) with (k ++ [46] ++ dotted (k' :: ks')).
    rewrite split_on_loop_word by exact Hdot.
    cbn [app split_on_loop]. rewrite Z.eqb_refl. f_equal.
    apply IH; [discriminate | exact Hks].
Qed.

Lemma dotted_word (ks : list pystr) :
  ks <> [] -> forallb plain_word ks = true ->
  forallb (fun c => negb (isspace c)) (dotted ks) = true
  /\ dotted ks <> [].
Proof.
  induction ks as [|k ks IH]; intros Hne H; [contradiction|].
  cbn [forallb] in H. apply andb_true_iff in H. destruct H as [Hk Hks].
  destruct (plain_word_parts k Hk) as [Hk0 [_ Hws]].
  destruct ks as [|k' ks'].
  - cbn [dotted]. split; assumption.
  - change (dotted (k :: k' :: ks')) with (k ++ [46] ++ dotted (k' :: ks')).
    destruct (IH ltac:(discriminate) Hks) as [IH1 _]. split.
    + rewrite !forallb_app, Hws, IH1. reflexivity.
    + destruct k; [contradiction | discriminate].
Qed.

(** One dotted key of plain components is looked up along its
    components. *)
Lemma get_value_dotted (dct : pydict) (ks : list pystr) :
  ks <> [] -> forallb plain_word ks = true ->
  get_value_from_dict dct (dotted ks)
  = if truthy (follow (VDict dct) ks) then follow (VDict dct) ks else VNone.
Proof.
  intros Hne H. unfold get_value_from_dict, split_ws.
  destruct (dotted_word ks Hne H) as [Hws Hd].
  rewrite (split_ws_loop_word _ [] Hws). cbn [app].
  replace (len (dotted ks) =? 0) with false
    by (symmetry; apply Z.eqb_neq; destruct (dotted ks);
        [contradiction | unfold len; cbn; lia]).
  cbn [first_truthy]. unfold value_by_dottedkey.
  rewrite (split_on_dotted ks Hne H). reflexivity.
Qed.

(** Following a path of field names descends through dicts only. *)
Lemma follow_at_path (ks : list pystr) :
  forallb field_name ks = true ->
  forall v,
    follow v ks = match at_path v ks with
                  | Some x => x
                  | None => VStr []
                  end.
Proof.
  induction ks as [|k ks IH]; intros H v; [reflexivity|].
  cbn [forallb] in H. apply andb_true_iff in H. destruct H as [Hk Hks].
  destruct (field_name_parts k Hk) as [Hl [Hws _]].
  cbn [follow at_path]. unfold index_value.
  rewrite (parse_int_name k Hl Hws).
  destruct v; try reflexivity.
  destruct (dict_get k d); [apply IH; exact Hks | reflexivity].
Qed.

(** Following the texts of a path of fields and indices takes its
    steps. *)
Lemma follow_walk (steps : list step) :
  forallb step_ok steps = true ->
  forall v,
    follow v (map step_text steps) = match walk v steps with
                                     | Some x => x
                                     | None => VStr []
                                     end.
Proof.
  induction steps as [|s steps IH]; intros H v; [reflexivity|].
  cbn [forallb] in H. apply andb_true_iff in H. destruct H as [Hs Hsteps].
  destruct s as [k|i]; cbn [step_ok step_text] in *;
    cbn [map step_text follow walk]; unfold index_value.
  - destruct (field_name_parts k Hs) as [Hl [Hws _]].
    rewrite (parse_int_name k Hl Hws).
    destruct v; try reflexivity.
    destruct (dict_get k d); [apply IH; exact Hsteps | reflexivity].
  - rewrite (parse_int_str i) by (apply Z.leb_le; exact Hs).
    destruct v as [| | |s|l|d]; try reflexivity.
    + unfold item. cbv zeta.
      destruct ((0 <=? (if i <? 0 then i + len s else i))
                && ((if i <? 0 then i + len s else i) <? len s));
        [|reflexivity].
      destruct (nth_error s (Z.to_nat (if i <? 0 then i + len s else i)));
        cbn [option_map]; [apply IH; exact Hsteps | reflexivity].
    + unfold item. cbv zeta.
      destruct ((0 <=? (if i <? 0 then i + len l else i))
                && ((if i <? 0 then i + len l else i) <? len l));
        [|reflexivity].
      destruct (nth_error l (Z.to_nat (if i <? 0 then i + len l else i)));
        [apply IH; exact Hsteps | reflexivity].
Qed.

End LookupFacts.

(** X4. A dotted key mixes names of fields and indices: for a path of
    steps, each the name of a field (as in X5) or an integer [i] written
    as [str(i)] (of at most 4300 characters, the most [int] converts),
    looking up the dotted key takes the steps one by one, a name into a
    dict and an index into a list or a string, a negative index counting
    from the end.  The result is the value reached when it is true, and
    [None] when a name is missing, an index is out of range, a step meets
    a value of another kind, or the value reached is false. *)
Theorem X4_get_value_takes_steps (dct : pydict) (steps : list Shape.step) :
  steps <> [] ->
  forallb Shape.step_ok steps = true ->
  Utils.get_value_from_dict dct (Shape.dotted (map Shape.step_text steps))
  = match Shape.walk (VDict dct) steps with
    | Some v => if truthy v then v else VNone
    | None => VNone
    end.
Proof.
  intros Hne H.
  assert (Hw : forallb Shape.plain_word (map Shape.step_text steps) = true).
  { rewrite forallb_forall in *. intros k Hk. apply in_map_iff in Hk.
    destruct Hk as [s [<- Hs]]. apply LookupFacts.step_ok_word, H, Hs. }
  rewrite LookupFacts.get_value_dotted;
    [| destruct steps; [contradiction | discriminate] | exact Hw].
  rewrite (LookupFacts.follow_walk steps H).
  destruct (Shape.walk (VDict dct) steps) as [v|]; reflexivity.
Qed.

Lemma X4_get_value_takes_steps_witness :
  Utils.get_value_from_dict
    [(py "a", VDict [(py "b", VList [VDict [(py "c", VInt 123)];
                                     VDict [(py "c", VInt 456)]])])]
    (py "a.b.-1.c")
  = VInt 456.
Proof.
  exact (X4_get_value_takes_steps
           [(py "a", VDict [(py "b", VList [VDict [(py "c", VInt 123)];
                                            VDict [(py "c", VInt 456)]])])]
           [Shape.Field (py "a"); Shape.Field (py "b"); Shape.Item (-1);
            Shape.Field (py "c")]
           ltac:(discriminate) eq_refl).
Defined.

(** X5. For a path of field names (each starts with an ASCII letter, an
    underscore or an at sign, and holds no dot and no whitespace), looking
    up the dotted key ['k1.k2...kn'] descends through the nested dicts
    along the path: the result is the value found there when it is true,
    and [None] when a key of the path is missing, when the path runs into
    a value that is not a dict, or when the value found is false. *)
Theorem X5_get_value_follows_path (dct : pydict) (ks : list pystr) :
  ks <> [] ->
  forallb Shape.field_name ks = true ->
  Utils.get_value_from_dict dct (Shape.dotted ks)
  = match Shape.at_path (VDict dct) ks with
    | Some v => if truthy v then v else VNone
    | None => VNone
    end.
Proof.
  intros Hne H.
  rewrite (LookupFacts.get_value_dotted dct ks Hne
             (LookupFacts.field_names_words ks H)).
  rewrite (LookupFacts.follow_at_path ks H).
  destruct (Shape.at_path (VDict dct) ks) as [v|]; reflexivity.
Qed.

Lemma X5_get_value_follows_path_witness :
  Utils.get_value_from_dict
    [(py "a", VDict [(py "b", VDict [(py "c", VInt 123)])])]
    (py "a.b.c")
  = VInt 123.
Proof.
  exact (X5_get_value_follows_path
           [(py "a", VDict [(py "b", VDict [(py "c", VInt 123)])])]
           [py "a"; py "b"; py "c"]
           ltac:(discriminate) eq_refl).
Defined.

(** ** [conv_key] *)

Module ConvKeyFacts.
Import Shape DictFacts ValueFacts ConvKey.

Lemma distinct_NoDup (l : list pystr) : distinct l = true -> NoDup l.
Proof.
  induction l as [|k l IH]; intros H; constructor;
    cbn [distinct] in H; apply andb_true_iff in H; destruct H as [H1 H2].
  - intros Hin. apply negb_true_iff in H1.
    assert (E : existsb (pystr_eqb k) l = true).
    { apply existsb_exists. exists k. split; [exact Hin|].
      apply pystr_eqb_refl. }
    rewrite E in H1. discriminate.
  - apply IH. exact H2.
Qed.

Lemma has_In {V} (k : pystr) (d : list (pystr * V)) :
  dict_has k d = true <-> In k (keys d).
Proof.
  unfold dict_has, keys. induction d as [|[k0 v0] d IH]; cbn.
  - split; [discriminate | contradiction].
  - destruct (pystr_eqb k k0) eqn:E.
    + apply pystr_eqb_eq in E. subst. split; auto.
    + rewrite IH. split; [auto|]. intros [H | H]; [|exact H].
      subst. rewrite pystr_eqb_refl in E. discriminate.
Qed.

Lemma has_get {V} (k : pystr) (d : list (pystr * V)) :
  dict_has k d = true -> exists v, dict_get k d = Some v.
Proof.
  unfold dict_has. destruct (dict_get k d) as [v|]; [eauto | discriminate].
Qed.

Lemma keys_del_incl {V} (k k' : pystr) (d : list (pystr * V)) :
  In k' (keys (dict_del k d)) -> In k' (keys d).
Proof.
  unfold keys. induction d as [|[k0 v0] d IH]; cbn; [auto|].
  destruct (pystr_eqb k k0); cbn; [auto|]. intros [H | H]; auto.
Qed.

Lemma NoDup_del {V} (k : pystr) (d : list (pystr * V)) :
  NoDup (keys d) -> NoDup (keys (dict_del k d)).
Proof.
  unfold keys. induction d as [|[k0 v0] d IH]; cbn; [auto|].
  intros H. inversion H; subst.
  destruct (pystr_eqb k k0); cbn; [assumption|].
  constructor; [|apply IH; assumption].
  intros Hin. apply keys_del_incl in Hin. contradiction.
Qed.

Lemma has_del_same {V} (k : pystr) (d : list (pystr * V)) :
  NoDup (keys d) -> dict_has k (dict_del k d) = false.
Proof.
  unfold keys, dict_has. induction d as [|[k0 v0] d IH]; cbn; [reflexivity|].
  intros H. inversion H; subst.
  destruct (pystr_eqb k k0) eqn:E.
  - apply pystr_eqb_eq in E. subst k0.
    destruct (dict_get k d) eqn:G; [|reflexivity].
    exfalso. apply H2. apply (has_In k d). unfold dict_has. rewrite G.
    reflexivity.
  - cbn. rewrite E. apply IH. assumption.
Qed.

Lemma has_del_other {V} (k k' : pystr) (d : list (pystr * V)) :
  k <> k' -> dict_has k (dict_del k' d) = dict_has k d.
Proof.
  intros H. unfold dict_has.
  rewrite IdFacts.dict_get_del_other; [reflexivity|].
  destruct (pystr_eqb k k') eqn:E; [|reflexivity].
  apply pystr_eqb_eq in E. contradiction.
Qed.

Lemma NoDup_set {V} (k : pystr) (v : V) (d : list (pystr * V)) :
  NoDup (keys d) -> NoDup (keys (dict_set k v d)).
Proof.
  intros H. rewrite keys_set. destruct (dict_has k d) eqn:E; [exact H|].
  apply NoDup_app; [exact H | repeat constructor; intros [] |].
  intros x Hx [<- | []]. apply has_In in Hx. congruence.
Qed.

Lemma pystr_eqb_neq (a b : pystr) : a <> b -> pystr_eqb a b = false.
Proof.
  intros H. destruct (pystr_eqb a b) eqn:E; [|reflexivity].
  apply pystr_eqb_eq in E. contradiction.
Qed.

Lemma has_hyphen_spec (s : pystr) :
  has_hyphen s = existsb (fun c => c =? 45) s.
Proof.
  unfold has_hyphen. induction s as [|c s IH]; [reflexivity|].
  cbn [str_contains startswith existsb]. rewrite IH.
  replace (startswith s []) with true by (destruct s; reflexivity).
  rewrite andb_true_r, Z.eqb_sym. reflexivity.
Qed.

Lemma translate_no_hyphen (s : pystr) : has_hyphen (translate s) = false.
Proof.
  rewrite has_hyphen_spec. unfold translate.
  induction s as [|c s IH]; [reflexivity|].
  cbn [map existsb]. rewrite IH, orb_false_r.
  destruct (c =? 45) eqn:E; [reflexivity | exact E].
Qed.

Lemma translate_plain (s : pystr) : has_hyphen s = false -> translate s = s.
Proof.
  rewrite has_hyphen_spec. unfold translate.
  induction s as [|c s IH]; [reflexivity|].
  cbn [map existsb]. intros H. apply orb_false_iff in H.
  destruct H as [H1 H2]. rewrite H1, (IH H2). reflexivity.
Qed.

Section Loop.

Variable utils_conv_key : value -> value.

Abbreviation turn := (turn utils_conv_key).

Lemma conv_key_loop_cons (org_key : pystr) (keys' : list pystr)
    (obj : pydict) (v : value) :
  dict_get org_key obj = Some v ->
  conv_key_loop utils_conv_key (org_key :: keys') obj
  = conv_key_loop utils_conv_key keys' (turn org_key obj v).
Proof.
  intros H. cbn [conv_key_loop]. unfold ConvKey.turn. rewrite H.
  destruct (has_hyphen org_key); cbn [bind fst snd].
  - rewrite dict_get_set, pystr_eqb_refl. reflexivity.
  - rewrite H. reflexivity.
Qed.

Lemma has_turn (org_key : pystr) (obj : pydict) (v : value) (k : pystr) :
  dict_has org_key obj = true ->
  dict_has k (turn org_key obj v)
  = if has_hyphen org_key
    then pystr_eqb k (translate org_key) || dict_has k (dict_del org_key obj)
    else dict_has k obj.
Proof.
  intros Ho. unfold ConvKey.turn. destruct (has_hyphen org_key).
  - rewrite !dict_has_set.
    destruct (pystr_eqb k (translate org_key)); reflexivity.
  - rewrite dict_has_set.
    destruct (pystr_eqb k org_key) eqn:E; [|reflexivity].
    apply pystr_eqb_eq in E. subst. rewrite Ho. reflexivity.
Qed.

Lemma NoDup_turn (org_key : pystr) (obj : pydict) (v : value) :
  NoDup (keys obj) -> NoDup (keys (turn org_key obj v)).
Proof.
  intros H. unfold ConvKey.turn. destruct (has_hyphen org_key).
  - apply NoDup_set, NoDup_set, NoDup_del. exact H.
  - apply NoDup_set. exact H.
Qed.

(** The keys the loop leaves. *)
Lemma loop_keys (ks : list pystr) :
  forall obj,
    NoDup (keys obj) -> NoDup ks ->
    (forall k, In k ks -> dict_has k obj = true) ->
    exists obj',
      conv_key_loop utils_conv_key ks obj = Ok obj'
      /\ (forall k', dict_has k' obj' = true ->
                     (dict_has k' obj = true /\ ~ In k' ks)
                     \/ exists k, In k ks /\ k' = translate k)
      /\ (forall k, In k ks -> dict_has (translate k) obj' = true)
      /\ (forall k, dict_has k obj = true -> has_hyphen k = false ->
                    dict_has k obj' = true).
Proof.
  induction ks as [|org ks IH]; intros obj Hobj Hks Hin.
  - exists obj. split; [reflexivity|]. split; [|split].
    + intros k' H. left. split; [exact H | intros []].
    + intros k [].
    + intros k H _. exact H.
  - assert (Ho : dict_has org obj = true) by (apply Hin; left; reflexivity).
    destruct (has_get org obj Ho) as [v Hv].
    rewrite (conv_key_loop_cons org ks obj v Hv).
    inversion Hks as [|? ? Hnotin Hks']; subst.
    assert (Hin2 : forall k, In k ks -> dict_has k (turn org obj v) = true).
    { intros k Hk. rewrite has_turn by exact Ho.
      assert (Hne : k <> org) by (intros ->; contradiction).
      destruct (has_hyphen org).
      - rewrite has_del_other by exact Hne.
        rewrite (Hin k (or_intror Hk)). apply orb_true_r.
      - apply Hin. right. exact Hk. }
    destruct (IH (turn org obj v) (NoDup_turn org obj v Hobj) Hks' Hin2)
      as [obj' [E [P1 [P2 P3]]]].
    exists obj'. split; [exact E|]. split; [|split].
    + intros k' Hk'. destruct (P1 k' Hk') as [[H1 H2] | [k [H1 H2]]].
      * rewrite has_turn in H1 by exact Ho.
        destruct (has_hyphen org) eqn:Hh.
        -- apply orb_true_iff in H1. destruct H1 as [H1 | H1].
           ++ apply pystr_eqb_eq in H1. right. exists org.
              split; [left; reflexivity | exact H1].
           ++ destruct (list_eq_dec Z.eq_dec k' org) as [-> | Hne].
              ** rewrite has_del_same in H1 by exact Hobj. discriminate.
              ** rewrite has_del_other in H1 by exact Hne.
                 left. split; [exact H1|]. intros [H | H]; [|contradiction].
                 subst. contradiction.
        -- destruct (list_eq_dec Z.eq_dec k' org) as [-> | Hne].
           ++ right. exists org. split; [left; reflexivity|].
              symmetry. apply translate_plain. exact Hh.
           ++ left. split; [exact H1|]. intros [H | H]; [|contradiction].
              subst. contradiction.
      * right. exists k. split; [right; exact H1 | exact H2].
    + intros k [<- | Hk]; [|apply P2; exact Hk].
      apply P3; [|apply translate_no_hyphen].
      rewrite has_turn by exact Ho.
      destruct (has_hyphen org) eqn:Hh.
      * rewrite pystr_eqb_refl. reflexivity.
      * rewrite (translate_plain org Hh). exact Ho.
    + intros k Hk Hplain. apply P3; [|exact Hplain].
      rewrite has_turn by exact Ho.
      destruct (has_hyphen org) eqn:Hh; [|exact Hk].
      rewrite has_del_other by (intros ->; congruence).
      rewrite Hk. apply orb_true_r.
Qed.

Lemma translate_injective_on (ks : list pystr) (x y : pystr) :
  NoDup (map translate ks) -> In x ks -> In y ks ->
  translate x = translate y -> x = y.
Proof.
  induction ks as [|k ks IH]; cbn; [contradiction|].
  intros H Hx Hy E. inversion H as [|? ? Hn H']; subst.
  destruct Hx as [<- | Hx], Hy as [<- | Hy]; auto.
  - exfalso. apply Hn. rewrite E. apply in_map. exact Hy.
  - exfalso. apply Hn. rewrite <- E. apply in_map. exact Hx.
Qed.

Lemma get_turn_other (org : pystr) (obj : pydict) (v : value) (k : pystr) :
  k <> org -> k <> translate org ->
  dict_get k (turn org obj v) = dict_get k obj.
Proof.
  intros H1 H2. unfold ConvKey.turn. destruct (has_hyphen org).
  - rewrite !dict_get_set, (pystr_eqb_neq _ _ H2).
    apply IdFacts.dict_get_del_other. apply pystr_eqb_neq. exact H1.
  - rewrite dict_get_set, (pystr_eqb_neq _ _ H1). reflexivity.
Qed.

Lemma get_turn_here (org : pystr) (obj : pydict) (v : value) :
  dict_get (translate org) (turn org obj v) = Some (utils_conv_key v).
Proof.
  unfold ConvKey.turn. destruct (has_hyphen org) eqn:Hh.
  - rewrite dict_get_set, pystr_eqb_refl. reflexivity.
  - rewrite (translate_plain org Hh), dict_get_set, pystr_eqb_refl.
    reflexivity.
Qed.

(** The values the loop leaves, when no two keys are translated to the
    same key. *)
Lemma loop_values (ks : list pystr) :
  forall obj obj',
    NoDup (map translate ks) ->
    (forall k, In k ks -> dict_has k obj = true) ->
    conv_key_loop utils_conv_key ks obj = Ok obj' ->
    (forall k v, In k ks -> dict_get k obj = Some v ->
                 dict_get (translate k) obj' = Some (utils_conv_key v))
    /\ (forall k', (forall k, In k ks -> k' <> k /\ k' <> translate k) ->
                   dict_get k' obj' = dict_get k' obj).
Proof.
  induction ks as [|org ks IH]; intros obj obj' Hnd Hin E.
  - cbn in E. inversion E; subst. split; [intros k v [] | reflexivity].
  - assert (Ho : dict_has org obj = true) by (apply Hin; left; reflexivity).
    destruct (has_get org obj Ho) as [v0 Hv0].
    rewrite (conv_key_loop_cons org ks obj v0 Hv0) in E.
    assert (Hks : NoDup (org :: ks)) by (apply NoDup_map_inv in Hnd; exact Hnd).
    inversion Hks as [|? ? Hnotin Hks']; subst.
    inversion Hnd as [|? ? Hnt Hnd']; subst.
    assert (Hsep : forall k, In k ks -> k <> org /\ k <> translate org).
    { intros k Hk. split; [intros ->; contradiction|].
      intros Heq. apply Hnt.
      destruct (has_hyphen k) eqn:Hh.
      - pose proof (translate_no_hyphen org) as Hn. rewrite <- Heq in Hn.
        congruence.
      - rewrite <- Heq, <- (translate_plain k Hh). apply in_map. exact Hk. }
    assert (Hin2 : forall k, In k ks -> dict_has k (turn org obj v0) = true).
    { intros k Hk. destruct (Hsep k Hk) as [H1 H2]. unfold dict_has.
      rewrite get_turn_other by assumption. apply (Hin k). right. exact Hk. }
    destruct (IH (turn org obj v0) obj' Hnd' Hin2 E) as [J1 J2].
    split.
    + intros k v [<- | Hk] Hv.
      * rewrite Hv0 in Hv. inversion Hv; subst v0.
        rewrite J2; [apply get_turn_here|].
        intros k Hk. split.
        -- intros Heq. destruct (Hsep k Hk) as [_ H2]. auto.
        -- intros Heq. apply Hnt. rewrite Heq. apply in_map. exact Hk.
      * apply J1; [exact Hk|]. destruct (Hsep k Hk) as [H1 H2].
        rewrite get_turn_other by assumption. exact Hv.
    + intros k' Hk'. rewrite J2.
      * destruct (Hk' org (or_introl eq_refl)) as [H1 H2].
        apply get_turn_other; assumption.
      * intros k Hk. apply Hk'. right. exact Hk.
Qed.

End Loop.

End ConvKeyFacts.

(** X6. [conv_key] on a dict always returns, and the dict it leaves has no
    hyphen in any of its keys: its keys are exactly the keys of the input
    with every hyphen replaced by an underscore. *)
Theorem X6_conv_key_keys (utils_conv_key : value -> value) (d : pydict) :
  Shape.distinct (Shape.keys d) = true ->
  exists d',
    ConvKey.conv_key utils_conv_key (VDict d) = Ok (VDict d')
    /\ (forall k', dict_has k' d' = true -> ConvKey.has_hyphen k' = false)
    /\ (forall k, dict_has k d = true ->
                  dict_has (ConvKey.translate k) d' = true)
    /\ (forall k', dict_has k' d' = true ->
                   exists k, dict_has k d = true /\ k' = ConvKey.translate k).
Proof.
  intros H. apply ConvKeyFacts.distinct_NoDup in H.
  destruct (ConvKeyFacts.loop_keys utils_conv_key (Shape.keys d) d H H)
    as [d' [E [P1 [P2 P3]]]].
  { intros k Hk. apply ConvKeyFacts.has_In. exact Hk. }
  assert (Q : forall k', dict_has k' d' = true ->
                         exists k, dict_has k d = true
                                   /\ k' = ConvKey.translate k).
  { intros k' Hk'. destruct (P1 k' Hk') as [[H1 H2] | [k [H1 H2]]].
    - exfalso. apply H2. apply ConvKeyFacts.has_In. exact H1.
    - exists k. split; [apply ConvKeyFacts.has_In; exact H1 | exact H2]. }
  exists d'. split; [|split; [|split]].
  - unfold ConvKey.conv_key. unfold Shape.keys in E. rewrite E. reflexivity.
  - intros k' Hk'. destruct (Q k' Hk') as [k [_ ->]].
    apply ConvKeyFacts.translate_no_hyphen.
  - intros k Hk. apply P2. apply ConvKeyFacts.has_In. exact Hk.
  - exact Q.
Qed.

Lemma X6_conv_key_keys_witness :
  exists d',
    ConvKey.conv_key (fun v => v)
      (VDict [(py "user-agent", VStr (py "curl")); (py "host", VStr (py "h"))])
    = Ok (VDict d')
    /\ dict_has (py "user_agent") d' = true.
Proof.
  destruct (X6_conv_key_keys (fun v => v)
              [(py "user-agent", VStr (py "curl"));
               (py "host", VStr (py "h"))] eq_refl)
    as [d' [E [_ [P _]]]].
  exists d'. split; [exact E|]. exact (P (py "user-agent") eq_refl).
Defined.

(** X7. When no two keys of the dict become the same key once their
    hyphens are replaced, [conv_key] keeps every entry: the value of a key
    is found under the translated key, as the moved version
    [utils.conv_key] leaves it. *)
Theorem X7_conv_key_values (utils_conv_key : value -> value) (d d' : pydict)
    (k : pystr) (v : value) :
  Shape.distinct (map ConvKey.translate (Shape.keys d)) = true ->
  ConvKey.conv_key utils_conv_key (VDict d) = Ok (VDict d') ->
  dict_get k d = Some v ->
  dict_get (ConvKey.translate k) d' = Some (utils_conv_key v).
Proof.
  intros H E Hv. apply ConvKeyFacts.distinct_NoDup in H.
  unfold ConvKey.conv_key in E.
  destruct (ConvKey.conv_key_loop utils_conv_key (map fst d) d)
    as [x|e] eqn:El; cbn [bind] in E; [|discriminate].
  inversion E; subst x.
  destruct (ConvKeyFacts.loop_values utils_conv_key (Shape.keys d) d d' H)
    as [J1 _].
  - intros k0 Hk0. apply ConvKeyFacts.has_In. exact Hk0.
  - exact El.
  - apply (J1 k v); [|exact Hv].
    apply ConvKeyFacts.has_In. unfold dict_has. rewrite Hv. reflexivity.
Qed.

Lemma X7_conv_key_values_witness :
  dict_get (py "user_agent")
    [(py "host", VStr (py "h")); (py "user_agent", VStr (py "curl"))]
  = Some (VStr (py "curl")).
Proof.
  exact (X7_conv_key_values (fun v => v)
           [(py "user-agent", VStr (py "curl")); (py "host", VStr (py "h"))]
           [(py "host", VStr (py "h")); (py "user_agent", VStr (py "curl"))]
           (py "user-agent") (VStr (py "curl"))
           eq_refl eq_refl eq_refl).
Defined.

(** Two keys that are translated to the same key: the value of the one
    that comes later in the dict replaces the other. *)
Example conv_key_collision :
  ConvKey.conv_key (fun v => v)
    (VDict [(py "a_b", VInt 1); (py "a-b", VInt 2)])
  = Ok (VDict [(py "a_b", VInt 2)]).
Proof. reflexivity. Qed.

(** ** [match_log_with_exclude_patterns] *)

Module MatcherFacts.
Import Exclude.

Section WithStr.

Variable py_str : value -> pystr.

(** The matcher answers [True] or [None], never [False]. *)
Lemma match_patterns_not_false (p : pattern) :
  forall log_dict, match_patterns py_str log_dict p <> Some false.
Proof.
  revert p. fix IH 1. intros [re | items | ] log_dict; try discriminate.
  cbn [match_patterns].
  induction items as [|[key pat] items IHitems]; [discriminate|].
  pose proof (IH pat) as IHpat.
  destruct (dict_get key log_dict) as [v|]; [|exact IHitems].
  destruct pat as [re | sub | ].
  - destruct v;
      try (destruct (re (py_str _)); [discriminate | exact IHitems]).
    exact IHitems.
  - destruct v; try exact IHitems. apply IHpat.
  - destruct v; exact IHitems.
Qed.

Lemma match_patterns_cons (key : pystr) (pat : pattern)
    (items : list (pystr * pattern)) (log_dict : pydict) :
  match_patterns py_str log_dict (PDict ((key, pat) :: items))
  = match dict_get key log_dict with
    | Some v =>
        match pat, v with
        | PDict _, VDict sub => match_patterns py_str sub pat
        | PRegex re, VList _ => match_patterns py_str log_dict (PDict items)
        | PRegex re, _ =>
            if re (py_str v) then Some true
            else match_patterns py_str log_dict (PDict items)
        | _, _ => match_patterns py_str log_dict (PDict items)
        end
    | None => match_patterns py_str log_dict (PDict items)
    end.
Proof. reflexivity. Qed.

Abbreviation hit := (Shape.leaf_hit py_str).

Lemma hit_cons (log_dict : pydict) (kp : pystr * pattern)
    (items : list (pystr * pattern)) :
  hit log_dict items -> hit log_dict (kp :: items).
Proof.
  intros [k [re [v [H1 H2]]]]. exists k, re, v.
  split; [right; exact H1 | exact H2].
Qed.

Lemma flat_complete (log_dict : pydict) (items : list (pystr * pattern)) :
  Shape.flat_patterns items = true ->
  match_patterns py_str log_dict (PDict items) = Some true
  <-> hit log_dict items.
Proof.
  induction items as [|[key pat] items IH]; intros Hflat.
  - split; [discriminate | intros [k [re [v [[] _]]]]].
  - cbn [Shape.flat_patterns forallb snd] in Hflat.
    apply andb_true_iff in Hflat. destruct Hflat as [Hpat Hitems].
    specialize (IH Hitems). rewrite match_patterns_cons.
    assert (Hrest :
              (forall re v, pat = PRegex re ->
                            dict_get key log_dict = Some v ->
                            (forall l, v <> VList l) ->
                            re (py_str v) = false) ->
              match_patterns py_str log_dict (PDict items) = Some true
              <-> hit log_dict ((key, pat) :: items)).
    { intros Hmiss. rewrite IH. split; [apply hit_cons|].
      intros [k [re [v [[Hin | Hin] [H1 [H2 H3]]]]]].
      - inversion Hin; subst.
        rewrite (Hmiss re v eq_refl H1 H2) in H3. discriminate.
      - exists k, re, v. auto. }
    destruct pat as [re | sub | ]; [| discriminate |].
    + destruct (dict_get key log_dict) as [v|] eqn:Hget;
        [|apply Hrest; discriminate].
      assert (Hcase :
                (forall l, v <> VList l) ->
                (if re (py_str v) then Some true
                 else match_patterns py_str log_dict (PDict items))
                = Some true
                <-> hit log_dict ((key, PRegex re) :: items)).
      { intros Hnl. destruct (re (py_str v)) eqn:Hre.
        - split; [|reflexivity]. intros _. exists key, re, v.
          split; [left; reflexivity | auto].
        - apply Hrest. intros re0 v0 E0 E1 _.
          inversion E0; inversion E1; subst. exact Hre. }
      destruct v; try (apply Hcase; discriminate).
      apply Hrest. intros re0 v0 _ E1 Hnl. inversion E1; subst.
      exfalso. apply (Hnl l). reflexivity.
    + destruct (dict_get key log_dict) as [[]|]; apply Hrest; discriminate.
Qed.

End WithStr.

End MatcherFacts.

(** X8. [match_log_with_exclude_patterns] never answers [False], and it
    answers [True] only when some leaf pattern, reached through keys that
    the record has too, matches the string form of the record's value: a
    record that no pattern matches is never excluded. *)
Theorem X8_matcher_sound (py_str : value -> pystr) (log_dict : pydict)
    (log_patterns : list (pystr * Exclude.pattern)) :
  Exclude.match_log_with_exclude_patterns py_str log_dict log_patterns
  <> Some false
  /\ (Exclude.match_log_with_exclude_patterns py_str log_dict log_patterns
      = Some true ->
      Exclude.spec_match py_str log_dict (Exclude.PDict log_patterns) = true).
Proof.
  split.
  - apply MatcherFacts.match_patterns_not_false.
  - apply ExcludeFacts.match_patterns_sound.
Qed.

(** X9. When the map of patterns has no nested map, the matcher answers
    [True] exactly when some key of the patterns holds a compiled pattern,
    the record has the key with a value that is not a list, and the pattern
    matches the string form of that value. *)
Theorem X9_matcher_flat_complete (py_str : value -> pystr)
    (log_dict : pydict) (log_patterns : list (pystr * Exclude.pattern)) :
  Shape.flat_patterns log_patterns = true ->
  Exclude.match_log_with_exclude_patterns py_str log_dict log_patterns
  = Some true
  <-> exists key re v,
        In (key, Exclude.PRegex re) log_patterns
        /\ dict_get key log_dict = Some v
        /\ (forall l, v <> VList l)
        /\ re (py_str v) = true.
Proof.
  intros Hflat.
  apply (MatcherFacts.flat_complete py_str log_dict log_patterns Hflat).
Qed.

Lemma X9_matcher_flat_complete_witness :
  Exclude.match_log_with_exclude_patterns Demo.str_of_scalar
    [(py "aa", VInt 222); (py "a", VInt 111)]
    [(py "b", Demo.RE_MISS); (py "a", Demo.RE_BINGO)]
  = Some true.
Proof.
  apply (X9_matcher_flat_complete Demo.str_of_scalar
           [(py "aa", VInt 222); (py "a", VInt 111)]
           [(py "b", Demo.RE_MISS); (py "a", Demo.RE_BINGO)] eq_refl).
  exists (py "a"), (Demo.re_exactly 111), (VInt 111).
  split; [right; left; reflexivity|].
  split; [reflexivity|]. split; [discriminate | reflexivity].
Defined.

(** ** The work queue: [send_meta_to_sqs] *)

Module QueueFacts.
Import LogS3 Batches WindowFacts.

Lemma chunks_upto_enough {A} (n : nat) :
  (1 <= n)%nat ->
  forall (f f' : nat) (l : list A),
    (List.length l <= f)%nat -> (List.length l <= f')%nat ->
    chunks_upto f n l = chunks_upto f' n l.
Proof.
  intros Hn. induction f as [|f IH]; intros f' l Hf Hf'.
  - destruct l; [|cbn in Hf; lia]. destruct f'; reflexivity.
  - destruct l as [|x l]; [destruct f'; reflexivity|].
    destruct f' as [|f']; [cbn in Hf'; lia|].
    cbn [chunks_upto]. f_equal.
    apply IH; rewrite length_skipn; cbn [List.length] in *; lia.
Qed.

(** A full piece in front is the first chunk. *)
Lemma chunks_app {A} (n : nat) (b rest : list A) :
  (1 <= n)%nat -> List.length b = n ->
  chunks n (b ++ rest) = b :: chunks n rest.
Proof.
  intros Hn Hb. unfold chunks.
  destruct b as [|x b]; [cbn in Hb; lia|].
  rewrite length_app. cbn [List.length app plus chunks_upto].
  rewrite <- Hb.
  change (x :: b ++ rest) with ((x :: b) ++ rest).
  rewrite firstn_app, firstn_all, Nat.sub_diag, firstn_O, app_nil_r.
  rewrite skipn_app, skipn_all, Nat.sub_diag. cbn [skipn app]. f_equal.
  apply chunks_upto_enough; [lia | | lia].
  cbn [List.length]. lia.
Qed.

(** A list of at most [n] elements is one chunk. *)
Lemma chunks_short {A} (n : nat) (b : list A) :
  (1 <= List.length b <= n)%nat -> chunks n b = [b].
Proof.
  intros Hb. unfold chunks. destruct b as [|x b]; [cbn in Hb; lia|].
  cbn [List.length chunks_upto]. rewrite firstn_all2 by lia.
  rewrite skipn_all2 by lia. destruct (List.length b); reflexivity.
Qed.

(** The loop of [send_meta_to_sqs], entered with fewer than ten pending
    entries, hands what is pending and what is left to the queue in chunks
    of ten, up to the first chunk the queue refuses. *)
Lemma send_loop_chunks (self : t) (queue : list sqs_entry -> Z)
    (last_num : Z) (metadata : list (Z * Z)) :
  forall (i : Z) (entries : list sqs_entry) (st : state),
    i + len metadata = last_num ->
    len entries < 10 ->
    (metadata = [] -> entries = []) ->
    send_loop self queue last_num i entries metadata st
    = let batches := chunks 10 (entries ++ map (queue_entry self) metadata) in
      (if all_accepted queue batches then None else Some Exception,
       fold_left add_sent (upto_refused queue batches) st).
Proof.
  cbv zeta.
  induction metadata as [|r metadata IH]; intros i entries st Hi Hlen Hnil.
  - rewrite (Hnil eq_refl). reflexivity.
  - cbn [send_loop map].
    assert (Hl : len (entries ++ [queue_entry self r]) = len entries + 1).
    { unfold len. rewrite length_app. cbn. lia. }
    assert (Hpos : 0 <= len entries) by apply len_nonneg.
    replace (entries ++ queue_entry self r :: map (queue_entry self) metadata)
      with ((entries ++ [queue_entry self r])
            ++ map (queue_entry self) metadata)
      by (rewrite <- app_assoc; reflexivity).
    destruct (len (entries ++ [queue_entry self r]) =? 10) eqn:H10.
    + apply Z.eqb_eq in H10. cbn [orb].
      rewrite chunks_app by (unfold len in H10; lia).
      cbn [upto_refused all_accepted forallb fold_left].
      destruct (queue (entries ++ [queue_entry self r]) =? 200);
        cbn [negb andb fold_left]; [|reflexivity].
      rewrite (IH (i + 1) []); [reflexivity | | |].
      * unfold len in *. cbn [List.length] in Hi. lia.
      * unfold len. cbn. lia.
      * reflexivity.
    + apply Z.eqb_neq in H10. cbn [orb].
      destruct (i =? last_num - 1) eqn:Hlast.
      * apply Z.eqb_eq in Hlast.
        assert (metadata = []).
        { destruct metadata; [reflexivity|].
          unfold len in Hi. cbn [List.length] in Hi. lia. }
        subst metadata. cbn [map]. rewrite app_nil_r.
        rewrite chunks_short by (unfold len in *; lia).
        cbn [upto_refused all_accepted forallb fold_left send_loop].
        destruct (queue (entries ++ [queue_entry self r]) =? 200);
          reflexivity.
      * apply Z.eqb_neq in Hlast.
        apply IH.
        -- unfold len in *. cbn [List.length] in Hi. lia.
        -- lia.
        -- intros ->. unfold len in Hi. cbn [List.length] in Hi. lia.
Qed.

(** The batches handed to the queue are added to the record of the
    state. *)
Lemma sent_fold (batches : list (list sqs_entry)) :
  forall st : state,
    sent (fold_left add_sent batches st) = sent st ++ batches.
Proof.
  induction batches as [|b batches IH]; intros st; cbn [fold_left].
  - rewrite app_nil_r. reflexivity.
  - rewrite IH. cbn [add_sent sent]. rewrite <- app_assoc. reflexivity.
Qed.

(** [str(n)] tells integers apart. *)
Lemma str_of_int_inj (a b : Z) : str_of_int a = str_of_int b -> a = b.
Proof.
  unfold str_of_int, py. intros H.
  assert (Hs : NilZero.string_of_int (Z.to_int a)
               = NilZero.string_of_int (Z.to_int b)).
  { rewrite <- (string_of_list_ascii_of_string
                  (NilZero.string_of_int (Z.to_int a))).
    rewrite <- (string_of_list_ascii_of_string
                  (NilZero.string_of_int (Z.to_int b))).
    f_equal.
    revert H.
    generalize (list_ascii_of_string (NilZero.string_of_int (Z.to_int a))).
    generalize (list_ascii_of_string (NilZero.string_of_int (Z.to_int b))).
    intros l2 l1. revert l2.
    induction l1 as [|x l1 IHl]; intros [|y l2] H; cbn in H;
      try discriminate; [reflexivity|].
    inversion H as [[H1 H2]]. f_equal; [|apply IHl; exact H2].
    apply N2Z.inj in H1.
    rewrite <- (ascii_N_embedding x), <- (ascii_N_embedding y), H1.
    reflexivity. }
  assert (Hn : forall z, Z.to_int z <> Decimal.Pos Decimal.Nil
                         /\ Z.to_int z <> Decimal.Neg Decimal.Nil).
  { intros [|p|p]; cbn; split; try discriminate;
      intros E; inversion E as [E'];
      apply (DecimalPos.Unsigned.to_uint_nonnil p E'). }
  apply DecimalZ.to_int_inj.
  destruct (Hn a) as [Ha1 Ha2]. destruct (Hn b) as [Hb1 Hb2].
  pose proof (NilZero.isi (Z.to_int a) Ha1 Ha2) as Ia.
  pose proof (NilZero.isi (Z.to_int b) Hb1 Hb2) as Ib.
  rewrite Hs in Ia. rewrite Ia in Ib. inversion Ib. reflexivity.
Qed.

End QueueFacts.

(** X10. [send_meta_to_sqs] hands the shard descriptors to the work queue
    in their order, in batches of ten (the last batch holds what is left),
    up to the first batch that is not answered with status 200: that batch
    has been handed over, the batches after it are not, and the call
    raises [Exception].  When every batch is answered with status 200 all
    of them are handed over and the call returns the number of shards. *)
Theorem X10_send_meta_batches (self : LogS3.t)
    (queue : list LogS3.sqs_entry -> Z) (metadata : list (Z * Z))
    (st : LogS3.state) :
  let batches := Batches.chunks 10 (map (LogS3.queue_entry self) metadata) in
  let r := LogS3.send_meta_to_sqs self queue metadata st in
  fst r = (if Batches.all_accepted queue batches
           then Ok (len metadata) else Raise Exception)
  /\ snd r = fold_left LogS3.add_sent (Batches.upto_refused queue batches) st
  /\ LogS3.sent (snd r)
     = LogS3.sent st ++ Batches.upto_refused queue batches.
Proof.
  cbv zeta. unfold LogS3.send_meta_to_sqs.
  rewrite (QueueFacts.send_loop_chunks self queue (len metadata) metadata
             0 [] st);
    [| lia | unfold len; cbn; lia | reflexivity].
  cbv zeta. cbn [app].
  destruct (Batches.all_accepted queue
              (Batches.chunks 10 (map (LogS3.queue_entry self) metadata)));
    cbn [fst snd]; rewrite QueueFacts.sent_fold; repeat split.
Qed.

(** Twelve shards and a queue that refuses the second batch: both batches
    are handed over and the call raises; with a queue that refuses the
    first batch the second is not handed over; with a queue that accepts
    every batch the call returns twelve. *)
Example send_meta_twelve :
  let self := Demo.text_job 12 1 None None in
  let metadata := map (fun i => (i + 1, i + 1)) (range 12) in
  let run := fun queue =>
               let r := LogS3.send_meta_to_sqs self queue metadata
                          Demo.loaded in
               (fst r, map (fun b => len b) (LogS3.sent (snd r))) in
  run (fun b => if len b =? 10 then 200 else 500)
  = (Raise Exception, [10; 2])
  /\ run (fun b => if len b =? 10 then 500 else 200)
     = (Raise Exception, [10])
  /\ run Demo.accepting_queue = (Ok 12, [10; 2]).
Proof. cbv zeta. repeat split. Qed.

(** X11. The entries made for the shards of [split_logs] carry pairwise
    different ids [num_<start>], so no batch holds two entries with the
    same id; each entry names the bucket and the key of the object and the
    range of its shard. *)
Theorem X11_queue_entry_ids (self : LogS3.t) (log_count max_log_count : Z)
    (metadata : list (Z * Z)) :
  1 <= log_count -> 1 <= max_log_count ->
  LogS3.split_logs log_count max_log_count = Ok metadata ->
  NoDup (map LogS3.Id (map (LogS3.queue_entry self) metadata))
  /\ Forall (fun r =>
               LogS3.siem_start_number
                 (LogS3.MessageBody (LogS3.queue_entry self r)) = fst r
               /\ LogS3.siem_end_number
                    (LogS3.MessageBody (LogS3.queue_entry self r)) = snd r
               /\ LogS3.s3_bucket_name
                    (LogS3.MessageBody (LogS3.queue_entry self r))
                  = LogS3.s3bucket self
               /\ LogS3.s3_object_key
                    (LogS3.MessageBody (LogS3.queue_entry self r))
                  = LogS3.s3key self)
            metadata.
Proof.
  intros Hn Hm H. rewrite SplitFacts.split_logs_closed in H by assumption.
  inversion H; subst metadata. clear H. split.
  - rewrite !map_map. cbn [LogS3.Id LogS3.queue_entry LogS3.shard fst].
    apply Injective_map_NoDup_in.
    + intros x y _ _ E. apply app_inv_head in E.
      apply QueueFacts.str_of_int_inj in E.
      assert (x * max_log_count = y * max_log_count) by lia.
      apply Z.mul_cancel_r in H; [exact H | lia].
    + unfold range. apply Injective_map_NoDup; [|apply seq_NoDup].
      intros a b E. apply Nat2Z.inj. exact E.
  - apply Forall_forall. intros r _. repeat split.
Qed.

Lemma X11_queue_entry_ids_witness :
  NoDup (map LogS3.Id
           (map (LogS3.queue_entry Demo.two_lines) [(1, 10); (11, 20); (21, 25)])).
Proof.
  exact (proj1 (X11_queue_entry_ids Demo.two_lines 25 10
                  [(1, 10); (11, 20); (21, 25)]
                  ltac:(lia) ltac:(lia) eq_refl)).
Defined.

(** ** Reading an object: [__iter__], [logdata_generator] *)

Module ReaderFacts.
Import LogS3 Batches WindowFacts.

(** Consecutive slices of width [m] put together give the list back. *)
Lemma slices_prefix {A} (l : list A) (m : Z) (k : nat) :
  1 <= m ->
  concat (map (fun x => py_slice l (x * m) (Z.min ((x + 1) * m) (len l)))
              (range (Z.of_nat k)))
  = firstn (Z.to_nat (Z.min (Z.of_nat k * m) (len l))) l.
Proof.
  intros Hm. pose proof (len_nonneg l) as Hl.
  induction k as [|k IH].
  - cbn. replace (Z.to_nat (Z.min 0 (len l))) with 0%nat by lia. reflexivity.
  - replace (Z.of_nat (S k)) with (Z.of_nat k + 1) by lia.
    rewrite range_succ by lia. rewrite map_app, concat_app, IH.
    cbn [map concat]. rewrite app_nil_r.
    rewrite py_slice_nonneg by nia.
    destruct (Z.le_gt_cases (len l) (Z.of_nat k * m)) as [Hge | Hlt].
    + replace (Z.min (Z.of_nat k * m) (len l)) with (len l) by lia.
      replace (Z.min ((Z.of_nat k + 1) * m) (len l)) with (len l) by nia.
      rewrite skipn_all2 by (unfold len in *; lia).
      rewrite firstn_nil, app_nil_r. reflexivity.
    + replace (Z.min (Z.of_nat k * m) (len l)) with (Z.of_nat k * m) by lia.
      set (s := Z.of_nat k * m) in *.
      set (e := Z.min ((Z.of_nat k + 1) * m) (len l)).
      assert (He : s <= e <= len l) by (unfold e, s; nia).
      rewrite <- (firstn_skipn (Z.to_nat s) l) at 3.
      replace (Z.to_nat e) with (List.length (firstn (Z.to_nat s) l)
                                 + Z.to_nat (e - s))%nat.
      * rewrite firstn_app_2. reflexivity.
      * rewrite length_firstn. unfold len in *. lia.
Qed.

Lemma slices_cover {A} (l : list A) (m : Z) :
  1 <= m ->
  concat (map (fun x => py_slice l (x * m) (Z.min ((x + 1) * m) (len l)))
              (range (ceil_div (len l) m)))
  = l.
Proof.
  intros Hm. pose proof (len_nonneg l) as Hl.
  pose proof (SplitFacts.ceil_div_spec (len l) m Hm) as C.
  assert (Hq : 0 <= ceil_div (len l) m) by nia.
  rewrite <- (Z2Nat.id (ceil_div (len l) m)) at 1 by exact Hq.
  rewrite slices_prefix by exact Hm. rewrite Z2Nat.id by exact Hq.
  replace (Z.min (ceil_div (len l) m * m) (len l)) with (len l) by lia.
  apply firstn_all2. unfold len. lia.
Qed.

End ReaderFacts.

Section Reader.
Import LogS3 Batches.

Variable json_loads : pystr -> result value.
Variable raw_decode : pystr -> Z -> result (value * Z).
Variable winevtxml_count_event : list pystr -> Z.
Variable winevtxml_extract_event :
  list pystr -> Z -> Z -> gen (value * pydict).

Abbreviation iter' :=
  (iter json_loads raw_decode winevtxml_count_event winevtxml_extract_event).

(** The invocation for a shard starts as the one for the object did. *)
Lemma shard_init (self : t) (r : Z * Z) :
  init_state (shard_job self (MessageBody (queue_entry self r)))
  = init_state self.
Proof. reflexivity. Qed.

(** What the invocation for one shard of a plain-text object yields. *)
Lemma iter_text_shard (self : t) (st : state) (s e : Z) :
  via_cwl self = false -> via_firelens self = false ->
  fmt self = text -> text_header_line_number self = 0 ->
  init_state self = Ok st -> is_ignored st = false ->
  1 <= s -> s <= e -> e - s < max_log_count self ->
  let job := shard_job self (MessageBody (queue_entry self (s, e))) in
  fst (iter' job st)
  = (map (fun logdata => (VStr (strip logdata), @nil (pystr * value)))
         (py_slice (rawdata self) (s - 1) e), None)
  /\ sent (snd (iter' job st)) = []
  /\ total_log_count (snd (iter' job st)) = Some (e - (s - 1)).
Proof.
  intros Hcwl Hfl Hfmt Hhead Hinit Hi Hs Hse Hcap job.
  pose proof (IterFacts.init_not_ignored self st Hinit Hi) as ->.
  assert (Hc : log_count raw_decode winevtxml_count_event job
                 (fresh_state false None)
               = Ok (e - s,
                     set_log_count_cache (fresh_state false None) (e - s))).
  { unfold log_count, log_count_body. cbn [log_count_cache fresh_state].
    change (via_cwl job) with (via_cwl self). rewrite Hcwl.
    change (end_number job) with e. change (start_number job) with s.
    replace (e =? 0) with false by (symmetry; apply Z.eqb_neq; lia).
    reflexivity. }
  unfold iter. rewrite Hi, Hc.
  change (max_log_count job) with (max_log_count self).
  replace (max_log_count self <=? e - s) with false
    by (symmetry; apply Z.leb_gt; lia).
  unfold logdata_generator, set_start_end_position.
  change (start_number job) with s. change (end_number job) with e.
  unfold ignore_header_line_number.
  change (via_cwl job) with (via_cwl self).
  change (fmt job) with (fmt self).
  change (text_header_line_number job) with (text_header_line_number self).
  rewrite Hcwl, Hfmt, Hhead.
  replace (s <=? 0) with false by (symmetry; apply Z.leb_gt; lia).
  unfold read_window.
  change (via_cwl job) with (via_cwl self).
  change (via_firelens job) with (via_firelens self).
  change (fmt job) with (fmt self).
  rewrite Hcwl, Hfl, Hfmt. cbn [fst snd]. split; [reflexivity|].
  split; reflexivity.
Qed.

(** X12. Sharding a plain-text object loses and repeats nothing: when the
    shard descriptors of [split_logs] are turned into work-queue messages
    and each message is processed by an invocation of its own, every
    invocation starts as the one for the object did (not ignored), and
    the invocations yield, taken in the order of the shards, every line of
    the object exactly once (stripped); none of them splits the object
    again, and each reports the size of its shard as [total_log_count]. *)
Theorem X12_text_shards_cover (self : t) (st : state)
    (shards : list (Z * Z)) :
  via_cwl self = false -> via_firelens self = false ->
  fmt self = text -> text_header_line_number self = 0 ->
  init_state self = Ok st -> is_ignored st = false ->
  1 <= max_log_count self -> 1 <= len (rawdata self) ->
  split_logs (len (rawdata self)) (max_log_count self) = Ok shards ->
  let job := fun r => shard_job self (MessageBody (queue_entry self r)) in
  let run := fun r => iter' (job r) st in
  Forall (fun r => init_state (job r) = Ok st) shards
  /\ concat (map (fun r => fst (fst (run r))) shards)
     = map (fun logdata => (VStr (strip logdata), [])) (rawdata self)
  /\ Forall (fun r => snd (fst (run r)) = None
                      /\ sent (snd (run r)) = []
                      /\ total_log_count (snd (run r))
                         = Some (snd r - fst r + 1))
            shards.
Proof.
  intros Hcwl Hfl Hfmt Hhead Hinit Hign Hm Hn Hsplit job run.
  split.
  { apply Forall_forall. intros r _. unfold job. rewrite shard_init.
    exact Hinit. }
  rewrite SplitFacts.split_logs_closed in Hsplit by assumption.
  inversion Hsplit; subst shards. clear Hsplit.
  set (n := len (rawdata self)) in *. set (m := max_log_count self) in *.
  pose proof (SplitFacts.ceil_div_spec n m Hm) as C.
  assert (Hshard : forall x, In x (range (ceil_div n m)) ->
            let r := shard n m x in
            fst (run r)
            = (map (fun logdata => (VStr (strip logdata), []))
                   (py_slice (rawdata self) (x * m) (Z.min ((x + 1) * m) n)),
               None)
            /\ sent (snd (run r)) = []
            /\ total_log_count (snd (run r)) = Some (snd r - fst r + 1)).
  { intros x Hx r. apply range_In in Hx.
    assert (Hlt : x * m < n) by nia.
    destruct (iter_text_shard self st (x * m + 1) (Z.min ((x + 1) * m) n)
                Hcwl Hfl Hfmt Hhead Hinit Hign ltac:(lia) ltac:(lia)
                ltac:(fold m; lia))
      as [E1 [E2 E3]].
    unfold run, job, r, shard. cbn [fst snd].
    replace (x * m + 1 - 1) with (x * m) in E1 by lia.
    split; [exact E1|]. split; [exact E2|]. rewrite E3. f_equal. lia. }
  split.
  - set (f := fun logdata : pystr =>
                (VStr (strip logdata), @nil (pystr * value))).
    set (sl := fun x : Z =>
                 py_slice (rawdata self) (x * m) (Z.min ((x + 1) * m) n)).
    assert (E : map (fun r => fst (fst (run r)))
                    (map (shard n m) (range (ceil_div n m)))
                = map (map f) (map sl (range (ceil_div n m)))).
    { rewrite !map_map. apply map_ext_in. intros x Hx.
      destruct (Hshard x Hx) as [E _]. rewrite E. reflexivity. }
    rewrite E, <- concat_map. f_equal.
    apply (ReaderFacts.slices_cover (rawdata self) m Hm).
  - apply Forall_forall. intros r Hr. apply in_map_iff in Hr.
    destruct Hr as [x [<- Hx]]. destruct (Hshard x Hx) as [E1 [E2 E3]].
    split; [rewrite E1; reflexivity|]. split; assumption.
Qed.

End Reader.

Lemma X12_text_shards_cover_witness :
  let self := Demo.text_job 5 2 None (Some Demo.accepting_queue) in
  let run := fun r =>
               let job := Batches.shard_job self
                            (LogS3.MessageBody (LogS3.queue_entry self r)) in
               LogS3.iter (Demo.loads_from []) (Demo.raw_decode_from [])
                 Demo.no_events_count Demo.no_events job Demo.loaded in
  concat (map (fun r => fst (fst (run r))) [(1, 2); (3, 4); (5, 5)])
  = map (fun logdata => (VStr (strip logdata), [])) (Demo.text_lines 5).
Proof.
  cbv zeta.
  exact (proj1 (proj2 (X12_text_shards_cover (Demo.loads_from [])
                  (Demo.raw_decode_from []) Demo.no_events_count
                  Demo.no_events
                  (Demo.text_job 5 2 None (Some Demo.accepting_queue))
                  Demo.loaded
                  [(1, 2); (3, 4); (5, 5)]
                  eq_refl eq_refl eq_refl eq_refl eq_refl eq_refl
                  ltac:(cbn; lia) ltac:(vm_compute; discriminate)
                  eq_refl))).
Defined.

(** ** Reading an object that was not split *)

Section Unsharded.
Import LogS3.

Variable json_loads : pystr -> result value.
Variable raw_decode : pystr -> Z -> result (value * Z).
Variable winevtxml_count_event : list pystr -> Z.
Variable winevtxml_extract_event :
  list pystr -> Z -> Z -> gen (value * pydict).

Abbreviation run_iter :=
  (iter json_loads raw_decode winevtxml_count_event winevtxml_extract_event).
Abbreviation run_log_count := (log_count raw_decode winevtxml_count_event).
Abbreviation run_generator :=
  (logdata_generator json_loads raw_decode winevtxml_count_event
     winevtxml_extract_event).
Abbreviation run_window :=
  (read_window json_loads raw_decode winevtxml_extract_event).

(** The first invocation for an object (no shard range), once [log_count]
    is known to be [n]: the window it reads. *)
Lemma generator_first_window (self : t) (st st1 : state) (n : Z) :
  siem self = None ->
  0 <= ignore_header_line_number self ->
  run_log_count self st = Ok (n, st1) ->
  run_generator self st1
  = (run_window self (ignore_header_line_number self)
       (Z.min n (max_log_count self)),
     set_total_log_count st1
       (Z.min n (max_log_count self) - ignore_header_line_number self)).
Proof.
  intros Hsiem Hh Hc.
  unfold logdata_generator, set_start_end_position, start_number.
  rewrite Hsiem.
  replace (0 <=? ignore_header_line_number self) with true
    by (symmetry; apply Z.leb_le; exact Hh).
  rewrite (IterFacts.log_count_cached _ _ _ _ _ _ Hc). cbn [bind fst snd].
  destruct (Z.leb_spec n (max_log_count self)).
  - replace (Z.min n (max_log_count self)) with n by lia. reflexivity.
  - replace (Z.min n (max_log_count self)) with (max_log_count self) by lia.
    reflexivity.
Qed.

(** Without a work queue, or below the cap, iterating is reading the first
    window. *)
Lemma iter_first_window (self : t) (st st1 : state) (n : Z) :
  siem self = None ->
  0 <= ignore_header_line_number self ->
  is_ignored st = false ->
  run_log_count self st = Ok (n, st1) ->
  n < max_log_count self \/ sqs_queue self = None ->
  run_iter self st
  = (run_window self (ignore_header_line_number self)
       (Z.min n (max_log_count self)),
     set_total_log_count st1
       (Z.min n (max_log_count self) - ignore_header_line_number self)).
Proof.
  intros Hsiem Hh Hign Hc Hno.
  pose proof (generator_first_window self _ st1 n Hsiem Hh Hc) as G.
  unfold iter. rewrite Hign, Hc.
  destruct (max_log_count self <=? n) eqn:Hle; [|exact G].
  apply Z.leb_le in Hle. destruct Hno as [Hlt | Hq]; [lia|].
  rewrite Hq. exact G.
Qed.

(** X13. The first invocation for a text or csv object (no shard range)
    that is not split yields the stripped lines of the object after its
    header lines, up to the line at position [max_log_count]: the lines at
    the positions from H to [min(n, max_log_count) - 1], where n is the
    number of lines and H the number of header lines.  Without a work
    queue the lines beyond [max_log_count] are not yielded at all. *)
Theorem X13_unsharded_lines (self : t) (st : state) :
  via_cwl self = false -> via_firelens self = false ->
  is_text_or_csv (fmt self) = true ->
  siem self = None ->
  init_state self = Ok st -> is_ignored st = false ->
  0 <= ignore_header_line_number self ->
  len (rawdata self) < max_log_count self \/ sqs_queue self = None ->
  let run := run_iter self st in
  let last := Z.min (len (rawdata self)) (max_log_count self) in
  fst run
  = (map (fun logdata => (VStr (strip logdata), []))
         (py_slice (rawdata self) (ignore_header_line_number self) last),
     None)
  /\ total_log_count (snd run)
     = Some (last - ignore_header_line_number self)
  /\ sent (snd run) = [].
Proof.
  intros Hcwl Hfl Hfmt Hsiem Hinit Hign Hh Hno run last.
  pose proof (IterFacts.init_not_ignored self st Hinit Hign) as ->.
  assert (Hc : exists st1,
             run_log_count self (fresh_state false None)
             = Ok (len (rawdata self), st1)).
  { unfold log_count, log_count_body. cbn [log_count_cache fresh_state].
    unfold end_number. rewrite Hcwl, Hsiem, Hfmt. cbn [Z.eqb orb bind].
    eexists. reflexivity. }
  destruct Hc as [st1 Hc].
  pose proof (IterFacts.log_count_sent _ _ _ _ _ _ Hc) as Hsent.
  unfold run.
  rewrite (iter_first_window self _ st1 _ Hsiem Hh Hign Hc Hno).
  cbn [fst snd]. split; [|split; [reflexivity | exact Hsent]].
  unfold read_window. rewrite Hcwl, Hfl.
  destruct (fmt self); try discriminate; reflexivity.
Qed.

(** X14. An object without contents is ignored and yields no record.
    When the store reports fewer than 20 bytes for it, [__init__] marks
    it as ignored with the reason 'no valid contents in s3 object, size
    of <key> is only <size> byte' and does not read its body: iterating
    yields nothing and neither counts nor sends anything.  When the store
    reports 20 bytes or more, or no size, and the body holds not a single
    line, the first invocation (no shard range) reports the object as
    ignored with the reason 'there are not any valid logs in S3 object'
    and yields no record; this holds for text, csv, json, multiline and
    xml objects and for FireLens objects. *)
Theorem X14_empty_object_ignored (self : t) :
  is_ignored_init self = Ok (false, None) ->
  (s3size self < 20 ->
   let st := fresh_state true (Some (no_contents_reason self)) in
   init_state self = Ok st
   /\ run_iter self st = (gen_done, st))
  /\ (20 <= s3size self ->
      via_cwl self = false ->
      siem self = None ->
      rawdata self = [] ->
      via_firelens self = true
      \/ (fmt self <> winevtxml /\ fmt self <> other_format) ->
      1 <= max_log_count self ->
      let run := run_iter self (fresh_state false None) in
      init_state self = Ok (fresh_state false None)
      /\ fst run = ([], None)
      /\ is_ignored (snd run) = true
      /\ ignored_reason (snd run)
         = Some (py "there are not any valid logs in S3 object")
      /\ sent (snd run) = []).
Proof.
  intros Hkey. split.
  { intros Hsize st. unfold init_state. rewrite Hkey. cbn [bind fst snd].
    replace (s3size self <? 20) with true
      by (symmetry; apply Z.ltb_lt; exact Hsize).
    split; reflexivity. }
  intros Hsize Hcwl Hsiem Hraw Hfmt Hmax run.
  split.
  { unfold init_state. rewrite Hkey. cbn [bind fst snd].
    replace (s3size self <? 20) with false
      by (symmetry; apply Z.ltb_ge; exact Hsize).
    reflexivity. }
  assert (Hc : exists st1,
             run_log_count self (fresh_state false None) = Ok (0, st1)
             /\ is_ignored st1 = true
             /\ ignored_reason st1
                = Some (py "there are not any valid logs in S3 object")).
  { unfold log_count, log_count_body. cbn [log_count_cache fresh_state].
    unfold end_number, count_logobj_in_json, count_multiline_log.
    rewrite Hcwl, Hsiem, Hraw. cbn [Z.eqb].
    destruct Hfmt as [Hfl | [H1 H2]].
    - rewrite Hfl, orb_true_r. cbn [bind len List.length Z.of_nat Z.eqb].
      eexists. split; [reflexivity|]. split; reflexivity.
    - destruct (via_firelens self), (fmt self); try contradiction;
        cbn; (eexists; split; [reflexivity|]; split; reflexivity). }
  destruct Hc as [st1 [Hc [Hi Hr]]].
  pose proof (IterFacts.log_count_sent _ _ _ _ _ _ Hc) as Hsent.
  assert (E : run = run_generator self st1).
  { unfold run, iter. cbn [is_ignored fresh_state]. rewrite Hc.
    replace (max_log_count self <=? 0) with false
      by (symmetry; apply Z.leb_gt; lia).
    reflexivity. }
  rewrite E. unfold logdata_generator, set_start_end_position.
  assert (Hw : forall start end_, run_window self start end_ = ([], None)).
  { intros start end_. unfold read_window, extract_firelens_log,
      extract_logobj_from_json, extract_multiline_log.
    rewrite Hcwl, Hraw.
    assert (Hs : py_slice (@nil pystr) start end_ = [])
      by (unfold py_slice; rewrite skipn_nil, firstn_nil; reflexivity).
    rewrite Hs.
    destruct Hfmt as [Hfl | [H1 H2]].
    - rewrite Hfl. reflexivity.
    - destruct (via_firelens self); [reflexivity|].
      destruct (fmt self); try contradiction; reflexivity. }
  destruct (start_number self <=? ignore_header_line_number self).
  - rewrite (IterFacts.log_count_cached _ _ _ _ _ _ Hc). cbn [bind fst snd].
    rewrite Hw. cbn. auto.
  - cbn [fst snd]. rewrite Hw. cbn. auto.
Qed.

(** X16. The first invocation for a multiline or xml object (no shard
    range) with fewer records than [max_log_count] yields exactly the
    records of the object, in order: a record starts at each line that
    matches [multiline_firstline] and holds the lines up to the next such
    line, with trailing whitespace stripped; the lines before the first
    match are dropped; and the number of records is [log_count]. *)
Theorem X16_unsharded_multiline (self : t) (st : state) :
  via_cwl self = false -> via_firelens self = false ->
  is_multiline_or_xml (fmt self) = true ->
  siem self = None ->
  init_state self = Ok st -> is_ignored st = false ->
  count_multiline_log self < max_log_count self ->
  let run := run_iter self st in
  let records := MultilineSpec.records (re_multiline_firstline self)
                   (rawdata self) in
  fst run = (map (fun s => (VStr s, [])) records, None)
  /\ len records = count_multiline_log self
  /\ total_log_count (snd run) = Some (count_multiline_log self).
Proof.
  intros Hcwl Hfl Hfmt Hsiem Hinit Hign Hcap run records.
  pose proof (IterFacts.init_not_ignored self st Hinit Hign) as ->.
  assert (Hh : ignore_header_line_number self = 0).
  { unfold ignore_header_line_number. rewrite Hcwl.
    destruct (fmt self); try discriminate; reflexivity. }
  assert (Hc : exists st1,
             run_log_count self (fresh_state false None)
             = Ok (count_multiline_log self, st1)).
  { unfold log_count, log_count_body. cbn [log_count_cache fresh_state].
    unfold end_number. rewrite Hcwl, Hfl, Hsiem. cbn [Z.eqb].
    destruct (fmt self); try discriminate; cbn [is_text_or_csv orb bind];
      eexists; reflexivity. }
  destruct Hc as [st1 Hc].
  pose proof (MultilineFacts.count_multiline_loop_nonneg self (rawdata self))
    as Hpos.
  fold (count_multiline_log self) in Hpos.
  unfold run.
  rewrite (iter_first_window self _ st1 _ Hsiem ltac:(rewrite Hh; lia) Hign Hc
             (or_introl Hcap)).
  rewrite Hh.
  replace (Z.min (count_multiline_log self) (max_log_count self))
    with (count_multiline_log self) by lia.
  cbn [fst snd]. split; [|split].
  - unfold read_window. rewrite Hcwl, Hfl.
    assert (E : extract_multiline_log self 0 (count_multiline_log self)
                = (map (fun s => (VStr s, [])) records, None)).
    { unfold extract_multiline_log, gen_of_list.
      rewrite MultilineFacts.multiline_window_to_end by lia.
      reflexivity. }
    destruct (fmt self); try discriminate; exact E.
  - apply MultilineCount.records_len.
  - cbn [total_log_count set_total_log_count]. f_equal. lia.
Qed.

End Unsharded.

Lemma X13_unsharded_lines_witness :
  fst (LogS3.iter (Demo.loads_from []) (Demo.raw_decode_from [])
         Demo.no_events_count Demo.no_events
         (Demo.text_job 3 2 None None) Demo.loaded)
  = (map (fun logdata => (VStr (strip logdata), []))
         (py_slice (Demo.text_lines 3) 0 2), None).
Proof.
  exact (proj1 (X13_unsharded_lines (Demo.loads_from [])
                  (Demo.raw_decode_from []) Demo.no_events_count
                  Demo.no_events (Demo.text_job 3 2 None None) Demo.loaded
                  eq_refl eq_refl eq_refl eq_refl eq_refl eq_refl
                  ltac:(cbn; lia) (or_intror eq_refl))).
Defined.

Lemma X14_empty_object_ignored_witness :
  (let st := LogS3.fresh_state true
               (Some (py "no valid contents in s3 object, size of logs/app.log is only 0 byte")) in
   LogS3.init_state Demo.empty_object = Ok st
   /\ LogS3.iter (Demo.loads_from []) (Demo.raw_decode_from [])
        Demo.no_events_count Demo.no_events Demo.empty_object st
      = (gen_done, st))
  /\ (let run := LogS3.iter (Demo.loads_from []) (Demo.raw_decode_from [])
                   Demo.no_events_count Demo.no_events Demo.blank_object
                   Demo.loaded in
      LogS3.init_state Demo.blank_object = Ok Demo.loaded
      /\ fst run = ([], None)
      /\ LogS3.is_ignored (snd run) = true
      /\ LogS3.ignored_reason (snd run)
         = Some (py "there are not any valid logs in S3 object")
      /\ LogS3.sent (snd run) = []).
Proof.
  assert (F : LogS3.fmt Demo.blank_object <> LogS3.winevtxml
              /\ LogS3.fmt Demo.blank_object <> LogS3.other_format)
    by (split; intros E; cbn in E; discriminate E).
  split.
  - exact (proj1 (X14_empty_object_ignored (Demo.loads_from [])
                    (Demo.raw_decode_from []) Demo.no_events_count
                    Demo.no_events Demo.empty_object eq_refl)
                 ltac:(cbn; lia)).
  - exact (proj2 (X14_empty_object_ignored (Demo.loads_from [])
                    (Demo.raw_decode_from []) Demo.no_events_count
                    Demo.no_events Demo.blank_object eq_refl)
                 ltac:(cbn; lia) eq_refl eq_refl eq_refl (or_intror F)
                 ltac:(cbn; lia)).
Defined.

Lemma X16_unsharded_multiline_witness :
  MultilineSpec.records Demo.starts_with_year Demo.multiline_lines
  = [py "2024-01-01 A" ++ Demo.LF ++ py "cont";
     py "2024-01-02 B" ++ Demo.LF ++ py "more"]
  /\ len (MultilineSpec.records Demo.starts_with_year Demo.multiline_lines)
     = 2.
Proof.
  split; [reflexivity|].
  exact (proj1 (proj2 (X16_unsharded_multiline (Demo.loads_from [])
                         (Demo.raw_decode_from []) Demo.no_events_count
                         Demo.no_events
                         {| LogS3.s3bucket := py "bucket";
                            LogS3.s3key := py "logs/multi.log";
                            LogS3.logtype := py "applog";
                            LogS3.siem := None;
                            LogS3.via_cwl := false;
                            LogS3.via_firelens := false;
                            LogS3.fmt := LogS3.multiline;
                            LogS3.max_log_count := 3;
                            LogS3.text_header_line_number := 0;
                            LogS3.json_delimiter := [];
                            LogS3.ignore_container_stderr := false;
                            LogS3.s3_key_ignored := None;
                            LogS3.re_multiline_firstline :=
                              Demo.starts_with_year;
                            LogS3.sqs_queue := None;
                            LogS3.content_length := Demo.stored_size;
                            LogS3.rawbody :=
                              Demo.bytes_of Demo.multiline_lines |}
                         Demo.loaded
                         eq_refl eq_refl eq_refl eq_refl eq_refl eq_refl
                         ltac:(vm_compute; reflexivity)))).
Defined.

(** ** Counting and extracting agree *)

Module CountFacts.
Import LogS3 WindowFacts.

Lemma gen_seq_ok {A} (g1 g2 : gen A) (l : list A) :
  gen_seq g1 g2 = (l, None) ->
  exists l1 l2, g1 = (l1, None) /\ g2 = (l2, None) /\ l = l1 ++ l2.
Proof.
  destruct g1 as [l1 [e|]], g2 as [l2 o]; unfold gen_seq; cbn;
    intros H; inversion H; subst.
  exists l1, l2. auto.
Qed.

Lemma gen_seq_lists {A} (l1 l2 : list A) :
  gen_seq (l1, None) (l2, None) = (l1 ++ l2, None).
Proof. reflexivity. Qed.

Abbreviation bare := Shape.bare.

Section WithLibrary.

Variable json_loads : pystr -> result value.
Variable raw_decode : pystr -> Z -> result (value * Z).

Lemma cwl_count_flat (objs : list value) :
  forall (flat : list (pydict * value)) (k : Z),
    cwl_flat objs = Ok flat ->
    cwl_count_events objs k = Ok (k + len flat).
Proof.
  induction objs as [|obj objs IH]; intros flat k H.
  - cbn in H. inversion H. cbn. f_equal. unfold len. cbn. lia.
  - cbn [cwl_flat cwl_count_events] in *.
    destruct (is_data_message obj) as [[|]|e]; cbn [bind] in *;
      [| apply IH; exact H | discriminate].
    destruct (cwl_envelope_meta obj) as [m|e]; cbn [bind] in *;
      [|discriminate].
    destruct (getitem obj (py "logEvents")) as [evs|e]; cbn [bind] in *;
      [|discriminate].
    destruct (iterate evs) as [l|e]; cbn [bind] in *; [|discriminate].
    destruct (cwl_flat objs) as [rest|e]; cbn [bind] in *; [|discriminate].
    inversion H; subst flat.
    rewrite (IH rest (k + len l) eq_refl), len_app, len_map.
    f_equal. lia.
Qed.

Lemma event_records_bare (self : t) (ev : value)
    (l : list (value * pydict)) :
  event_records self true ev = (l, None) ->
  event_records self false ev = (map bare l, None).
Proof.
  unfold event_records, check_cwe_and_strip_header.
  destruct (contains (py "detail-type") ev) as [b1|e]; cbn [bind];
    [|discriminate].
  destruct (if b1 then contains (py "resources") ev else Ok false)
    as [b2|e]; cbn [bind]; [|discriminate].
  assert (G : forall (x : value) (m : pydict),
             match
               (if negb (len (json_delimiter self) =? 0)
                then
                  match contains (json_delimiter self) x with
                  | Raise e => gen_raise e
                  | Ok true =>
                      match (y <- getitem x (json_delimiter self) ;;
                             iterate y) with
                      | Raise e => gen_raise e
                      | Ok l0 => gen_of_list (map (fun r => (r, m)) l0)
                      end
                  | Ok false => gen_done
                  end
                else gen_of_list [(x, m)])
             with
             | (l0, None) =>
                 (if negb (len (json_delimiter self) =? 0)
                  then
                    match contains (json_delimiter self) x with
                    | Raise e => gen_raise e
                    | Ok true =>
                        match (y <- getitem x (json_delimiter self) ;;
                               iterate y) with
                        | Raise e => gen_raise e
                        | Ok l1 =>
                            gen_of_list
                              (map (fun r => (r, @nil (pystr * value))) l1)
                        end
                    | Ok false => gen_done
                    end
                  else gen_of_list [(x, [])])
                 = (map bare l0, None)
             | (_, Some _) => True
             end).
  { intros x m. destruct (negb (len (json_delimiter self) =? 0));
      [|reflexivity].
    destruct (contains (json_delimiter self) x) as [[|]|e];
      try exact I; [|reflexivity].
    destruct (y <- getitem x (json_delimiter self) ;; iterate y)
      as [l0|e]; [|exact I].
    unfold gen_of_list. rewrite map_map. reflexivity. }
  destruct b2.
  - destruct (getitem ev (py "id")) as [i|e]; cbn [bind]; [|discriminate].
    destruct (getitem ev (py "source")) as [s|e]; cbn [bind]; [|discriminate].
    destruct (getitem ev (py "account")) as [a|e]; cbn [bind];
      [|discriminate].
    destruct (getitem ev (py "region")) as [r|e]; cbn [bind]; [|discriminate].
    destruct (getitem ev (py "time")) as [tm|e]; cbn [bind]; [|discriminate].
    destruct (getitem ev (py "detail")) as [d|e]; cbn [bind]; [|discriminate].
    intros H. specialize (G d [(py "cwe_id", i); (py "cwe_source", s);
                               (py "cwe_accountid", a); (py "cwe_region", r);
                               (py "cwe_timestamp", tm)]).
    rewrite H in G. exact G.
  - intros H. specialize (G ev []). rewrite H in G. exact G.
Qed.

Lemma json_line_bare (self : t) (fuel : nat) (line : pystr) :
  forall (index : Z) (l : list (value * pydict)),
    json_line raw_decode self true fuel line index = (l, None) ->
    json_line raw_decode self false fuel line index = (map bare l, None).
Proof.
  induction fuel as [|fuel IH]; intros index l H; cbn [json_line] in *.
  - inversion H. reflexivity.
  - destruct (index <? len line); [|inversion H; reflexivity].
    destruct (raw_decode line index) as [[ev offset]|e]; [|discriminate].
    apply gen_seq_ok in H. destruct H as [l1 [l2 [H1 [H2 ->]]]].
    rewrite (event_records_bare self ev l1 H1).
    destruct (len line <? offset).
    + inversion H2; subst. unfold gen_done.
      rewrite gen_seq_lists, map_app. reflexivity.
    + rewrite (IH _ l2 H2), gen_seq_lists, map_app. reflexivity.
Qed.

Lemma json_lines_bare (self : t) (lines : list pystr) :
  forall l : list (value * pydict),
    json_lines raw_decode self true lines = (l, None) ->
    json_lines raw_decode self false lines = (map bare l, None).
Proof.
  induction lines as [|line lines IH]; intros l H; cbn [json_lines] in *.
  - inversion H. reflexivity.
  - apply gen_seq_ok in H. destruct H as [l1 [l2 [H1 [H2 ->]]]].
    rewrite (json_line_bare self _ line 0 l1 H1), (IH l2 H2).
    rewrite gen_seq_lists, map_app. reflexivity.
Qed.

End WithLibrary.

Lemma json_select_all {A} (start end_ : Z) (recs : list A) :
  forall count : Z,
    start <= count + 1 -> count + len recs <= end_ ->
    json_select start end_ count recs = recs.
Proof.
  induction recs as [|r recs IH]; intros count Hs He; [reflexivity|].
  rewrite len_cons in He. pose proof (len_nonneg recs) as Hl.
  cbn [json_select].
  replace ((start <=? count + 1) && (count + 1 <=? end_)) with true
    by (symmetry; apply andb_true_iff; split; apply Z.leb_le; lia).
  f_equal. apply IH; lia.
Qed.

End CountFacts.

Section Counts.
Import LogS3.

Variable json_loads : pystr -> result value.
Variable raw_decode : pystr -> Z -> result (value * Z).
Variable winevtxml_count_event : list pystr -> Z.

(** X17. For a CloudWatch Logs object, [log_count] at the first
    invocation is the number of log events of the DATA_MESSAGE envelopes
    that the decoding loop gets out of the object (other envelopes count
    nothing), provided these envelopes are well formed; and it is exactly
    the number of events the extractor goes through: read with the window
    from 0 to [log_count], the extractor handles every one of these
    events, in order. *)
Theorem X17_cwl_count_matches (self : t) (st : state)
    (flat : list (pydict * value)) :
  via_cwl self = true ->
  init_state self = Ok st -> is_ignored st = false ->
  cwl_flat (cwl_envelopes raw_decode self) = Ok flat ->
  (exists st1,
     log_count raw_decode winevtxml_count_event self st
     = Ok (len flat, st1))
  /\ extract_cwl_log json_loads raw_decode self 0 (len flat)
     = gen_for (cwl_emit_entry json_loads self) flat.
Proof.
  intros Hcwl Hinit Hign Hflat.
  pose proof (IterFacts.init_not_ignored self st Hinit Hign) as ->.
  split.
  - unfold log_count, log_count_body. cbn [log_count_cache fresh_state pos].
    rewrite Hcwl.
    change (cwl_objects raw_decode (S (List.length (rawbody self)))
              (rawbody self) 0 0)
      with (cwl_envelopes raw_decode self).
    rewrite (CountFacts.cwl_count_flat _ flat 0 Hflat). cbn [bind fst snd].
    eexists. reflexivity.
  - unfold extract_cwl_log.
    rewrite (CwlFacts.cwl_walk_window json_loads self 0 (len flat) _ flat 0
               Hflat).
    rewrite WindowFacts.take_range_slice
      by (pose proof (WindowFacts.len_nonneg flat); lia).
    rewrite WindowFacts.py_slice_nonneg
      by (pose proof (WindowFacts.len_nonneg flat); lia).
    cbn [skipn Z.to_nat]. rewrite firstn_all2; [reflexivity|].
    unfold len. lia.
Qed.

(** X18. For a JSON object on which the extractor runs through, the
    counting pass returns the number of records the extractor goes
    through, and the window from 0 (or from 1) to that count yields every
    record, in order, each with its meta. *)
Theorem X18_json_count_matches (self : t) (recs : list (value * pydict)) :
  json_lines raw_decode self true (rawdata self) = (recs, None) ->
  count_logobj_in_json raw_decode self = Ok (len recs)
  /\ extract_logobj_from_json raw_decode self 0 (len recs) = (recs, None)
  /\ extract_logobj_from_json raw_decode self 1 (len recs) = (recs, None).
Proof.
  intros H. split; [|split].
  - unfold count_logobj_in_json.
    rewrite (CountFacts.json_lines_bare raw_decode self _ recs H).
    rewrite WindowFacts.len_map. reflexivity.
  - unfold extract_logobj_from_json. rewrite H. cbn [fst snd].
    rewrite CountFacts.json_select_all by lia. reflexivity.
  - unfold extract_logobj_from_json. rewrite H. cbn [fst snd].
    rewrite CountFacts.json_select_all by lia. reflexivity.
Qed.

End Counts.

Lemma X17_cwl_count_matches_witness :
  exists st1,
    LogS3.log_count Demo.cwl_decoder Demo.no_events_count
      (Demo.cwl_job None) Demo.loaded
    = Ok (2, st1).
Proof.
  destruct (X17_cwl_count_matches (Demo.loads_from []) Demo.cwl_decoder
              Demo.no_events_count (Demo.cwl_job None) Demo.loaded
              [([(py "cwl_accountid", VStr (py "123"));
                 (py "loggroup", VStr (py "g"));
                 (py "logstream", VStr (py "s"))],
                VDict [(py "id", VStr (py "a"));
                       (py "timestamp", VInt 1700000000000);
                       (py "message", VStr (py "x"))]);
               ([(py "cwl_accountid", VStr (py "123"));
                 (py "loggroup", VStr (py "g"));
                 (py "logstream", VStr (py "s"))],
                VDict [(py "id", VStr (py "b"));
                       (py "timestamp", VInt 1700000000001);
                       (py "message", VStr (py "y"))])]
              eq_refl eq_refl eq_refl ltac:(vm_compute; reflexivity))
    as [[st1 H] _].
  exists st1. exact H.
Defined.

(** The loop moves the stream by characters where the stream counts
    bytes.  In an object of two envelopes whose first holds a character
    of two bytes, the second read starts one byte before the end of the
    first envelope: the loop decodes the first envelope only and
    [log_count] is 1, although the second envelope stands right behind
    it. *)
Example accented_envelope_hides_the_next :
  len Demo.accent_first = len (Codec.decode_ignore Demo.accent_first) + 1
  /\ TextIO.read_from Demo.accent_body (len Demo.accent_first)
     = Codec.decode_ignore Demo.accent_second
  /\ TextIO.read_from Demo.accent_body
       (len (Codec.decode_ignore Demo.accent_first))
     = [125] ++ Codec.decode_ignore Demo.accent_second
  /\ LogS3.cwl_envelopes Demo.accent_decoder Demo.accent_job
     = [Demo.accent_envelope (py "a") 1 (py "caf" ++ [233])]
  /\ LogS3.init_state Demo.accent_job = Ok Demo.loaded
  /\ LogS3.log_count Demo.accent_decoder Demo.no_events_count
       Demo.accent_job Demo.loaded
     = Ok (1, LogS3.set_log_count_cache
                (LogS3.set_pos Demo.loaded (len Demo.accent_body)) 1).
Proof. repeat split; vm_compute; reflexivity. Qed.

Lemma X18_json_count_matches_witness :
  LogS3.count_logobj_in_json Demo.ndjson_decoder (Demo.ndjson_job None)
  = Ok 3.
Proof.
  exact (proj1 (X18_json_count_matches Demo.ndjson_decoder
                  (Demo.ndjson_job None)
                  [(Demo.ndjson_record 1, []); (Demo.ndjson_record 2, []);
                   (Demo.ndjson_record 3, [])]
                  ltac:(vm_compute; reflexivity))).
Defined.

(** ** FireLens records, from the reader to the normaliser *)

Section FirelensToParser.

Variable json_loads : pystr -> result value.
Variable E : LogParser.env.
Variable parser : LogParser.t.

(** X19. A FireLens record that comes from the container's stderr, read
    with [ignore_container_stderr] set, is marked by the reader with
    [is_ignored] and the reason "log is container's stderr"; when the
    record names its container, the normaliser called on what the reader
    yields ignores the record: it is neither parsed nor normalised,
    whatever its log text is. *)
Theorem X19_firelens_stderr_ignored (self : LogS3.t) (a : LogParser.attrs)
    (c : LogParser.clock) (line : pystr) (o : pydict) (payload : value)
    (meta : pydict) :
  LogS3.ignore_container_stderr self = true ->
  json_loads (strip line) = Ok (VDict o) ->
  eq_str (get_or_none (py "source") o) (py "stderr") = true ->
  truthy (get_or_none (py "container_name") o) = true ->
  LogS3.firelens_record json_loads self line = Ok (payload, meta) ->
  dict_get (py "is_ignored") meta = Some (VBool true)
  /\ dict_get (py "ignored_reason") meta
     = Some (VStr (py "log is container's stderr"))
  /\ LogParser.call E parser a c payload meta
     = Ok (LogParser.Ignored (LogParser.read_meta a meta)).
Proof.
  intros Hign Houter Hsrc Hname Hrec.
  unfold LogS3.firelens_record in Hrec. rewrite Houter in Hrec.
  cbn [bind] in Hrec. unfold getitem in Hrec.
  destruct (dict_get (py "log") o) as [lg|]; cbn [bind] in Hrec;
    [|discriminate].
  rewrite Hign in Hrec.
  assert (Hcall :
            forall m : pydict,
              dict_has (py "is_ignored") m = true ->
              get_or_none (py "container_name") m
              = get_or_none (py "container_name") o ->
              get_or_none (py "is_ignored") (LogParser.dict_update [] m)
              = VBool true ->
              LogParser.call E parser a c payload m
              = Ok (LogParser.Ignored (LogParser.read_meta a m))).
  { intros m H1 H2 H3.
    unfold LogParser.call, LogParser.prepare, LogParser.logdata_to_dict.
    rewrite H1. cbn [orb bind]. rewrite H2, Hname.
    cbn [fst snd LogParser.dict_with bind].
    unfold LogParser.is_ignored. rewrite H3. reflexivity. }
  destruct (truthy match dict_get (py "ec2_instance_id") o with
                   | Some v => v
                   | None => VBool false
                   end);
    match type of Hrec with
    | context [eq_str (get_or_none ?k ?M) ?s] =>
        replace (eq_str (get_or_none k M) s) with true in Hrec
          by (symmetry; exact Hsrc)
    end;
    destruct (LogS3.is_json (LogS3.fmt self));
    try (destruct (LogS3.loads_value json_loads lg) as [v|[]];
         try discriminate Hrec);
    inversion Hrec; subst payload meta;
    (split; [reflexivity|]; split; [reflexivity|]);
    apply Hcall; reflexivity.
Qed.

End FirelensToParser.

Lemma X19_firelens_stderr_ignored_witness :
  exists meta,
    dict_get (py "is_ignored") meta = Some (VBool true)
    /\ LogParser.call Demo.plain_env (Demo.plain_parser [] []) Demo.no_attrs
         Demo.clock_1 (VStr (py "boom")) meta
       = Ok (LogParser.Ignored (LogParser.read_meta Demo.no_attrs meta)).
Proof.
  eexists.
  pose proof (X19_firelens_stderr_ignored Demo.firelens_loads
                Demo.plain_env (Demo.plain_parser [] [])
                {| LogS3.s3bucket := py "bucket";
                   LogS3.s3key := py "firelens/app.log";
                   LogS3.logtype := py "applog";
                   LogS3.siem := None;
                   LogS3.via_cwl := false;
                   LogS3.via_firelens := true;
                   LogS3.fmt := LogS3.json;
                   LogS3.max_log_count := 100;
                   LogS3.text_header_line_number := 0;
                   LogS3.json_delimiter := [];
                   LogS3.ignore_container_stderr := true;
                   LogS3.s3_key_ignored := None;
                   LogS3.re_multiline_firstline := fun _ => false;
                   LogS3.sqs_queue := None;
                   LogS3.content_length := Demo.stored_size;
                   LogS3.rawbody := Demo.bytes_of [Demo.firelens_stderr] |}
                Demo.no_attrs Demo.clock_1 Demo.firelens_stderr
                _ _ _
                eq_refl ltac:(vm_compute; reflexivity) eq_refl eq_refl
                ltac:(vm_compute; reflexivity)) as [H1 [_ H3]].
  split; [exact H1 | exact H3].
Defined.

(** ** [del_none] *)

Module DelNoneFacts.
Import LogParser Shape.

Lemma del_none_value_cons (k : pystr) (x : value) (d : pydict) :
  del_none_value (VDict ((k, x) :: d))
  = VDict (if removable (del_none_value x) then del_none d
           else (k, del_none_value x) :: del_none d).
Proof.
  unfold del_none. cbn [del_none_value].
  destruct (removable (del_none_value x)); reflexivity.
Qed.

Lemma del_none_cons (k : pystr) (x : value) (d : pydict) :
  del_none ((k, x) :: d)
  = if removable (del_none_value x) then del_none d
    else (k, del_none_value x) :: del_none d.
Proof.
  unfold del_none at 1. rewrite del_none_value_cons. reflexivity.
Qed.

Lemma del_none_value_dict (d : pydict) :
  del_none_value (VDict d) = VDict (del_none d).
Proof. reflexivity. Qed.

Lemma no_empty_cons (k : pystr) (x : value) (d : pydict) :
  no_empty (VDict ((k, x) :: d))
  = negb (removable x) && no_empty x && no_empty (VDict d).
Proof. reflexivity. Qed.

(** What [del_none] leaves holds nothing that it removes. *)
Lemma del_none_value_clean (v : value) : no_empty (del_none_value v) = true.
Proof.
  induction v as [ | b | z | s | l IHl | d IHd] using ValueFacts.value_induction;
    try reflexivity.
  rewrite del_none_value_dict.
  induction d as [|[k x] d IH]; [reflexivity|].
  inversion IHd as [|? ? Hx Hd]; subst. cbn [snd] in Hx.
  rewrite del_none_cons.
  destruct (removable (del_none_value x)) eqn:Hr; [apply IH; exact Hd|].
  rewrite no_empty_cons, Hr, Hx. cbn [negb andb]. apply IH. exact Hd.
Qed.

(** A value that holds nothing to remove is left as it is. *)
Lemma del_none_value_fixed (v : value) :
  no_empty v = true -> del_none_value v = v.
Proof.
  induction v as [ | b | z | s | l IHl | d IHd] using ValueFacts.value_induction;
    try reflexivity.
  intros H. rewrite del_none_value_dict. f_equal.
  induction d as [|[k x] d IH]; [reflexivity|].
  inversion IHd as [|? ? Hx Hd]; subst. cbn [snd] in Hx.
  rewrite no_empty_cons in H.
  apply andb_true_iff in H. destruct H as [H H3].
  apply andb_true_iff in H. destruct H as [H1 H2].
  apply negb_true_iff in H1.
  rewrite del_none_cons, (Hx H2), H1, (IH Hd H3). reflexivity.
Qed.


End DelNoneFacts.

(** X20. After [del_none] no dict of the document, at any depth of nested
    dicts, holds [None], an empty dict, an empty list, or one of the texts
    [''], ['-'], ['null'], ['[]'] (a dict that the clean-up empties is
    removed too); cleaning a second time changes nothing. *)
Theorem X20_del_none_clean (d : pydict) :
  Shape.no_empty (VDict (LogParser.del_none d)) = true
  /\ LogParser.del_none (LogParser.del_none d) = LogParser.del_none d.
Proof.
  pose proof (DelNoneFacts.del_none_value_clean (VDict d)) as H.
  rewrite DelNoneFacts.del_none_value_dict in H. split; [exact H|].
  pose proof (DelNoneFacts.del_none_value_fixed _ H) as F.
  rewrite DelNoneFacts.del_none_value_dict in F.
  inversion F as [F']. rewrite F'. exact F'.
Qed.



(** A dict that the clean-up empties is removed, a list is not looked
    into, and 0 and False stay. *)
Example del_none_nested :
  LogParser.del_none
    [(py "user", VDict [(py "name", VStr (py "-"));
                        (py "id", VDict [(py "x", VNone)])]);
     (py "count", VInt 0); (py "ok", VBool false);
     (py "tags", VList [VNone; VStr []]); (py "note", VStr (py "null"))]
  = [(py "count", VInt 0); (py "ok", VBool false);
     (py "tags", VList [VNone; VStr []])].
Proof. reflexivity. Qed.

(** ** The normaliser: [truncate_txt], [doc_id], [add_basic_field] *)

Module ParserFacts.
Import LogParser Shape DictFacts ValueFacts.

Lemma encode_middle (r : pystr) (c : Z) (rest : pystr) (bs : list Z) :
  Codec.encode (r ++ c :: rest) = Ok bs -> Codec.encode_char c <> None.
Proof.
  revert bs. induction r as [|x r IH]; intros bs H; cbn in H.
  - destruct (Codec.encode_char c); [discriminate | discriminate H].
  - destruct (Codec.encode_char x); [|discriminate].
    destruct (Codec.encode (r ++ c :: rest)) as [bs'|e] eqn:E;
      [|discriminate].
    apply (IH bs'). reflexivity.
Qed.

(** A dict whose keys are distinct splits at each of its entries. *)
Lemma distinct_split (b : pydict) (k : pystr) (v : value) :
  distinct (keys b) = true ->
  dict_get k b = Some v ->
  exists pre post,
    b = pre ++ (k, v) :: post
    /\ dict_get k pre = None /\ dict_get k post = None.
Proof.
  induction b as [|[k0 v0] b IH]; [discriminate|].
  cbn [keys map fst distinct]. intros H Hget.
  apply andb_true_iff in H. destruct H as [Hk Hb].
  apply negb_true_iff in Hk. cbn in Hget.
  destruct (pystr_eqb k k0) eqn:Ek.
  - apply pystr_eqb_eq in Ek. subst k0. inversion Hget; subst.
    exists [], b. split; [reflexivity|]. split; [reflexivity|].
    destruct (dict_get k b) as [x|] eqn:G; [|reflexivity].
    exfalso. apply dict_get_In in G.
    assert (X : existsb (pystr_eqb k) (map fst b) = true).
    { apply existsb_exists. exists k. split; [|apply pystr_eqb_refl].
      apply in_map_iff. exists (k, x). auto. }
    unfold keys in Hk. rewrite X in Hk. discriminate.
  - destruct (IH Hb Hget) as [pre [post [E1 [E2 E3]]]].
    exists ((k0, v0) :: pre), post. subst b. split; [reflexivity|].
    split; [cbn; rewrite Ek; exact E2 | exact E3].
Qed.

(** What a merge stores under a key of [b], when the keys of [b] are
    distinct. *)
Lemma merge_dicts_get (a b : pydict) (k : pystr) (bv : value) :
  distinct (keys b) = true ->
  dict_get k b = Some bv ->
  dict_get k (Utils.merge_dicts a b)
  = Some (Notions.merged (dict_get k a) bv).
Proof.
  intros Hd Hget.
  destruct (distinct_split b k bv Hd Hget) as [pre [post [-> [H1 H2]]]].
  apply merge_dicts_get_here; assumption.
Qed.

End ParserFacts.

(** X22. [truncate_txt(txt, num)] returns the longest prefix of [txt]
    whose UTF-8 encoding has at most [num] bytes: the text is cut at a
    character boundary, and the next character would not fit.  On a text
    that cannot be encoded (a lone surrogate) it raises
    [UnicodeEncodeError]. *)
Theorem X22_truncate_txt_longest_prefix (txt : pystr) (num : nat) :
  (forall bs,
     Codec.encode txt = Ok bs ->
     exists r rest,
       LogParser.truncate_txt txt num = Ok r
       /\ txt = r ++ rest
       /\ TruncateSpec.utf8_len r <= Z.of_nat num
       /\ match rest with
          | c :: _ =>
              Z.of_nat num < TruncateSpec.utf8_len r + TruncateSpec.char_bytes c
          | [] => True
          end)
  /\ (Codec.encode txt = Raise UnicodeEncodeError ->
      LogParser.truncate_txt txt num = Raise UnicodeEncodeError).
Proof.
  split.
  - intros bs H.
    destruct (CodecFacts.take_chars_prefix txt (Z.of_nat num)) as [rest Hr].
    exists (TruncateSpec.take_chars txt (Z.of_nat num)), rest.
    split; [apply (TruncateFacts.truncate_txt_take txt bs num H)|].
    split; [exact Hr|].
    split; [apply CodecFacts.take_chars_len; lia|].
    destruct rest as [|c rest']; [exact I|].
    apply (CodecFacts.take_chars_maximal txt _ c rest' Hr).
    rewrite Hr in H. apply (ParserFacts.encode_middle _ _ _ _ H).
  - intros H. destruct num; cbn [LogParser.truncate_txt]; rewrite H;
      reflexivity.
Qed.

Lemma X22_truncate_txt_longest_prefix_witness :
  exists r rest,
    LogParser.truncate_txt [97; 233; 8364; 98] 5 = Ok r
    /\ [97; 233; 8364; 98] = r ++ rest
    /\ TruncateSpec.utf8_len r <= 5.
Proof.
  destruct (proj1 (X22_truncate_txt_longest_prefix [97; 233; 8364; 98] 5)
              _ eq_refl) as [r [rest [H1 [H2 [H3 _]]]]].
  exists r, rest. auto.
Defined.

(** The text 'a', e with acute, euro sign, 'b' has 1 + 2 + 3 + 1 bytes:
    five bytes cut the euro sign, so three bytes (two characters) stay. *)
Example truncate_txt_euro :
  LogParser.truncate_txt [97; 233; 8364; 98] 5 = Ok [97; 233].
Proof. reflexivity. Qed.

Section ParserProperties.
Import LogParser.

Variable E : env.
Variable self : t.

(** X23. Reading the property [doc_id] of a document that carries
    [__doc_id_suffix] returns ['<@id>_<suffix>'] and removes the entry from
    the document: the entry is consumed by the first read, [@id] stays, and
    (when no [doc_id_suffix] is configured) a second read returns the plain
    [@id]. *)
Theorem X23_doc_id_consumes_suffix (x : pydict) (temp i : value) :
  Shape.distinct (Shape.keys x) = true ->
  dict_get (py "__doc_id_suffix") x = Some temp ->
  dict_get (py "@id") x = Some i ->
  exists x',
    get_doc_id E self x = Ok (format_id E i temp, x')
    /\ dict_has (py "__doc_id_suffix") x' = false
    /\ dict_get (py "@id") x' = Some i
    /\ (doc_id_suffix (config self) = [] ->
        get_doc_id E self x' = Ok (i, x')).
Proof.
  intros Hd Hs Hi. apply ConvKeyFacts.distinct_NoDup in Hd.
  exists (dict_del (py "__doc_id_suffix") x).
  assert (Hi' : dict_get (py "@id") (dict_del (py "__doc_id_suffix") x)
                = Some i)
    by (rewrite IdFacts.dict_get_del_other by reflexivity; exact Hi).
  assert (Hs' : dict_has (py "__doc_id_suffix")
                  (dict_del (py "__doc_id_suffix") x) = false)
    by (apply ConvKeyFacts.has_del_same; exact Hd).
  split; [|split; [exact Hs' | split; [exact Hi'|]]].
  - unfold get_doc_id, dict_getitem. rewrite Hs, Hi'. reflexivity.
  - intros Hcfg. unfold get_doc_id, dict_getitem.
    unfold dict_has in Hs'.
    destruct (dict_get (py "__doc_id_suffix")
                (dict_del (py "__doc_id_suffix") x)); [discriminate|].
    rewrite Hcfg, Hi'. reflexivity.
Qed.

(** X24. [add_basic_field] leaves the basic fields in the document,
    whatever fields of these names the record had: [@message],
    [@timestamp], [@log_type], [@log_s3bucket], [@log_s3key] hold the raw
    record, the timestamp, the log type, the bucket and the key, and
    [event] is a dict with [module] (the log type) and [ingested]; every
    field of the record is still in the document. *)
Theorem X24_basic_fields (d d' : doc) :
  add_basic_field E self d = Ok d' ->
  dict_get (py "@message") (logdata_dict d')
  = Some (VStr (message_of E self d))
  /\ dict_get (py "@timestamp") (logdata_dict d') = Some (VStr (timestamp d))
  /\ dict_get (py "@log_type") (logdata_dict d') = Some (VStr (logtype self))
  /\ dict_get (py "@log_s3bucket") (logdata_dict d')
     = Some (VStr (s3bucket self))
  /\ dict_get (py "@log_s3key") (logdata_dict d') = Some (VStr (s3key self))
  /\ (exists ev,
        dict_get (py "event") (logdata_dict d') = Some (VDict ev)
        /\ dict_get (py "module") ev = Some (VStr (logtype self))
        /\ dict_get (py "ingested") ev = Some (VStr (event_ingested d)))
  /\ (forall k, dict_has k (logdata_dict d) = true ->
                dict_has k (logdata_dict d') = true).
Proof.
  unfold add_basic_field, basic_dict.
  destruct (basic_id E self d) as [id_|e]; cbn [bind]; [|discriminate].
  intros H. inversion H; subst d'; clear H. cbn [logdata_dict with_dict].
  set (a := logdata_dict d).
  assert (S : forall b k s,
             Shape.distinct (Shape.keys b) = true ->
             dict_get k b = Some (VStr s) ->
             dict_get k (Utils.merge_dicts a b) = Some (VStr s)).
  { intros b k s Hd Hg.
    rewrite (ParserFacts.merge_dicts_get a b k (VStr s) Hd Hg).
    rewrite DictFacts.merged_str. reflexivity. }
  assert (Ev : forall b m g,
             Shape.distinct (Shape.keys b) = true ->
             dict_get (py "event") b
             = Some (VDict [(py "module", VStr m);
                            (py "ingested", VStr g)]) ->
             exists ev,
               dict_get (py "event") (Utils.merge_dicts a b) = Some (VDict ev)
               /\ dict_get (py "module") ev = Some (VStr m)
               /\ dict_get (py "ingested") ev = Some (VStr g)).
  { intros b m g Hd Hg.
    rewrite (ParserFacts.merge_dicts_get a b _ _ Hd Hg).
    unfold Notions.merged.
    destruct (dict_get (py "event") a) as [av|].
    - destruct av; try (eexists; split; [reflexivity|]; split; reflexivity).
      exists (Utils.merge_dicts d0 [(py "module", VStr m);
                                    (py "ingested", VStr g)]).
      split; [reflexivity|]. split.
      + rewrite (ParserFacts.merge_dicts_get d0 _ (py "module") (VStr m))
          by reflexivity.
        rewrite DictFacts.merged_str. reflexivity.
      + rewrite (ParserFacts.merge_dicts_get d0 _ (py "ingested") (VStr g))
          by reflexivity.
        rewrite DictFacts.merged_str. reflexivity.
    - eexists. split; [reflexivity|]. split; reflexivity. }
  assert (K : forall b k, dict_has k a = true ->
                          dict_has k (Utils.merge_dicts a b) = true).
  { intros b k Hk. rewrite MergeFacts.merge_dicts_has, Hk. reflexivity. }
  destruct (truthy (loggroup (at_ d)));
    (split; [apply S; reflexivity|]);
    (split; [apply S; reflexivity|]);
    (split; [apply S; reflexivity|]);
    (split; [apply S; reflexivity|]);
    (split; [apply S; reflexivity|]);
    (split; [apply Ev; reflexivity | apply K]).
Qed.

End ParserProperties.

Lemma X23_doc_id_consumes_suffix_witness :
  exists x',
    LogParser.get_doc_id Demo.plain_env (Demo.plain_parser [] [])
      [(py "@id", VStr (py "abc")); (py "__doc_id_suffix", VInt 7)]
    = Ok (VStr (py "abc_7"), x')
    /\ LogParser.get_doc_id Demo.plain_env (Demo.plain_parser [] []) x'
       = Ok (VStr (py "abc"), x').
Proof.
  destruct (X23_doc_id_consumes_suffix Demo.plain_env
              (Demo.plain_parser [] [])
              [(py "@id", VStr (py "abc")); (py "__doc_id_suffix", VInt 7)]
              (VInt 7) (VStr (py "abc")) eq_refl eq_refl eq_refl)
    as [x' [H1 [_ [_ H4]]]].
  exists x'. split; [exact H1 | exact (H4 eq_refl)].
Defined.

Lemma X24_basic_fields_witness :
  exists d',
    LogParser.add_basic_field Demo.plain_env (Demo.plain_parser [] [])
      (Demo.parsed_record Demo.clock_1) = Ok d'
    /\ dict_get (py "@log_type") (LogParser.logdata_dict d')
       = Some (VStr (py "applog")).
Proof.
  eexists. split; [reflexivity|].
  apply (X24_basic_fields Demo.plain_env (Demo.plain_parser [] [])
           (Demo.parsed_record Demo.clock_1) _ eq_refl).
Defined.

(** ** The normaliser: [transform_to_ecs] *)

Module EcsFacts.
Import LogParser Notions Shape DictFacts ValueFacts.

Lemma pystr_eqb_sym (a b : pystr) : pystr_eqb a b = pystr_eqb b a.
Proof.
  destruct (pystr_eqb a b) eqn:E1, (pystr_eqb b a) eqn:E2; try reflexivity.
  - apply pystr_eqb_eq in E1. subst b. rewrite pystr_eqb_refl in E2.
    discriminate.
  - apply pystr_eqb_eq in E2. subst b. rewrite pystr_eqb_refl in E1.
    discriminate.
Qed.

(** Storing a value under a key keeps every key of the dict single. *)
Lemma dict_set_unique (k : pystr) (v : value) (d : pydict) :
  unique_keys (VDict d) = true -> unique_keys v = true ->
  unique_keys (VDict (dict_set k v d)) = true.
Proof.
  intros Hd Hv. induction d as [|[k0 v0] d IH].
  - cbn [dict_set]. rewrite unique_keys_cons, Hv. reflexivity.
  - rewrite unique_keys_cons in Hd.
    apply andb_true_iff in Hd. destruct Hd as [Hd Hd3].
    apply andb_true_iff in Hd. destruct Hd as [Hd1 Hd2].
    cbn [dict_set]. destruct (pystr_eqb k k0) eqn:E.
    + rewrite unique_keys_cons, Hd1, Hv, Hd3. reflexivity.
    + rewrite unique_keys_cons, dict_has_set, pystr_eqb_sym, E, Hd2,
        (IH Hd3).
      cbn [orb]. rewrite Hd1. reflexivity.
Qed.

Lemma merge_step_unique (a : pydict) (key : pystr) (bv : value) :
  unique_keys (VDict a) = true ->
  unique_keys bv = true ->
  (forall ad, unique_keys (VDict ad) = true ->
              unique_keys (VDict (Utils.merge ad bv)) = true) ->
  unique_keys (VDict (merge_step a key bv)) = true.
Proof.
  intros Ha Hb Hrec. unfold merge_step.
  destruct (dict_get key a) as [av|] eqn:Hg;
    [|apply dict_set_unique; assumption].
  destruct (unique_keys_In a key av Ha (dict_get_In _ _ _ Hg)) as [_ Hav].
  destruct av, bv;
    try (destruct (Utils.py_eq _ _);
         [exact Ha | apply dict_set_unique; assumption]).
  apply dict_set_unique; [exact Ha|]. apply Hrec. exact Hav.
Qed.

(** A merge of dicts that hold each key once gives such a dict. *)
Lemma merge_unique (b : value) :
  unique_keys b = true ->
  forall a, unique_keys (VDict a) = true ->
            unique_keys (VDict (Utils.merge a b)) = true.
Proof.
  induction b as [ | x | z | s | l IHl | d IHd] using value_induction;
    intros Hb a Ha; try exact Ha.
  change (Utils.merge a (VDict d)) with (Utils.merge_dicts a d).
  revert a Ha. induction d as [|[k v] d IH]; intros a Ha; [exact Ha|].
  rewrite unique_keys_cons in Hb.
  apply andb_true_iff in Hb. destruct Hb as [Hb Hb3].
  apply andb_true_iff in Hb. destruct Hb as [Hb1 Hb2].
  inversion IHd as [|? ? Hv Hd]; subst.
  rewrite merge_dicts_cons. apply IH; [exact Hd | exact Hb3 |].
  apply merge_step_unique; [exact Ha | exact Hb2 |].
  intros ad Had. apply (Hv Hb2 ad Had).
Qed.

Section WithEnv.

Variable E : env.
Variable self : t.

(** The loop of [get_value_and_input_into_ecs_dict], entered with an empty
    [new_ecs_dict] or with [new_ecs_dict] being [ecs_dict] itself: the
    merge of [ecs_dict] into itself, made for a key without a value,
    changes nothing. *)
Lemma ecs_loop_fold (logdata_dict : pydict) (ecs_keys : list pystr) :
  forall (ecs_dict : pydict) (state : new_ecs),
    unique_keys (VDict ecs_dict) = true ->
    forallb (entry_unique E self logdata_dict) ecs_keys = true ->
    state = Fresh [] \/ state = SameAsEcsDict ->
    ecs_loop E self logdata_dict ecs_keys ecs_dict state
    = ecs_fold E self logdata_dict ecs_keys ecs_dict.
Proof.
  induction ecs_keys as [|k ks IH]; intros ecs_dict state Hu Hk Hstate;
    [reflexivity|].
  cbn [forallb] in Hk. apply andb_true_iff in Hk. destruct Hk as [Hk Hks].
  unfold entry_unique in Hk.
  cbn [ecs_loop ecs_fold]. unfold ecs_entry in *.
  destruct (ecs_source_of (config self) k) as [src|]; cbn [bind] in *;
    [|reflexivity].
  assert (Hself : Utils.merge_dicts ecs_dict ecs_dict = ecs_dict)
    by exact (MergeFacts.merge_self (VDict ecs_dict) Hu).
  assert (Hkeep :
            match state with
            | Fresh x =>
                if negb (len x =? 0)
                then ecs_loop E self logdata_dict ks
                       (Utils.merge_dicts ecs_dict x) SameAsEcsDict
                else ecs_loop E self logdata_dict ks ecs_dict state
            | SameAsEcsDict =>
                if negb (len ecs_dict =? 0)
                then ecs_loop E self logdata_dict ks
                       (Utils.merge_dicts ecs_dict ecs_dict) SameAsEcsDict
                else ecs_loop E self logdata_dict ks ecs_dict SameAsEcsDict
            end
            = ecs_fold E self logdata_dict ks ecs_dict).
  { destruct Hstate as [-> | ->].
    - cbn. apply IH; auto.
    - rewrite Hself.
      destruct (negb (len ecs_dict =? 0)); apply IH; auto. }
  assert (Hput :
            forall x,
              unique_keys (VDict x) = true ->
              (if negb (len x =? 0)
               then ecs_loop E self logdata_dict ks
                      (Utils.merge_dicts ecs_dict x) SameAsEcsDict
               else ecs_loop E self logdata_dict ks ecs_dict (Fresh x))
              = ecs_fold E self logdata_dict ks (Utils.merge_dicts ecs_dict x)).
  { intros x Hx. destruct x as [|kv x].
    - change (Utils.merge_dicts ecs_dict []) with ecs_dict.
      cbn [len List.length Z.of_nat Z.eqb negb]. apply IH; auto.
    - replace (negb (len (kv :: x) =? 0)) with true
        by (unfold len; cbn; reflexivity).
      apply IH; [|exact Hks|right; reflexivity].
      apply (merge_unique (VDict (kv :: x)) Hx ecs_dict Hu). }
  destruct src as [keys | keys | ].
  - destruct (truthy (mapped_value E logdata_dict k keys)); cbn [bind].
    + apply Hput. exact Hk.
    + exact Hkeep.
  - destruct (negb (len (filter truthy
                           (map (mapped_value E logdata_dict k) keys)) =? 0)).
    + destruct (sorted_set E _) as [l|e]; cbn [bind] in *;
        [apply Hput; exact Hk | reflexivity].
    + cbn [bind]. exact Hkeep.
  - cbn [bind]. exact Hkeep.
Qed.

End WithEnv.

End EcsFacts.

Module CloudFacts.
Import LogParser.

(** The defaults of [transform_to_ecs] for a [cloud] entry that is a dict
    whose [account], if it has one, is a dict. *)
Lemma cloud_defaults_spec (a : attrs) (ecs_dict cloud : pydict) :
  dict_get (py "cloud") ecs_dict = Some (VDict cloud) ->
  (forall acc, dict_get (py "account") cloud = Some acc ->
               exists ad, acc = VDict ad) ->
  let mapped_id :=
    match dict_get (py "account") cloud with
    | Some (VDict ad) => dict_get (py "id") ad
    | _ => None
    end in
  let id_ :=
    match mapped_id with
    | Some i => if eq_str i (py "unknown") then accountid a else i
    | None => if truthy (accountid a) then accountid a
              else VStr (py "unknown")
    end in
  let region_ :=
    match dict_get (py "region") cloud with
    | Some r => r
    | None => if truthy (region a) then region a else VStr (py "unknown")
    end in
  exists ecs',
    cloud_defaults a ecs_dict = Ok ecs'
    /\ Shape.at_path (VDict ecs') [py "cloud"; py "account"; py "id"]
       = Some id_
    /\ Shape.at_path (VDict ecs') [py "cloud"; py "region"] = Some region_
    /\ forall k, pystr_eqb k (py "cloud") = false ->
                 dict_get k ecs' = dict_get k ecs_dict.
Proof.
  intros Hc Hacc. cbv zeta. unfold cloud_defaults. rewrite Hc.
  cbn [contains bind]. unfold dict_has.
  assert (R : forall (x : pydict) (c1 : pydict),
             dict_get (py "cloud") x = Some (VDict c1) ->
             (forall k, pystr_eqb k (py "cloud") = false ->
                        dict_get k x = dict_get k ecs_dict) ->
             forall idv, Shape.at_path (VDict c1) [py "account"; py "id"]
                         = Some idv ->
             dict_get (py "region") c1 = dict_get (py "region") cloud ->
             exists ecs',
               (cloud <- dict_getitem x (py "cloud") ;;
                has_region <- contains (py "region") cloud ;;
                if has_region then Ok x
                else if truthy (region a)
                     then setitem2 x (py "cloud") (py "region") (region a)
                     else setitem2 x (py "cloud") (py "region")
                            (VStr (py "unknown"))) = Ok ecs'
               /\ Shape.at_path (VDict ecs')
                    [py "cloud"; py "account"; py "id"] = Some idv
               /\ Shape.at_path (VDict ecs') [py "cloud"; py "region"]
                  = Some match dict_get (py "region") cloud with
                         | Some r => r
                         | None => if truthy (region a) then region a
                                   else VStr (py "unknown")
                         end
               /\ forall k, pystr_eqb k (py "cloud") = false ->
                            dict_get k ecs' = dict_get k ecs_dict).
  { intros x c1 Hx Hother idv Hid Hreg.
    unfold dict_getitem. rewrite Hx. cbn [bind contains]. unfold dict_has.
    rewrite Hreg.
    assert (Hid' : forall r,
               Shape.at_path (VDict (dict_set (py "region") r c1))
                 [py "account"; py "id"] = Some idv).
    { intros r. cbn [Shape.at_path] in *.
      rewrite DictFacts.dict_get_set.
      replace (pystr_eqb (py "account") (py "region")) with false
        by reflexivity.
      exact Hid. }
    destruct (dict_get (py "region") cloud) as [r|] eqn:Hr.
    - exists x. split; [reflexivity|]. cbn [Shape.at_path]. rewrite Hx.
      split; [exact Hid|]. split; [rewrite Hreg; reflexivity | exact Hother].
    - unfold setitem2, dict_getitem. rewrite Hx. cbn [bind setitem].
      destruct (truthy (region a)); eexists; (split; [reflexivity|]);
        cbn [Shape.at_path]; rewrite !DictFacts.dict_get_set;
        rewrite DictFacts.pystr_eqb_refl;
        (split; [apply Hid'|]);
        (split; [rewrite DictFacts.dict_get_set, DictFacts.pystr_eqb_refl;
                 reflexivity|]);
        intros k Hk; rewrite DictFacts.dict_get_set, Hk; apply Hother;
        exact Hk. }
  assert (S : forall (acc' : pydict) idv,
             dict_get (py "id") acc' = Some idv ->
             exists c1,
               setitem2 ecs_dict (py "cloud") (py "account") (VDict acc')
               = Ok (dict_set (py "cloud") (VDict c1) ecs_dict)
               /\ Shape.at_path (VDict c1) [py "account"; py "id"] = Some idv
               /\ dict_get (py "region") c1 = dict_get (py "region") cloud).
  { intros acc' idv Hid. unfold setitem2, dict_getitem. rewrite Hc.
    cbn [bind setitem]. eexists. split; [reflexivity|].
    cbn [Shape.at_path]. rewrite !DictFacts.dict_get_set.
    rewrite DictFacts.pystr_eqb_refl.
    replace (pystr_eqb (py "region") (py "account")) with false
      by reflexivity.
    split; [rewrite Hid; reflexivity | reflexivity]. }
  assert (F : forall c1 idv,
             Shape.at_path (VDict c1) [py "account"; py "id"] = Some idv ->
             dict_get (py "region") c1 = dict_get (py "region") cloud ->
             forall (r0 : result pydict),
               r0 = Ok (dict_set (py "cloud") (VDict c1) ecs_dict) ->
               exists ecs',
                 (ecs_dict0 <- r0 ;;
                  cloud <- dict_getitem ecs_dict0 (py "cloud") ;;
                  has_region <- contains (py "region") cloud ;;
                  if has_region then Ok ecs_dict0
                  else if truthy (region a)
                       then setitem2 ecs_dict0 (py "cloud") (py "region")
                              (region a)
                       else setitem2 ecs_dict0 (py "cloud") (py "region")
                              (VStr (py "unknown"))) = Ok ecs'
                 /\ Shape.at_path (VDict ecs')
                      [py "cloud"; py "account"; py "id"] = Some idv
                 /\ Shape.at_path (VDict ecs') [py "cloud"; py "region"]
                    = Some match dict_get (py "region") cloud with
                           | Some r => r
                           | None => if truthy (region a) then region a
                                     else VStr (py "unknown")
                           end
                 /\ forall k, pystr_eqb k (py "cloud") = false ->
                              dict_get k ecs' = dict_get k ecs_dict).
  { intros c1 idv Hid Hreg r0 ->. cbn [bind].
    apply (R _ c1); [| |exact Hid|exact Hreg].
    - rewrite DictFacts.dict_get_set, DictFacts.pystr_eqb_refl. reflexivity.
    - intros k Hk. rewrite DictFacts.dict_get_set, Hk. reflexivity. }
  cbn [getitem].
  destruct (dict_get (py "account") cloud) as [acc|] eqn:Ha.
  - destruct (Hacc acc eq_refl) as [ad ->].
    cbn [bind getitem contains]. unfold dict_has.
    destruct (dict_get (py "id") ad) as [i|] eqn:Hi; cbn [bind].
    + destruct (eq_str i (py "unknown")).
      * destruct (S [(py "id", accountid a)] (accountid a) eq_refl)
          as [c1 [E1 [E2 E3]]].
        apply (F c1 _ E2 E3). exact E1.
      * cbn [bind]. apply (R ecs_dict cloud Hc (fun k _ => eq_refl)).
        -- cbn [Shape.at_path]. rewrite Ha, Hi. reflexivity.
        -- reflexivity.
    + destruct (truthy (accountid a)).
      * destruct (S [(py "id", accountid a)] (accountid a) eq_refl)
          as [c1 [E1 [E2 E3]]].
        apply (F c1 _ E2 E3). exact E1.
      * destruct (S [(py "id", VStr (py "unknown"))] (VStr (py "unknown"))
                    eq_refl) as [c1 [E1 [E2 E3]]].
        apply (F c1 _ E2 E3). exact E1.
  - cbn [bind].
    destruct (truthy (accountid a)).
    + destruct (S [(py "id", accountid a)] (accountid a) eq_refl)
        as [c1 [E1 [E2 E3]]].
      apply (F c1 _ E2 E3). exact E1.
    + destruct (S [(py "id", VStr (py "unknown"))] (VStr (py "unknown"))
                  eq_refl) as [c1 [E1 [E2 E3]]].
      apply (F c1 _ E2 E3). exact E1.
Qed.


End CloudFacts.

Section EcsProperties.
Import LogParser.

Variable E : env.
Variable self : t.

(** X25. For dicts that hold each key once (as every Python dict does:
    the dict passed in, and the dict made for each ECS key that has a
    value), [get_value_and_input_into_ecs_dict] merges, in the order of
    the ECS keys, the value found for every key that has one, and a key
    without a value changes nothing, although the variable [new_ecs_dict]
    is not reset between two keys: after the first merge it is [ecs_dict]
    itself, which a key without a value then merges into itself, and that
    merge leaves it as it is. *)
Theorem X25_ecs_mapping_is_a_fold (logdata_dict ecs_dict : pydict) :
  Shape.unique_keys (VDict ecs_dict) = true ->
  forallb (Shape.entry_unique E self logdata_dict)
          (Utils.split_ws (ecs (config self))) = true ->
  get_value_and_input_into_ecs_dict E self logdata_dict ecs_dict
  = Shape.ecs_fold E self logdata_dict (Utils.split_ws (ecs (config self)))
      ecs_dict.
Proof.
  intros Hu Hk. unfold get_value_and_input_into_ecs_dict.
  apply EcsFacts.ecs_loop_fold; [exact Hu | exact Hk | left; reflexivity].
Qed.

(** X26. The defaults [transform_to_ecs] gives a [cloud] entry, for a
    [cloud] entry that is a dict whose [account] entry, if it has one, is
    a dict.  Afterwards [cloud.account.id] and [cloud.region] are there.
    An account id that the record maps is kept unless it is 'unknown'; a
    mapped 'unknown' is replaced by the account of the log source,
    whatever that is ([None] when the log source has none); when the
    record maps no id, the account of the log source is taken when it is
    true, else 'unknown'.  A region that the record maps is kept, else
    the region of the log source is taken when it is true, else
    'unknown'.  The other entries of the dict stay as they are. *)
Theorem X26_cloud_defaults (a : attrs) (ecs_dict cloud : pydict) :
  dict_get (py "cloud") ecs_dict = Some (VDict cloud) ->
  (forall acc, dict_get (py "account") cloud = Some acc ->
               exists ad, acc = VDict ad) ->
  let mapped_id :=
    match dict_get (py "account") cloud with
    | Some (VDict ad) => dict_get (py "id") ad
    | _ => None
    end in
  let id_ :=
    match mapped_id with
    | Some i => if eq_str i (py "unknown") then accountid a else i
    | None => if truthy (accountid a) then accountid a
              else VStr (py "unknown")
    end in
  let region_ :=
    match dict_get (py "region") cloud with
    | Some r => r
    | None => if truthy (region a) then region a else VStr (py "unknown")
    end in
  exists ecs',
    cloud_defaults a ecs_dict = Ok ecs'
    /\ Shape.at_path (VDict ecs') [py "cloud"; py "account"; py "id"]
       = Some id_
    /\ Shape.at_path (VDict ecs') [py "cloud"; py "region"] = Some region_
    /\ forall k, pystr_eqb k (py "cloud") = false ->
                 dict_get k ecs' = dict_get k ecs_dict.
Proof. exact (CloudFacts.cloud_defaults_spec a ecs_dict cloud). Qed.

End EcsProperties.

Lemma X25_ecs_mapping_is_a_fold_witness :
  LogParser.get_value_and_input_into_ecs_dict Demo.plain_env
    Demo.mapped_parser
    [(py "kind", VStr (py "event"))]
    [(py "ecs", VDict [(py "version", VStr (py "1.10.0"))])]
  = Ok [(py "ecs", VDict [(py "version", VStr (py "1.10.0"))]);
        (py "event", VDict [(py "kind", VStr (py "event"))])].
Proof.
  exact (X25_ecs_mapping_is_a_fold Demo.plain_env Demo.mapped_parser
           [(py "kind", VStr (py "event"))]
           [(py "ecs", VDict [(py "version", VStr (py "1.10.0"))])]
           eq_refl eq_refl).
Defined.

(** A record that maps the account id 'unknown', from a log source
    without an account: the id is [None] afterwards. *)
Lemma X26_cloud_defaults_witness :
  exists ecs',
    LogParser.cloud_defaults Demo.no_attrs
      [(py "ecs", VDict [(py "version", VStr (py "1.10.0"))]);
       (py "cloud", VDict [(py "account",
                            VDict [(py "id", VStr (py "unknown"))])])]
    = Ok ecs'
    /\ Shape.at_path (VDict ecs') [py "cloud"; py "account"; py "id"]
       = Some VNone
    /\ Shape.at_path (VDict ecs') [py "cloud"; py "region"]
       = Some (VStr (py "unknown")).
Proof.
  destruct (X26_cloud_defaults Demo.no_attrs
              [(py "ecs", VDict [(py "version", VStr (py "1.10.0"))]);
               (py "cloud", VDict [(py "account",
                                    VDict [(py "id", VStr (py "unknown"))])])]
              [(py "account", VDict [(py "id", VStr (py "unknown"))])]
              eq_refl)
    as [ecs' [H1 [H2 [H3 _]]]].
  - intros acc H. inversion H. eexists. reflexivity.
  - exists ecs'. split; [exact H1|]. split; [exact H2 | exact H3].
Defined.

(** ** FireLens records in [transform_to_ecs] *)

Module ArnFacts.
Import LogParser.

Section WithEnv.

Variable E : env.
Variable self : t.

(** Without a task ARN in the meta of the record, [transform_to_ecs] does
    not return. *)
Lemma transform_needs_arn (d : doc) :
  dict_get (py "ecs_task_arn") (logmeta d) = Some VNone ->
  forall d', transform_to_ecs E self d <> Ok d'.
Proof.
  intros H d'. unfold transform_to_ecs.
  destruct (get_value_and_input_into_ecs_dict E self _ _) as [x1|e];
    cbn [bind]; [|discriminate].
  destruct (cloud_defaults (at_ d) x1) as [x2|e]; cbn [bind]; [|discriminate].
  unfold firelens_cloud. rewrite H. cbn [as_str bind]. discriminate.
Qed.

Lemma add_basic_field_logmeta (d d' : doc) :
  add_basic_field E self d = Ok d' -> logmeta d' = logmeta d.
Proof.
  unfold add_basic_field. destruct (basic_dict E self d); cbn [bind];
    [|discriminate].
  intros H. inversion H. reflexivity.
Qed.

Lemma clean_multi_type_field_logmeta (d d' : doc) :
  clean_multi_type_field E self d = Ok d' -> logmeta d' = logmeta d.
Proof.
  unfold clean_multi_type_field. destruct (clean_loop E _ _ _); cbn [bind];
    [|discriminate].
  intros H. inversion H. reflexivity.
Qed.

Lemma prepare_logmeta (a : attrs) (c : clock) (logdata : value)
    (meta : pydict) (d : doc) :
  prepare E self a c logdata meta = Ok (Normalised d) -> logmeta d = meta.
Proof.
  unfold prepare.
  destruct (logdata_to_dict E self logdata meta) as [r|e];
    cbn [bind]; [|discriminate].
  destruct (if truthy (get_or_none (py "container_name") meta)
            then x <- dict_with E (fst r) meta ;; Ok (VDict x, false)
            else Ok r)
    as [r'|e]; cbn [bind]; [|discriminate].
  destruct (fst r') as [| | | | |x']; try discriminate.
  destruct (is_ignored E x'); [discriminate|].
  destruct (set_skip_normalization x') as [x'' skip].
  destruct (get_timestamp E self _ c x'' skip) as [[y ts]|e]; cbn [bind];
    [|discriminate].
  intros H. inversion H. reflexivity.
Qed.

(** A record whose meta holds no task ARN is never normalised. *)
Lemma call_needs_arn (a : attrs) (c : clock) (logdata : value)
    (meta : pydict) :
  dict_get (py "ecs_task_arn") meta = Some VNone ->
  forall d, call E self a c logdata meta <> Ok (Normalised d).
Proof.
  intros H d. unfold call.
  destruct (prepare E self a c logdata meta) as [[a'|d0]|e] eqn:Hp;
    cbn [bind]; try discriminate.
  apply prepare_logmeta in Hp.
  destruct (add_basic_field E self d0) as [d1|e] eqn:H1; cbn [bind];
    [|discriminate].
  apply add_basic_field_logmeta in H1.
  destruct (clean_multi_type_field E self d1) as [d2|e] eqn:H2; cbn [bind];
    [|discriminate].
  apply clean_multi_type_field_logmeta in H2.
  destruct (transform_to_ecs E self d2) as [d3|e] eqn:H3; cbn [bind];
    [|discriminate].
  assert (Hm : dict_get (py "ecs_task_arn") (logmeta d2) = Some VNone)
    by (rewrite H2, H1, Hp; exact H).
  exfalso. exact (transform_needs_arn d2 Hm d3 H3).
Qed.

End WithEnv.

End ArnFacts.

Section FirelensArn.

Variable json_loads : pystr -> result value.
Variable E : LogParser.env.
Variable parser : LogParser.t.

(** X27. The reader gives every FireLens record the entry [ecs_task_arn],
    holding [None] when the envelope has none; and the normaliser splits
    that entry whenever the meta has it.  A FireLens record whose envelope
    carries no [ecs_task_arn] is therefore never normalised: the call on
    what the reader yields ignores the record or raises. *)
Theorem X27_firelens_needs_task_arn (self : LogS3.t) (a : LogParser.attrs)
    (c : LogParser.clock) (line : pystr) (o : pydict) (payload : value)
    (meta : pydict) :
  json_loads (strip line) = Ok (VDict o) ->
  get_or_none (py "ecs_task_arn") o = VNone ->
  LogS3.firelens_record json_loads self line = Ok (payload, meta) ->
  dict_get (py "ecs_task_arn") meta = Some VNone
  /\ forall d,
       LogParser.call E parser a c payload meta
       <> Ok (LogParser.Normalised d).
Proof.
  intros Houter Harn Hrec.
  assert (Hm : dict_get (py "ecs_task_arn") meta = Some VNone).
  { unfold LogS3.firelens_record in Hrec. rewrite Houter in Hrec.
    cbn [bind] in Hrec. unfold getitem in Hrec.
    destruct (dict_get (py "log") o) as [lg|]; cbn [bind] in Hrec;
      [|discriminate].
    rewrite Harn in Hrec.
    destruct (truthy match dict_get (py "ec2_instance_id") o with
                     | Some v => v
                     | None => VBool false
                     end);
      match type of Hrec with
      | context [eq_str ?x ?s] => destruct (eq_str x s)
      end;
      destruct (LogS3.ignore_container_stderr self);
      destruct (LogS3.is_json (LogS3.fmt self));
      try (destruct (LogS3.loads_value json_loads lg) as [v|[]];
           try discriminate Hrec);
      inversion Hrec; reflexivity. }
  split; [exact Hm|].
  apply ArnFacts.call_needs_arn. exact Hm.
Qed.

End FirelensArn.

Lemma X27_firelens_needs_task_arn_witness :
  dict_get (py "ecs_task_arn") Demo.firelens_stdout_meta = Some VNone
  /\ forall d,
       LogParser.call Demo.plain_env (Demo.plain_parser [] []) Demo.no_attrs
         Demo.clock_1 (VDict [(py "a", VInt 1)]) Demo.firelens_stdout_meta
       <> Ok (LogParser.Normalised d).
Proof.
  exact (X27_firelens_needs_task_arn Demo.firelens_loads
                  Demo.plain_env (Demo.plain_parser [] [])
                  (Demo.firelens_job [Demo.firelens_good])
                  Demo.no_attrs Demo.clock_1 Demo.firelens_good
                  [(py "container_id", VStr (py "c1"));
                   (py "container_name", VStr (py "n"));
                   (py "source", VStr (py "stdout"));
                   (py "log", VStr (Demo.pyj "{'a':1}"))]
                  (VDict [(py "a", VInt 1)]) Demo.firelens_stdout_meta
                  ltac:(vm_compute; reflexivity) eq_refl
                  ltac:(vm_compute; reflexivity)).
Defined.

Module ArnCloudFacts.

(** The FireLens part of [transform_to_ecs] on a dict whose [cloud] entry
    is a dict with an [account] that is a dict. *)
Lemma firelens_cloud_spec (logmeta ecs_dict cloud acc : pydict)
    (arn region_ account_ : pystr) (cid cname : value) :
  dict_get (py "ecs_task_arn") logmeta = Some (VStr arn) ->
  nth_error (Utils.split_on 58 arn) 3 = Some region_ ->
  nth_error (Utils.split_on 58 arn) 4 = Some account_ ->
  dict_get (py "container_id") logmeta = Some cid ->
  dict_get (py "container_name") logmeta = Some cname ->
  dict_get (py "cloud") ecs_dict = Some (VDict cloud) ->
  dict_get (py "account") cloud = Some (VDict acc) ->
  exists ecs',
    LogParser.firelens_cloud logmeta ecs_dict = Ok ecs'
    /\ Shape.at_path (VDict ecs') [py "cloud"; py "account"; py "id"]
       = Some (VStr account_)
    /\ Shape.at_path (VDict ecs') [py "cloud"; py "region"]
       = Some (VStr region_)
    /\ dict_get (py "container") ecs'
       = Some (VDict [(py "id", cid); (py "name", cname)])
    /\ (forall i, dict_get (py "ec2_instance_id") logmeta = Some i ->
                  Shape.at_path (VDict ecs') [py "cloud"; py "instance"]
                  = Some (VDict [(py "id", i)])).
Proof.
  intros Harn H3 H4 Hcid Hcname Hc Ha.
  unfold LogParser.firelens_cloud, LogParser.setitem2, LogParser.dict_getitem.
  rewrite Harn. cbn [LogParser.as_str bind]. rewrite H4, H3, Hcid, Hcname.
  destruct (dict_get (py "ec2_instance_id") logmeta) as [i|];
    repeat (first [ rewrite Hc | rewrite Ha
                  | rewrite DictFacts.dict_get_set, DictFacts.pystr_eqb_refl
                  | progress cbn [bind getitem LogParser.setitem] ]);
    (eexists; split; [reflexivity|]);
    cbn [Shape.at_path];
    repeat (first [ rewrite DictFacts.dict_get_set
                  | match goal with
                    | |- context [pystr_eqb (py ?x) (py ?y)] =>
                        let b := eval vm_compute in (pystr_eqb (py x) (py y)) in
                        change (pystr_eqb (py x) (py y)) with b
                    end
                  | progress cbv iota ]);
    (split; [reflexivity|]); (split; [reflexivity|]);
    (split; [reflexivity|]);
    intros i' Hi'; inversion Hi'; reflexivity.
Qed.

End ArnCloudFacts.

(** X28. The two steps of [transform_to_ecs] that fill the [cloud] entry,
    the defaults and then the FireLens part, for a record whose meta
    holds a task ARN with at least five fields between colons and names
    its container.  When the dict has a [cloud] entry (a dict whose
    [account] entry, if it has one, is a dict), [cloud.account.id] ends as
    the fifth field of the ARN and [cloud.region] as its fourth, in place
    of what the record or the log source gave, and [container.id] and
    [container.name] are added (and [cloud.instance.id] when the meta
    names an EC2 instance).  When the dict has no [cloud] entry (no cloud
    provider is configured and no field is mapped under [cloud]), the
    FireLens part raises [KeyError]. *)
Theorem X28_firelens_cloud_from_arn (a : LogParser.attrs)
    (logmeta ecs_dict : pydict) (arn region_ account_ : pystr)
    (cid cname : value) :
  dict_get (py "ecs_task_arn") logmeta = Some (VStr arn) ->
  nth_error (Utils.split_on 58 arn) 3 = Some region_ ->
  nth_error (Utils.split_on 58 arn) 4 = Some account_ ->
  dict_get (py "container_id") logmeta = Some cid ->
  dict_get (py "container_name") logmeta = Some cname ->
  let steps := x <- LogParser.cloud_defaults a ecs_dict ;;
               LogParser.firelens_cloud logmeta x in
  (dict_get (py "cloud") ecs_dict = None -> steps = Raise KeyError)
  /\ (forall cloud,
        dict_get (py "cloud") ecs_dict = Some (VDict cloud) ->
        (forall acc, dict_get (py "account") cloud = Some acc ->
                     exists ad, acc = VDict ad) ->
        exists ecs',
          steps = Ok ecs'
          /\ Shape.at_path (VDict ecs') [py "cloud"; py "account"; py "id"]
             = Some (VStr account_)
          /\ Shape.at_path (VDict ecs') [py "cloud"; py "region"]
             = Some (VStr region_)
          /\ dict_get (py "container") ecs'
             = Some (VDict [(py "id", cid); (py "name", cname)])
          /\ (forall i, dict_get (py "ec2_instance_id") logmeta = Some i ->
                        Shape.at_path (VDict ecs') [py "cloud"; py "instance"]
                        = Some (VDict [(py "id", i)]))).
Proof.
  intros Harn H3 H4 Hcid Hcname steps. split.
  - intros Hnone. unfold steps, LogParser.cloud_defaults. rewrite Hnone.
    cbn [bind]. unfold LogParser.firelens_cloud. rewrite Harn.
    cbn [LogParser.as_str bind]. rewrite H4. cbn [bind].
    unfold LogParser.dict_getitem. rewrite Hnone. reflexivity.
  - intros cloud Hc Hacc.
    destruct (CloudFacts.cloud_defaults_spec a ecs_dict cloud Hc Hacc)
      as [x [Hx [Hid _]]].
    unfold steps. rewrite Hx. cbn [bind].
    cbn [Shape.at_path] in Hid.
    destruct (dict_get (py "cloud") x) as [[| | | | |cloud']|] eqn:Hc';
      try discriminate Hid.
    destruct (dict_get (py "account") cloud') as [[| | | | |acc']|] eqn:Ha';
      try discriminate Hid.
    exact (ArnCloudFacts.firelens_cloud_spec logmeta x cloud' acc' arn
             region_ account_ cid cname Harn H3 H4 Hcid Hcname Hc' Ha').
Qed.

Lemma X28_firelens_cloud_from_arn_witness :
  let logmeta :=
    [(py "ecs_task_arn",
      VStr (py "arn:aws:ecs:eu-west-1:123456789012:task/abc"));
     (py "container_id", VStr (py "c1"));
     (py "container_name", VStr (py "n"))] in
  ((x <- LogParser.cloud_defaults Demo.no_attrs
           [(py "ecs", VDict [(py "version", VStr (py "1.10.0"))])] ;;
    LogParser.firelens_cloud logmeta x) = Raise KeyError)
  /\ exists ecs',
       (x <- LogParser.cloud_defaults Demo.no_attrs
               [(py "cloud", VDict [(py "provider", VStr (py "aws"))])] ;;
        LogParser.firelens_cloud logmeta x) = Ok ecs'
       /\ Shape.at_path (VDict ecs') [py "cloud"; py "account"; py "id"]
          = Some (VStr (py "123456789012"))
       /\ Shape.at_path (VDict ecs') [py "cloud"; py "region"]
          = Some (VStr (py "eu-west-1")).
Proof.
  cbv zeta.
  pose proof (fun e =>
                X28_firelens_cloud_from_arn Demo.no_attrs
                  [(py "ecs_task_arn",
                    VStr (py "arn:aws:ecs:eu-west-1:123456789012:task/abc"));
                   (py "container_id", VStr (py "c1"));
                   (py "container_name", VStr (py "n"))]
                  e
                  (py "arn:aws:ecs:eu-west-1:123456789012:task/abc")
                  (py "eu-west-1") (py "123456789012")
                  (VStr (py "c1")) (VStr (py "n"))
                  eq_refl eq_refl eq_refl eq_refl eq_refl) as T.
  split.
  - exact (proj1 (T [(py "ecs", VDict [(py "version",
                                        VStr (py "1.10.0"))])])
                 eq_refl).
  - destruct (proj2 (T [(py "cloud",
                         VDict [(py "provider", VStr (py "aws"))])])
                    [(py "provider", VStr (py "aws"))] eq_refl)
      as [ecs' [H1 [H2 [H3 _]]]].
    + intros acc H. discriminate H.
    + exists ecs'. split; [exact H1|]. split; [exact H2 | exact H3].
Defined.
